(** * FatFs (ff.c, R0.15a as carried by the LiteOS port): a shallow embedding

    The development follows source/ff.c.  Integers are modelled as [Z] with
    the C wrap-around written out ([u8], [u16], [u32]); byte buffers (the
    sector window, a file's private sector buffer, a directory name) are
    [list Z] with every element meant to lie in [0, 256); the block device is
    a record holding the sector contents, the sectors on which a transfer
    fails and a trace of the requests issued to it.

    Build configuration that is modelled (the conditional blocks of ff.c):
    FF_FS_READONLY = 0, FF_FS_TINY = 0, FF_FS_LOCK > 0, FF_USE_LFN on,
    FF_FS_REENTRANT on with __LITEOS_M__ undefined (LiteOS-A),
    FF_MAX_SS <> FF_MIN_SS (so SS(fs) is the [ssize] member), FF_USE_TRIM = 0,
    LBA_t = DWORD, LOSCFG_FS_FAT_VIRTUAL_PARTITION undefined.

    ff.h is not among the sources.  The enumerators of FRESULT are an
    inductive type; the bits FA_xxx / AM_xxx and the FS_FATnn tags are given
    the values of the FatFs API, which the internal bits defined in ff.c
    (FA_SEEKEND = 0x20, FA_MODIFIED = 0x40, FA_DIRTY = 0x80, AM_VOL = 0x08)
    complete. *)

From Stdlib Require Import ZArith List Lia Bool.
From stdpp Require Import base list.
Import ListNotations.
Local Open Scope Z_scope.

(** ** Machine integers *)

Definition u8 (x : Z) : Z := x mod 256.
Definition u16 (x : Z) : Z := x mod 65536.
Definition u32 (x : Z) : Z := x mod 4294967296.

(** Truth value of a C scalar used as a condition. *)
Definition nz (x : Z) : bool := negb (x =? 0).

(** ** Result codes (the FRESULT enumeration) *)

Inductive FRESULT : Type :=
| FR_OK | FR_DISK_ERR | FR_INT_ERR | FR_NOT_READY | FR_NO_FILE | FR_NO_PATH
| FR_INVALID_NAME | FR_DENIED | FR_EXIST | FR_INVALID_OBJECT
| FR_WRITE_PROTECTED | FR_INVALID_DRIVE | FR_NOT_ENABLED | FR_NO_FILESYSTEM
| FR_MKFS_ABORTED | FR_TIMEOUT | FR_LOCKED | FR_NOT_ENOUGH_CORE
| FR_TOO_MANY_OPEN_FILES | FR_INVALID_PARAMETER | FR_NO_SPACE_LEFT
| FR_NO_EPERM | FR_IS_DIR | FR_NO_DIR | FR_NO_EMPTY_DIR | FR_INVAILD_FATFS.

Definition FRESULT_eqb (a b : FRESULT) : bool :=
  match a, b with
  | FR_OK, FR_OK | FR_DISK_ERR, FR_DISK_ERR | FR_INT_ERR, FR_INT_ERR
  | FR_NOT_READY, FR_NOT_READY | FR_NO_FILE, FR_NO_FILE | FR_NO_PATH, FR_NO_PATH
  | FR_INVALID_NAME, FR_INVALID_NAME | FR_DENIED, FR_DENIED | FR_EXIST, FR_EXIST
  | FR_INVALID_OBJECT, FR_INVALID_OBJECT
  | FR_WRITE_PROTECTED, FR_WRITE_PROTECTED | FR_INVALID_DRIVE, FR_INVALID_DRIVE
  | FR_NOT_ENABLED, FR_NOT_ENABLED | FR_NO_FILESYSTEM, FR_NO_FILESYSTEM
  | FR_MKFS_ABORTED, FR_MKFS_ABORTED | FR_TIMEOUT, FR_TIMEOUT
  | FR_LOCKED, FR_LOCKED | FR_NOT_ENOUGH_CORE, FR_NOT_ENOUGH_CORE
  | FR_TOO_MANY_OPEN_FILES, FR_TOO_MANY_OPEN_FILES
  | FR_INVALID_PARAMETER, FR_INVALID_PARAMETER
  | FR_NO_SPACE_LEFT, FR_NO_SPACE_LEFT | FR_NO_EPERM, FR_NO_EPERM
  | FR_IS_DIR, FR_IS_DIR | FR_NO_DIR, FR_NO_DIR
  | FR_NO_EMPTY_DIR, FR_NO_EMPTY_DIR | FR_INVAILD_FATFS, FR_INVAILD_FATFS => true
  | _, _ => false
  end.

Definition is_ok (r : FRESULT) : bool := FRESULT_eqb r FR_OK.

(** ** Constants *)

Definition FS_FAT12 : Z := 1.
Definition FS_FAT16 : Z := 2.
Definition FS_FAT32 : Z := 3.

Definition FA_READ : Z := 0x01.
Definition FA_WRITE : Z := 0x02.
Definition FA_CREATE_NEW : Z := 0x04.
Definition FA_CREATE_ALWAYS : Z := 0x08.
Definition FA_OPEN_ALWAYS : Z := 0x10.
Definition FA_OPEN_APPEND : Z := 0x30.
Definition FA_SEEKEND : Z := 0x20.
Definition FA_MODIFIED : Z := 0x40.
Definition FA_DIRTY : Z := 0x80.

Definition AM_RDO : Z := 0x01.
Definition AM_DIR : Z := 0x10.
Definition AM_ARC : Z := 0x20.

Definition NSFLAG : Z := 11.
Definition NS_LOSS : Z := 0x01.
Definition NS_LFN : Z := 0x02.
Definition NS_DOT : Z := 0x20.
Definition NS_NOLFN : Z := 0x40.
Definition NS_NONAME : Z := 0x80.

(** [(LBA_t)0 - 1], the invalid window position. *)
Definition LBA_NONE : Z := 0xFFFFFFFF.

(** ** Byte buffers and the byte codec *)

Definition peek (b : list Z) (i : Z) : Z := default 0 (b !! Z.to_nat i).
Definition poke (b : list Z) (i : Z) (v : Z) : list Z := <[Z.to_nat i := v]> b.

Definition ld_word (b : list Z) (p : Z) : Z :=
  let rv := peek b (p + 1) in
  u16 (Z.lor (Z.shiftl rv 8) (peek b p)).

Definition ld_dword (b : list Z) (p : Z) : Z :=
  let rv := peek b (p + 3) in
  let rv := u32 (Z.lor (Z.shiftl rv 8) (peek b (p + 2))) in
  let rv := u32 (Z.lor (Z.shiftl rv 8) (peek b (p + 1))) in
  u32 (Z.lor (Z.shiftl rv 8) (peek b p)).

Definition st_word (b : list Z) (p : Z) (val : Z) : list Z :=
  let b := poke b p (u8 val) in
  let val := Z.shiftr val 8 in
  poke b (p + 1) (u8 val).

Definition st_dword (b : list Z) (p : Z) (val : Z) : list Z :=
  let b := poke b p (u8 val) in
  let val := Z.shiftr val 8 in
  let b := poke b (p + 1) (u8 val) in
  let val := Z.shiftr val 8 in
  let b := poke b (p + 2) (u8 val) in
  let val := Z.shiftr val 8 in
  poke b (p + 3) (u8 val).

(** ** The block device (diskio.h, consumed) *)

Inductive io_req : Type :=
| IoRead (sect count : Z)
| IoWrite (sect count : Z)
| IoSync.

Record Disk : Type := mkDisk {
  d_sec : Z -> list Z;        (* contents of every sector *)
  d_rd_bad : Z -> bool;       (* sectors on which disk_read fails *)
  d_wr_bad : Z -> bool;       (* sectors on which disk_write fails *)
  d_sync_bad : bool;          (* disk_ioctl(CTRL_SYNC) fails *)
  d_log : list io_req         (* requests issued so far, latest first *)
}.

Definition d_note (d : Disk) (r : io_req) : Disk :=
  mkDisk (d_sec d) (d_rd_bad d) (d_wr_bad d) (d_sync_bad d) (r :: d_log d).

Definition d_store (d : Disk) (s : Z) (b : list Z) : Disk :=
  mkDisk (fun x => if x =? s then b else d_sec d x)
         (d_rd_bad d) (d_wr_bad d) (d_sync_bad d) (d_log d).

Fixpoint any_bad (bad : Z -> bool) (s : Z) (n : nat) : bool :=
  match n with
  | O => false
  | S k => bad s || any_bad bad (s + 1) k
  end.

Fixpoint gather (d : Disk) (s : Z) (n : nat) : list Z :=
  match n with
  | O => []
  | S k => d_sec d s ++ gather d (s + 1) k
  end.

(** disk_read: [None] is a result other than RES_OK. *)
Definition disk_read (d : Disk) (sect count : Z) : Disk * option (list Z) :=
  let d' := d_note d (IoRead sect count) in
  if any_bad (d_rd_bad d) sect (Z.to_nat count) then (d', None)
  else (d', Some (gather d sect (Z.to_nat count))).

Fixpoint scatter (d : Disk) (s : Z) (n : nat) (ss : Z) (b : list Z) : Disk :=
  match n with
  | O => d
  | S k => scatter (d_store d s (take (Z.to_nat ss) b)) (s + 1) k ss
                   (drop (Z.to_nat ss) b)
  end.

(** disk_write of [count] sectors of [ss] bytes: [false] is a result other
    than RES_OK, in which case nothing is stored. *)
Definition disk_write (d : Disk) (ss : Z) (b : list Z) (sect count : Z)
  : Disk * bool :=
  let d' := d_note d (IoWrite sect count) in
  if any_bad (d_wr_bad d) sect (Z.to_nat count) then (d', false)
  else (scatter d' sect (Z.to_nat count) ss b, true).

Definition disk_sync (d : Disk) : Disk * bool :=
  (d_note d IoSync, negb (d_sync_bad d)).

(** ** The filesystem object (FATFS) *)

Record FATFS : Type := mkFATFS {
  fs_type : Z;     (* FAT sub-type, 0: not mounted *)
  n_fats : Z;
  wflag : Z;       (* win[] dirty flag *)
  fsi_flag : Z;
  id : Z;          (* volume mount ID *)
  n_rootdir : Z;   (* number of root directory entries *)
  csize : Z;       (* cluster size in sectors *)
  ssize : Z;       (* sector size, SS(fs) *)
  last_clst : Z;
  free_clst : Z;
  n_fatent : Z;
  fsize : Z;
  volbase : Z;
  fatbase : Z;
  dirbase : Z;
  database : Z;
  winsect : Z;
  win : list Z
}.

Definition SS (fs : FATFS) : Z := ssize fs.

Definition set_fs_type (fs : FATFS) (v : Z) : FATFS :=
  mkFATFS v (n_fats fs) (wflag fs) (fsi_flag fs) (id fs) (n_rootdir fs)
    (csize fs) (ssize fs) (last_clst fs) (free_clst fs) (n_fatent fs)
    (fsize fs) (volbase fs) (fatbase fs) (dirbase fs) (database fs)
    (winsect fs) (win fs).

Definition set_n_fats (fs : FATFS) (v : Z) : FATFS :=
  mkFATFS (fs_type fs) v (wflag fs) (fsi_flag fs) (id fs) (n_rootdir fs)
    (csize fs) (ssize fs) (last_clst fs) (free_clst fs) (n_fatent fs)
    (fsize fs) (volbase fs) (fatbase fs) (dirbase fs) (database fs)
    (winsect fs) (win fs).

Definition set_wflag (fs : FATFS) (v : Z) : FATFS :=
  mkFATFS (fs_type fs) (n_fats fs) v (fsi_flag fs) (id fs) (n_rootdir fs)
    (csize fs) (ssize fs) (last_clst fs) (free_clst fs) (n_fatent fs)
    (fsize fs) (volbase fs) (fatbase fs) (dirbase fs) (database fs)
    (winsect fs) (win fs).

Definition set_fsi_flag (fs : FATFS) (v : Z) : FATFS :=
  mkFATFS (fs_type fs) (n_fats fs) (wflag fs) v (id fs) (n_rootdir fs)
    (csize fs) (ssize fs) (last_clst fs) (free_clst fs) (n_fatent fs)
    (fsize fs) (volbase fs) (fatbase fs) (dirbase fs) (database fs)
    (winsect fs) (win fs).

Definition set_id (fs : FATFS) (v : Z) : FATFS :=
  mkFATFS (fs_type fs) (n_fats fs) (wflag fs) (fsi_flag fs) v (n_rootdir fs)
    (csize fs) (ssize fs) (last_clst fs) (free_clst fs) (n_fatent fs)
    (fsize fs) (volbase fs) (fatbase fs) (dirbase fs) (database fs)
    (winsect fs) (win fs).

Definition set_n_rootdir (fs : FATFS) (v : Z) : FATFS :=
  mkFATFS (fs_type fs) (n_fats fs) (wflag fs) (fsi_flag fs) (id fs) v
    (csize fs) (ssize fs) (last_clst fs) (free_clst fs) (n_fatent fs)
    (fsize fs) (volbase fs) (fatbase fs) (dirbase fs) (database fs)
    (winsect fs) (win fs).

Definition set_csize (fs : FATFS) (v : Z) : FATFS :=
  mkFATFS (fs_type fs) (n_fats fs) (wflag fs) (fsi_flag fs) (id fs)
    (n_rootdir fs) v (ssize fs) (last_clst fs) (free_clst fs) (n_fatent fs)
    (fsize fs) (volbase fs) (fatbase fs) (dirbase fs) (database fs)
    (winsect fs) (win fs).

Definition set_last_clst (fs : FATFS) (v : Z) : FATFS :=
  mkFATFS (fs_type fs) (n_fats fs) (wflag fs) (fsi_flag fs) (id fs)
    (n_rootdir fs) (csize fs) (ssize fs) v (free_clst fs) (n_fatent fs)
    (fsize fs) (volbase fs) (fatbase fs) (dirbase fs) (database fs)
    (winsect fs) (win fs).

Definition set_free_clst (fs : FATFS) (v : Z) : FATFS :=
  mkFATFS (fs_type fs) (n_fats fs) (wflag fs) (fsi_flag fs) (id fs)
    (n_rootdir fs) (csize fs) (ssize fs) (last_clst fs) v (n_fatent fs)
    (fsize fs) (volbase fs) (fatbase fs) (dirbase fs) (database fs)
    (winsect fs) (win fs).

Definition set_n_fatent (fs : FATFS) (v : Z) : FATFS :=
  mkFATFS (fs_type fs) (n_fats fs) (wflag fs) (fsi_flag fs) (id fs)
    (n_rootdir fs) (csize fs) (ssize fs) (last_clst fs) (free_clst fs) v
    (fsize fs) (volbase fs) (fatbase fs) (dirbase fs) (database fs)
    (winsect fs) (win fs).

Definition set_fsize (fs : FATFS) (v : Z) : FATFS :=
  mkFATFS (fs_type fs) (n_fats fs) (wflag fs) (fsi_flag fs) (id fs)
    (n_rootdir fs) (csize fs) (ssize fs) (last_clst fs) (free_clst fs)
    (n_fatent fs) v (volbase fs) (fatbase fs) (dirbase fs) (database fs)
    (winsect fs) (win fs).

Definition set_volbase (fs : FATFS) (v : Z) : FATFS :=
  mkFATFS (fs_type fs) (n_fats fs) (wflag fs) (fsi_flag fs) (id fs)
    (n_rootdir fs) (csize fs) (ssize fs) (last_clst fs) (free_clst fs)
    (n_fatent fs) (fsize fs) v (fatbase fs) (dirbase fs) (database fs)
    (winsect fs) (win fs).

Definition set_fatbase (fs : FATFS) (v : Z) : FATFS :=
  mkFATFS (fs_type fs) (n_fats fs) (wflag fs) (fsi_flag fs) (id fs)
    (n_rootdir fs) (csize fs) (ssize fs) (last_clst fs) (free_clst fs)
    (n_fatent fs) (fsize fs) (volbase fs) v (dirbase fs) (database fs)
    (winsect fs) (win fs).

Definition set_dirbase (fs : FATFS) (v : Z) : FATFS :=
  mkFATFS (fs_type fs) (n_fats fs) (wflag fs) (fsi_flag fs) (id fs)
    (n_rootdir fs) (csize fs) (ssize fs) (last_clst fs) (free_clst fs)
    (n_fatent fs) (fsize fs) (volbase fs) (fatbase fs) v (database fs)
    (winsect fs) (win fs).

Definition set_database (fs : FATFS) (v : Z) : FATFS :=
  mkFATFS (fs_type fs) (n_fats fs) (wflag fs) (fsi_flag fs) (id fs)
    (n_rootdir fs) (csize fs) (ssize fs) (last_clst fs) (free_clst fs)
    (n_fatent fs) (fsize fs) (volbase fs) (fatbase fs) (dirbase fs) v
    (winsect fs) (win fs).

Definition set_winsect (fs : FATFS) (v : Z) : FATFS :=
  mkFATFS (fs_type fs) (n_fats fs) (wflag fs) (fsi_flag fs) (id fs)
    (n_rootdir fs) (csize fs) (ssize fs) (last_clst fs) (free_clst fs)
    (n_fatent fs) (fsize fs) (volbase fs) (fatbase fs) (dirbase fs)
    (database fs) v (win fs).

Definition set_win (fs : FATFS) (v : list Z) : FATFS :=
  mkFATFS (fs_type fs) (n_fats fs) (wflag fs) (fsi_flag fs) (id fs)
    (n_rootdir fs) (csize fs) (ssize fs) (last_clst fs) (free_clst fs)
    (n_fatent fs) (fsize fs) (volbase fs) (fatbase fs) (dirbase fs)
    (database fs) (winsect fs) v.

(** A mounted volume together with the drive that hosts it. *)
Record Vol : Type := mkVol { v_fs : FATFS; v_disk : Disk }.

(** ** Sector window (sync_window, move_window) *)

Definition sync_window (v : Vol) : Vol * FRESULT :=
  let fs := v_fs v in
  if nz (wflag fs) then
    let '(d, ok) := disk_write (v_disk v) (SS fs) (win fs) (winsect fs) 1 in
    if ok then
      let fs := set_wflag fs 0 in
      if u32 (winsect fs - fatbase fs) <? fsize fs then
        if n_fats fs =? 2 then
          let '(d, _) := disk_write d (SS fs) (win fs)
                           (u32 (winsect fs + fsize fs)) 1 in
          (mkVol fs d, FR_OK)
        else (mkVol fs d, FR_OK)
      else (mkVol fs d, FR_OK)
    else (mkVol fs d, FR_DISK_ERR)
  else (v, FR_OK).

Definition move_window (v : Vol) (sect : Z) : Vol * FRESULT :=
  if negb (sect =? winsect (v_fs v)) then
    let '(v, res) := sync_window v in
    if is_ok res then
      let '(d, r) := disk_read (v_disk v) sect 1 in
      match r with
      | Some b => (mkVol (set_winsect (set_win (v_fs v) b) sect) d, FR_OK)
      | None => (mkVol (set_winsect (v_fs v) LBA_NONE) d, FR_DISK_ERR)
      end
    else (v, res)
  else (v, FR_OK).

(** ** Cluster number to sector number *)

Definition clst2sect (fs : FATFS) (clst : Z) : Z :=
  let clst := u32 (clst - 2) in
  if clst >=? u32 (n_fatent fs - 2) then 0
  else u32 (database fs + u32 (csize fs * clst)).

(** ** FAT access: get_fat, put_fat *)

Definition get_fat (v : Vol) (clst : Z) : Vol * Z :=
  let fs := v_fs v in
  if (clst <? 2) || (clst >=? n_fatent fs) then (v, 1)
  else if fs_type fs =? FS_FAT12 then
    let bc := clst in
    let bc := u32 (bc + bc / 2) in
    let '(v, res) := move_window v (u32 (fatbase fs + bc / SS fs)) in
    if negb (is_ok res) then (v, 0xFFFFFFFF) else
    let wc := peek (win (v_fs v)) (bc mod SS fs) in
    let bc := u32 (bc + 1) in
    let '(v, res) := move_window v (u32 (fatbase fs + bc / SS fs)) in
    if negb (is_ok res) then (v, 0xFFFFFFFF) else
    let wc := Z.lor wc (Z.shiftl (peek (win (v_fs v)) (bc mod SS fs)) 8) in
    (v, if nz (Z.land clst 1) then Z.shiftr wc 4 else Z.land wc 0xFFF)
  else if fs_type fs =? FS_FAT16 then
    let '(v, res) := move_window v (u32 (fatbase fs + clst / (SS fs / 2))) in
    if negb (is_ok res) then (v, 0xFFFFFFFF) else
    (v, ld_word (win (v_fs v)) (u32 (clst * 2) mod SS fs))
  else if fs_type fs =? FS_FAT32 then
    let '(v, res) := move_window v (u32 (fatbase fs + clst / (SS fs / 4))) in
    if negb (is_ok res) then (v, 0xFFFFFFFF) else
    (v, Z.land (ld_dword (win (v_fs v)) (u32 (clst * 4) mod SS fs)) 0x0FFFFFFF)
  else (v, 1).

Definition vol_set_win (v : Vol) (b : list Z) : Vol :=
  mkVol (set_wflag (set_win (v_fs v) b) 1) (v_disk v).

Definition put_fat (v : Vol) (clst val : Z) : Vol * FRESULT :=
  let fs := v_fs v in
  if (clst >=? 2) && (clst <? n_fatent fs) then
    if fs_type fs =? FS_FAT12 then
      let bc := clst in
      let bc := u32 (bc + bc / 2) in
      let '(v, res) := move_window v (u32 (fatbase fs + bc / SS fs)) in
      if negb (is_ok res) then (v, res) else
      let p := bc mod SS fs in
      let b := win (v_fs v) in
      let v := vol_set_win v
                 (poke b p (if nz (Z.land clst 1)
                            then u8 (Z.lor (Z.land (peek b p) 0x0F)
                                           (Z.shiftl (u8 val) 4))
                            else u8 val)) in
      let bc := u32 (bc + 1) in
      let '(v, res) := move_window v (u32 (fatbase fs + bc / SS fs)) in
      if negb (is_ok res) then (v, res) else
      let p := bc mod SS fs in
      let b := win (v_fs v) in
      let v := vol_set_win v
                 (poke b p (if nz (Z.land clst 1)
                            then u8 (Z.shiftr val 4)
                            else u8 (Z.lor (Z.land (peek b p) 0xF0)
                                           (Z.land (u8 (Z.shiftr val 8)) 0x0F)))) in
      (v, res)
    else if fs_type fs =? FS_FAT16 then
      let '(v, res) := move_window v (u32 (fatbase fs + clst / (SS fs / 2))) in
      if negb (is_ok res) then (v, res) else
      (vol_set_win v (st_word (win (v_fs v)) (u32 (clst * 2) mod SS fs) (u16 val)),
       res)
    else if fs_type fs =? FS_FAT32 then
      let '(v, res) := move_window v (u32 (fatbase fs + clst / (SS fs / 4))) in
      if negb (is_ok res) then (v, res) else
      let p := u32 (clst * 4) mod SS fs in
      let val := Z.lor (Z.land val 0x0FFFFFFF)
                       (Z.land (ld_dword (win (v_fs v)) p) 0xF0000000) in
      (vol_set_win v (st_dword (win (v_fs v)) p val), res)
    else (v, FR_INT_ERR)
  else (v, FR_INT_ERR).

(** ** Well-formed volumes and the view through the sector window *)

(** The part of a filesystem object that the window operations leave alone. *)
Definition frame (fs : FATFS) : FATFS :=
  set_wflag (set_winsect (set_win fs []) 0) 0.

(** The bytes of sector [s] as the driver sees them: the window when it holds
    [s], the medium otherwise. *)
Definition sview (v : Vol) (s : Z) : list Z :=
  if s =? winsect (v_fs v) then win (v_fs v) else d_sec (v_disk v) s.

(** szbfat of mount_volume: bytes of a FAT holding [n_fatent] entries. *)
Definition szbfat (fs : FATFS) : Z :=
  if fs_type fs =? FS_FAT32 then n_fatent fs * 4
  else if fs_type fs =? FS_FAT16 then n_fatent fs * 2
  else n_fatent fs * 3 / 2 + Z.land (n_fatent fs) 1.

(** Geometry established by a successful mount: a supported FAT type, a
    sector size that is a positive multiple of 4, a FAT area that lies on
    the 32-bit LBA range and holds every entry. *)
Definition geom_ok (fs : FATFS) : bool :=
  ((fs_type fs =? FS_FAT12) || (fs_type fs =? FS_FAT16) || (fs_type fs =? FS_FAT32))
  && (0 <? SS fs) && (SS fs mod 4 =? 0)
  && (0 <=? fatbase fs) && (0 <=? fsize fs)
  && (fatbase fs + 2 * fsize fs <=? 4294967296)
  && (0 <=? n_fatent fs) && (szbfat fs <=? 4294967296)
  && (szbfat fs <=? fsize fs * SS fs).

Definition in_fat1 (fs : FATFS) (s : Z) : Prop :=
  fatbase fs <= s < fatbase fs + fsize fs.

Record vol_wf (v : Vol) : Prop := mk_vol_wf {
  wf_geom : geom_ok (v_fs v) = true;
  wf_win : length (win (v_fs v)) = Z.to_nat (SS (v_fs v));
  wf_sec : forall s, length (d_sec (v_disk v) s) = Z.to_nat (SS (v_fs v));
  wf_winsect : 0 <= winsect (v_fs v) < 4294967296;
  wf_clean : wflag (v_fs v) = 0 -> in_fat1 (v_fs v) (winsect (v_fs v)) ->
             d_sec (v_disk v) (winsect (v_fs v)) = win (v_fs v)
}.

(** A drive on which no transfer fails. *)
Definition reliable (d : Disk) : Prop :=
  (forall s, d_rd_bad d s = false) /\ (forall s, d_wr_bad d s = false).

(** Two states of a volume that agree on everything but the position and
    dirtiness of the window, and show the same first FAT. *)
Definition fat_eq (v v' : Vol) : Prop :=
  frame (v_fs v') = frame (v_fs v) /\
  forall s, in_fat1 (v_fs v) s -> sview v' s = sview v s.

(** *** The FAT as the driver sees it *)

Definition fat32_raw (v : Vol) (clst : Z) : Z :=
  let fs := v_fs v in
  ld_dword (sview v (fatbase fs + clst / (SS fs / 4))) (clst * 4 mod SS fs).

Definition fat_cell (v : Vol) (clst : Z) : Z :=
  let fs := v_fs v in
  if fs_type fs =? FS_FAT12 then
    let bc := clst + clst / 2 in
    let wc := Z.lor (peek (sview v (fatbase fs + bc / SS fs)) (bc mod SS fs))
                (Z.shiftl (peek (sview v (fatbase fs + (bc + 1) / SS fs))
                                ((bc + 1) mod SS fs)) 8) in
    if nz (Z.land clst 1) then Z.shiftr wc 4 else Z.land wc 0xFFF
  else if fs_type fs =? FS_FAT16 then
    ld_word (sview v (fatbase fs + clst / (SS fs / 2))) (clst * 2 mod SS fs)
  else Z.land (fat32_raw v clst) 0x0FFFFFFF.

(** *** The FAT32 cell update *)

Definition fat32_merge (val old : Z) : Z :=
  Z.lor (Z.land val 0x0FFFFFFF) (Z.land old 0xF0000000).

(** ** Cluster chains: remove_chain, create_chain

    Loops whose length depends on the FAT take a [fuel] argument; [None]
    means the fuel ran out before the C loop ended. *)

(** The FSINFO update of remove_chain. *)
Definition note_freed (v : Vol) : Vol :=
  let fs := v_fs v in
  if free_clst fs <? u32 (n_fatent fs - 2) then
    mkVol (set_fsi_flag (set_free_clst fs (u32 (free_clst fs + 1)))
                        (Z.lor (fsi_flag fs) 1)) (v_disk v)
  else v.

Fixpoint remove_chain_loop (fuel : nat) (v : Vol) (clst : Z)
  : option (Vol * FRESULT) :=
  match fuel with
  | O => None
  | S k =>
    let '(v, nxt) := get_fat v clst in
    if nxt =? 0 then Some (v, FR_OK)
    else if nxt =? 1 then Some (v, FR_INT_ERR)
    else if nxt =? 0xFFFFFFFF then Some (v, FR_DISK_ERR)
    else
      let '(v, res) := put_fat v clst 0 in
      if negb (is_ok res) then Some (v, res)
      else
        let v := note_freed v in
        if nxt <? n_fatent (v_fs v) then remove_chain_loop k v nxt
        else Some (v, FR_OK)
  end.

Definition remove_chain (fuel : nat) (v : Vol) (clst pclst : Z)
  : option (Vol * FRESULT) :=
  if (clst <? 2) || (clst >=? n_fatent (v_fs v)) then Some (v, FR_INT_ERR)
  else if nz pclst then
    let '(v, res) := put_fat v pclst 0xFFFFFFFF in
    if negb (is_ok res) then Some (v, res)
    else remove_chain_loop fuel v clst
  else remove_chain_loop fuel v clst.

(** Outcome of the free-cluster scan of create_chain: a free cluster was
    found ([Found]), or the function returns a status at once ([Quit]). *)
Inductive scan_result : Type :=
| Found (ncl : Z)
| Quit (status : Z).

Fixpoint create_chain_scan (fuel : nat) (v : Vol) (scl ncl : Z)
  : option (Vol * scan_result) :=
  match fuel with
  | O => None
  | S k =>
    let ncl := u32 (ncl + 1) in
    if (ncl >=? n_fatent (v_fs v)) && (2 >? scl) then Some (v, Quit 0)
    else
      let ncl := if ncl >=? n_fatent (v_fs v) then 2 else ncl in
      let '(v, cs) := get_fat v ncl in
      if cs =? 0 then Some (v, Found ncl)
      else if (cs =? 1) || (cs =? 0xFFFFFFFF) then Some (v, Quit cs)
      else if ncl =? scl then Some (v, Quit 0)
      else create_chain_scan k v scl ncl
  end.

(** The tail of create_chain: mark the new cluster, link it, update FSINFO. *)
Definition create_chain_commit (v : Vol) (clst ncl : Z) : Vol * Z :=
  let '(v, res) := put_fat v ncl 0xFFFFFFFF in
  let '(v, res) :=
    if is_ok res && nz clst then put_fat v clst ncl else (v, res) in
  if is_ok res then
    let fs := set_last_clst (v_fs v) ncl in
    let fs := if free_clst fs <=? u32 (n_fatent fs - 2)
              then set_free_clst fs (u32 (free_clst fs - 1)) else fs in
    let fs := set_fsi_flag fs (Z.lor (fsi_flag fs) 1) in
    (mkVol fs (v_disk v), ncl)
  else (v, if FRESULT_eqb res FR_DISK_ERR then 0xFFFFFFFF else 1).

Definition create_chain (fuel : nat) (v : Vol) (clst : Z) : option (Vol * Z) :=
  let fs := v_fs v in
  if clst =? 0 then
    (* Create a new chain *)
    let scl := last_clst fs in
    let scl := if (scl =? 0) || (scl >=? n_fatent fs) then 1 else scl in
    if free_clst fs =? 0 then Some (v, 0)
    else
      match create_chain_scan fuel v scl scl with
      | None => None
      | Some (v, Quit st) => Some (v, st)
      | Some (v, Found ncl) => Some (create_chain_commit v clst ncl)
      end
  else
    (* Stretch a chain *)
    let '(v, cs) := get_fat v clst in
    if cs <? 2 then Some (v, 1)
    else if cs =? 0xFFFFFFFF then Some (v, cs)
    else if cs <? n_fatent fs then Some (v, cs)
    else
      let scl := clst in
      if free_clst (v_fs v) =? 0 then Some (v, 0)
      else
        let ncl := u32 (scl + 1) in
        let ncl := if ncl >=? n_fatent fs then 2 else ncl in
        let '(v, cs) := get_fat v ncl in
        if (cs =? 1) || (cs =? 0xFFFFFFFF) then Some (v, cs)
        else if negb (cs =? 0) then
          let cs := last_clst (v_fs v) in
          let scl := if (cs >=? 2) && (cs <? n_fatent fs) then cs else scl in
          match create_chain_scan fuel v scl scl with
          | None => None
          | Some (v, Quit st) => Some (v, st)
          | Some (v, Found ncl) => Some (create_chain_commit v clst ncl)
          end
        else Some (create_chain_commit v clst ncl).

(** ** The open-file registry (FF_FS_LOCK)

    A pointer to a filesystem object is a number, 0 being the null pointer;
    FF_FS_LOCK is the length of the table. *)

Record FILESEM : Type := mkFILESEM {
  sem_fs : Z;     (* Object ID 1, volume (0: blank entry) *)
  sem_clu : Z;    (* Object ID 2, containing directory *)
  sem_ofs : Z;    (* Object ID 3, offset in the directory *)
  sem_ctr : Z     (* 0:none, 0x01..0xFF:read mode open count, 0x100:write mode *)
}.

(** The members of a directory object by which an object is identified. *)
Record DIRID : Type := mkDIRID {
  dj_fs : Z;      (* dp->obj.fs *)
  dj_sclust : Z;  (* dp->obj.sclust *)
  dj_dptr : Z     (* dp->dptr *)
}.

Definition sem_match (f : FILESEM) (dp : DIRID) : bool :=
  (sem_fs f =? dj_fs dp) && (sem_clu f =? dj_sclust dp) && (sem_ofs f =? dj_dptr dp).

(** The search loop of chk_share: the entry at which it breaks, if any, and
    the final value of [be]. *)
Fixpoint chk_share_loop (files : list FILESEM) (dp : DIRID) (be : Z)
  : option FILESEM * Z :=
  match files with
  | [] => (None, be)
  | f :: rest =>
    if nz (sem_fs f) then
      if sem_match f dp then (Some f, be) else chk_share_loop rest dp be
    else chk_share_loop rest dp 1
  end.

Definition chk_share (files : list FILESEM) (dp : DIRID) (acc : Z) : FRESULT :=
  match chk_share_loop files dp 0 with
  | (None, be) =>
    if negb (nz be) && negb (acc =? 2) then FR_TOO_MANY_OPEN_FILES else FR_OK
  | (Some f, _) =>
    if negb (acc =? 0) || (sem_ctr f =? 0x100) then FR_LOCKED else FR_OK
  end.

(** Index of the first entry that satisfies [p], or the length of the table. *)
Fixpoint first_index (p : FILESEM -> bool) (files : list FILESEM) : nat :=
  match files with
  | [] => O
  | f :: rest => if p f then O else S (first_index p rest)
  end.

Definition enq_share (files : list FILESEM) : Z :=
  if (first_index (fun f => negb (nz (sem_fs f))) files =? length files)%nat
  then 0 else 1.

Definition set_ctr (f : FILESEM) (n : Z) : FILESEM :=
  mkFILESEM (sem_fs f) (sem_clu f) (sem_ofs f) n.

Definition set_sem_fs (f : FILESEM) (p : Z) : FILESEM :=
  mkFILESEM p (sem_clu f) (sem_ofs f) (sem_ctr f).

Definition blank_sem : FILESEM := mkFILESEM 0 0 0 0.

(** The last two statements of inc_share, on entry [i]. *)
Definition inc_share_at (files : list FILESEM) (i : nat) (acc : Z)
  : list FILESEM * Z :=
  let f := default blank_sem (files !! i) in
  if (acc >=? 1) && nz (sem_ctr f) then (files, 0)
  else
    (<[i := set_ctr f (if nz acc then 0x100 else u32 (sem_ctr f + 1))]> files,
     Z.of_nat i + 1).

Definition inc_share (files : list FILESEM) (dp : DIRID) (acc : Z)
  : list FILESEM * Z :=
  let i := first_index (fun f => sem_match f dp) files in
  if (i =? length files)%nat then
    let i := first_index (fun f => negb (nz (sem_fs f))) files in
    if (i =? length files)%nat then (files, 0)
    else
      inc_share_at
        (<[i := mkFILESEM (dj_fs dp) (dj_sclust dp) (dj_dptr dp) 0]> files) i acc
  else inc_share_at files i acc.

Definition dec_share (files : list FILESEM) (i : Z) : list FILESEM * FRESULT :=
  let i := u32 (i - 1) in
  if i <? Z.of_nat (length files) then
    let f := default blank_sem (files !! Z.to_nat i) in
    let n := sem_ctr f in
    let n := if n =? 0x100 then 0 else n in
    let n := if n >? 0 then n - 1 else n in
    let f := set_ctr f n in
    let f := if n =? 0 then set_sem_fs f 0 else f in
    (<[Z.to_nat i := f]> files, FR_OK)
  else (files, FR_INT_ERR).

Definition clear_share (files : list FILESEM) (fs : Z) : list FILESEM :=
  map (fun f => if sem_fs f =? fs then set_sem_fs f 0 else f) files.

(** ** The file object (FIL, with its FFOBJID members inlined) *)

Record FIL : Type := mkFIL {
  obj_fs : Z;        (* obj.fs: pointer to the hosting volume, 0: invalid *)
  obj_id : Z;        (* obj.id: mount ID of the hosting volume *)
  obj_attr : Z;
  obj_sclust : Z;    (* obj.sclust: start cluster, 0: no cluster *)
  obj_objsize : Z;   (* obj.objsize: file size *)
  obj_lockid : Z;    (* obj.lockid: index in the registry, from 1 *)
  flag : Z;          (* access mode bits, FA_MODIFIED, FA_DIRTY *)
  err : FRESULT;     (* abort flag *)
  fptr : Z;          (* read/write pointer *)
  clust : Z;         (* cluster of fptr *)
  sect : Z;          (* sector held in buf, 0: none *)
  dir_sect : Z;      (* sector that holds the directory entry *)
  dir_ptr : Z;       (* offset of the directory entry in the window *)
  buf : list Z;      (* private sector buffer *)
  cltbl : option (list Z)   (* cluster link map table, None: null pointer *)
}.

Definition set_obj_fs (fp : FIL) (x : Z) : FIL :=
  mkFIL x (obj_id fp) (obj_attr fp) (obj_sclust fp) (obj_objsize fp)
    (obj_lockid fp) (flag fp) (err fp) (fptr fp) (clust fp) (sect fp)
    (dir_sect fp) (dir_ptr fp) (buf fp) (cltbl fp).

Definition set_obj_sclust (fp : FIL) (x : Z) : FIL :=
  mkFIL (obj_fs fp) (obj_id fp) (obj_attr fp) x (obj_objsize fp)
    (obj_lockid fp) (flag fp) (err fp) (fptr fp) (clust fp) (sect fp)
    (dir_sect fp) (dir_ptr fp) (buf fp) (cltbl fp).

Definition set_obj_objsize (fp : FIL) (x : Z) : FIL :=
  mkFIL (obj_fs fp) (obj_id fp) (obj_attr fp) (obj_sclust fp) x
    (obj_lockid fp) (flag fp) (err fp) (fptr fp) (clust fp) (sect fp)
    (dir_sect fp) (dir_ptr fp) (buf fp) (cltbl fp).

Definition set_flag (fp : FIL) (x : Z) : FIL :=
  mkFIL (obj_fs fp) (obj_id fp) (obj_attr fp) (obj_sclust fp) (obj_objsize fp)
    (obj_lockid fp) x (err fp) (fptr fp) (clust fp) (sect fp)
    (dir_sect fp) (dir_ptr fp) (buf fp) (cltbl fp).

Definition set_err (fp : FIL) (x : FRESULT) : FIL :=
  mkFIL (obj_fs fp) (obj_id fp) (obj_attr fp) (obj_sclust fp) (obj_objsize fp)
    (obj_lockid fp) (flag fp) x (fptr fp) (clust fp) (sect fp)
    (dir_sect fp) (dir_ptr fp) (buf fp) (cltbl fp).

Definition set_fptr (fp : FIL) (x : Z) : FIL :=
  mkFIL (obj_fs fp) (obj_id fp) (obj_attr fp) (obj_sclust fp) (obj_objsize fp)
    (obj_lockid fp) (flag fp) (err fp) x (clust fp) (sect fp)
    (dir_sect fp) (dir_ptr fp) (buf fp) (cltbl fp).

Definition set_clust (fp : FIL) (x : Z) : FIL :=
  mkFIL (obj_fs fp) (obj_id fp) (obj_attr fp) (obj_sclust fp) (obj_objsize fp)
    (obj_lockid fp) (flag fp) (err fp) (fptr fp) x (sect fp)
    (dir_sect fp) (dir_ptr fp) (buf fp) (cltbl fp).

Definition set_sect (fp : FIL) (x : Z) : FIL :=
  mkFIL (obj_fs fp) (obj_id fp) (obj_attr fp) (obj_sclust fp) (obj_objsize fp)
    (obj_lockid fp) (flag fp) (err fp) (fptr fp) (clust fp) x
    (dir_sect fp) (dir_ptr fp) (buf fp) (cltbl fp).

Definition set_buf (fp : FIL) (x : list Z) : FIL :=
  mkFIL (obj_fs fp) (obj_id fp) (obj_attr fp) (obj_sclust fp) (obj_objsize fp)
    (obj_lockid fp) (flag fp) (err fp) (fptr fp) (clust fp) (sect fp)
    (dir_sect fp) (dir_ptr fp) x (cltbl fp).

(** Test and clear of a bit of an 8-bit flag word. *)
Definition has (x bit : Z) : bool := nz (Z.land x bit).
Definition clear_bit (x bit : Z) : Z := Z.land x (u8 (Z.lnot bit)).

(** ABORT(fs, res): latch the error in the file object and leave. *)
Definition ABORT (fp : FIL) (res : FRESULT) : FIL := set_err fp res.

(** validate (FF_FS_REENTRANT with __LITEOS_M__ undefined).  Every non-null
    filesystem pointer of the model designates the one volume [fs]. *)
Definition validate (fs : FATFS) (fp : FIL) : FRESULT :=
  if nz (obj_fs fp) && nz (fs_type fs) && (obj_id fp =? id fs)
  then FR_OK else FR_INVALID_OBJECT.

(** What the surroundings of the driver decide: whether a copy between the
    kernel and the caller's buffer at a given offset and length succeeds
    (LOS_CopyFromKernel, LOS_CopyToKernel), the clock, the timestamp switch. *)
Inductive TimeStatus : Type :=
| SYSTEM_TIME_ENABLE | SYSTEM_TIME_DISABLE | SYSTEM_TIME_OTHER.

Record Env : Type := mkEnv {
  e_copy_ok : Z -> Z -> bool;
  e_fattime : Z;             (* GET_FATTIME() *)
  time_status : TimeStatus;
  e_memalloc_ok : bool       (* ff_memalloc returns a buffer *)
}.

(** clmt_clust: the walk over the link map table after its first item. *)
Fixpoint clmt_walk (tbl : list Z) (cl : Z) : Z :=
  match tbl with
  | [] => 0
  | ncl :: rest =>
    if ncl =? 0 then 0
    else match rest with
         | top :: rest' =>
           if cl <? ncl then u32 (cl + top) else clmt_walk rest' (cl - ncl)
         | [] => 0
         end
  end.

Definition clmt_clust (fs : FATFS) (fp : FIL) (ofs : Z) : Z :=
  match cltbl fp with
  | Some t => clmt_walk (tl t) (u32 (ofs / SS fs / csize fs))
  | None => 0
  end.

(** ** f_read *)

(** The caller's buffer: [take o l] is kept, [data] lands at offset [o]. *)
Definition splice (l : list Z) (o : Z) (data : list Z) : list Z :=
  take (Z.to_nat o) l ++ data ++ drop (Z.to_nat o + length data) l.

(** State threaded through a transfer: the volume, the file object, the
    caller's buffer and the byte counter ( *br or *bw ). *)
Record Xfer : Type := mkXfer {
  x_vol : Vol;
  x_fp : FIL;
  x_usr : list Z;
  x_cnt : Z
}.

Definition xfer_abort (x : Xfer) (v : Vol) (fp : FIL) (res : FRESULT)
  : option (Xfer * FRESULT) :=
  Some (mkXfer v (ABORT fp res) (x_usr x) (x_cnt x), res).

Fixpoint f_read_loop (fuel : nat) (env : Env) (x : Xfer) (btr : Z)
  : option (Xfer * FRESULT) :=
  match fuel with
  | O => None
  | S k =>
    if negb (btr >? 0) then Some (x, FR_OK) else
    let v := x_vol x in
    let fs := v_fs v in
    let fp := x_fp x in
    (* one pass of the loop body from the partial-sector copy on *)
    let partial (v : Vol) (fp : FIL) :=
      let rcnt := u32 (SS fs - fptr fp mod SS fs) in
      let rcnt := if rcnt >? btr then btr else rcnt in
      if negb (e_copy_ok env (x_cnt x) rcnt) then
        xfer_abort x v fp FR_INVALID_PARAMETER
      else
        let data := take (Z.to_nat rcnt) (drop (Z.to_nat (fptr fp mod SS fs)) (buf fp)) in
        f_read_loop k env
          (mkXfer v (set_fptr fp (u32 (fptr fp + rcnt)))
                  (splice (x_usr x) (x_cnt x) data) (u32 (x_cnt x + rcnt)))
          (u32 (btr - rcnt)) in
    if fptr fp mod SS fs =? 0 then
      let csect := u32 (Z.land (fptr fp / SS fs) (csize fs - 1)) in
      (* on the cluster boundary: locate the cluster *)
      let located : Vol * FIL * option FRESULT :=
        if csect =? 0 then
          let '(v, clst) :=
            if fptr fp =? 0 then (v, obj_sclust fp)
            else match cltbl fp with
                 | Some _ => (v, clmt_clust fs fp (fptr fp))
                 | None => get_fat v (clust fp)
                 end in
          if clst <? 2 then (v, fp, Some FR_INT_ERR)
          else if clst =? 0xFFFFFFFF then (v, fp, Some FR_DISK_ERR)
          else (v, set_clust fp clst, None)
        else (v, fp, None) in
      let '(v, fp, stop) := located in
      match stop with
      | Some r => xfer_abort x v fp r
      | None =>
        let sect0 := clst2sect fs (clust fp) in
        if sect0 =? 0 then xfer_abort x v fp FR_INT_ERR else
        let sect0 := u32 (sect0 + csect) in
        let cc := btr / SS fs in
        if cc >? 0 then
          let cc := if csect + cc >? csize fs then u32 (csize fs - csect) else cc in
          let '(d, r) := disk_read (v_disk v) sect0 cc in
          let v := mkVol (v_fs v) d in
          match r with
          | None => xfer_abort x v fp FR_DISK_ERR
          | Some data =>
            let usr := splice (x_usr x) (x_cnt x) data in
            if has (flag fp) FA_DIRTY && (u32 (sect fp - sect0) <? cc) then
              let o := u32 (u32 (sect fp - sect0) * SS fs) in
              if negb (e_copy_ok env (x_cnt x + o) (SS fs)) then
                Some (mkXfer v (ABORT fp FR_INVALID_PARAMETER) usr (x_cnt x),
                      FR_INVALID_PARAMETER)
              else
                let usr := splice usr (x_cnt x + o) (take (Z.to_nat (SS fs)) (buf fp)) in
                let rcnt := u32 (SS fs * cc) in
                f_read_loop k env
                  (mkXfer v (set_fptr fp (u32 (fptr fp + rcnt))) usr
                          (u32 (x_cnt x + rcnt)))
                  (u32 (btr - rcnt))
            else
              let rcnt := u32 (SS fs * cc) in
              f_read_loop k env
                (mkXfer v (set_fptr fp (u32 (fptr fp + rcnt))) usr
                        (u32 (x_cnt x + rcnt)))
                (u32 (btr - rcnt))
          end
        else if negb (sect fp =? sect0) then
          (* load the data sector into the private buffer *)
          let '(v, fp, ok) :=
            if has (flag fp) FA_DIRTY then
              let '(d, ok) := disk_write (v_disk v) (SS fs) (buf fp) (sect fp) 1 in
              (mkVol (v_fs v) d,
               if ok then set_flag fp (clear_bit (flag fp) FA_DIRTY) else fp, ok)
            else (v, fp, true) in
          if negb ok then xfer_abort x v fp FR_DISK_ERR else
          let '(d, r) := disk_read (v_disk v) sect0 1 in
          let v := mkVol (v_fs v) d in
          match r with
          | None => xfer_abort x v fp FR_DISK_ERR
          | Some data => partial v (set_sect (set_buf fp data) sect0)
          end
        else partial v (set_sect fp sect0)
      end
    else partial v fp
  end.

Definition f_read (fuel : nat) (env : Env) (v : Vol) (fp : FIL)
  (usr : list Z) (btr : Z) : option (Xfer * FRESULT) :=
  let x := mkXfer v fp usr 0 in              (* *br = 0 *)
  let res := validate (v_fs v) fp in
  if negb (is_ok res) then Some (x, res)
  else if negb (is_ok (err fp)) then Some (x, err fp)
  else if negb (has (flag fp) FA_READ) then Some (x, FR_NO_EPERM)
  else
    let remain := u32 (obj_objsize fp - fptr fp) in
    let btr := if btr >? remain then remain else btr in
    f_read_loop fuel env x btr.

(** ** f_write *)

Fixpoint f_write_loop (fuel : nat) (env : Env) (x : Xfer) (btw : Z)
  : option (Xfer * FRESULT) :=
  match fuel with
  | O => None
  | S k =>
    (* after the loop: set the file change flag *)
    let leave (x : Xfer) (res : FRESULT) :=
      Some (mkXfer (x_vol x) (set_flag (x_fp x) (Z.lor (flag (x_fp x)) FA_MODIFIED))
                   (x_usr x) (x_cnt x), res) in
    if negb (btw >? 0) then leave x FR_OK else
    let v := x_vol x in
    let fs := v_fs v in
    let fp := x_fp x in
    (* the increment clause of the for statement *)
    let step (v : Vol) (fp : FIL) (wcnt : Z) :=
      let fp := set_fptr fp (u32 (fptr fp + wcnt)) in
      let fp := set_obj_objsize fp
                  (if fptr fp >? obj_objsize fp then fptr fp else obj_objsize fp) in
      f_write_loop k env (mkXfer v fp (x_usr x) (u32 (x_cnt x + wcnt)))
                   (u32 (btw - wcnt)) in
    let partial (v : Vol) (fp : FIL) :=
      let wcnt := u32 (SS fs - fptr fp mod SS fs) in
      let wcnt := if wcnt >? btw then btw else wcnt in
      if negb (e_copy_ok env (x_cnt x) wcnt) then
        xfer_abort x v fp FR_INVALID_PARAMETER
      else
        let data := take (Z.to_nat wcnt) (drop (Z.to_nat (x_cnt x)) (x_usr x)) in
        let fp := set_buf fp (splice (buf fp) (fptr fp mod SS fs) data) in
        step v (set_flag fp (Z.lor (flag fp) FA_DIRTY)) wcnt in
    if fptr fp mod SS fs =? 0 then
      let csect := Z.land (u32 (fptr fp / SS fs)) (csize fs - 1) in
      let located : option (Vol * FIL * option Z) :=
        if csect =? 0 then
          '(v, clst) ←
            (if fptr fp =? 0 then
               if obj_sclust fp =? 0 then create_chain fuel v 0
               else Some (v, obj_sclust fp)
             else match cltbl fp with
                  | Some _ => Some (v, clmt_clust fs fp (fptr fp))
                  | None => create_chain fuel v (clust fp)
                  end);
          if (clst =? 0) || (clst =? 1) || (clst =? 0xFFFFFFFF)
          then Some (v, fp, Some clst)
          else
            let fp := set_clust fp clst in
            Some (v, if obj_sclust fp =? 0 then set_obj_sclust fp clst else fp, None)
        else Some (v, fp, None) in
      match located with
      | None => None
      | Some (v, fp, Some clst) =>
        if clst =? 0 then leave (mkXfer v fp (x_usr x) (x_cnt x)) FR_NO_SPACE_LEFT
        else if clst =? 1 then xfer_abort x v fp FR_INT_ERR
        else xfer_abort x v fp FR_DISK_ERR
      | Some (v, fp, None) =>
        (* write back the dirty private buffer *)
        let '(v, fp, ok) :=
          if has (flag fp) FA_DIRTY then
            let '(d, ok) := disk_write (v_disk v) (SS fs) (buf fp) (sect fp) 1 in
            (mkVol (v_fs v) d,
             if ok then set_flag fp (clear_bit (flag fp) FA_DIRTY) else fp, ok)
          else (v, fp, true) in
        if negb ok then xfer_abort x v fp FR_DISK_ERR else
        let sect0 := clst2sect fs (clust fp) in
        if sect0 =? 0 then xfer_abort x v fp FR_INT_ERR else
        let sect0 := u32 (sect0 + csect) in
        let cc := btw / SS fs in
        if cc >? 0 then
          let cc := if csect + cc >? csize fs then u32 (csize fs - csect) else cc in
          let src := drop (Z.to_nat (x_cnt x)) (x_usr x) in
          let '(d, ok) := disk_write (v_disk v) (SS fs) src sect0 cc in
          let v := mkVol (v_fs v) d in
          if negb ok then xfer_abort x v fp FR_DISK_ERR else
          if u32 (sect fp - sect0) <? cc then
            let o := u32 (u32 (sect fp - sect0) * SS fs) in
            if negb (e_copy_ok env (x_cnt x + o) (SS fs)) then
              xfer_abort x v fp FR_INVALID_PARAMETER
            else
              let fp := set_buf fp (take (Z.to_nat (SS fs)) (drop (Z.to_nat o) src)) in
              step v (set_flag fp (clear_bit (flag fp) FA_DIRTY)) (u32 (SS fs * cc))
          else step v fp (u32 (SS fs * cc))
        else if negb (sect fp =? sect0) && (fptr fp <? obj_objsize fp) then
          let '(d, r) := disk_read (v_disk v) sect0 1 in
          let v := mkVol (v_fs v) d in
          match r with
          | None => xfer_abort x v fp FR_DISK_ERR
          | Some data => partial v (set_sect (set_buf fp data) sect0)
          end
        else partial v (set_sect fp sect0)
      end
    else partial v fp
  end.

Definition f_write (fuel : nat) (env : Env) (v : Vol) (fp : FIL)
  (usr : list Z) (btw : Z) : option (Xfer * FRESULT) :=
  let x := mkXfer v fp usr 0 in              (* *bw = 0 *)
  let res := validate (v_fs v) fp in
  if negb (is_ok res) then Some (x, res)
  else if negb (is_ok (err fp)) then Some (x, err fp)
  else if negb (has (flag fp) FA_WRITE) then Some (x, FR_NO_EPERM)
  else
    let btw := if u32 (fptr fp + btw) <? fptr fp
               then u32 (0xFFFFFFFF - fptr fp) else btw in
    f_write_loop fuel env x btw.

(** ** f_sync, f_close *)

Definition DIR_Attr : Z := 11.
Definition DIR_LstAccDate : Z := 18.
Definition DIR_FstClusHI : Z := 20.
Definition DIR_ModTime : Z := 22.
Definition DIR_FstClusLO : Z := 26.
Definition DIR_FileSize : Z := 28.
Definition BS_55AA : Z := 510.
Definition FSI_LeadSig : Z := 0.
Definition FSI_StrucSig : Z := 484.
Definition FSI_Free_Count : Z := 488.
Definition FSI_Nxt_Free : Z := 492.

Definition st_clust (fs : FATFS) (b : list Z) (dir cl : Z) : list Z :=
  let b := st_word b (dir + DIR_FstClusLO) (u16 cl) in
  if fs_type fs =? FS_FAT32
  then st_word b (dir + DIR_FstClusHI) (u16 (Z.shiftr cl 16))
  else b.

Definition mem_set (b : list Z) (val cnt : Z) : list Z :=
  replicate (Z.to_nat cnt) (u8 val) ++ drop (Z.to_nat cnt) b.

Definition sync_fs (v : Vol) : Vol * FRESULT :=
  let '(v, res) := sync_window v in
  if is_ok res then
    let v :=
      let fs := v_fs v in
      if (fs_type fs =? FS_FAT32) && (fsi_flag fs =? 1) then
        let b := mem_set (win fs) 0 (SS fs) in
        let b := st_word b BS_55AA 0xAA55 in
        let b := st_dword b FSI_LeadSig 0x41615252 in
        let b := st_dword b FSI_StrucSig 0x61417272 in
        let b := st_dword b FSI_Free_Count (free_clst fs) in
        let b := st_dword b FSI_Nxt_Free (last_clst fs) in
        let fs := set_winsect (set_win fs b) (u32 (volbase fs + 1)) in
        let '(d, _) := disk_write (v_disk v) (SS fs) (win fs) (winsect fs) 1 in
        mkVol (set_fsi_flag fs 0) d
      else v in
    let '(d, ok) := disk_sync (v_disk v) in
    (mkVol (v_fs v) d, if ok then res else FR_DISK_ERR)
  else (v, res).

Definition f_sync (env : Env) (v : Vol) (fp : FIL) : Vol * FIL * FRESULT :=
  let res := validate (v_fs v) fp in
  if is_ok res && has (flag fp) FA_MODIFIED then
    let '(v, fp, ok) :=
      if has (flag fp) FA_DIRTY then
        let '(d, ok) := disk_write (v_disk v) (SS (v_fs v)) (buf fp) (sect fp) 1 in
        (mkVol (v_fs v) d,
         if ok then set_flag fp (clear_bit (flag fp) FA_DIRTY) else fp, ok)
      else (v, fp, true) in
    if negb ok then (v, fp, FR_DISK_ERR) else
    let tm := e_fattime env in
    let '(v, res) := move_window v (dir_sect fp) in
    if is_ok res then
      let fs := v_fs v in
      let dir := dir_ptr fp in
      let b := win fs in
      let b := poke b (dir + DIR_Attr) (u8 (Z.lor (peek b (dir + DIR_Attr)) AM_ARC)) in
      let b := st_clust fs b dir (obj_sclust fp) in
      let b := st_dword b (dir + DIR_FileSize) (u32 (obj_objsize fp)) in
      let b := match time_status env with
               | SYSTEM_TIME_ENABLE => st_dword b (dir + DIR_ModTime) tm
               | SYSTEM_TIME_DISABLE => st_dword b (dir + DIR_ModTime) 0
               | SYSTEM_TIME_OTHER => b
               end in
      let b := st_word b (dir + DIR_LstAccDate) 0 in
      let v := vol_set_win v b in
      let '(v, res) := sync_fs v in
      (v, set_flag fp (clear_bit (flag fp) FA_MODIFIED), res)
    else (v, fp, res)
  else (v, fp, res).

Definition f_close (env : Env) (v : Vol) (files : list FILESEM) (fp : FIL)
  : Vol * list FILESEM * FIL * FRESULT :=
  let '(v, fp, res) := f_sync env v fp in
  if is_ok res || FRESULT_eqb res FR_DISK_ERR then
    let res := validate (v_fs v) fp in
    if is_ok res then
      let '(files, res) := dec_share files (obj_lockid fp) in
      (v, files, if is_ok res then set_obj_fs fp 0 else fp, res)
    else (v, files, fp, res)
  else (v, files, fp, res).

(** ** f_truncate *)

Definition get_end_of_cluster (fs : FATFS) : Z :=
  if fs_type fs =? FS_FAT12 then 0x00000FFF
  else if fs_type fs =? FS_FAT16 then 0x0000FFFF
  else if fs_type fs =? FS_FAT32 then 0x0FFFFFFF
  else 0xFFFFFFFF.

(** The do-while of f_truncate: walks from [val], returns the final
    [fclust] and [val]. *)
Fixpoint truncate_walk (fuel : nat) (v : Vol) (val count tcl last_clust : Z)
  : option (Vol * Z * Z) :=
  match fuel with
  | O => None
  | S k =>
    let fclust := val in
    let '(v, val) := get_fat v fclust in
    let count := u32 (count + 1) in
    if count =? tcl then Some (v, fclust, val)
    else if negb (val =? last_clust) && negb (val =? 1) && negb (val =? 0xFFFFFFFF)
    then truncate_walk k v val count tcl last_clust
    else Some (v, fclust, val)
  end.

Definition f_truncate (fuel : nat) (v : Vol) (fp : FIL) (length : Z)
  : option (Vol * FIL * FRESULT) :=
  let res := validate (v_fs v) fp in
  if negb (is_ok res) then Some (v, fp, res)
  else if negb (is_ok (err fp)) then Some (v, fp, err fp)
  else if negb (has (flag fp) FA_WRITE) then Some (v, fp, FR_NO_EPERM)
  else if fptr fp <=? obj_objsize fp then
    '(v, fp, fclust, res) ←
      (if (fptr fp =? 0) && (length =? 0) then
         '(v, res) ← remove_chain fuel v (obj_sclust fp) 0;
         Some (v, set_obj_sclust fp 0, 0, res)
       else
         let fs := v_fs v in
         let n := u32 (csize fs * SS fs) in
         let tcl := u32 (length / n + (if nz (Z.land length (n - 1)) then 1 else 0)) in
         '(v, fclust, val) ←
           truncate_walk fuel v (obj_sclust fp) 0 tcl (get_end_of_cluster fs);
         let res := FR_OK in
         let res := if val =? 0xFFFFFFFF then FR_DISK_ERR else res in
         let res := if val =? 1 then FR_INT_ERR else res in
         if is_ok res && (val <? n_fatent fs) then
           '(v, res) ← remove_chain fuel v val fclust;
           Some (v, fp, fclust, res)
         else Some (v, fp, fclust, res));
    let '(v, fp) :=
      if is_ok res then
        let v := mkVol (set_last_clst (v_fs v) fclust) (v_disk v) in
        let fp := set_obj_objsize fp length in
        (v, if fptr fp >? length then set_clust (set_fptr fp length) fclust else fp)
      else (v, fp) in
    let fp := set_flag fp (Z.lor (flag fp) FA_MODIFIED) in
    let '(v, fp, res) :=
      if is_ok res && has (flag fp) FA_DIRTY then
        let '(d, ok) := disk_write (v_disk v) (SS (v_fs v)) (buf fp) (sect fp) 1 in
        (mkVol (v_fs v) d,
         if ok then set_flag fp (clear_bit (flag fp) FA_DIRTY) else fp,
         if ok then res else FR_DISK_ERR)
      else (v, fp, res) in
    if negb (is_ok res) then Some (v, ABORT fp res, res)
    else Some (v, fp, res)
  else Some (v, fp, res).

(** ** f_open

    The path resolver and the directory engine (mount_volume, follow_path,
    and dir_register as called from f_open) are not part of this
    development: what they hand to f_open enters as a [Lookup], the volume
    state they leave behind being the [Vol] f_open starts from. *)

Definition DIR_CrtTime : Z := 14.

Record Lookup : Type := mkLookup {
  lk_res : FRESULT;     (* result of follow_path *)
  lk_nsflag : Z;        (* dj.fn[NSFLAG] *)
  lk_attr : Z;          (* dj.obj.attr *)
  lk_id : DIRID;        (* dj.obj.fs, dj.obj.sclust, dj.dptr *)
  lk_dir : Z            (* dj.dir, as an offset into the window *)
}.

Definition ld_clust (fs : FATFS) (b : list Z) (dir : Z) : Z :=
  let cl := ld_word b (dir + DIR_FstClusLO) in
  if fs_type fs =? FS_FAT32
  then Z.lor cl (u32 (Z.shiftl (ld_word b (dir + DIR_FstClusHI)) 16))
  else cl.

(** Access type handed to chk_share and inc_share by f_open. *)
Definition open_acc (mode : Z) : Z :=
  if nz (Z.land mode (Z.lnot FA_READ)) then 1 else 0.

(** Lines 3326-3408 of f_open: the share check and the create/open decision.
    Returns the volume, the directory object, the access mode and [res];
    [reg] stands for dir_register. *)
Definition f_open_decide (fuel : nat) (env : Env)
  (reg : Vol -> Lookup -> Vol * Lookup * FRESULT)
  (v : Vol) (files : list FILESEM) (dj : Lookup) (mode : Z)
  : option (Vol * Lookup * Z * FRESULT) :=
  let res := lk_res dj in
  let res :=
    if is_ok res then
      if has (lk_nsflag dj) NS_NONAME then FR_INVALID_NAME
      else chk_share files (lk_id dj) (open_acc mode)
    else res in
  if has mode (Z.lor (Z.lor FA_CREATE_ALWAYS FA_OPEN_ALWAYS) FA_CREATE_NEW) then
    let '(v, dj, mode, res) :=
      if negb (is_ok res) then
        let '(v, dj, res) :=
          if FRESULT_eqb res FR_NO_FILE && has mode FA_OPEN_ALWAYS then
            if nz (enq_share files) then reg v dj
            else (v, dj, FR_TOO_MANY_OPEN_FILES)
          else (v, dj, res) in
        (v, dj, if is_ok res then u8 (Z.lor mode FA_CREATE_ALWAYS) else mode, res)
      else
        if has (lk_attr dj) (Z.lor AM_RDO AM_DIR) then (v, dj, mode, FR_IS_DIR)
        else if has mode FA_CREATE_NEW then (v, dj, mode, FR_EXIST)
        else (v, dj, mode, res) in
    if is_ok res && has mode FA_CREATE_ALWAYS then
      (* Truncate it if overwrite mode *)
      let tm := e_fattime env in
      let fs := v_fs v in
      let dir := lk_dir dj in
      let b := win fs in
      let b := match time_status env with
               | SYSTEM_TIME_ENABLE =>
                 st_dword (st_dword b (dir + DIR_CrtTime) tm) (dir + DIR_ModTime) tm
               | SYSTEM_TIME_DISABLE =>
                 st_dword (st_dword b (dir + DIR_CrtTime) 0) (dir + DIR_ModTime) 0
               | SYSTEM_TIME_OTHER => b
               end in
      let b := poke b (dir + DIR_Attr) AM_ARC in
      let cl := ld_clust fs b dir in
      let b := st_clust fs b dir 0 in
      let b := st_dword b (dir + DIR_FileSize) 0 in
      let v := vol_set_win v b in
      if negb (cl =? 0) then
        let sc := winsect (v_fs v) in
        '(v, res) ← remove_chain fuel v cl 0;
        if is_ok res then
          let '(v, res) := move_window v sc in
          Some (mkVol (set_last_clst (v_fs v) (u32 (cl - 1))) (v_disk v), dj, mode, res)
        else Some (v, dj, mode, res)
      else Some (v, dj, mode, res)
    else Some (v, dj, mode, res)
  else
    (* Open an existing file *)
    let res :=
      if is_ok res then
        if has (lk_attr dj) AM_DIR then FR_IS_DIR
        else if has mode FA_WRITE && has (lk_attr dj) AM_RDO then FR_DENIED
        else res
      else res in
    Some (v, dj, mode, res).

(** The cluster-following loop of the seek to the end of the file. *)
Fixpoint f_open_seek (fuel : nat) (v : Vol) (clst ofs bcs : Z) (res : FRESULT)
  : option (Vol * Z * Z * FRESULT) :=
  match fuel with
  | O => None
  | S k =>
    if is_ok res && (ofs >? bcs) then
      let '(v, clst) := get_fat v clst in
      let res := if clst <=? 1 then FR_INT_ERR else res in
      let res := if clst =? 0xFFFFFFFF then FR_DISK_ERR else res in
      f_open_seek k v clst (u32 (ofs - bcs)) bcs res
    else Some (v, clst, ofs, res)
  end.

Definition set_open_fields (fp : FIL) (fsp idv sclust objsize mode : Z)
  (b : list Z) : FIL :=
  mkFIL fsp idv (obj_attr fp) sclust objsize (obj_lockid fp) mode FR_OK 0
    (clust fp) 0 (dir_sect fp) (dir_ptr fp) b None.

Definition set_dir_loc (fp : FIL) (ds dp lockid : Z) : FIL :=
  mkFIL (obj_fs fp) (obj_id fp) (obj_attr fp) (obj_sclust fp) (obj_objsize fp)
    lockid (flag fp) (err fp) (fptr fp) (clust fp) (sect fp) ds dp (buf fp)
    (cltbl fp).

(** f_open.  [mres] is the result of mount_volume, [fsp] the pointer to the
    filesystem object it returns, [fp] the blank file object as the caller
    passes it. *)
Definition f_open (fuel : nat) (env : Env)
  (reg : Vol -> Lookup -> Vol * Lookup * FRESULT)
  (mres : FRESULT) (v : Vol) (files : list FILESEM) (fp : FIL)
  (dj : Lookup) (mode : Z)
  : option (Vol * list FILESEM * FIL * FRESULT) :=
  let mode := Z.land mode 0x3F in
  if negb (is_ok mres) then Some (v, files, set_obj_fs fp 0, mres) else
  '(v, dj, mode, res) ← f_open_decide fuel env reg v files dj mode;
  let '(files, fp, mode, res) :=
    if is_ok res then
      let mode := if has mode FA_CREATE_ALWAYS then u8 (Z.lor mode FA_MODIFIED)
                  else mode in
      let '(files, lockid) := inc_share files (lk_id dj) (open_acc mode) in
      (files, set_dir_loc fp (winsect (v_fs v)) (lk_dir dj) lockid, mode,
       if lockid =? 0 then FR_INT_ERR else res)
    else (files, fp, mode, res) in
  if is_ok res then
    let fs := v_fs v in
    let fp := set_open_fields fp (dj_fs (lk_id dj)) (id fs)
                (ld_clust fs (win fs) (lk_dir dj))
                (ld_dword (win fs) (lk_dir dj + DIR_FileSize)) mode
                (replicate (Z.to_nat (SS fs)) 0) in
    if negb (e_memalloc_ok env) then
      Some (v, fst (dec_share files (obj_lockid fp)), fp, FR_NOT_ENOUGH_CORE)
    else
      '(v, fp, res) ←
        (if has mode FA_SEEKEND && (obj_objsize fp >? 0) then
           let fp := set_fptr fp (obj_objsize fp) in
           let bcs := u32 (csize fs * SS fs) in
           '(v, clst, ofs, res) ←
             f_open_seek fuel v (obj_sclust fp) (obj_objsize fp) bcs res;
           let fp := set_clust fp clst in
           if is_ok res && nz (ofs mod SS fs) then
             let sc := clst2sect fs clst in
             if sc =? 0 then Some (v, fp, FR_INT_ERR)
             else
               let fp := set_sect fp (u32 (sc + u32 (ofs / SS fs))) in
               let '(d, r) := disk_read (v_disk v) (sect fp) 1 in
               match r with
               | Some data => Some (mkVol (v_fs v) d, set_buf fp data, res)
               | None => Some (mkVol (v_fs v) d, fp, FR_DISK_ERR)
               end
           else Some (v, fp, res)
         else Some (v, fp, res));
      if is_ok res then Some (v, files, fp, res)
      else Some (v, fst (dec_share files (obj_lockid fp)), set_obj_fs fp 0, res)
  else Some (v, fst (dec_share files (obj_lockid fp)), set_obj_fs fp 0, res).

(** ** Numbered short names: gen_numname and the probe loop of dir_register *)

(** dbc_1st at the run-time code page configuration: [tbl] is DbcTbl, [None]
    being the null pointer of a single-byte code page. *)
Definition dbc_1st (tbl : option (list Z)) (c : Z) : bool :=
  match tbl with
  | Some t =>
    if c >=? peek t 0 then
      (c <=? peek t 1) || ((c >=? peek t 2) && (c <=? peek t 3))
    else false
  | None => false
  end.

(** The sixteen shifts made for one character of the long name. *)
Fixpoint numname_crc_char (n : nat) (sreg wc : Z) : Z :=
  match n with
  | O => sreg
  | S k =>
    let sreg := u32 (Z.shiftl sreg 1 + Z.land wc 1) in
    let wc := Z.shiftr wc 1 in
    let sreg := if nz (Z.land sreg 0x10000) then Z.lxor sreg 0x11021 else sreg in
    numname_crc_char k sreg wc
  end.

(** [while ( *lfn ) ...]: the long name ends at its first zero unit. *)
Fixpoint numname_crc (lfn : list Z) (sreg : Z) : Z :=
  match lfn with
  | [] => sreg
  | wc :: rest =>
    if wc =? 0 then sreg else numname_crc rest (numname_crc_char 16 sreg wc)
  end.

(** The suffix loop: entered with index [i], it stores a hexadecimal digit
    at ns[i] and steps down while [i] and [seq] are not zero.  It is entered
    with i = 7 and left at the latest when i reaches 0. *)
Fixpoint numname_digits (i : nat) (ns : list Z) (seq : Z) : list Z * nat :=
  match i with
  | O => (ns, O)
  | S i' =>
    let c := u8 (seq mod 16 + 48) in
    let seq := seq / 16 in
    let c := if c >? 57 then u8 (c + 7) else c in
    let ns := <[i := c]> ns in
    if negb (i' =? 0)%nat && nz seq then numname_digits i' ns seq else (ns, i')
  end.

(** The search for the offset at which the suffix is appended. *)
Fixpoint numname_offset (fuel : nat) (tbl : option (list Z)) (dst : list Z)
  (i j : Z) : Z :=
  match fuel with
  | O => j
  | S k =>
    if (j <? i) && negb (peek dst j =? 32) then
      if dbc_1st tbl (peek dst j) then
        if j =? i - 1 then j else numname_offset k tbl dst i (j + 2)
      else numname_offset k tbl dst i (j + 1)
    else j
  end.

(** The final do-while: copy the suffix, pad with spaces up to offset 8. *)
Fixpoint numname_append (fuel : nat) (dst ns : list Z) (i j : Z) : list Z :=
  match fuel with
  | O => dst
  | S k =>
    let dst := poke dst j (if i <? 8 then peek ns i else 32) in
    let i := if i <? 8 then i + 1 else i in
    let j := j + 1 in
    if j <? 8 then numname_append k dst ns i j else dst
  end.

Definition gen_numname (tbl : option (list Z)) (dst src lfn : list Z) (seq : Z)
  : list Z :=
  let dst := take 11 src ++ drop 11 dst in           (* mem_cpy(dst, src, 11) *)
  let seq := if seq >? 5 then numname_crc lfn seq else seq in
  let '(ns, i) := numname_digits 7 (replicate 8 0) seq in
  let ns := <[i := 126]> ns in                        (* ns[i] = '~' *)
  let j := numname_offset 8 tbl dst (Z.of_nat i) 0 in
  numname_append 8 dst ns (Z.of_nat i) j.

(** The loop [for (n = 1; n < 100; n++)] of dir_register, [k] passes being
    left.  [dir_find] stands for the directory search: it takes the state of
    the directory engine and the name in dp->fn.  Returns the state, dp->fn,
    the final [n] and the last [res]. *)
Fixpoint numname_probe {S : Type} (k : nat) (tbl : option (list Z))
  (dir_find : S -> list Z -> S * FRESULT)
  (s : S) (fn sn lfn : list Z) (n : Z) (res : FRESULT)
  : S * list Z * Z * FRESULT :=
  match k with
  | O => (s, fn, n, res)
  | S k' =>
    let fn := gen_numname tbl fn sn lfn n in
    let '(s, res) := dir_find s fn in
    if negb (is_ok res) then (s, fn, n, res)
    else numname_probe k' tbl dir_find s fn sn lfn (n + 1) res
  end.

(** dir_register (LFN configuration).  [dir_store] stands for the part after
    the name has been settled (dir_alloc, the LFN entries, the SFN entry). *)
Definition dir_register {S : Type} (tbl : option (list Z))
  (dir_find : S -> list Z -> S * FRESULT)
  (dir_store : S -> list Z -> list Z -> S * FRESULT)
  (s : S) (fn lfn : list Z) : S * list Z * FRESULT :=
  if has (peek fn NSFLAG) (Z.lor NS_DOT NS_NONAME) then (s, fn, FR_INVALID_NAME)
  else
    let sn := take 12 fn in
    if has (peek sn NSFLAG) NS_LOSS then
      let fn := poke fn NSFLAG NS_NOLFN in
      let '(s, fn, n, res) := numname_probe 99 tbl dir_find s fn sn lfn 1 FR_OK in
      if n =? 100 then (s, fn, FR_DENIED)
      else if negb (FRESULT_eqb res FR_NO_FILE) then (s, fn, res)
      else
        let fn := poke fn NSFLAG (peek sn NSFLAG) in
        let '(s, res) := dir_store s fn sn in (s, fn, res)
    else
      let '(s, res) := dir_store s fn sn in (s, fn, res).

(** ** Mounting: the analysis of the BPB (init_fatobj; mount_volume runs the
    same statements on lines 2873-2950) *)

Definition BPB_BytsPerSec : Z := 11.
Definition BPB_SecPerClus : Z := 13.
Definition BPB_RsvdSecCnt : Z := 14.
Definition BPB_NumFATs : Z := 16.
Definition BPB_RootEntCnt : Z := 17.
Definition BPB_TotSec16 : Z := 19.
Definition BPB_FATSz16 : Z := 22.
Definition BPB_TotSec32 : Z := 32.
Definition BPB_FATSz32 : Z := 36.
Definition BPB_FSVer32 : Z := 42.
Definition BPB_RootClus32 : Z := 44.
Definition BPB_FSInfo32 : Z := 48.
Definition SZDIRE : Z := 32.

(** MAX_FAT12, MAX_FAT16 and MAX_FAT32 are macros of ff.h, which is not
    among the sources: they are parameters of the embedding. *)
Record Limits : Type := mkLimits {
  MAX_FAT12 : Z;
  MAX_FAT16 : Z;
  MAX_FAT32 : Z
}.

(** Modelled from the spec: the values of MAX_FAT12 and MAX_FAT16, which the
    missing ff.h defines; the spec gives "FAT12 if nclst <= 4084, FAT16 if
    <= 65524".  The spec is silent on MAX_FAT32, which stays a parameter. *)
Definition spec_limits (max_fat32 : Z) : Limits := mkLimits 4084 65524 max_fat32.

(** Lines 2900-2903 (3144-3147): the FAT sub-type, 0 when none fits. *)
Definition fat_subtype (lim : Limits) (nclst : Z) : Z :=
  let fmt := 0 in
  let fmt := if nclst <=? MAX_FAT32 lim then FS_FAT32 else fmt in
  let fmt := if nclst <=? MAX_FAT16 lim then FS_FAT16 else fmt in
  let fmt := if nclst <=? MAX_FAT12 lim then FS_FAT12 else fmt in
  fmt.

Definition init_fatobj (lim : Limits) (v : Vol) (start_sector : Z)
  : Vol * FRESULT :=
  let fs := v_fs v in
  let w := win fs in
  if negb (ld_word w BPB_BytsPerSec =? SS fs) then (v, FR_NO_FILESYSTEM) else
  let fasize := ld_word w BPB_FATSz16 in
  let fasize := if fasize =? 0 then ld_dword w BPB_FATSz32 else fasize in
  let fs := set_fsize fs fasize in
  let fs := set_n_fats fs (peek w BPB_NumFATs) in
  if negb (n_fats fs =? 1) && negb (n_fats fs =? 2)
  then (mkVol fs (v_disk v), FR_NO_FILESYSTEM) else
  let fasize := u32 (fasize * n_fats fs) in
  let fs := set_csize fs (peek w BPB_SecPerClus) in
  if (csize fs =? 0) || nz (Z.land (csize fs) (csize fs - 1))
  then (mkVol fs (v_disk v), FR_NO_FILESYSTEM) else
  let fs := set_n_rootdir fs (ld_word w BPB_RootEntCnt) in
  if nz (n_rootdir fs mod (SS fs / SZDIRE))
  then (mkVol fs (v_disk v), FR_NO_FILESYSTEM) else
  let tsect := ld_word w BPB_TotSec16 in
  let tsect := if tsect =? 0 then ld_dword w BPB_TotSec32 else tsect in
  let nrsv := ld_word w BPB_RsvdSecCnt in
  if nrsv =? 0 then (mkVol fs (v_disk v), FR_NO_FILESYSTEM) else
  (* Determine the FAT sub type *)
  let sysect := u32 (nrsv + fasize + n_rootdir fs / (SS fs / SZDIRE)) in
  if tsect <? sysect then (mkVol fs (v_disk v), FR_NO_FILESYSTEM) else
  let nclst := u32 (tsect - sysect) / csize fs in
  if nclst =? 0 then (mkVol fs (v_disk v), FR_NO_FILESYSTEM) else
  let fmt := fat_subtype lim nclst in
  if fmt =? 0 then (mkVol fs (v_disk v), FR_NO_FILESYSTEM) else
  (* Boundaries and Limits *)
  let fs := set_n_fatent fs (u32 (nclst + 2)) in
  let fs := set_volbase fs (u32 start_sector) in
  let fs := set_fatbase fs (u32 (start_sector + nrsv)) in
  let fs := set_database fs (u32 (start_sector + sysect)) in
  let checked : FATFS * option Z :=
    if fmt =? FS_FAT32 then
      if negb (ld_word w BPB_FSVer32 =? 0) then (fs, None)
      else if negb (n_rootdir fs =? 0) then (fs, None)
      else (set_dirbase fs (ld_dword w BPB_RootClus32), Some (u32 (n_fatent fs * 4)))
    else
      if n_rootdir fs =? 0 then (fs, None)
      else (set_dirbase fs (u32 (fatbase fs + fasize)),
            Some (if fmt =? FS_FAT16 then u32 (n_fatent fs * 2)
                  else u32 (u32 (n_fatent fs * 3) / 2 + Z.land (n_fatent fs) 1))) in
  match checked with
  | (fs, None) => (mkVol fs (v_disk v), FR_NO_FILESYSTEM)
  | (fs, Some szbfat) =>
    if fsize fs <? u32 (szbfat + (SS fs - 1)) / SS fs
    then (mkVol fs (v_disk v), FR_NO_FILESYSTEM) else
    (* Get FSInfo if available *)
    let fs := set_free_clst (set_last_clst fs 0xFFFFFFFF) 0xFFFFFFFF in
    let fs := set_fsi_flag fs 0x80 in
    let v :=
      if (fmt =? FS_FAT32) && (ld_word w BPB_FSInfo32 =? 1) then
        let '(v, res) := move_window (mkVol fs (v_disk v)) (u32 (start_sector + 1)) in
        if is_ok res then
          let fs := set_fsi_flag (v_fs v) 0 in
          let w := win fs in
          if (ld_word w BS_55AA =? 0xAA55)
             && (ld_dword w FSI_LeadSig =? 0x41615252)
             && (ld_dword w FSI_StrucSig =? 0x61417272)
          then mkVol (set_last_clst (set_free_clst fs (ld_dword w FSI_Free_Count))
                                    (ld_dword w FSI_Nxt_Free)) (v_disk v)
          else mkVol fs (v_disk v)
        else v
      else mkVol fs (v_disk v) in
    (mkVol (set_id (set_fs_type (v_fs v) fmt) 0) (v_disk v), FR_OK)
  end.

(** ** Sample volumes used in the examples *)

(** A sector of 512 bytes holding the given 32-bit cells from offset 0. *)
Fixpoint dword_cells (cells : list Z) (p : Z) (b : list Z) : list Z :=
  match cells with
  | [] => b
  | c :: rest => dword_cells rest (p + 4) (st_dword b p c)
  end.

Definition blank_sector : list Z := replicate 512 0.

(** A drive whose sector 32 holds [fat] and whose other sectors are blank;
    transfers fail on the sectors picked by [rd_bad] and [wr_bad]. *)
Definition sample_disk (fat : list Z) (rd_bad wr_bad : Z -> bool) : Disk :=
  mkDisk (fun s => if s =? 32 then fat else blank_sector) rd_bad wr_bad false [].

Definition no_bad (s : Z) : bool := false.

(** A FAT32 volume: 512-byte sectors, one sector per cluster, two FATs of
    one sector each from sector 32, data from sector 34, 100 FAT entries. *)
Definition sample_fs32 (last free : Z) : FATFS :=
  mkFATFS FS_FAT32 2 0 0 1 0 1 512 last free 100 1 0 32 2 34 LBA_NONE blank_sector.

(** Cells 0 and 1 are reserved; the chain 2 -> 3 -> end carries set top
    bits in cell 2; cluster 4 and up are free. *)
Definition sample_fat32 : list Z :=
  dword_cells [0x0FFFFFF8; 0xFFFFFFFF; 0xF0000003; 0x0FFFFFFF] 0 blank_sector.

Definition sample_vol32 : Vol :=
  mkVol (sample_fs32 3 96) (sample_disk sample_fat32 no_bad no_bad).

(** The file of the examples: two clusters (2 -> 3), 1024 bytes, directory
    entry at the start of sector 40, registered in slot 1 of the registry. *)
Definition sample_fil (mode : Z) : FIL :=
  mkFIL 1 1 0 2 1024 1 mode FR_OK 0 0 0 40 0 blank_sector None.

Definition sample_env : Env := mkEnv (fun _ _ => true) 0 SYSTEM_TIME_ENABLE true.

(** The same volume on a drive that cannot read sector 35, the second data
    sector of the file. *)
Definition sample_vol32_bad35 : Vol :=
  mkVol (sample_fs32 3 96) (sample_disk sample_fat32 (fun s => s =? 35) no_bad).

(** A write of 100 bytes at the start of the file, then a read of the rest
    of it, on the drive that cannot read sector 35. *)
Definition sample_latched : option (Xfer * FRESULT) :=
  '(x, _) ← f_write 10 sample_env sample_vol32_bad35
              (sample_fil (Z.lor FA_READ FA_WRITE)) (replicate 100 7) 100;
  f_read 10 sample_env (x_vol x) (x_fp x) [] 1024.

(** The example file after 100 of its bytes were read, then truncated to
    [len] bytes. *)
Definition sample_truncate_at_100 (len : Z) : option (Vol * FIL * FRESULT) :=
  '(x, _) ← f_read 10 sample_env sample_vol32
              (sample_fil (Z.lor FA_READ FA_WRITE)) [] 100;
  f_truncate 10 (x_vol x) (x_fp x) len.

(** The registry seen through f_open: an existing plain file found at offset
    64 of the root directory of volume 1, a blank file object, a table of
    two entries (FF_FS_LOCK = 2). *)
Definition sample_lookup (attr : Z) : Lookup :=
  mkLookup FR_OK 0 attr (mkDIRID 1 0 64) 0.

Definition no_register (v : Vol) (dj : Lookup) : Vol * Lookup * FRESULT :=
  (v, dj, FR_DENIED).

Definition blank_fil : FIL := mkFIL 0 0 0 0 0 0 0 FR_OK 0 0 0 0 0 [] None.

Definition sample_open (files : list FILESEM) (attr mode : Z)
  : option (Vol * list FILESEM * FIL * FRESULT) :=
  f_open 4 sample_env no_register FR_OK sample_vol32 files blank_fil
         (sample_lookup attr) mode.

(** [n] successive f_open(FA_READ) of the file, each of which must succeed. *)
Fixpoint open_readers (n : nat) (files : list FILESEM) : option (list FILESEM) :=
  match n with
  | O => Some files
  | S k =>
    files ← open_readers k files;
    '(_, files, _, res) ← sample_open files AM_ARC FA_READ;
    if is_ok res then Some files else None
  end.


(** A boot sector: 512-byte sectors, [spc] sectors per cluster, [nrsv]
    reserved sectors, [nfats] FATs of [fatsz] sectors, [rootent] root
    directory entries, [totsec] sectors in all (16-bit fields only). *)
Definition sample_bpb (spc nrsv nfats rootent totsec fatsz : Z) : list Z :=
  let b := blank_sector in
  let b := st_word b BPB_BytsPerSec 512 in
  let b := poke b BPB_SecPerClus spc in
  let b := st_word b BPB_RsvdSecCnt nrsv in
  let b := poke b BPB_NumFATs nfats in
  let b := st_word b BPB_RootEntCnt rootent in
  let b := st_word b BPB_TotSec16 totsec in
  st_word b BPB_FATSz16 fatsz.

(** An unmounted filesystem object whose window holds the boot sector [b]. *)
Definition unmounted (b : list Z) : Vol :=
  mkVol (mkFATFS 0 0 0 0 0 0 0 512 0 0 0 0 0 0 0 0 0 b)
        (sample_disk blank_sector no_bad no_bad).

(** *** The shape of a numbered name, as the spec words it *)

(** The character of a hexadecimal digit. *)
Definition hex_char (d : Z) : Z := if d <? 10 then 48 + d else 55 + d.

(** The first [j] bytes of the directory-form name [src] are whole
    characters of its body: none of them begins with a space, and a
    double-byte character (of the code page [tbl]) takes two bytes. *)
Inductive body_prefix (tbl : option (list Z)) (src : list Z) : Z -> Prop :=
| body_prefix_none : body_prefix tbl src 0
| body_prefix_single (j : Z) :
    body_prefix tbl src j -> peek src j <> 32 ->
    dbc_1st tbl (peek src j) = false -> body_prefix tbl src (j + 1)
| body_prefix_double (j : Z) :
    body_prefix tbl src j -> peek src j <> 32 ->
    dbc_1st tbl (peek src j) = true -> body_prefix tbl src (j + 2).

(** [out] is the directory-form name [src] with "~" and the [nd] hexadecimal
    digits of [val] appended to its body and padded with spaces up to the
    extension.  The tail stands at offset [j]: at the end of the body (the
    first space) when it fits into the eight bytes there; otherwise the body
    is cut to make room, the tail ends at the eighth byte, or one byte
    before it when the cut would split a double-byte character. *)
Definition numbered_form (tbl : option (list Z)) (out src : list Z)
  (val j nd : Z) : Prop :=
  1 <= nd <= 4 /\ 0 <= val < 16 ^ nd /\ (nd = 1 \/ 16 ^ (nd - 1) <= val) /\
  body_prefix tbl src j /\ 0 <= j /\ j + 1 + nd <= 8 /\
  (peek src j = 32 \/ j + 1 + nd = 8 \/
   (j + 2 + nd = 8 /\ dbc_1st tbl (peek src j) = true)) /\
  (forall k, 0 <= k < j -> peek out k = peek src k) /\
  peek out j = 126 /\
  (forall t, 0 <= t < nd ->
     peek out (j + 1 + t) = hex_char (val / 16 ^ (nd - 1 - t) mod 16)) /\
  (forall k, j + 1 + nd <= k < 8 -> peek out k = 32) /\
  (forall k, 8 <= k < 11 -> peek out k = peek src k).

(** The number gen_numname puts after the tilde for sequence number [n]
    (lines 1755-1766). *)
Definition numname_value (lfn : list Z) (n : Z) : Z :=
  if n >? 5 then numname_crc lfn n else n.

(** *** The hash of a long name, as the spec words it: a 16-bit CRC *)

(** The sixteen bits of a UTF-16 unit, the lowest first. *)
Definition unit_bits (wc : Z) : list bool :=
  map (fun k => Z.testbit wc (Z.of_nat k)) (seq 0 16).

(** The bits of a long name: those of its units up to the first zero unit. *)
Fixpoint lfn_bits (lfn : list Z) : list bool :=
  match lfn with
  | [] => []
  | wc :: rest => if wc =? 0 then [] else unit_bits wc ++ lfn_bits rest
  end.

(** The number whose binary digits are those of [x] followed by [bits]. *)
Definition append_bits (x : Z) (bits : list bool) : Z :=
  fold_left (fun a b => 2 * a + Z.b2z b) bits x.

(** The remainder of a division of polynomials over GF(2) by
    x^16 + x^12 + x^5 + 1 (0x11021), for a dividend of degree below 16 + h
    given by its bits: from the top down, wherever a coefficient of degree
    16 or more is set, the divisor is subtracted (xor) at that place. *)
Fixpoint crc_rem (h : nat) (x : Z) : Z :=
  match h with
  | O => x
  | S h' =>
    crc_rem h' (if Z.testbit x (16 + Z.of_nat h')
                then Z.lxor x (Z.shiftl 0x11021 (Z.of_nat h')) else x)
  end.

(** The number after the tilde for sequence number [n]: [n] itself up to
    5; above, the CRC of [n] followed by the bits of the long name. *)
Definition tail_number (lfn : list Z) (n : Z) : Z :=
  if n <=? 5 then n
  else crc_rem (length (lfn_bits lfn)) (append_bits n (lfn_bits lfn)).

(** A directory search over a list of short names, for the examples: FR_OK
    when the 11-byte name in [fn] is in the directory. *)
Definition list_dir_find (names : list (list Z)) (fn : list Z)
  : list (list Z) * FRESULT :=
  (names, if existsb (fun e => forallb (fun k => peek e k =? peek fn k)
                                       (map Z.of_nat (seq 0 11))) names
          then FR_OK else FR_NO_FILE).

Definition list_dir_store (names : list (list Z)) (fn sn : list Z)
  : list (list Z) * FRESULT :=
  (take 11 fn :: names, FR_OK).

(** "LONGFILENAME.TXT": the name in directory form with NS_LOSS and NS_LFN,
    and the long name. *)
Definition sample_fn : list Z :=
  [76; 79; 78; 71; 70; 73; 76; 69; 84; 88; 84; 3].
Definition sample_lfn : list Z :=
  [76; 79; 78; 71; 70; 73; 76; 69; 78; 65; 77; 69; 46; 84; 88; 84; 0].

(** A directory in which the numbered names 1 .. k of that file are taken. *)
Definition taken_names (k : nat) : list (list Z) :=
  map (fun n => take 11 (gen_numname None (poke sample_fn NSFLAG NS_NOLFN)
                           (take 12 sample_fn) sample_lfn (Z.of_nat n)))
      (seq 1 k).

(** *** The order of the free-cluster scan, as the spec words it *)

(** The cluster the scan of create_chain(0) starts behind: last_clst, or 1
    when last_clst is not the number of a cluster (line 1248). *)
Definition scan_origin (fs : FATFS) : Z :=
  if (last_clst fs =? 0) || (last_clst fs >=? n_fatent fs) then 1 else last_clst fs.

(** The cluster [j] steps behind [scl] on the ring 2 .. n-1: counting up, and
    from n on again from 2. *)
Definition scan_pos (n scl j : Z) : Z :=
  if scl + j <? n then scl + j else scl + j - n + 2.

(** A cell that holds neither the free mark nor one of the two values
    get_fat reports an error with. *)
Definition cell_in_use (x : Z) : Prop := x <> 0 /\ x <> 1 /\ x <> 0xFFFFFFFF.

(** The sample FAT32 volume with the allocation hint [last] and the free
    count [free]. *)
Definition sample_vol32_hint (last free : Z) : Vol :=
  mkVol (sample_fs32 last free) (sample_disk sample_fat32 no_bad no_bad).

(** * Definitions for the further properties *)


(** ** Properties of the open-file registry *)

(** The counter range the comment on FILESEM gives to an entry in use. *)
Definition reg_ok (files : list FILESEM) : Prop :=
  Forall (fun f => sem_fs f <> 0 -> 1 <= sem_ctr f <= 0x100) files.

(** Two entries that the registry functions cannot tell apart: both blank,
    or the same. *)
Definition sem_equiv (f g : FILESEM) : Prop :=
  sem_fs f = sem_fs g /\ (sem_fs f <> 0 -> f = g).

(** A registry of two entries for the examples: object (1, 0, 64) open by
    three readers, and a blank entry. *)
Definition sample_files : list FILESEM :=
  [mkFILESEM 1 0 64 3; mkFILESEM 0 7 7 0].

(** ** Properties of the FAT access functions *)

(** Every element of the window and of the sectors is a byte. *)
Definition is_byte (x : Z) : Prop := 0 <= x < 256.

Definition bytes_ok (v : Vol) : Prop :=
  Forall is_byte (win (v_fs v)) /\ forall s, Forall is_byte (d_sec (v_disk v) s).

(** What a FAT cell keeps of a value stored into it. *)
Definition cell_mask (fs : FATFS) (val : Z) : Z :=
  if fs_type fs =? FS_FAT12 then Z.land val 0xFFF
  else if fs_type fs =? FS_FAT16 then u16 val
  else Z.land val 0x0FFFFFFF.

(** The byte at offset [k] of the first FAT, as the driver sees it. *)
Definition fat_byte (v : Vol) (k : Z) : Z :=
  peek (sview v (fatbase (v_fs v) + k / SS (v_fs v))) (k mod SS (v_fs v)).



(** A FAT12 volume: 512-byte sectors, one sector per cluster, two FATs of
    one sector each from sector 32, 16 root directory entries in sector 34,
    data from sector 35, 100 FAT entries.  Cells 0 and 1 are reserved, the
    chain 2 -> 3 -> end stands in bytes 3 to 5, cluster 4 and up are free. *)
Definition sample_fat12 : list Z :=
  [0xF8; 0xFF; 0xFF; 0x03; 0xF0; 0xFF] ++ replicate 506 0.

Definition sample_vol12 : Vol :=
  mkVol (mkFATFS FS_FAT12 2 0 0 1 16 1 512 3 96 100 1 0 32 34 35 LBA_NONE blank_sector)
        (sample_disk sample_fat12 no_bad no_bad).

(** ** Properties of the cluster chain functions *)

(** [c :: rest] is a cluster chain of the visible FAT: every cell holds the
    number of the next cluster, the last one a value that is no cluster
    number (an end-of-chain mark). *)
Fixpoint chain_from (v : Vol) (c : Z) (rest : list Z) : Prop :=
  2 <= c < n_fatent (v_fs v) /\
  match rest with
  | [] => n_fatent (v_fs v) <= fat_cell v c /\ fat_cell v c <> 0xFFFFFFFF
  | c' :: rest' => fat_cell v c = c' /\ chain_from v c' rest'
  end.

(** The free count after [k] clusters were freed (line 1184). *)
Definition free_after (fs : FATFS) (k : Z) : Z :=
  if free_clst fs <? n_fatent fs - 2
  then Z.min (free_clst fs + k) (n_fatent fs - 2)
  else free_clst fs.

(** The number of values a cell of the FAT can hold. *)
Definition cell_limit (fs : FATFS) : Z :=
  if fs_type fs =? FS_FAT12 then 0x1000
  else if fs_type fs =? FS_FAT16 then 0x10000
  else 0x10000000.

(** The cluster the scan of create_chain(clst) starts behind when the
    cluster behind clst is taken: last_clst when it is the number of a
    cluster, clst otherwise (lines 1295-1296). *)
Definition stretch_origin (fs : FATFS) (clst : Z) : Z :=
  if (last_clst fs >=? 2) && (last_clst fs <? n_fatent fs) then last_clst fs else clst.

(** The sample FAT32 volume with two chains of one cluster each (clusters 2
    and 3); cluster 4 and up are free. *)
Definition sample_fat32_two : list Z :=
  dword_cells [0x0FFFFFF8; 0xFFFFFFFF; 0x0FFFFFFF; 0x0FFFFFFF] 0 blank_sector.

Definition sample_vol32_two : Vol :=
  mkVol (sample_fs32 3 96) (sample_disk sample_fat32_two no_bad no_bad).


(** ** Properties of the sector window *)

Definition in_fat2 (fs : FATFS) (s : Z) : Prop :=
  fatbase fs + fsize fs <= s < fatbase fs + 2 * fsize fs.

(** The second FAT repeats the first, sector for sector, except for the
    sector that stands changed in the window; and a changed window is not a
    sector of the second FAT. *)
Definition fat_mirrored (v : Vol) : Prop :=
  (wflag (v_fs v) <> 0 -> ~ in_fat2 (v_fs v) (winsect (v_fs v))) /\
  forall s, in_fat1 (v_fs v) s ->
    (s = winsect (v_fs v) -> wflag (v_fs v) = 0) ->
    d_sec (v_disk v) (s + fsize (v_fs v)) = d_sec (v_disk v) s.

(** The two FATs are the same on the medium. *)
Definition fat_copies_equal (v : Vol) : Prop :=
  forall s, in_fat1 (v_fs v) s ->
    d_sec (v_disk v) (s + fsize (v_fs v)) = d_sec (v_disk v) s.

(** The sample FAT32 volume with FAT sector 32 changed in the window
    (cluster 4 marked as the end of a chain) and not yet written back, on a
    drive that refuses to write the sectors of [wr_bad]. *)
Definition sample_vol32_dirty (wr_bad : Z -> bool) : Vol :=
  mkVol (set_wflag (set_winsect (set_win (sample_fs32 3 96)
                                   (st_dword sample_fat32 16 0x0FFFFFFF)) 32) 1)
        (sample_disk sample_fat32 no_bad wr_bad).

(** What the FAT functions keep on a volume with two FATs whose drive works. *)
Definition fat_inv (v : Vol) : Prop :=
  vol_wf v /\ reliable (v_disk v) /\ bytes_ok v /\ n_fats (v_fs v) = 2 /\
  fat_mirrored v.

(** The sample FAT32 volume with the FAT in both copies (sectors 32 and 33). *)
Definition sample_vol32_two_fats : Vol :=
  mkVol (sample_fs32 3 96)
        (mkDisk (fun s => if (s =? 32) || (s =? 33) then sample_fat32 else blank_sector)
                no_bad no_bad false []).


(** ** Properties of f_read *)

(** The number of bytes f_read is to move: the request, cut at the end of
    the file (lines 3569-3570). *)
Definition read_span (fp : FIL) (btr : Z) : Z :=
  Z.min btr (obj_objsize fp - fptr fp).

(** What holds at the head of each pass of the transfer loop of f_read that
    started at file pointer [f0] to move [B] bytes of a file of [size]
    bytes. *)
Definition read_inv (B f0 size ss cs : Z) (x : Xfer) (btr : Z) : Prop :=
  0 <= btr /\ 0 <= x_cnt x /\ x_cnt x + btr = B /\
  fptr (x_fp x) = f0 + x_cnt x /\ obj_objsize (x_fp x) = size /\
  SS (v_fs (x_vol x)) = ss /\ csize (v_fs (x_vol x)) = cs.

(** What holds when f_read returns. *)
Definition read_done (B f0 size : Z) (x : Xfer) (res : FRESULT) : Prop :=
  0 <= x_cnt x <= B /\ fptr (x_fp x) = f0 + x_cnt x /\
  obj_objsize (x_fp x) = size /\ (res = FR_OK -> x_cnt x = B).



(** ** Properties of the directory entry of an open file *)

(** The sample FAT32 volume and the example file after a write that left
    the file changed: 1500 bytes, FA_MODIFIED set, nothing pending in the
    private buffer. *)
Definition sample_fil_modified : FIL :=
  mkFIL 1 1 0 2 1500 1 (Z.lor (Z.lor FA_READ FA_WRITE) FA_MODIFIED) FR_OK 1500 3 0
        40 64 blank_sector None.


(** ** Properties of the geometry set up by init_fatobj *)

(** Fields of the boot sector, as init_fatobj reads them: the size of one
    FAT, the size of the volume, and the sectors before the data area
    (reserved sectors, FATs, root directory), all in sectors. *)
Definition bpb_fatsz (w : list Z) : Z :=
  if ld_word w BPB_FATSz16 =? 0 then ld_dword w BPB_FATSz32 else ld_word w BPB_FATSz16.

Definition bpb_totsec (w : list Z) : Z :=
  if ld_word w BPB_TotSec16 =? 0 then ld_dword w BPB_TotSec32 else ld_word w BPB_TotSec16.

Definition bpb_sysect (ss : Z) (w : list Z) : Z :=
  ld_word w BPB_RsvdSecCnt + bpb_fatsz w * peek w BPB_NumFATs +
  ld_word w BPB_RootEntCnt / (ss / SZDIRE).


(** ** Properties of f_write *)

(** The number of bytes f_write is to move: the request, cut so that the
    file pointer does not pass 0xFFFFFFFF (lines 3677-3679). *)
Definition write_span (fp : FIL) (btw : Z) : Z := Z.min btw (0xFFFFFFFF - fptr fp).

(** The parts of the filesystem object no FAT access and no allocation
    changes: everything but the window, the allocation hints and the
    FSINFO flag. *)
Definition layout (fs : FATFS) : FATFS :=
  frame (set_free_clst (set_last_clst (set_fsi_flag fs 0) 0) 0).

(** What holds at the head of each pass of the transfer loop of f_write that
    started at file pointer [f0] to move [B] bytes into a file of [size0]
    bytes. *)
Definition write_inv (B f0 size0 ss cs n : Z) (x : Xfer) (btw : Z) : Prop :=
  0 <= btw /\ 0 <= x_cnt x /\ x_cnt x + btw = B /\
  fptr (x_fp x) = f0 + x_cnt x /\
  obj_objsize (x_fp x) = Z.max size0 (fptr (x_fp x)) /\
  SS (v_fs (x_vol x)) = ss /\ csize (v_fs (x_vol x)) = cs /\
  n_fatent (v_fs (x_vol x)) = n /\ 0 <= last_clst (v_fs (x_vol x)).

(** What holds when f_write returns. *)
Definition write_done (B f0 size0 : Z) (x : Xfer) (res : FRESULT) : Prop :=
  0 <= x_cnt x <= B /\ fptr (x_fp x) = f0 + x_cnt x /\
  obj_objsize (x_fp x) = Z.max size0 (fptr (x_fp x)) /\
  (res = FR_OK -> x_cnt x = B) /\
  (res = FR_OK \/ res = FR_NO_SPACE_LEFT ->
   has (flag (x_fp x)) FA_MODIFIED = true).


(** ** Properties of sync_fs *)

(** A sector of [ss] bytes that holds an FSINFO structure carrying the free
    cluster count [free] and the allocation hint [last], and zeroes in its
    other bytes. *)
Definition fsinfo_image (ss free last : Z) (sec : list Z) : Prop :=
  length sec = Z.to_nat ss /\
  ld_dword sec FSI_LeadSig = 0x41615252 /\
  ld_dword sec FSI_StrucSig = 0x61417272 /\
  ld_dword sec FSI_Free_Count = free /\
  ld_dword sec FSI_Nxt_Free = last /\
  ld_word sec BS_55AA = 0xAA55 /\
  forall i, 4 <= i < 484 \/ 496 <= i < 510 \/ 512 <= i < ss -> peek sec i = 0.

(** The volume of the examples with its FSINFO data out of date, on a drive
    that refuses to write the sectors picked by [wr_bad]. *)
Definition sample_vol32_fsinfo (wr_bad : Z -> bool) : Vol :=
  mkVol (set_fsi_flag (sample_fs32 3 96) 1) (sample_disk sample_fat32 no_bad wr_bad).


(** ** Facts about the byte codec *)

Lemma peek_poke_eq (b : list Z) (i v : Z) :
  (Z.to_nat i < length b)%nat -> peek (poke b i v) i = v.
Proof.
  intros H. unfold peek, poke.
  rewrite list_lookup_insert_eq by exact H. reflexivity.
Qed.

Lemma peek_poke_ne (b : list Z) (i j v : Z) :
  0 <= i -> 0 <= j -> i <> j -> peek (poke b i v) j = peek b j.
Proof.
  intros Hi Hj Hne. unfold peek, poke.
  rewrite list_lookup_insert_ne by lia. reflexivity.
Qed.

Lemma poke_length (b : list Z) (i v : Z) : length (poke b i v) = length b.
Proof. unfold poke. apply length_insert. Qed.

Lemma lor_shiftl8 (a b : Z) :
  0 <= a -> 0 <= b < 256 -> Z.lor (Z.shiftl a 8) b = a * 256 + b.
Proof.
  intros Ha Hb.
  assert (Hland : Z.land (Z.shiftl a 8) b = 0).
  { apply Z.bits_inj'. intros n Hn.
    rewrite Z.land_spec, Z.bits_0.
    destruct (Z.ltb_spec n 8) as [Hlt | Hge].
    - rewrite Z.shiftl_spec_low by lia. reflexivity.
    - replace (Z.testbit b n) with false; [apply andb_false_r |].
      symmetry. destruct (Z.eq_dec b 0) as [-> | Hne]; [apply Z.bits_0 |].
      apply Z.bits_above_log2; [lia |].
      apply Z.log2_lt_pow2; [lia |].
      apply Z.lt_le_trans with (2 ^ 8); [simpl; lia |].
      apply Z.pow_le_mono_r; lia. }
  rewrite <- Z.lxor_lor by exact Hland.
  rewrite <- Z.add_nocarry_lxor by exact Hland.
  rewrite Z.shiftl_mul_pow2 by lia. reflexivity.
Qed.

Lemma ld_st_dword (b : list Z) (p x : Z) :
  0 <= p -> (Z.to_nat (p + 3) < length b)%nat -> 0 <= x < 4294967296 ->
  ld_dword (st_dword b p x) p = x.
Proof.
  intros Hp Hlen Hx. unfold ld_dword, st_dword.
  rewrite peek_poke_eq by (rewrite !poke_length; lia).
  rewrite peek_poke_ne by lia.
  rewrite peek_poke_eq by (rewrite !poke_length; lia).
  rewrite !(peek_poke_ne _ (p + 3)) by lia.
  rewrite peek_poke_ne by lia.
  rewrite peek_poke_eq by (rewrite !poke_length; lia).
  rewrite !(peek_poke_ne _ _ p) by lia.
  rewrite peek_poke_eq by lia.
  rewrite !Z.shiftr_shiftr by lia.
  rewrite !Z.shiftr_div_pow2 by lia.
  change (2 ^ 8) with 256. change (2 ^ (8 + 8)) with 65536.
  change (2 ^ (8 + (8 + 8))) with 16777216.
  unfold u8, u32.
  assert (E : x = (((x / 16777216) mod 256 * 256 + (x / 65536) mod 256) * 256
                   + (x / 256) mod 256) * 256 + x mod 256)
    by (Z.div_mod_to_equations; lia).
  assert (H3 : 0 <= (x / 16777216) mod 256 < 256) by (apply Z.mod_pos_bound; lia).
  assert (H2 : 0 <= (x / 65536) mod 256 < 256) by (apply Z.mod_pos_bound; lia).
  assert (H1 : 0 <= (x / 256) mod 256 < 256) by (apply Z.mod_pos_bound; lia).
  assert (H0 : 0 <= x mod 256 < 256) by (apply Z.mod_pos_bound; lia).
  revert E H3 H2 H1 H0.
  generalize ((x / 16777216) mod 256) ((x / 65536) mod 256)
             ((x / 256) mod 256) (x mod 256).
  intros b3 b2 b1 b0 E H3 H2 H1 H0.
  rewrite (lor_shiftl8 b3 b2) by lia.
  rewrite (Z.mod_small (b3 * 256 + b2)) by lia.
  rewrite (lor_shiftl8 _ b1) by lia.
  rewrite (Z.mod_small (_ * 256 + b1)) by lia.
  rewrite (lor_shiftl8 _ b0) by lia.
  rewrite (Z.mod_small (_ * 256 + b0)) by lia.
  lia.
Qed.

Lemma st_dword_other (b : list Z) (p x j : Z) :
  0 <= p -> 0 <= j -> (j < p \/ p + 4 <= j) ->
  peek (st_dword b p x) j = peek b j.
Proof.
  intros Hp Hj Hout. unfold st_dword.
  rewrite !peek_poke_ne by lia. reflexivity.
Qed.

Lemma st_dword_length (b : list Z) (p x : Z) :
  length (st_dword b p x) = length b.
Proof. unfold st_dword. rewrite !poke_length. reflexivity. Qed.

Lemma ld_dword_range (b : list Z) (p : Z) : 0 <= ld_dword b p < 4294967296.
Proof. unfold ld_dword, u32. apply Z.mod_pos_bound. lia. Qed.

Lemma frame_fields (a b : FATFS) :
  frame a = frame b ->
  fs_type a = fs_type b /\ n_fats a = n_fats b /\ csize a = csize b /\
  ssize a = ssize b /\ n_fatent a = n_fatent b /\ fsize a = fsize b /\
  fatbase a = fatbase b /\ database a = database b /\
  last_clst a = last_clst b /\ free_clst a = free_clst b /\
  fsi_flag a = fsi_flag b /\ id a = id b /\ volbase a = volbase b /\
  n_rootdir a = n_rootdir b /\ dirbase a = dirbase b.
Proof.
  destruct a, b. unfold frame, set_wflag, set_winsect, set_win. simpl.
  intros H. injection H. intros. subst. repeat split.
Qed.

Lemma frame_geom_ok (a b : FATFS) :
  frame a = frame b -> geom_ok a = geom_ok b.
Proof.
  intros H. apply frame_fields in H.
  destruct H as (H1 & H2 & H3 & H4 & H5 & H6 & H7 & _).
  unfold geom_ok, szbfat, SS. rewrite H1, H4, H5, H6, H7. reflexivity.
Qed.

Lemma fat_eq_refl (v : Vol) : fat_eq v v.
Proof. split; [reflexivity | intros; reflexivity]. Qed.

Lemma fat_eq_trans (a b c : Vol) : fat_eq a b -> fat_eq b c -> fat_eq a c.
Proof.
  intros [F1 V1] [F2 V2]. split.
  - congruence.
  - intros s Hs. rewrite V2, V1; [reflexivity | exact Hs |].
    apply frame_fields in F1. destruct F1 as (_ & _ & _ & _ & _ & E1 & E2 & _).
    unfold in_fat1 in *. rewrite E1, E2. exact Hs.
Qed.

Lemma u32_small (x : Z) : 0 <= x < 4294967296 -> u32 x = x.
Proof. intros H. unfold u32. apply Z.mod_small. exact H. Qed.

Lemma geom_ok_facts (fs : FATFS) :
  geom_ok fs = true ->
  (fs_type fs = FS_FAT12 \/ fs_type fs = FS_FAT16 \/ fs_type fs = FS_FAT32) /\
  0 < SS fs /\ SS fs mod 4 = 0 /\ 0 <= fatbase fs /\ 0 <= fsize fs /\
  fatbase fs + 2 * fsize fs <= 4294967296 /\
  (0 <= n_fatent fs /\ szbfat fs <= 4294967296) /\
  szbfat fs <= fsize fs * SS fs.
Proof.
  unfold geom_ok. rewrite !andb_true_iff, !orb_true_iff.
  rewrite !Z.eqb_eq, !Z.ltb_lt, !Z.leb_le. tauto.
Qed.

Lemma gather_one (d : Disk) (s : Z) : gather d s (Z.to_nat 1) = d_sec d s.
Proof. simpl. apply app_nil_r. Qed.

Lemma any_bad_none (bad : Z -> bool) (s : Z) (n : nat) :
  (forall x, bad x = false) -> any_bad bad s n = false.
Proof.
  intros H. revert s. induction n as [| n IH]; intros s; simpl.
  - reflexivity.
  - rewrite H, IH. reflexivity.
Qed.

Lemma mirror_sector (w fb fz : Z) :
  0 <= w < 4294967296 -> 0 <= fb -> 0 <= fz -> fb + 2 * fz <= 4294967296 ->
  u32 (w - fb) < fz -> fb <= w < fb + fz /\ u32 (w + fz) = w + fz.
Proof.
  intros Hw Hfb Hfz Hsum Hlt. unfold u32 in *.
  assert (Hge : fb <= w).
  { destruct (Z_lt_le_dec w fb) as [Hc | Hc]; [| exact Hc].
    exfalso.
    assert (E : (w - fb) mod 4294967296 = w - fb + 4294967296).
    { symmetry. apply Z.mod_unique with (q := -1); lia. }
    lia. }
  rewrite Z.mod_small in Hlt by lia.
  split; [lia |]. apply Z.mod_small. lia.
Qed.

Lemma take_all (b : list Z) (n : Z) :
  length b = Z.to_nat n -> take (Z.to_nat n) b = b.
Proof. intros H. apply take_ge. lia. Qed.

Lemma disk_write_one (d : Disk) (ss : Z) (b : list Z) (s : Z) :
  (forall x, d_wr_bad d x = false) -> length b = Z.to_nat ss ->
  disk_write d ss b s 1 = (d_store (d_note d (IoWrite s 1)) s b, true).
Proof.
  intros Hwr Hlen. unfold disk_write.
  rewrite (any_bad_none _ _ _ Hwr).
  change (Z.to_nat 1) with 1%nat. cbn [scatter].
  rewrite (take_all _ _ Hlen). reflexivity.
Qed.

Lemma disk_read_one (d : Disk) (s : Z) :
  (forall x, d_rd_bad d x = false) ->
  disk_read d s 1 = (d_note d (IoRead s 1), Some (d_sec d s)).
Proof.
  intros Hrd. unfold disk_read.
  rewrite (any_bad_none _ _ _ Hrd), gather_one. reflexivity.
Qed.

(** *** sync_window on a reliable drive *)

Lemma sync_window_ok (v : Vol) :
  vol_wf v -> reliable (v_disk v) ->
  exists v', sync_window v = (v', FR_OK) /\ vol_wf v' /\ reliable (v_disk v') /\
    fat_eq v v' /\ winsect (v_fs v') = winsect (v_fs v) /\
    win (v_fs v') = win (v_fs v) /\
    (in_fat1 (v_fs v) (winsect (v_fs v)) ->
     d_sec (v_disk v') (winsect (v_fs v)) = win (v_fs v)).
Proof.
  intros Hwf [Hrd Hwr].
  destruct (geom_ok_facts _ (wf_geom _ Hwf))
    as (Hty & Hss & Hss4 & Hfb & Hfz & Hsum & Hn & Hsz).
  pose proof (wf_winsect _ Hwf) as Hws.
  destruct v as [fs d]. simpl in *.
  unfold sync_window. simpl.
  destruct (nz (wflag fs)) eqn:Hdirty.
  2:{ exists (mkVol fs d). split; [reflexivity |].
      split; [exact Hwf |]. split; [split; assumption |].
      split; [apply fat_eq_refl |]. split; [reflexivity |].
      split; [reflexivity |].
      intros Hin. apply (wf_clean _ Hwf); simpl; [| exact Hin].
      unfold nz in Hdirty. apply negb_false_iff, Z.eqb_eq in Hdirty.
      exact Hdirty. }
  rewrite (disk_write_one _ _ _ _ Hwr (wf_win _ Hwf)). cbn [winsect set_wflag
    fatbase fsize n_fats win SS ssize].
  destruct (u32 (winsect fs - fatbase fs) <? fsize fs) eqn:Hfat.
  - apply Z.ltb_lt in Hfat.
    destruct (mirror_sector _ _ _ Hws Hfb Hfz Hsum Hfat) as [Hin Hmir].
    destruct (n_fats fs =? 2) eqn:Hn2.
    + rewrite disk_write_one by (try exact Hwr; apply (wf_win _ Hwf)).
      eexists. split; [reflexivity |]. simpl.
      split.
      { constructor; simpl.
        - rewrite <- (wf_geom _ Hwf). apply frame_geom_ok. reflexivity.
        - apply (wf_win _ Hwf).
        - intros s. destruct (s =? _); [apply (wf_win _ Hwf) |].
          destruct (s =? _); [apply (wf_win _ Hwf) | apply (wf_sec _ Hwf)].
        - exact Hws.
        - intros _ _. rewrite Hmir.
          destruct (winsect fs =? winsect fs + fsize fs) eqn:E;
            [reflexivity |].
          rewrite Z.eqb_refl. reflexivity. }
      split; [split; assumption |].
      split.
      { split; [reflexivity |]. intros s Hs. unfold sview. simpl.
        destruct (s =? winsect fs) eqn:E1; [reflexivity |].
        rewrite Hmir. unfold in_fat1 in Hs. simpl in Hs.
        destruct (s =? winsect fs + fsize fs) eqn:E2.
        - apply Z.eqb_eq in E2. lia.
        - reflexivity. }
      split; [reflexivity |]. split; [reflexivity |].
      intros _. rewrite Hmir.
      destruct (winsect fs =? winsect fs + fsize fs); [reflexivity |].
      rewrite Z.eqb_refl. reflexivity.
    + eexists. split; [reflexivity |]. simpl.
      split.
      { constructor; simpl.
        - rewrite <- (wf_geom _ Hwf). apply frame_geom_ok. reflexivity.
        - apply (wf_win _ Hwf).
        - intros s. destruct (s =? _); [apply (wf_win _ Hwf) | apply (wf_sec _ Hwf)].
        - exact Hws.
        - intros _ _. rewrite Z.eqb_refl. reflexivity. }
      split; [split; assumption |].
      split.
      { split; [reflexivity |]. intros s Hs. unfold sview. simpl.
        destruct (s =? winsect fs) eqn:E1; reflexivity. }
      split; [reflexivity |]. split; [reflexivity |].
      intros _. rewrite Z.eqb_refl. reflexivity.
  - eexists. split; [reflexivity |]. simpl.
    split.
    { constructor; simpl.
      - rewrite <- (wf_geom _ Hwf). apply frame_geom_ok. reflexivity.
      - apply (wf_win _ Hwf).
      - intros s. destruct (s =? _); [apply (wf_win _ Hwf) | apply (wf_sec _ Hwf)].
      - exact Hws.
      - intros _ _. rewrite Z.eqb_refl. reflexivity. }
    split; [split; assumption |].
    split.
    { split; [reflexivity |]. intros s Hs. unfold sview. simpl.
      destruct (s =? winsect fs) eqn:E1; reflexivity. }
    split; [reflexivity |]. split; [reflexivity |].
    intros _. rewrite Z.eqb_refl. reflexivity.
Qed.

(** *** move_window on a reliable drive *)

Lemma move_window_ok (v : Vol) (sect : Z) :
  vol_wf v -> reliable (v_disk v) -> 0 <= sect < 4294967296 ->
  exists v', move_window v sect = (v', FR_OK) /\ vol_wf v' /\
    reliable (v_disk v') /\ fat_eq v v' /\ winsect (v_fs v') = sect /\
    (in_fat1 (v_fs v) sect -> win (v_fs v') = sview v sect).
Proof.
  intros Hwf Hrel Hsect. unfold move_window.
  destruct (sect =? winsect (v_fs v)) eqn:Esame; simpl.
  - apply Z.eqb_eq in Esame. exists v.
    split; [reflexivity |]. split; [exact Hwf |]. split; [exact Hrel |].
    split; [apply fat_eq_refl |]. split; [symmetry; exact Esame |].
    intros _. unfold sview. rewrite Esame, Z.eqb_refl. reflexivity.
  - destruct (sync_window_ok v Hwf Hrel)
      as (v1 & Hsync & Hwf1 & Hrel1 & Heq1 & Hws1 & Hwin1 & Hflush).
    rewrite Hsync. simpl.
    rewrite (disk_read_one _ _ (proj1 Hrel1)).
    eexists. split; [reflexivity |].
    destruct Heq1 as [Hfr1 Hview1]. simpl.
    split.
    { constructor; simpl.
      - rewrite <- (wf_geom _ Hwf1). apply frame_geom_ok. reflexivity.
      - apply (wf_sec _ Hwf1).
      - apply (wf_sec _ Hwf1).
      - exact Hsect.
      - intros _ _. reflexivity. }
    split; [exact Hrel1 |].
    assert (Hat : in_fat1 (v_fs v) sect -> d_sec (v_disk v1) sect = sview v sect).
    { intros Hin. rewrite <- (Hview1 _ Hin). unfold sview.
      rewrite Hws1, Esame. reflexivity. }
    split.
    { split; [exact Hfr1 |]. intros s Hs. unfold sview at 1. simpl.
      destruct (s =? sect) eqn:E.
      - apply Z.eqb_eq in E. subst s. apply Hat, Hs.
      - rewrite <- (Hview1 _ Hs). unfold sview. rewrite Hws1.
        destruct (s =? winsect (v_fs v)) eqn:E2; [| reflexivity].
        apply Z.eqb_eq in E2. subst s. rewrite Hwin1. apply Hflush, Hs. }
    split; [reflexivity |]. exact Hat.
Qed.

Lemma land_1_mod (n : Z) : Z.land n 1 = n mod 2.
Proof. change 1 with (Z.ones 1). rewrite Z.land_ones by lia. reflexivity. Qed.

(** Where the entry of a valid cluster lies, given the mounted geometry. *)
Lemma fat_entry_bounds (fs : FATFS) (c : Z) :
  geom_ok fs = true -> 2 <= c < n_fatent fs ->
  (fs_type fs = FS_FAT32 ->
     0 <= c / (SS fs / 4) < fsize fs /\ c * 4 < 4294967296) /\
  (fs_type fs = FS_FAT16 ->
     0 <= c / (SS fs / 2) < fsize fs /\ c * 2 < 4294967296) /\
  (fs_type fs = FS_FAT12 ->
     0 <= (c + c / 2) / SS fs /\ (c + c / 2 + 1) / SS fs < fsize fs /\
     c + c / 2 + 1 < 4294967296).
Proof.
  intros Hg Hc.
  destruct (geom_ok_facts _ Hg) as (Hty & Hss & Hss4 & Hfb & Hfz & Hsum & [Hn Hsb] & Hsz).
  unfold szbfat in *.
  assert (Hk : SS fs = 4 * (SS fs / 4)) by (Z.div_mod_to_equations; lia).
  assert (Hk2 : SS fs / 2 = 2 * (SS fs / 4)) by (Z.div_mod_to_equations; lia).
  assert (Hkpos : 0 < SS fs / 4) by lia.
  split; [| split]; intros Ety; rewrite Ety in *.
  - change (FS_FAT32 =? FS_FAT32) with true in *. cbv iota in *.
    split; [| lia]. split; [apply Z.div_pos; lia |].
    apply Z.div_lt_upper_bound; [lia |]. nia.
  - change (FS_FAT16 =? FS_FAT32) with false in *.
    change (FS_FAT16 =? FS_FAT16) with true in *. cbv iota in *.
    split; [| lia]. rewrite Hk2. split; [apply Z.div_pos; lia |].
    apply Z.div_lt_upper_bound; [lia |]. nia.
  - change (FS_FAT12 =? FS_FAT32) with false in *.
    change (FS_FAT12 =? FS_FAT16) with false in *. cbv iota in *.
    rewrite land_1_mod in *.
    assert (Hb : c + c / 2 + 1 < n_fatent fs * 3 / 2 + n_fatent fs mod 2)
      by (Z.div_mod_to_equations; lia).
    split; [apply Z.div_pos; Z.div_mod_to_equations; lia |].
    split; [| lia].
    apply Z.div_lt_upper_bound; [lia |]. nia.
Qed.

Lemma in_fat1_frame (a b : FATFS) (s : Z) :
  frame a = frame b -> in_fat1 a s -> in_fat1 b s.
Proof.
  intros H. apply frame_fields in H.
  destruct H as (_ & _ & _ & _ & _ & E1 & E2 & _).
  unfold in_fat1. rewrite E1, E2. tauto.
Qed.

Lemma valid_clst_test (c n : Z) :
  2 <= c < n -> (c <? 2) || (c >=? n) = false.
Proof.
  intros H. apply orb_false_iff. split; [apply Z.ltb_ge; lia |].
  rewrite Z.geb_leb. apply Z.leb_gt. lia.
Qed.

(** *** get_fat on a reliable drive returns the cell of the visible FAT *)

Lemma get_fat_ok (v : Vol) (c : Z) :
  vol_wf v -> reliable (v_disk v) -> 2 <= c < n_fatent (v_fs v) ->
  exists v', get_fat v c = (v', fat_cell v c) /\ vol_wf v' /\
    reliable (v_disk v') /\ fat_eq v v'.
Proof.
  intros Hwf Hrel Hc.
  pose proof (wf_geom _ Hwf) as Hg.
  destruct (geom_ok_facts _ Hg) as (Hty & Hss & Hss4 & Hfb & Hfz & Hsum & [Hn Hsb] & Hsz).
  destruct (fat_entry_bounds _ c Hg Hc) as (B32 & B16 & B12).
  unfold get_fat, fat_cell, fat32_raw.
  rewrite (valid_clst_test _ _ Hc).
  destruct Hty as [Ety | [Ety | Ety]]; rewrite Ety.
  - (* FAT12 *)
    change (FS_FAT12 =? FS_FAT12) with true. cbv iota.
    destruct (B12 Ety) as (Hi0 & Hi1 & Hlt).
    assert (Hi0' : (c + c / 2) / SS (v_fs v) < fsize (v_fs v)).
    { apply Z.le_lt_trans with ((c + c / 2 + 1) / SS (v_fs v)); [| exact Hi1].
      apply Z.div_le_mono; lia. }
    assert (Hi1' : 0 <= (c + c / 2 + 1) / SS (v_fs v))
      by (apply Z.div_pos; Z.div_mod_to_equations; lia).
    rewrite (u32_small (c + c / 2)) by (Z.div_mod_to_equations; lia).
    rewrite (u32_small (c + c / 2 + 1)) by (Z.div_mod_to_equations; lia).
    rewrite !u32_small by lia.
    destruct (move_window_ok v (fatbase (v_fs v) + (c + c / 2) / SS (v_fs v))
                Hwf Hrel ltac:(lia))
      as (v1 & Hm1 & Hwf1 & Hrel1 & Heq1 & Hws1 & Hwin1).
    rewrite Hm1. cbn [is_ok FRESULT_eqb negb].
    assert (Hfr1 : frame (v_fs v) = frame (v_fs v1)) by (symmetry; apply Heq1).
    destruct (move_window_ok v1 (fatbase (v_fs v) + (c + c / 2 + 1) / SS (v_fs v))
                Hwf1 Hrel1 ltac:(lia))
      as (v2 & Hm2 & Hwf2 & Hrel2 & Heq2 & Hws2 & Hwin2).
    rewrite Hm2. cbn [is_ok FRESULT_eqb negb].
    eexists. split.
    + f_equal. rewrite Hwin1 by (unfold in_fat1; lia).
      rewrite Hwin2 by (apply (in_fat1_frame _ _ _ Hfr1); unfold in_fat1; lia).
      rewrite (proj2 Heq1) by (unfold in_fat1; lia).
      reflexivity.
    + split; [exact Hwf2 |]. split; [exact Hrel2 |].
      apply fat_eq_trans with v1; assumption.
  - (* FAT16 *)
    change (FS_FAT16 =? FS_FAT12) with false.
    change (FS_FAT16 =? FS_FAT16) with true. cbv iota.
    destruct (B16 Ety) as (Hi & Hlt).
    rewrite (u32_small (c * 2)) by lia.
    rewrite !u32_small by lia.
    destruct (move_window_ok v (fatbase (v_fs v) + c / (SS (v_fs v) / 2))
                Hwf Hrel ltac:(lia))
      as (v1 & Hm1 & Hwf1 & Hrel1 & Heq1 & Hws1 & Hwin1).
    rewrite Hm1. cbn [is_ok FRESULT_eqb negb].
    eexists. split.
    + f_equal. rewrite Hwin1 by (unfold in_fat1; lia). reflexivity.
    + split; [exact Hwf1 |]. split; [exact Hrel1 |]. exact Heq1.
  - (* FAT32 *)
    change (FS_FAT32 =? FS_FAT12) with false.
    change (FS_FAT32 =? FS_FAT16) with false.
    change (FS_FAT32 =? FS_FAT32) with true. cbv iota.
    destruct (B32 Ety) as (Hi & Hlt).
    rewrite (u32_small (c * 4)) by lia.
    rewrite !u32_small by lia.
    destruct (move_window_ok v (fatbase (v_fs v) + c / (SS (v_fs v) / 4))
                Hwf Hrel ltac:(lia))
      as (v1 & Hm1 & Hwf1 & Hrel1 & Heq1 & Hws1 & Hwin1).
    rewrite Hm1. cbn [is_ok FRESULT_eqb negb].
    eexists. split.
    + f_equal. rewrite Hwin1 by (unfold in_fat1; lia). reflexivity.
    + split; [exact Hwf1 |]. split; [exact Hrel1 |]. exact Heq1.
Qed.

Lemma fat32_merge_low (val old : Z) :
  Z.land (fat32_merge val old) 0x0FFFFFFF = Z.land val 0x0FFFFFFF.
Proof.
  unfold fat32_merge.
  rewrite Z.land_lor_distr_l, <- !Z.land_assoc.
  change (Z.land 0x0FFFFFFF 0x0FFFFFFF) with 0x0FFFFFFF.
  change (Z.land 0xF0000000 0x0FFFFFFF) with 0.
  rewrite Z.land_0_r, Z.lor_0_r. reflexivity.
Qed.

Lemma fat32_merge_high (val old : Z) :
  Z.land (fat32_merge val old) 0xF0000000 = Z.land old 0xF0000000.
Proof.
  unfold fat32_merge.
  rewrite Z.land_lor_distr_l, <- !Z.land_assoc.
  change (Z.land 0x0FFFFFFF 0xF0000000) with 0.
  change (Z.land 0xF0000000 0xF0000000) with 0xF0000000.
  rewrite Z.land_0_r, Z.lor_0_l. reflexivity.
Qed.

Lemma fat32_merge_range (val old : Z) : 0 <= fat32_merge val old < 4294967296.
Proof.
  assert (E : Z.land (fat32_merge val old) (Z.ones 32) = fat32_merge val old).
  { unfold fat32_merge.
    rewrite Z.land_lor_distr_l, <- !Z.land_assoc. reflexivity. }
  rewrite Z.land_ones in E by lia. rewrite <- E.
  apply Z.mod_pos_bound. reflexivity.
Qed.

Lemma aligned_offset (c ss k : Z) :
  0 < k -> 0 < ss -> ss mod k = 0 -> 0 <= c ->
  0 <= c * k mod ss /\ c * k mod ss + k <= ss.
Proof.
  intros Hk Hss Hdiv Hc.
  apply Z.mod_divide in Hdiv; [| lia].
  assert (Hm : (c * k mod ss) mod k = 0).
  { rewrite Z.mod_mod_divide by exact Hdiv. apply Z.mod_mul. lia. }
  pose proof (Z.mod_pos_bound (c * k) ss Hss) as Hb.
  split; [lia |].
  apply Z.mod_divide in Hm; [| lia]. destruct Hm as [q Hq].
  destruct Hdiv as [r Hr].
  revert Hb. rewrite Hq. subst ss. intros Hb.
  assert (q < r) by nia. nia.
Qed.

Lemma put_fat32_ok (v : Vol) (c val : Z) :
  vol_wf v -> reliable (v_disk v) -> fs_type (v_fs v) = FS_FAT32 ->
  2 <= c < n_fatent (v_fs v) ->
  exists v', put_fat v c val = (v', FR_OK) /\ vol_wf v' /\
    reliable (v_disk v') /\ frame (v_fs v') = frame (v_fs v) /\
    fat32_raw v' c = fat32_merge val (fat32_raw v c).
Proof.
  intros Hwf Hrel Ety Hc.
  pose proof (wf_geom _ Hwf) as Hg.
  destruct (geom_ok_facts _ Hg) as (Hty & Hss & Hss4 & Hfb & Hfz & Hsum & [Hn Hsb] & Hsz).
  destruct (fat_entry_bounds _ c Hg Hc) as (B32 & _ & _).
  destruct (B32 Ety) as (Hi & Hlt).
  destruct (aligned_offset c (SS (v_fs v)) 4 ltac:(lia) Hss Hss4 ltac:(lia))
    as [Hp0 Hp4].
  unfold put_fat.
  replace ((c >=? 2) && (c <? n_fatent (v_fs v))) with true
    by (symmetry; apply andb_true_iff; split;
        [rewrite Z.geb_leb; apply Z.leb_le | apply Z.ltb_lt]; lia).
  rewrite Ety.
  change (FS_FAT32 =? FS_FAT12) with false.
  change (FS_FAT32 =? FS_FAT16) with false.
  change (FS_FAT32 =? FS_FAT32) with true. cbv iota.
  rewrite (u32_small (c * 4)) by lia.
  rewrite !u32_small by lia.
  destruct (move_window_ok v (fatbase (v_fs v) + c / (SS (v_fs v) / 4))
              Hwf Hrel ltac:(lia))
    as (v1 & Hm1 & Hwf1 & Hrel1 & Heq1 & Hws1 & Hwin1).
  rewrite Hm1. cbn [is_ok FRESULT_eqb negb].
  specialize (Hwin1 ltac:(unfold in_fat1; lia)).
  destruct Heq1 as [Hfr1 _].
  pose proof (frame_fields _ _ Hfr1) as (F1 & F2 & F3 & F4 & F5 & F6 & F7 & _).
  eexists. split; [reflexivity |].
  split.
  { constructor; unfold vol_set_win; simpl.
    - rewrite <- Hg. apply frame_geom_ok. rewrite <- Hfr1. reflexivity.
    - rewrite st_dword_length. apply (wf_win _ Hwf1).
    - apply (wf_sec _ Hwf1).
    - apply (wf_winsect _ Hwf1).
    - intros Hflag. discriminate Hflag. }
  split; [exact Hrel1 |].
  split; [rewrite <- Hfr1; reflexivity |].
  unfold fat32_raw at 1. unfold vol_set_win, sview. simpl.
  unfold SS in *. rewrite F4, F7, Hws1, Z.eqb_refl.
  rewrite ld_st_dword.
  - unfold fat32_raw. unfold SS. rewrite Hwin1. reflexivity.
  - lia.
  - rewrite (wf_win _ Hwf1). unfold SS. rewrite F4. lia.
  - apply fat32_merge_range.
Qed.

(** C4.  On a FAT32 volume, for every valid cluster, put_fat keeps the four
    top bits of the 32-bit cell as they were and stores the low 28 bits of
    the value, and get_fat returns the cell with its four top bits masked
    off (the cell being read through the sector window of a well-formed
    volume on a drive whose transfers succeed). *)
Theorem put_fat_fat32_keeps_top_nibble (v : Vol) (c val : Z) :
  vol_wf v -> reliable (v_disk v) -> fs_type (v_fs v) = FS_FAT32 ->
  2 <= c < n_fatent (v_fs v) ->
  exists v', put_fat v c val = (v', FR_OK) /\
    Z.land (fat32_raw v' c) 0xF0000000 = Z.land (fat32_raw v c) 0xF0000000 /\
    Z.land (fat32_raw v' c) 0x0FFFFFFF = Z.land val 0x0FFFFFFF /\
    snd (get_fat v c) = Z.land (fat32_raw v c) 0x0FFFFFFF /\
    snd (get_fat v' c) = Z.land val 0x0FFFFFFF.
Proof.
  intros Hwf Hrel Ety Hc.
  destruct (put_fat32_ok v c val Hwf Hrel Ety Hc)
    as (v' & Hput & Hwf' & Hrel' & Hfr & Hraw).
  pose proof (frame_fields _ _ Hfr) as (F1 & _ & _ & _ & F5 & _).
  exists v'. split; [exact Hput |].
  split; [rewrite Hraw; apply fat32_merge_high |].
  split; [rewrite Hraw; apply fat32_merge_low |].
  assert (Hcell : forall w, fs_type (v_fs w) = FS_FAT32 ->
            fat_cell w c = Z.land (fat32_raw w c) 0x0FFFFFFF).
  { intros w E. unfold fat_cell. rewrite E. reflexivity. }
  split.
  - destruct (get_fat_ok v c Hwf Hrel Hc) as (w & Hget & _).
    rewrite Hget. simpl. apply Hcell, Ety.
  - destruct (get_fat_ok v' c Hwf' Hrel' ltac:(lia)) as (w & Hget & _).
    rewrite Hget. simpl. rewrite Hcell by congruence.
    rewrite Hraw. apply fat32_merge_low.
Qed.


(** *** The sample volumes are well formed *)

Lemma sample_disk_wf (fs : FATFS) (fat : list Z) (rd wr : Z -> bool) :
  geom_ok fs = true -> SS fs = 512 -> length (win fs) = 512%nat ->
  length fat = 512%nat -> winsect fs = LBA_NONE ->
  vol_wf (mkVol fs (sample_disk fat rd wr)).
Proof.
  intros Hg Hss Hwin Hfat Hws. constructor; simpl.
  - exact Hg.
  - rewrite Hss. exact Hwin.
  - intros s. rewrite Hss. destruct (s =? 32); [exact Hfat | reflexivity].
  - rewrite Hws. unfold LBA_NONE. lia.
  - intros _ Hin. exfalso.
    destruct (geom_ok_facts _ Hg) as (_ & _ & _ & Hfb & Hfz & Hsum & _).
    unfold in_fat1 in Hin. rewrite Hws in Hin. unfold LBA_NONE in Hin. lia.
Qed.

Lemma sample_vol32_wf : vol_wf sample_vol32.
Proof. apply sample_disk_wf; reflexivity. Qed.

Lemma sample_disk_reliable (fat : list Z) :
  reliable (sample_disk fat no_bad no_bad).
Proof. split; intros s; reflexivity. Qed.

Lemma put_fat_fat32_keeps_top_nibble_witness :
  exists v', put_fat sample_vol32 2 0xABCDEF12 = (v', FR_OK) /\
    Z.land (fat32_raw v' 2) 0xF0000000 = Z.land (fat32_raw sample_vol32 2) 0xF0000000 /\
    Z.land (fat32_raw v' 2) 0x0FFFFFFF = Z.land 0xABCDEF12 0x0FFFFFFF /\
    snd (get_fat sample_vol32 2) = Z.land (fat32_raw sample_vol32 2) 0x0FFFFFFF /\
    snd (get_fat v' 2) = Z.land 0xABCDEF12 0x0FFFFFFF.
Proof.
  apply (put_fat_fat32_keeps_top_nibble sample_vol32 2 0xABCDEF12).
  - exact sample_vol32_wf.
  - apply sample_disk_reliable.
  - reflexivity.
  - simpl. lia.
Defined.

Example sample_vol32_cell2 :
  fat32_raw sample_vol32 2 = 0xF0000003 /\
  snd (get_fat sample_vol32 2) = 3 /\
  fat32_raw (fst (put_fat sample_vol32 2 0xABCDEF12)) 2 = 0xFBCDEF12.
Proof. vm_compute. repeat split. Qed.

(** ** Access checks of the file functions *)

(** C10.  On a valid file object (validate succeeds and no error is latched),
    an access without the matching mode bit returns FR_NO_EPERM at once:
    f_read without FA_READ, f_write and f_truncate without FA_WRITE.  The
    byte counter is 0, and the volume, the drive (with its request trace),
    the file object and the caller's buffer are as before the call. *)
Theorem wrong_mode_gives_no_eperm (fuel : nat) (env : Env) (v : Vol) (fp : FIL)
  (usr : list Z) (n len : Z) :
  validate (v_fs v) fp = FR_OK -> err fp = FR_OK ->
  (has (flag fp) FA_READ = false ->
     f_read fuel env v fp usr n = Some (mkXfer v fp usr 0, FR_NO_EPERM)) /\
  (has (flag fp) FA_WRITE = false ->
     f_write fuel env v fp usr n = Some (mkXfer v fp usr 0, FR_NO_EPERM) /\
     f_truncate fuel v fp len = Some (v, fp, FR_NO_EPERM)).
Proof.
  intros Hval Herr. split.
  - intros Hr. unfold f_read. rewrite Hval, Herr, Hr. reflexivity.
  - intros Hw. unfold f_write, f_truncate. rewrite Hval, Herr, Hw.
    split; reflexivity.
Qed.

Lemma wrong_mode_gives_no_eperm_witness :
  f_read 4 sample_env sample_vol32 (sample_fil FA_WRITE) [] 16
    = Some (mkXfer sample_vol32 (sample_fil FA_WRITE) [] 0, FR_NO_EPERM) /\
  f_write 4 sample_env sample_vol32 (sample_fil FA_READ) [1; 2; 3] 3
    = Some (mkXfer sample_vol32 (sample_fil FA_READ) [1; 2; 3] 0, FR_NO_EPERM) /\
  f_truncate 4 sample_vol32 (sample_fil FA_READ) 0
    = Some (sample_vol32, sample_fil FA_READ, FR_NO_EPERM).
Proof.
  split.
  - apply (wrong_mode_gives_no_eperm 4 sample_env sample_vol32
             (sample_fil FA_WRITE) [] 16 0); reflexivity.
  - apply (wrong_mode_gives_no_eperm 4 sample_env sample_vol32
             (sample_fil FA_READ) [1; 2; 3] 3 0); reflexivity.
Defined.

(** ** The latched error *)

Lemma is_ok_false (r : FRESULT) : r <> FR_OK -> is_ok r = false.
Proof. destruct r; intros H; try reflexivity. contradiction H. reflexivity. Qed.


(** C8, as the code has it.  On a valid file object with a latched error,
    f_read, f_write and f_truncate return the latched error at once; the
    byte counter is 0 and the volume, the drive with its request trace, the
    file object and the caller's buffer are left as they were. *)
Theorem latched_error_short_circuits (fuel : nat) (env : Env) (v : Vol)
  (fp : FIL) (usr : list Z) (n len : Z) :
  validate (v_fs v) fp = FR_OK -> err fp <> FR_OK ->
  f_read fuel env v fp usr n = Some (mkXfer v fp usr 0, err fp) /\
  f_write fuel env v fp usr n = Some (mkXfer v fp usr 0, err fp) /\
  f_truncate fuel v fp len = Some (v, fp, err fp).
Proof.
  intros Hval Herr. apply is_ok_false in Herr.
  unfold f_read, f_write, f_truncate. rewrite Hval, Herr.
  repeat split.
Qed.

(** C8, counterexample.  In the example a write of 100 bytes is followed by
    a read that fails on sector 35 and latches FR_DISK_ERR; f_sync on that
    handle then issues four requests to the drive and returns FR_OK. *)
Lemma f_sync_ignores_latched_error :
  exists x v' fp',
    sample_latched = Some (x, FR_DISK_ERR) /\
    validate (v_fs (x_vol x)) (x_fp x) = FR_OK /\
    err (x_fp x) = FR_DISK_ERR /\
    f_sync sample_env (x_vol x) (x_fp x) = (v', fp', FR_OK) /\
    d_log (v_disk v') =
      [IoSync; IoWrite 40 1; IoRead 40 1; IoWrite 34 1] ++ d_log (v_disk (x_vol x)).
Proof.
  eexists. eexists. eexists.
  split; [vm_compute; reflexivity |].
  split; [vm_compute; reflexivity |].
  split; [vm_compute; reflexivity |].
  split; [vm_compute; reflexivity |].
  vm_compute. reflexivity.
Qed.

Lemma latched_error_short_circuits_witness :
  f_read 4 sample_env sample_vol32 (set_err (sample_fil 3) FR_DISK_ERR) [] 16
    = Some (mkXfer sample_vol32 (set_err (sample_fil 3) FR_DISK_ERR) [] 0,
            FR_DISK_ERR) /\
  f_write 4 sample_env sample_vol32 (set_err (sample_fil 3) FR_DISK_ERR) [] 16
    = Some (mkXfer sample_vol32 (set_err (sample_fil 3) FR_DISK_ERR) [] 0,
            FR_DISK_ERR) /\
  f_truncate 4 sample_vol32 (set_err (sample_fil 3) FR_DISK_ERR) 0
    = Some (sample_vol32, set_err (sample_fil 3) FR_DISK_ERR, FR_DISK_ERR).
Proof.
  apply (latched_error_short_circuits 4 sample_env sample_vol32
           (set_err (sample_fil 3) FR_DISK_ERR) [] 16 0).
  - reflexivity.
  - simpl. discriminate.
Defined.

(** ** The byte counter of f_read *)








(** ** f_truncate to length 0 *)

(** C2, the failing input.  The example file (clusters 2 -> 3, 1024 bytes) is
    open for reading and writing and 100 bytes have been read.  f_truncate
    to length 0 returns FR_OK and sets the size to 0, but the start cluster
    is still 2, both clusters are still linked in the FAT and the free count
    is unchanged.  With the file pointer at 0 the same call frees the chain
    and zeroes the start cluster. *)
Theorem f_truncate_zero_midfile_keeps_chain :
  (exists v fp,
     sample_truncate_at_100 0 = Some (v, fp, FR_OK) /\
     obj_objsize fp = 0 /\ fptr fp = 0 /\ obj_sclust fp = 2 /\
     fat_cell v 2 = 3 /\ fat_cell v 3 = 0x0FFFFFFF /\
     free_clst (v_fs v) = free_clst (v_fs sample_vol32)) /\
  (exists v fp,
     f_truncate 10 sample_vol32 (sample_fil (Z.lor FA_READ FA_WRITE)) 0
       = Some (v, fp, FR_OK) /\
     obj_objsize fp = 0 /\ obj_sclust fp = 0 /\
     fat_cell v 2 = 0 /\ fat_cell v 3 = 0 /\
     free_clst (v_fs v) = free_clst (v_fs sample_vol32) + 2).
Proof.
  split; eexists; eexists; (split; [vm_compute; reflexivity |]);
    vm_compute; repeat split.
Qed.

(** ** The open-file registry *)

(** C6, the failing input.  From an empty table, 255 f_open(FA_READ) of one
    file bring its counter to 0xFF.  The 256th f_open(FA_READ) succeeds as
    well and leaves the counter at 0x100, the mark of a write-mode open; a
    257th is then refused with FR_LOCKED, and the first f_close of a reader
    clears the entry while 255 readers remain, after which f_open(FA_WRITE)
    of the file succeeds. *)
Theorem registry_256th_reader_marks_write_mode :
  exists files255 v256 fp256 v' files0 fp' vw fpw,
    open_readers 255 [blank_sem; blank_sem] = Some files255 /\
    files255 = [mkFILESEM 1 0 64 0xFF; blank_sem] /\
    chk_share files255 (mkDIRID 1 0 64) 0 = FR_OK /\
    sample_open files255 AM_ARC FA_READ
      = Some (v256, [mkFILESEM 1 0 64 0x100; blank_sem], fp256, FR_OK) /\
    fst (inc_share files255 (mkDIRID 1 0 64) 0)
      = [mkFILESEM 1 0 64 0x100; blank_sem] /\
    (exists v fp, sample_open [mkFILESEM 1 0 64 0x100; blank_sem] AM_ARC FA_READ
       = Some (v, [mkFILESEM 1 0 64 0x100; blank_sem], fp, FR_LOCKED)) /\
    f_close sample_env v256 [mkFILESEM 1 0 64 0x100; blank_sem] fp256
      = (v', files0, fp', FR_OK) /\
    files0 = [mkFILESEM 0 0 64 0; blank_sem] /\
    sample_open files0 AM_ARC (Z.lor FA_READ FA_WRITE)
      = Some (vw, [mkFILESEM 1 0 64 0x100; blank_sem], fpw, FR_OK).
Proof.
  do 8 eexists.
  split; [vm_compute; reflexivity |].
  split; [reflexivity |].
  split; [vm_compute; reflexivity |].
  split; [vm_compute; reflexivity |].
  split; [vm_compute; reflexivity |].
  split; [eexists; eexists; vm_compute; reflexivity |].
  split; [vm_compute; reflexivity |].
  split; [reflexivity |].
  vm_compute. reflexivity.
Qed.

(** ** f_open against a read-only entry *)

Lemma has_masked (m mask bit : Z) :
  Z.land mask bit = bit -> has (Z.land m mask) bit = has m bit.
Proof.
  intros H. unfold has. rewrite <- Z.land_assoc, H. reflexivity.
Qed.

Lemma open_acc_write (m : Z) : has m FA_WRITE = true -> open_acc m = 1.
Proof.
  unfold has, open_acc, nz. intros H.
  destruct (Z.land m (Z.lnot FA_READ) =? 0) eqn:E; [| reflexivity].
  apply Z.eqb_eq in E. exfalso.
  assert (E2 : Z.land (Z.land m (Z.lnot FA_READ)) FA_WRITE = Z.land m FA_WRITE).
  { rewrite <- Z.land_assoc. reflexivity. }
  rewrite E, Z.land_0_l in E2. rewrite <- E2 in H. discriminate H.
Qed.

(** C3, as the code has it.  An f_open whose mode has FA_WRITE and none of
    FA_CREATE_ALWAYS, FA_CREATE_NEW, FA_OPEN_ALWAYS, on a path that resolves
    to an existing entry which is not a directory and carries the read-only
    attribute, fails with FR_DENIED when the share check lets it through;
    the volume is untouched and the file object comes back invalid. *)
Theorem f_open_write_on_read_only_file_denied (fuel : nat) (env : Env)
  (reg : Vol -> Lookup -> Vol * Lookup * FRESULT) (v : Vol)
  (files : list FILESEM) (fp : FIL) (dj : Lookup) (mode : Z) :
  has mode FA_WRITE = true ->
  has mode (Z.lor (Z.lor FA_CREATE_ALWAYS FA_OPEN_ALWAYS) FA_CREATE_NEW) = false ->
  lk_res dj = FR_OK ->
  has (lk_nsflag dj) NS_NONAME = false ->
  has (lk_attr dj) AM_DIR = false ->
  has (lk_attr dj) AM_RDO = true ->
  chk_share files (lk_id dj) 1 = FR_OK ->
  exists files' fp',
    f_open fuel env reg FR_OK v files fp dj mode = Some (v, files', fp', FR_DENIED) /\
    obj_fs fp' = 0.
Proof.
  intros Hw Hc Hres Hns Hdir Hrdo Hshare.
  unfold f_open, f_open_decide. cbn [is_ok FRESULT_eqb negb].
  rewrite Hres. cbn [is_ok FRESULT_eqb].
  rewrite Hns.
  rewrite (has_masked mode 0x3F _ eq_refl), Hc.
  rewrite (open_acc_write (Z.land mode 0x3F))
    by (rewrite (has_masked mode 0x3F FA_WRITE eq_refl); exact Hw).
  rewrite Hshare. cbn [is_ok FRESULT_eqb].
  rewrite Hdir, (has_masked mode 0x3F FA_WRITE eq_refl), Hw, Hrdo.
  cbn. eexists. eexists. split; reflexivity.
Qed.

Lemma f_open_write_on_read_only_file_denied_witness :
  exists files' fp',
    f_open 4 sample_env no_register FR_OK sample_vol32 [blank_sem; blank_sem]
           blank_fil (sample_lookup (Z.lor AM_RDO AM_ARC)) (Z.lor FA_READ FA_WRITE)
      = Some (sample_vol32, files', fp', FR_DENIED) /\
    obj_fs fp' = 0.
Proof.
  apply (f_open_write_on_read_only_file_denied 4 sample_env no_register
           sample_vol32 [blank_sem; blank_sem] blank_fil
           (sample_lookup (Z.lor AM_RDO AM_ARC)) (Z.lor FA_READ FA_WRITE));
    reflexivity.
Defined.

(** C3, counterexample.  f_open with FA_READ | FA_WRITE on a path that
    resolves to an existing read-only directory fails with FR_IS_DIR, and on
    a read-only file that another handle holds open it fails with
    FR_LOCKED: neither is FR_DENIED. *)
Lemma f_open_write_on_read_only_not_always_denied :
  has (Z.lor FA_READ FA_WRITE) FA_WRITE = true /\
  lk_res (sample_lookup (Z.lor AM_RDO AM_DIR)) = FR_OK /\
  has (lk_attr (sample_lookup (Z.lor AM_RDO AM_DIR))) AM_RDO = true /\
  (exists files fp,
     sample_open [blank_sem; blank_sem] (Z.lor AM_RDO AM_DIR) (Z.lor FA_READ FA_WRITE)
       = Some (sample_vol32, files, fp, FR_IS_DIR)) /\
  (exists files fp,
     sample_open [mkFILESEM 1 0 64 1; blank_sem] (Z.lor AM_RDO AM_ARC)
                 (Z.lor FA_READ FA_WRITE)
       = Some (sample_vol32, files, fp, FR_LOCKED)).
Proof.
  split; [reflexivity |]. split; [reflexivity |]. split; [reflexivity |].
  split; eexists; eexists; vm_compute; reflexivity.
Qed.

(** With one of the create flags the same read-only file (not a directory)
    makes f_open return FR_IS_DIR, where the branch for plain opens returns
    FR_DENIED. *)
Example f_open_create_on_read_only_file :
  exists files fp,
    sample_open [blank_sem; blank_sem] (Z.lor AM_RDO AM_ARC)
                (Z.lor FA_WRITE FA_OPEN_ALWAYS)
      = Some (sample_vol32, files, fp, FR_IS_DIR).
Proof. eexists. eexists. vm_compute. reflexivity. Qed.

(** ** The FAT sub-type chosen at mount *)

Lemma fat_subtype_cases (lim : Limits) (nclst : Z) :
  fat_subtype lim nclst =
    if nclst <=? MAX_FAT12 lim then FS_FAT12
    else if nclst <=? MAX_FAT16 lim then FS_FAT16
    else if nclst <=? MAX_FAT32 lim then FS_FAT32
    else 0.
Proof.
  unfold fat_subtype.
  destruct (nclst <=? MAX_FAT12 lim), (nclst <=? MAX_FAT16 lim),
    (nclst <=? MAX_FAT32 lim); reflexivity.
Qed.






(** The guard of line 2904: a cluster count above MAX_FAT16 and MAX_FAT32
    gets no sub-type. *)
Lemma fat_subtype_none_above_max (lim : Limits) (nclst : Z) :
  MAX_FAT12 lim <= MAX_FAT16 lim -> MAX_FAT16 lim < nclst ->
  MAX_FAT32 lim < nclst -> fat_subtype lim nclst = 0.
Proof.
  intros H1 H2 H3. rewrite fat_subtype_cases.
  replace (nclst <=? MAX_FAT12 lim) with false by (symmetry; apply Z.leb_gt; lia).
  replace (nclst <=? MAX_FAT16 lim) with false by (symmetry; apply Z.leb_gt; lia).
  replace (nclst <=? MAX_FAT32 lim) with false by (symmetry; apply Z.leb_gt; lia).
  reflexivity.
Qed.

(** ** Numbered short names *)

(** Bit 16 of a 17-bit register. *)
Lemma land_bit16 (x : Z) :
  0 <= x < 131072 -> Z.land x 0x10000 = if x <? 65536 then 0 else 65536.
Proof.
  intros Hx. destruct (Z.ltb_spec x 65536) as [E | E];
    change 65536 with (2 ^ 16); apply Z.bits_inj'; intros n Hn;
    rewrite Z.land_spec, Z.pow2_bits_eqb by lia.
  - rewrite Z.testbit_0_l.
    destruct (Z.eqb_spec 16 n) as [<- | Hne]; [| apply andb_false_r].
    rewrite andb_true_r. apply Z.testbit_false; [lia |].
    change (2 ^ 16) with 65536. rewrite Z.div_small by lia. reflexivity.
  - destruct (Z.eqb_spec 16 n) as [<- | Hne]; [| apply andb_false_r].
    rewrite andb_true_r. apply Z.testbit_true; [lia |].
    change (2 ^ 16) with 65536. Z.div_mod_to_equations. lia.
Qed.

(** The feedback of the hash clears bit 16 and leaves a 16-bit value. *)
Lemma lxor_poly_range (x : Z) :
  65536 <= x < 131072 -> 0 <= Z.lxor x 0x11021 < 65536.
Proof.
  intros Hx.
  assert (H0 : 0 <= Z.lxor x 0x11021) by (apply Z.lxor_nonneg; lia).
  assert (H17 : Z.lxor x 0x11021 < 2 ^ 17).
  { destruct (Z.eq_dec (Z.lxor x 0x11021) 0) as [E | E]; [rewrite E; reflexivity |].
    apply Z.log2_lt_pow2; [lia |].
    eapply Z.le_lt_trans; [apply Z.log2_lxor; lia |].
    apply Z.max_lub_lt.
    - apply Z.log2_lt_pow2; [lia |]. change (2 ^ 17) with 131072. lia.
    - reflexivity. }
  change (2 ^ 17) with 131072 in H17.
  split; [exact H0 |].
  assert (Hb : Z.testbit (Z.lxor x 0x11021) 16 = false).
  { rewrite Z.lxor_spec.
    replace (Z.testbit x 16) with true; [reflexivity |].
    symmetry. apply Z.testbit_true; [lia |]. change (2 ^ 16) with 65536.
    Z.div_mod_to_equations. lia. }
  apply Z.testbit_false in Hb; [| lia]. change (2 ^ 16) with 65536 in Hb.
  Z.div_mod_to_equations. lia.
Qed.

Lemma numname_crc_char_range (n : nat) (sreg wc : Z) :
  0 <= sreg < 65536 -> 0 <= numname_crc_char n sreg wc < 65536.
Proof.
  revert sreg wc. induction n as [| n IH]; intros sreg wc Hs; [exact Hs |].
  cbn [numname_crc_char]. apply IH.
  assert (Hb : 0 <= Z.land wc 1 < 2).
  { rewrite land_1_mod. apply Z.mod_pos_bound. lia. }
  rewrite Z.shiftl_mul_pow2 by lia. change (2 ^ 1) with 2.
  assert (Hr : 0 <= sreg * 2 + Z.land wc 1 < 131072) by lia.
  rewrite (u32_small (sreg * 2 + Z.land wc 1)) by lia.
  unfold nz. rewrite land_bit16 by exact Hr.
  destruct (sreg * 2 + Z.land wc 1 <? 65536) eqn:E.
  - apply Z.ltb_lt in E. cbn. lia.
  - apply Z.ltb_ge in E. cbn. apply lxor_poly_range. lia.
Qed.

Lemma numname_crc_range (lfn : list Z) (sreg : Z) :
  0 <= sreg < 65536 -> 0 <= numname_crc lfn sreg < 65536.
Proof.
  revert sreg. induction lfn as [| wc rest IH]; intros sreg Hs; [exact Hs |].
  cbn [numname_crc]. destruct (wc =? 0); [exact Hs |].
  apply IH. apply numname_crc_char_range. exact Hs.
Qed.

Lemma numname_value_range (lfn : list Z) (n : Z) :
  1 <= n <= 99 -> 0 <= numname_value lfn n < 65536.
Proof.
  intros Hn. unfold numname_value. destruct (n >? 5).
  - apply numname_crc_range. lia.
  - lia.
Qed.

(** The character made of a hexadecimal digit (lines 1771-1772). *)
Lemma hex_digit_char (d : Z) :
  0 <= d < 16 ->
  (if u8 (d + 48) >? 57 then u8 (u8 (d + 48) + 7) else u8 (d + 48)) = hex_char d.
Proof.
  intros Hd. unfold u8, hex_char.
  rewrite (Z.mod_small (d + 48)) by lia.
  destruct (Z.gtb_spec (d + 48) 57), (Z.ltb_spec d 10); try lia.
  rewrite Z.mod_small by lia. lia.
Qed.

Lemma numname_digits_step (i : nat) (ns : list Z) (seq : Z) :
  numname_digits (S i) ns seq =
  if negb (i =? 0)%nat && nz (seq / 16)
  then numname_digits i (<[S i := hex_char (seq mod 16)]> ns) (seq / 16)
  else (<[S i := hex_char (seq mod 16)]> ns, i).
Proof.
  cbn [numname_digits].
  rewrite hex_digit_char by (apply Z.mod_pos_bound; lia). reflexivity.
Qed.

(** The suffix loop on a 16-bit number: [nd] digits, most significant first,
    end at ns[7]; the loop leaves i = 7 - nd. *)
Lemma numname_digits_16bit (v : Z) :
  0 <= v < 65536 ->
  exists (ns : list Z) (nd : nat),
    numname_digits 7 (replicate 8 0) v = (ns, (7 - nd)%nat) /\
    (1 <= nd <= 4)%nat /\ length ns = 8%nat /\
    v < 16 ^ Z.of_nat nd /\ (nd = 1%nat \/ 16 ^ (Z.of_nat nd - 1) <= v) /\
    forall t, 0 <= t < Z.of_nat nd ->
      peek ns (8 - Z.of_nat nd + t) =
      hex_char (v / 16 ^ (Z.of_nat nd - 1 - t) mod 16).
Proof.
  intros Hv.
  assert (D2 : v / 16 / 16 = v / 256) by (rewrite Z.div_div by lia; reflexivity).
  assert (D3 : v / 16 / 16 / 16 = v / 4096)
    by (rewrite !Z.div_div by lia; reflexivity).
  assert (D4 : v / 16 / 16 / 16 / 16 = 0).
  { rewrite !Z.div_div by lia. apply Z.div_small. lia. }
  rewrite numname_digits_step. unfold nz.
  destruct (Z.eqb_spec (v / 16) 0) as [E1 | E1].
  { eexists _, 1%nat. cbn [negb andb Nat.eqb]. split; [reflexivity |].
    repeat split; try lia; try (left; reflexivity).
    - change (16 ^ Z.of_nat 1) with 16. Z.div_mod_to_equations. lia.
    - intros t Ht. replace t with 0 by lia.
      change (16 ^ (Z.of_nat 1 - 1 - 0)) with 1. rewrite Z.div_1_r. reflexivity. }
  cbn [negb andb Nat.eqb]. rewrite numname_digits_step. unfold nz.
  destruct (Z.eqb_spec (v / 16 / 16) 0) as [E2 | E2].
  { eexists _, 2%nat. cbn [negb andb Nat.eqb]. split; [reflexivity |].
    repeat split; try lia.
    - change (16 ^ Z.of_nat 2) with 256. rewrite D2 in E2.
      Z.div_mod_to_equations. lia.
    - right. change (16 ^ (Z.of_nat 2 - 1)) with 16. Z.div_mod_to_equations. lia.
    - intros t Ht.
      assert (Ht' : t = 0 \/ t = 1) by lia. destruct Ht' as [-> | ->].
      + reflexivity.
      + change (16 ^ (Z.of_nat 2 - 1 - 1)) with 1. rewrite Z.div_1_r. reflexivity. }
  cbn [negb andb Nat.eqb]. rewrite numname_digits_step. unfold nz.
  destruct (Z.eqb_spec (v / 16 / 16 / 16) 0) as [E3 | E3].
  { eexists _, 3%nat. cbn [negb andb Nat.eqb]. split; [reflexivity |].
    repeat split; try lia.
    - change (16 ^ Z.of_nat 3) with 4096. rewrite D3 in E3.
      Z.div_mod_to_equations. lia.
    - right. change (16 ^ (Z.of_nat 3 - 1)) with 256. rewrite D2 in E2.
      Z.div_mod_to_equations. lia.
    - intros t Ht.
      assert (Ht' : t = 0 \/ t = 1 \/ t = 2) by lia.
      destruct Ht' as [-> | [-> | ->]].
      + change (16 ^ (Z.of_nat 3 - 1 - 0)) with 256. rewrite <- D2. reflexivity.
      + reflexivity.
      + change (16 ^ (Z.of_nat 3 - 1 - 2)) with 1. rewrite Z.div_1_r. reflexivity. }
  cbn [negb andb Nat.eqb]. rewrite numname_digits_step. unfold nz.
  rewrite D4. cbn [Z.eqb negb andb Nat.eqb].
  eexists _, 4%nat. split; [reflexivity |].
  repeat split; try lia.
  - right. change (16 ^ (Z.of_nat 4 - 1)) with 4096. rewrite D3 in E3.
    Z.div_mod_to_equations. lia.
  - intros t Ht.
    assert (Ht' : t = 0 \/ t = 1 \/ t = 2 \/ t = 3) by lia.
    destruct Ht' as [-> | [-> | [-> | ->]]].
    + change (16 ^ (Z.of_nat 4 - 1 - 0)) with 4096. rewrite <- D3. reflexivity.
    + change (16 ^ (Z.of_nat 4 - 1 - 1)) with 256. rewrite <- D2. reflexivity.
    + reflexivity.
    + change (16 ^ (Z.of_nat 4 - 1 - 3)) with 1. rewrite Z.div_1_r. reflexivity.
Qed.

(** The offset search stops at or before the position of the tilde. *)
Lemma numname_offset_range (fuel : nat) (tbl : option (list Z)) (dst : list Z)
  (i j : Z) :
  0 <= j <= i -> 0 <= numname_offset fuel tbl dst i j <= i.
Proof.
  revert j. induction fuel as [| fuel IH]; intros j Hj; [exact Hj |].
  cbn [numname_offset].
  destruct (Z.ltb_spec j i) as [Hlt | Hge]; cbn [andb]; [| exact Hj].
  destruct (negb (peek dst j =? 32)); [| exact Hj].
  destruct (dbc_1st tbl (peek dst j)).
  - destruct (Z.eqb_spec j (i - 1)); [exact Hj | apply IH; lia].
  - apply IH. lia.
Qed.

(** The final loop writes dst[j..7] and nothing else: the bytes of ns from
    index i while there are some, then spaces. *)
Lemma numname_append_spec (fuel : nat) (dst ns : list Z) (i j : Z) :
  0 <= j < 8 -> (8 <= length dst)%nat -> (Z.to_nat (8 - j) <= fuel)%nat ->
  length (numname_append fuel dst ns i j) = length dst /\
  (forall k, 0 <= k < j \/ 8 <= k ->
     peek (numname_append fuel dst ns i j) k = peek dst k) /\
  (forall t, 0 <= t -> j + t < 8 ->
     peek (numname_append fuel dst ns i j) (j + t) =
     if i + t <? 8 then peek ns (i + t) else 32).
Proof.
  revert dst i j. induction fuel as [| fuel IH]; intros dst i j Hj Hlen Hf; [lia |].
  cbn [numname_append].
  set (x := if i <? 8 then peek ns i else 32).
  set (i' := if i <? 8 then i + 1 else i).
  assert (Hx : peek (poke dst j x) j = x) by (apply peek_poke_eq; lia).
  destruct (Z.ltb_spec (j + 1) 8) as [Hlt | Hge].
  - destruct (IH (poke dst j x) i' (j + 1)) as (Hl & Hsame & Hnew);
      [lia | rewrite poke_length; exact Hlen | lia |].
    split; [rewrite Hl; apply poke_length |]. split.
    + intros k Hk. rewrite Hsame by lia. apply peek_poke_ne; lia.
    + intros t Ht Ht8. destruct (Z.eq_dec t 0) as [-> | Hne].
      * rewrite !Z.add_0_r. rewrite Hsame by lia. exact Hx.
      * replace (j + t) with (j + 1 + (t - 1)) by lia.
        rewrite Hnew by lia. subst i'.
        destruct (Z.ltb_spec i 8).
        -- replace (i + 1 + (t - 1)) with (i + t) by lia. reflexivity.
        -- destruct (Z.ltb_spec (i + (t - 1)) 8), (Z.ltb_spec (i + t) 8);
             try lia; reflexivity.
  - split; [apply poke_length |]. split.
    + intros k Hk. apply peek_poke_ne; lia.
    + intros t Ht Ht8. replace t with 0 by lia. rewrite !Z.add_0_r. exact Hx.
Qed.

Lemma peek_copy11 (src dst : list Z) (k : Z) :
  (11 <= length src)%nat -> 0 <= k < 11 ->
  peek (take 11 src ++ drop 11 dst) k = peek src k.
Proof.
  intros Hl Hk. unfold peek.
  rewrite lookup_app_l by (rewrite length_take; lia).
  rewrite lookup_take_lt by lia. reflexivity.
Qed.

(** *** The hash of gen_numname is a CRC *)

Lemma crc_char_unfold (n : nat) (sreg wc : Z) :
  numname_crc_char (S n) sreg wc =
  numname_crc_char n (numname_crc_char 1 sreg (Z.b2z (Z.testbit wc 0)))
    (Z.shiftr wc 1).
Proof.
  cbn [numname_crc_char].
  assert (E : Z.land (Z.b2z (Z.testbit wc 0)) 1 = Z.land wc 1).
  { rewrite !land_1_mod, Z.bit0_mod.
    rewrite Z.mod_mod by lia. reflexivity. }
  rewrite E. reflexivity.
Qed.

(** The sixteen shifts for one unit take its bits one by one. *)
Lemma crc_char_bits (n : nat) :
  forall sreg wc,
    numname_crc_char n sreg wc =
    fold_left (fun s b => numname_crc_char 1 s (Z.b2z b))
      (map (fun k => Z.testbit wc (Z.of_nat k)) (seq 0 n)) sreg.
Proof.
  induction n as [| n IH]; intros sreg wc; [reflexivity |].
  rewrite crc_char_unfold, IH.
  cbn [seq map fold_left]. change (Z.of_nat 0) with 0.
  f_equal. rewrite <- seq_shift, map_map.
  apply map_ext. intros k.
  rewrite Z.shiftr_spec by lia. f_equal. lia.
Qed.

Lemma crc_lfn_bits (lfn : list Z) :
  forall sreg,
    numname_crc lfn sreg =
    fold_left (fun s b => numname_crc_char 1 s (Z.b2z b)) (lfn_bits lfn) sreg.
Proof.
  induction lfn as [| wc rest IH]; intros sreg; [reflexivity |].
  cbn [numname_crc lfn_bits]. destruct (wc =? 0); [reflexivity |].
  rewrite fold_left_app, IH. f_equal. apply crc_char_bits.
Qed.

Lemma below_pow2_top_clear (x n : Z) :
  0 <= n -> 0 <= x < 2 ^ (n + 1) -> Z.testbit x n = false -> x < 2 ^ n.
Proof.
  intros Hn Hx Hb. apply Z.testbit_false in Hb; [| exact Hn].
  rewrite Z.pow_add_r in Hx by lia. change (2 ^ 1) with 2 in Hx.
  assert (Hp : 0 < 2 ^ n) by (apply Z.pow_pos_nonneg; lia).
  assert (Hq : 0 <= x / 2 ^ n < 2).
  { split; [apply Z.div_pos; lia | apply Z.div_lt_upper_bound; lia]. }
  assert (Eq : x / 2 ^ n = 0) by (rewrite <- (Z.mod_small (x / 2 ^ n) 2) by lia; exact Hb).
  apply Z.div_small_iff in Eq; lia.
Qed.

Lemma lxor_below_pow2 (a b m : Z) :
  0 <= m -> 0 <= a < 2 ^ m -> 0 <= b < 2 ^ m -> 0 <= Z.lxor a b < 2 ^ m.
Proof.
  intros Hm Ha Hb.
  assert (H0 : 0 <= Z.lxor a b) by (apply Z.lxor_nonneg; lia).
  split; [exact H0 |].
  destruct (Z.eq_dec (Z.lxor a b) 0) as [E | E].
  { rewrite E. apply Z.pow_pos_nonneg; lia. }
  assert (Hm0 : 0 < m).
  { destruct (Z.eq_dec m 0) as [-> | Hne]; [| lia].
    change (2 ^ 0) with 1 in Ha, Hb.
    replace a with 0 in E by lia. replace b with 0 in E by lia.
    contradiction E. reflexivity. }
  apply Z.log2_lt_pow2; [lia |].
  eapply Z.le_lt_trans; [apply Z.log2_lxor; lia |].
  apply Z.max_lub_lt.
  - destruct (Z.eq_dec a 0) as [-> | Ea]; [cbn; lia |].
    apply Z.log2_lt_pow2; lia.
  - destruct (Z.eq_dec b 0) as [-> | Eb]; [cbn; lia |].
    apply Z.log2_lt_pow2; lia.
Qed.

(** One step of the division clears the top coefficient. *)
Lemma crc_rem_step_range (h : nat) (x : Z) :
  0 <= x < 2 ^ (16 + Z.of_nat (S h)) ->
  0 <= (if Z.testbit x (16 + Z.of_nat h)
        then Z.lxor x (Z.shiftl 0x11021 (Z.of_nat h)) else x)
    < 2 ^ (16 + Z.of_nat h).
Proof.
  intros Hx.
  replace (16 + Z.of_nat (S h)) with (16 + Z.of_nat h + 1) in Hx by lia.
  assert (Hp : 0 < 2 ^ Z.of_nat h) by (apply Z.pow_pos_nonneg; lia).
  assert (Hd : 0 <= Z.shiftl 0x11021 (Z.of_nat h) < 2 ^ (16 + Z.of_nat h + 1)).
  { rewrite Z.shiftl_mul_pow2 by lia.
    replace (16 + Z.of_nat h + 1) with (17 + Z.of_nat h) by lia.
    rewrite Z.pow_add_r by lia. change (2 ^ 17) with 131072. nia. }
  destruct (Z.testbit x (16 + Z.of_nat h)) eqn:Hb.
  - pose proof (lxor_below_pow2 x _ (16 + Z.of_nat h + 1) ltac:(lia) Hx Hd) as Hr.
    split; [lia |].
    apply below_pow2_top_clear; [lia | exact Hr |].
    rewrite Z.lxor_spec, Hb, Z.shiftl_spec by lia.
    replace (16 + Z.of_nat h - Z.of_nat h) with 16 by lia. reflexivity.
  - split; [lia |]. apply below_pow2_top_clear; [lia | exact Hx | exact Hb].
Qed.

Lemma crc_rem_range (h : nat) :
  forall x, 0 <= x < 2 ^ (16 + Z.of_nat h) -> 0 <= crc_rem h x < 65536.
Proof.
  induction h as [| h IH]; intros x Hx.
  - cbn [crc_rem]. change (2 ^ (16 + Z.of_nat 0)) with 65536 in Hx. exact Hx.
  - cbn [crc_rem]. apply IH. apply crc_rem_step_range. exact Hx.
Qed.

Lemma lxor_double (a q : Z) (b : bool) :
  Z.lxor (2 * a + Z.b2z b) (2 * q) = 2 * Z.lxor a q + Z.b2z b.
Proof.
  apply Z.bits_inj'. intros n Hn.
  destruct (Z.eq_dec n 0) as [-> | Hne].
  - rewrite Z.lxor_spec, !Z.testbit_0_r.
    replace (2 * q) with (2 * q + Z.b2z false) by (cbn; lia).
    rewrite Z.testbit_0_r. apply xorb_false_r.
  - replace n with (Z.succ (n - 1)) by lia.
    rewrite Z.lxor_spec, !Z.testbit_succ_r by lia.
    replace (2 * q) with (2 * q + Z.b2z false) by (cbn; lia).
    rewrite Z.testbit_succ_r by lia. rewrite Z.lxor_spec. reflexivity.
Qed.

(** Taking one more bit: the remainder of the longer dividend is what one
    shift of the register makes of the remainder of the shorter one. *)
Lemma crc_rem_shift (h : nat) (b : bool) :
  forall x, 0 <= x < 2 ^ (16 + Z.of_nat h) ->
    crc_rem (S h) (2 * x + Z.b2z b) = numname_crc_char 1 (crc_rem h x) (Z.b2z b).
Proof.
  induction h as [| h IH]; intros x Hx.
  - change (2 ^ (16 + Z.of_nat 0)) with 65536 in Hx.
    cbn [crc_rem numname_crc_char]. change (16 + Z.of_nat 0) with 16.
    change (Z.shiftl 69665 (Z.of_nat 0)) with 69665.
    assert (Hb : 0 <= Z.b2z b <= 1) by (destruct b; cbn; lia).
    assert (El : Z.land (Z.b2z b) 1 = Z.b2z b) by (destruct b; reflexivity).
    rewrite El, Z.shiftl_mul_pow2 by lia. change (2 ^ 1) with 2.
    replace (x * 2 + Z.b2z b) with (2 * x + Z.b2z b) by lia.
    rewrite u32_small by lia. unfold nz.
    rewrite land_bit16 by lia.
    destruct (Z.ltb_spec (2 * x + Z.b2z b) 65536) as [E | E].
    + replace (Z.testbit (2 * x + Z.b2z b) 16) with false; [reflexivity |].
      symmetry. apply Z.testbit_false; [lia |]. change (2 ^ 16) with 65536.
      rewrite Z.div_small by lia. reflexivity.
    + replace (Z.testbit (2 * x + Z.b2z b) 16) with true; [reflexivity |].
      symmetry. apply Z.testbit_true; [lia |]. change (2 ^ 16) with 65536.
      Z.div_mod_to_equations. lia.
  - cbn [crc_rem].
    replace (16 + Z.of_nat (S h)) with (Z.succ (16 + Z.of_nat h)) by lia.
    rewrite Z.testbit_succ_r by lia.
    replace (Z.shiftl 69665 (Z.of_nat (S h)))
      with (2 * Z.shiftl 69665 (Z.of_nat h)).
    2:{ rewrite !Z.shiftl_mul_pow2 by lia.
        replace (Z.of_nat (S h)) with (Z.of_nat h + 1) by lia.
        rewrite Z.pow_add_r by lia. change (2 ^ 1) with 2. lia. }
    rewrite lxor_double.
    replace (if Z.testbit x (16 + Z.of_nat h)
             then 2 * Z.lxor x (Z.shiftl 69665 (Z.of_nat h)) + Z.b2z b
             else 2 * x + Z.b2z b)
      with (2 * (if Z.testbit x (16 + Z.of_nat h)
                 then Z.lxor x (Z.shiftl 69665 (Z.of_nat h)) else x) + Z.b2z b)
      by (destruct (Z.testbit x (16 + Z.of_nat h)); reflexivity).
    pose proof (crc_rem_step_range h x Hx) as Hr.
    change 69665 with 0x11021 in *.
    specialize (IH _ Hr). cbn [crc_rem] in IH. exact IH.
Qed.

Lemma crc_rem_fold (bits : list bool) :
  forall (h : nat) (x : Z), 0 <= x < 2 ^ (16 + Z.of_nat h) ->
    fold_left (fun s b => numname_crc_char 1 s (Z.b2z b)) bits (crc_rem h x) =
    crc_rem (h + length bits) (append_bits x bits).
Proof.
  induction bits as [| b rest IH]; intros h x Hx.
  - cbn [fold_left length]. rewrite Nat.add_0_r. reflexivity.
  - cbn [fold_left length]. unfold append_bits. cbn [fold_left].
    fold (append_bits (2 * x + Z.b2z b) rest).
    rewrite <- crc_rem_shift by exact Hx.
    rewrite Nat.add_succ_r. apply (IH (S h)).
    replace (16 + Z.of_nat (S h)) with (16 + Z.of_nat h + 1) by lia.
    rewrite Z.pow_add_r by lia. change (2 ^ 1) with 2.
    destruct b; cbn [Z.b2z]; lia.
Qed.

(** The number gen_numname puts after the tilde is the number of the
    spec: the sequence number up to 5, the CRC above. *)
Lemma numname_value_tail_number (lfn : list Z) (n : Z) :
  0 <= n < 65536 -> numname_value lfn n = tail_number lfn n.
Proof.
  intros Hn. unfold numname_value, tail_number.
  rewrite Z.gtb_ltb. destruct (Z.ltb_spec 5 n) as [H5 | H5].
  - replace (n <=? 5) with false by (symmetry; apply Z.leb_gt; exact H5).
    rewrite crc_lfn_bits.
    apply (crc_rem_fold (lfn_bits lfn) 0 n). exact Hn.
  - replace (n <=? 5) with true by (symmetry; apply Z.leb_le; exact H5).
    reflexivity.
Qed.

(** *** Where the tail goes *)

Lemma body_prefix_nonneg (tbl : option (list Z)) (src : list Z) (j : Z) :
  body_prefix tbl src j -> 0 <= j.
Proof. induction 1; lia. Qed.

(** Only the bytes before the offset matter. *)
Lemma body_prefix_ext (tbl : option (list Z)) (a b : list Z) (j : Z) :
  body_prefix tbl a j -> (forall k, 0 <= k < j -> peek a k = peek b k) ->
  body_prefix tbl b j.
Proof.
  intros H. induction H as [| j H IH Hsp Hd | j H IH Hsp Hd]; intros Hext.
  - constructor.
  - pose proof (body_prefix_nonneg _ _ _ H) as Hj.
    apply body_prefix_single.
    + apply IH. intros k Hk. apply Hext. lia.
    + rewrite <- Hext by lia. exact Hsp.
    + rewrite <- Hext by lia. exact Hd.
  - pose proof (body_prefix_nonneg _ _ _ H) as Hj.
    apply body_prefix_double.
    + apply IH. intros k Hk. apply Hext. lia.
    + rewrite <- Hext by lia. exact Hsp.
    + rewrite <- Hext by lia. exact Hd.
Qed.

(** The offset search walks the characters of the body and stops at the
    first space, at the place of the tilde, or one byte before it in front
    of a double-byte character. *)
Lemma numname_offset_body (fuel : nat) (tbl : option (list Z)) (dst : list Z)
  (i : Z) :
  forall j, body_prefix tbl dst j -> j <= i -> (Z.to_nat (i - j) < fuel)%nat ->
    body_prefix tbl dst (numname_offset fuel tbl dst i j) /\
    numname_offset fuel tbl dst i j <= i /\
    (peek dst (numname_offset fuel tbl dst i j) = 32 \/
     numname_offset fuel tbl dst i j = i \/
     (numname_offset fuel tbl dst i j = i - 1 /\
      dbc_1st tbl (peek dst (numname_offset fuel tbl dst i j)) = true)).
Proof.
  induction fuel as [| fuel IH]; intros j Hb Hj Hf; [lia |].
  cbn [numname_offset].
  destruct (Z.ltb_spec j i) as [Hlt | Hge]; cbn [andb].
  2:{ split; [exact Hb |]. split; [lia |]. right. left. lia. }
  destruct (Z.eqb_spec (peek dst j) 32) as [E | E]; cbn [negb].
  { split; [exact Hb |]. split; [lia |]. left. exact E. }
  destruct (dbc_1st tbl (peek dst j)) eqn:Hd.
  - destruct (Z.eqb_spec j (i - 1)) as [E1 | E1].
    + split; [exact Hb |]. split; [lia |]. right. right. split; [exact E1 | exact Hd].
    + apply IH; [apply body_prefix_double; assumption | lia | lia].
  - apply IH; [apply body_prefix_single; assumption | lia | lia].
Qed.

(** gen_numname makes a name of the numbered form. *)
Lemma gen_numname_form (tbl : option (list Z)) (dst src lfn : list Z) (n : Z) :
  (11 <= length src)%nat -> 0 <= numname_value lfn n < 65536 ->
  exists j nd,
    numbered_form tbl (gen_numname tbl dst src lfn n) src (numname_value lfn n) j nd.
Proof.
  intros Hsrc Hv. unfold gen_numname. fold (numname_value lfn n).
  destruct (numname_digits_16bit _ Hv) as (ns & nd & -> & Hnd & Hns & Hlt & Hge & Hdig).
  set (d := take 11 src ++ drop 11 dst).
  set (i := Z.of_nat (7 - nd)).
  assert (Hi : i = 7 - Z.of_nat nd) by (subst i; lia).
  pose proof (numname_offset_range 8 tbl d i 0 ltac:(lia)) as Hj.
  destruct (numname_offset_body 8 tbl d i 0 (body_prefix_none tbl d) ltac:(lia)
              ltac:(lia)) as (Hbody & _ & Hstop).
  set (j := numname_offset 8 tbl d i 0) in *.
  assert (Hd : (11 <= length d)%nat).
  { subst d. rewrite length_app, length_take. lia. }
  assert (Hcopy : forall k, 0 <= k < 11 -> peek d k = peek src k)
    by (intros k Hk; apply peek_copy11; [exact Hsrc | exact Hk]).
  destruct (numname_append_spec 8 d (<[(7 - nd)%nat := 126]> ns) i j)
    as (_ & Hsame & Hnew); [lia | lia | lia |].
  exists j, (Z.of_nat nd). unfold numbered_form.
  split; [lia |]. split; [lia |].
  split; [destruct Hge as [-> | Hge]; [left; reflexivity | right; exact Hge] |].
  split; [apply (body_prefix_ext tbl d src j Hbody); intros k Hk; apply Hcopy; lia |].
  split; [lia |]. split; [lia |].
  split.
  { rewrite <- Hcopy by lia.
    destruct Hstop as [Hs | [Hs | [Hs Hdb]]];
      [left; exact Hs | right; left; lia | right; right; split; [lia | exact Hdb]]. }
  split.
  { intros k Hk. rewrite Hsame by lia. apply peek_copy11; [exact Hsrc | lia]. }
  split.
  { pose proof (Hnew 0 ltac:(lia) ltac:(lia)) as H0.
    rewrite !Z.add_0_r in H0. rewrite H0.
    replace (i <? 8) with true by (symmetry; apply Z.ltb_lt; lia).
    subst i. unfold peek. rewrite Nat2Z.id.
    rewrite list_lookup_insert_eq by lia. reflexivity. }
  split.
  { intros t Ht. replace (j + 1 + t) with (j + (1 + t)) by lia.
    rewrite Hnew by lia.
    replace (i + (1 + t) <? 8) with true by (symmetry; apply Z.ltb_lt; lia).
    rewrite <- Hdig by lia. unfold peek.
    rewrite list_lookup_insert_ne by lia.
    replace (i + (1 + t)) with (8 - Z.of_nat nd + t) by lia. reflexivity. }
  split.
  { intros k Hk. replace k with (j + (k - j)) by lia.
    rewrite Hnew by lia.
    replace (i + (k - j) <? 8) with false by (symmetry; apply Z.ltb_ge; lia).
    reflexivity. }
  intros k Hk. rewrite Hsame by lia. apply peek_copy11; [exact Hsrc | lia].
Qed.

(** The suffix loop always steps its index down. *)
Lemma numname_digits_index (i : nat) (ns : list Z) (seq : Z) :
  (snd (numname_digits (S i) ns seq) <= i)%nat.
Proof.
  revert ns seq. induction i as [| i IH]; intros ns seq.
  - cbn. lia.
  - rewrite numname_digits_step.
    destruct (negb (S i =? 0)%nat && nz (seq / 16)); cbn [snd]; [| lia].
    specialize (IH (<[S (S i) := hex_char (seq mod 16)]> ns) (seq / 16)). lia.
Qed.

Lemma numname_append_tail (fuel : nat) (dst ns : list Z) (i j : Z) :
  0 <= j < 8 -> drop 11 (numname_append fuel dst ns i j) = drop 11 dst.
Proof.
  revert dst i j. induction fuel as [| fuel IH]; intros dst i j Hj; [reflexivity |].
  cbn [numname_append].
  assert (Hp : forall x, drop 11 (poke dst j x) = drop 11 dst).
  { intros x. unfold poke. apply drop_insert_lt. lia. }
  destruct (Z.ltb_spec (j + 1) 8); [rewrite IH by lia |]; apply Hp.
Qed.

(** gen_numname reads of [dst] only what lies behind the 11 name bytes, and
    leaves that part as it is. *)
Lemma gen_numname_dst (tbl : option (list Z)) (dst1 dst2 src lfn : list Z) (n : Z) :
  drop 11 dst1 = drop 11 dst2 ->
  gen_numname tbl dst1 src lfn n = gen_numname tbl dst2 src lfn n.
Proof. intros H. unfold gen_numname. rewrite H. reflexivity. Qed.

Lemma gen_numname_tail (tbl : option (list Z)) (dst src lfn : list Z) (n : Z) :
  (11 <= length src)%nat ->
  drop 11 (gen_numname tbl dst src lfn n) = drop 11 dst.
Proof.
  intros Hsrc. unfold gen_numname.
  pose proof (numname_digits_index 6 (replicate 8 0)
                (if n >? 5 then numname_crc lfn n else n)) as Hi.
  destruct (numname_digits 7 (replicate 8 0)
              (if n >? 5 then numname_crc lfn n else n)) as [ns i].
  cbn [snd] in Hi.
  pose proof (numname_offset_range 8 tbl (take 11 src ++ drop 11 dst)
                (Z.of_nat i) 0 ltac:(lia)) as Hj.
  rewrite numname_append_tail by lia.
  rewrite drop_app_length' by (rewrite length_take; lia). reflexivity.
Qed.

Section Probe.
Context {S : Type}.
Variable inv : S -> Prop.
Variable tbl : option (list Z).
Variable dir_find : S -> list Z -> S * FRESULT.
Variables base sn lfn : list Z.
Hypothesis Hsn : (11 <= length sn)%nat.
Hypothesis inv_find : forall s fn, inv s -> inv (fst (dir_find s fn)).

(** While every probed name is found, the loop runs all its passes. *)
Lemma numname_probe_collide (k : nat) :
  forall s fn0 n res,
    inv s -> drop 11 fn0 = drop 11 base ->
    (forall s' m, inv s' -> n <= m < n + Z.of_nat k ->
       snd (dir_find s' (gen_numname tbl base sn lfn m)) = FR_OK) ->
    snd (fst (numname_probe k tbl dir_find s fn0 sn lfn n res)) = n + Z.of_nat k.
Proof.
  induction k as [| k IH]; intros s fn0 n res Hs Hfn Hall.
  - cbn. lia.
  - cbn [numname_probe].
    rewrite (gen_numname_dst tbl fn0 base) by exact Hfn.
    pose proof (Hall s n Hs ltac:(lia)) as Hn.
    pose proof (inv_find s (gen_numname tbl base sn lfn n) Hs) as Hs'.
    destruct (dir_find s (gen_numname tbl base sn lfn n)) as [s1 r].
    cbn [fst snd] in Hn, Hs'. subst r. cbn [is_ok FRESULT_eqb negb].
    rewrite IH; [lia | exact Hs' | apply gen_numname_tail; exact Hsn |].
    intros s' m Hi Hm. apply Hall; [exact Hi | lia].
Qed.

(** The loop stops at the first number whose name is not found. *)
Lemma numname_probe_first_free (k : nat) :
  forall s fn0 n res m r,
    inv s -> drop 11 fn0 = drop 11 base ->
    n <= m < n + Z.of_nat k ->
    (forall s' m', inv s' -> n <= m' < m ->
       snd (dir_find s' (gen_numname tbl base sn lfn m')) = FR_OK) ->
    (forall s', inv s' ->
       snd (dir_find s' (gen_numname tbl base sn lfn m)) = r) ->
    r <> FR_OK ->
    exists s1, inv s1 /\
      numname_probe k tbl dir_find s fn0 sn lfn n res =
      (s1, gen_numname tbl base sn lfn m, m, r).
Proof.
  induction k as [| k IH]; intros s fn0 n res m r Hs Hfn Hm Hall Hfree Hr; [lia |].
  cbn [numname_probe].
  rewrite (gen_numname_dst tbl fn0 base) by exact Hfn.
  pose proof (inv_find s (gen_numname tbl base sn lfn n) Hs) as Hs'.
  destruct (Z.eq_dec n m) as [-> | Hne].
  - pose proof (Hfree s Hs) as Hn.
    destruct (dir_find s (gen_numname tbl base sn lfn m)) as [s1 r1].
    cbn [fst snd] in Hn, Hs'. subst r1.
    rewrite (is_ok_false r) by exact Hr. cbn [negb].
    exists s1. split; [exact Hs' | reflexivity].
  - pose proof (Hall s n Hs ltac:(lia)) as Hn.
    destruct (dir_find s (gen_numname tbl base sn lfn n)) as [s1 r1].
    cbn [fst snd] in Hn, Hs'. subst r1. cbn [is_ok FRESULT_eqb negb].
    apply IH; [exact Hs' | apply gen_numname_tail; exact Hsn | lia | | exact Hfree
              | exact Hr].
    intros s' m' Hi Hm'. apply Hall; [exact Hi | lia].
Qed.
End Probe.

Lemma numbered_form_src (tbl : option (list Z)) (out src1 src2 : list Z)
  (val j nd : Z) :
  (forall k, 0 <= k < 11 -> peek src1 k = peek src2 k) ->
  numbered_form tbl out src1 val j nd -> numbered_form tbl out src2 val j nd.
Proof.
  intros Hsrc (Hnd & Hval & Hmin & Hbody & Hj & Hfit & Hstop & Hpre & Htilde & Hdig &
               Hpad & Hext).
  unfold numbered_form.
  split; [exact Hnd |]. split; [exact Hval |]. split; [exact Hmin |].
  split; [apply (body_prefix_ext tbl src1 src2 j Hbody); intros k Hk; apply Hsrc; lia |].
  split; [exact Hj |]. split; [exact Hfit |].
  split; [rewrite <- Hsrc by lia; exact Hstop |].
  split; [intros k Hk; rewrite <- Hsrc by lia; apply Hpre; exact Hk |].
  split; [exact Htilde |]. split; [exact Hdig |]. split; [exact Hpad |].
  intros k Hk. rewrite <- Hsrc by lia. apply Hext. exact Hk.
Qed.

Lemma peek_take (b : list Z) (n : nat) (k : Z) :
  0 <= k < Z.of_nat n -> peek (take n b) k = peek b k.
Proof. intros Hk. unfold peek. rewrite lookup_take_lt by lia. reflexivity. Qed.

(** C9.  dir_register on a name that needs a numbered short name (NS_LOSS
    set, LFN configuration).  Write name n for the name gen_numname makes for
    sequence number n.  (1) For every n from 1 to 99, name n is the short
    name with a tail appended to its body: the whole characters of the body
    up to its first space, cut where needed so that the tail ends at the
    eighth byte (one byte earlier rather than splitting a double-byte
    character); then a tilde, the hexadecimal digits of a 16-bit number
    without leading zeros, spaces up to the extension, and the extension
    unchanged.  The number, tail_number, is n itself up to 5; above, it is
    the 16-bit CRC (polynomial x^16 + x^12 + x^5 + 1) of n followed by the
    bits of the units of the long name, lowest bit first.  (2) The loop
    probes name 1, name 2, ... in turn: when names 1 .. m-1 are found in the
    directory and name m is not (m <= 99), the entry is stored under name m,
    and another error of the search is returned as it is.  (3) When all 99
    names are found, dir_register returns FR_DENIED. *)
Theorem dir_register_numbered_names {S : Type} (inv : S -> Prop)
  (tbl : option (list Z)) (dir_find : S -> list Z -> S * FRESULT)
  (dir_store : S -> list Z -> list Z -> S * FRESULT)
  (s : S) (fn lfn : list Z) :
  has (peek fn NSFLAG) (Z.lor NS_DOT NS_NONAME) = false ->
  has (peek fn NSFLAG) NS_LOSS = true ->
  (12 <= length fn)%nat ->
  inv s ->
  (forall s' fn', inv s' -> inv (fst (dir_find s' fn'))) ->
  let name := gen_numname tbl (poke fn NSFLAG NS_NOLFN) (take 12 fn) lfn in
  (forall n, 1 <= n <= 99 ->
     exists j nd, numbered_form tbl (name n) fn (tail_number lfn n) j nd) /\
  (forall m r, 1 <= m <= 99 ->
     (forall s' m', inv s' -> 1 <= m' < m -> snd (dir_find s' (name m')) = FR_OK) ->
     (forall s', inv s' -> snd (dir_find s' (name m)) = r) ->
     r <> FR_OK ->
     exists s1, inv s1 /\
       dir_register tbl dir_find dir_store s fn lfn =
       if FRESULT_eqb r FR_NO_FILE
       then (fst (dir_store s1 (poke (name m) NSFLAG (peek fn NSFLAG)) (take 12 fn)),
             poke (name m) NSFLAG (peek fn NSFLAG),
             snd (dir_store s1 (poke (name m) NSFLAG (peek fn NSFLAG)) (take 12 fn)))
       else (s1, name m, r)) /\
  ((forall s' n, inv s' -> 1 <= n <= 99 -> snd (dir_find s' (name n)) = FR_OK) ->
   snd (dir_register tbl dir_find dir_store s fn lfn) = FR_DENIED).
Proof.
  intros Hdot Hloss Hlen Hs Hinv name.
  assert (Hsn : (11 <= length (take 12 fn))%nat) by (rewrite length_take; lia).
  assert (Hflag : peek (take 12 fn) NSFLAG = peek fn NSFLAG)
    by (apply peek_take; unfold NSFLAG; lia).
  split; [| split].
  - intros n Hn.
    destruct (gen_numname_form tbl (poke fn NSFLAG NS_NOLFN) (take 12 fn) lfn n Hsn
                (numname_value_range lfn n Hn)) as (j & nd & Hform).
    rewrite (numname_value_tail_number lfn n ltac:(lia)) in Hform.
    exists j, nd. apply (numbered_form_src tbl _ (take 12 fn)); [| exact Hform].
    intros k Hk. apply peek_take. lia.
  - intros m r Hm Hall Hfree Hr.
    destruct (numname_probe_first_free inv tbl dir_find (poke fn NSFLAG NS_NOLFN)
                (take 12 fn) lfn Hsn Hinv 99 s (poke fn NSFLAG NS_NOLFN) 1 FR_OK m r
                Hs eq_refl ltac:(lia) Hall Hfree Hr) as (s1 & Hs1 & Hp).
    exists s1. split; [exact Hs1 |].
    unfold dir_register. rewrite Hdot, Hflag, Hloss, Hp.
    replace (m =? 100) with false by (symmetry; apply Z.eqb_neq; lia).
    destruct (FRESULT_eqb r FR_NO_FILE); cbn [negb]; [| reflexivity].
    fold name. destruct (dir_store s1 _ _). reflexivity.
  - intros Hall.
    pose proof (numname_probe_collide inv tbl dir_find (poke fn NSFLAG NS_NOLFN)
                  (take 12 fn) lfn Hsn Hinv 99 s (poke fn NSFLAG NS_NOLFN) 1 FR_OK
                  Hs eq_refl ltac:(intros s' m Hi Hm; apply Hall; [exact Hi | lia]))
      as Hp.
    unfold dir_register. rewrite Hdot, Hflag, Hloss.
    destruct (numname_probe 99 tbl dir_find s (poke fn NSFLAG NS_NOLFN)
                (take 12 fn) lfn 1 FR_OK) as [[[s1 fn1] n1] r1].
    cbn [fst snd] in Hp. subst n1. reflexivity.
Qed.

Lemma dir_register_numbered_names_witness :
  has (peek sample_fn NSFLAG) NS_LOSS = true /\
  (exists j nd,
     numbered_form None (gen_numname None (poke sample_fn NSFLAG NS_NOLFN)
                           (take 12 sample_fn) sample_lfn 3) sample_fn 3 j nd) /\
  snd (fst (dir_register None list_dir_find list_dir_store (taken_names 2)
              sample_fn sample_lfn)) =
  [76; 79; 78; 71; 70; 73; 126; 51; 84; 88; 84; 3].
Proof.
  destruct (dir_register_numbered_names (fun s' => s' = taken_names 2)
              None list_dir_find list_dir_store (taken_names 2)
              sample_fn sample_lfn eq_refl eq_refl ltac:(simpl; lia) eq_refl
              ltac:(intros s' fn' ->; reflexivity)) as (Hform & Hfree & _).
  split; [reflexivity |]. split.
  - exact (Hform 3 ltac:(lia)).
  - destruct (Hfree 3 FR_NO_FILE ltac:(lia)) as (s1 & -> & ->).
    + intros s' m' -> Hm'.
      assert (Hc : m' = 1 \/ m' = 2) by lia.
      destruct Hc as [-> | ->]; vm_compute; reflexivity.
    + intros s' ->. vm_compute. reflexivity.
    + discriminate.
    + vm_compute. reflexivity.
Defined.

(** C9, evaluated on "LONGFILENAME.TXT".  With the numbered names 1 .. 98
    taken, dir_register stores the entry under the 99th name, "LON~" and the
    hash of the long name for n = 99; with all 99 taken it returns
    FR_DENIED and stores nothing. *)
Example dir_register_hundredth_denied :
  snd (dir_register None list_dir_find list_dir_store (taken_names 98)
         sample_fn sample_lfn) = FR_OK /\
  take 4 (snd (fst (dir_register None list_dir_find list_dir_store (taken_names 98)
                      sample_fn sample_lfn))) = [76; 79; 78; 126] /\
  dir_register None list_dir_find list_dir_store (taken_names 99)
    sample_fn sample_lfn =
  (taken_names 99,
   gen_numname None (poke sample_fn NSFLAG NS_NOLFN) (take 12 sample_fn)
     sample_lfn 99,
   FR_DENIED).
Proof. vm_compute. repeat split. Qed.

(** ** Allocation of a cluster: create_chain *)

(** Two states that show the same first FAT show the same cells. *)
Lemma fat_cell_fat_eq (v v' : Vol) (c : Z) :
  geom_ok (v_fs v) = true -> fat_eq v v' -> 2 <= c < n_fatent (v_fs v) ->
  fat_cell v' c = fat_cell v c.
Proof.
  intros Hg [Hfr Hview] Hc.
  destruct (geom_ok_facts _ Hg) as (Hty & Hss & Hss4 & Hfb & Hfz & Hsum & [Hn Hsb] & Hsz).
  destruct (fat_entry_bounds _ c Hg Hc) as (B32 & B16 & B12).
  pose proof (frame_fields _ _ Hfr) as (F1 & _ & _ & F4 & _ & _ & F7 & _).
  unfold fat_cell, fat32_raw, SS. rewrite F1, F4, F7.
  destruct Hty as [Ety | [Ety | Ety]]; rewrite Ety.
  - change (FS_FAT12 =? FS_FAT12) with true. cbv iota.
    destruct (B12 Ety) as (Hi0 & Hi1 & Hlt).
    assert (Hi0' : (c + c / 2) / SS (v_fs v) < fsize (v_fs v)).
    { apply Z.le_lt_trans with ((c + c / 2 + 1) / SS (v_fs v)); [| exact Hi1].
      apply Z.div_le_mono; lia. }
    assert (Hi1' : 0 <= (c + c / 2 + 1) / SS (v_fs v))
      by (apply Z.div_pos; Z.div_mod_to_equations; lia).
    unfold SS in *.
    rewrite !Hview by (unfold in_fat1; lia). reflexivity.
  - change (FS_FAT16 =? FS_FAT12) with false.
    change (FS_FAT16 =? FS_FAT16) with true. cbv iota.
    destruct (B16 Ety) as (Hi & Hlt). unfold SS in *.
    rewrite Hview by (unfold in_fat1; lia). reflexivity.
  - change (FS_FAT32 =? FS_FAT12) with false.
    change (FS_FAT32 =? FS_FAT16) with false. cbv iota.
    destruct (B32 Ety) as (Hi & Hlt). unfold SS in *.
    rewrite Hview by (unfold in_fat1; lia). reflexivity.
Qed.

Lemma valid_clst_put_test (c n : Z) :
  2 <= c < n -> (c >=? 2) && (c <? n) = true.
Proof.
  intros H. apply andb_true_iff.
  split; [rewrite Z.geb_leb; apply Z.leb_le | apply Z.ltb_lt]; lia.
Qed.

(** Writing into the window: the state stays well formed. *)
Lemma vol_set_win_wf (v : Vol) (b : list Z) :
  vol_wf v -> length b = length (win (v_fs v)) -> vol_wf (vol_set_win v b).
Proof.
  intros Hwf Hlen. constructor; unfold vol_set_win; simpl.
  - rewrite <- (wf_geom _ Hwf). apply frame_geom_ok. reflexivity.
  - rewrite Hlen. apply (wf_win _ Hwf).
  - apply (wf_sec _ Hwf).
  - apply (wf_winsect _ Hwf).
  - intros Hflag. discriminate Hflag.
Qed.

Lemma ld_st_word (b : list Z) (p x : Z) :
  0 <= p -> (Z.to_nat (p + 1) < length b)%nat -> 0 <= x < 65536 ->
  ld_word (st_word b p x) p = x.
Proof.
  intros Hp Hlen Hx. unfold ld_word, st_word.
  rewrite peek_poke_eq by (rewrite poke_length; exact Hlen).
  rewrite peek_poke_ne by lia.
  rewrite peek_poke_eq by lia.
  rewrite Z.shiftr_div_pow2 by lia. change (2 ^ 8) with 256.
  unfold u8, u16.
  rewrite lor_shiftl8 by (try apply Z.mod_pos_bound; Z.div_mod_to_equations; lia).
  Z.div_mod_to_equations. lia.
Qed.

(** A property of a byte, checked on its 256 values. *)
Lemma byte_cases (P : Z -> bool) :
  forallb P (map Z.of_nat (seq 0 256)) = true ->
  forall m, 0 <= m < 256 -> P m = true.
Proof.
  intros H m Hm. rewrite forallb_forall in H. apply H.
  apply in_map_iff. exists (Z.to_nat m). split; [lia |].
  apply in_seq. lia.
Qed.

Lemma land_low_byte (x mask : Z) :
  0 <= mask < 256 -> Z.land x mask = Z.land (x mod 256) mask.
Proof.
  intros Hm. change 256 with (2 ^ 8). rewrite <- Z.land_ones by lia.
  rewrite <- Z.land_assoc. f_equal.
  symmetry. change (Z.ones 8) with 255.
  apply Z.bits_inj'. intros n Hn. rewrite Z.land_spec.
  destruct (Z.testbit mask n) eqn:E; [| apply andb_false_r].
  rewrite andb_true_r.
  destruct (Z.ltb_spec n 8) as [Hlt | Hge].
  - change 255 with (Z.ones 8). rewrite Z.ones_spec_low by lia. reflexivity.
  - exfalso. assert (Hz : Z.testbit mask n = false); [| congruence].
    apply Z.testbit_false; [lia |].
    rewrite Z.div_small; [reflexivity |].
    split; [lia |]. apply Z.lt_le_trans with (2 ^ 8); [lia |].
    apply Z.pow_le_mono_r; lia.
Qed.

(** The two bytes put_fat writes for the end-of-chain mark on FAT12 make the
    cell 0xFFF, whatever the neighbouring nibble holds. *)
Lemma fat12_odd_eoc (old : Z) :
  Z.shiftr (Z.lor (u8 (Z.lor (Z.land old 0x0F) (Z.shiftl (u8 0xFFFFFFFF) 4)))
                  (Z.shiftl (u8 (Z.shiftr 0xFFFFFFFF 4)) 8)) 4 = 0xFFF.
Proof.
  rewrite (land_low_byte old 0x0F) by lia.
  apply Z.eqb_eq.
  apply (byte_cases (fun m =>
    Z.shiftr (Z.lor (u8 (Z.lor (Z.land m 0x0F) (Z.shiftl (u8 0xFFFFFFFF) 4)))
                    (Z.shiftl (u8 (Z.shiftr 0xFFFFFFFF 4)) 8)) 4 =? 0xFFF)).
  - vm_compute. reflexivity.
  - apply Z.mod_pos_bound. lia.
Qed.

Lemma fat12_even_eoc (old : Z) :
  Z.land (Z.lor (u8 0xFFFFFFFF)
                (Z.shiftl (u8 (Z.lor (Z.land old 0xF0)
                                     (Z.land (u8 (Z.shiftr 0xFFFFFFFF 8)) 0x0F))) 8))
         0xFFF = 0xFFF.
Proof.
  rewrite (land_low_byte old 0xF0) by lia.
  apply Z.eqb_eq.
  apply (byte_cases (fun m =>
    Z.land (Z.lor (u8 0xFFFFFFFF)
                  (Z.shiftl (u8 (Z.lor (Z.land m 0xF0)
                                       (Z.land (u8 (Z.shiftr 0xFFFFFFFF 8)) 0x0F))) 8))
           0xFFF =? 0xFFF)).
  - vm_compute. reflexivity.
  - apply Z.mod_pos_bound. lia.
Qed.

(** put_fat of the end-of-chain mark, on any of the three FAT types: the
    cell then reads the end-of-chain value of the type. *)
Lemma put_fat_eoc_ok (v : Vol) (c : Z) :
  vol_wf v -> reliable (v_disk v) -> 2 <= c < n_fatent (v_fs v) ->
  exists v', put_fat v c 0xFFFFFFFF = (v', FR_OK) /\ vol_wf v' /\
    reliable (v_disk v') /\ frame (v_fs v') = frame (v_fs v) /\
    fat_cell v' c = get_end_of_cluster (v_fs v).
Proof.
  intros Hwf Hrel Hc.
  pose proof (wf_geom _ Hwf) as Hg.
  destruct (geom_ok_facts _ Hg) as (Hty & Hss & Hss4 & Hfb & Hfz & Hsum & [Hn Hsb] & Hsz).
  destruct (fat_entry_bounds _ c Hg Hc) as (B32 & B16 & B12).
  destruct Hty as [Ety | [Ety | Ety]].
  - (* FAT12 *)
    destruct (B12 Ety) as (Hi0 & Hi1 & Hlt).
    set (bc := c + c / 2) in *.
    assert (Hbc : 0 <= bc) by (subst bc; Z.div_mod_to_equations; lia).
    assert (Hi0' : bc / SS (v_fs v) < fsize (v_fs v)).
    { apply Z.le_lt_trans with ((bc + 1) / SS (v_fs v)); [| exact Hi1].
      apply Z.div_le_mono; lia. }
    assert (Hi1' : 0 <= (bc + 1) / SS (v_fs v)) by (apply Z.div_pos; lia).
    pose proof (Z.mod_pos_bound bc (SS (v_fs v)) Hss) as Hp1.
    pose proof (Z.mod_pos_bound (bc + 1) (SS (v_fs v)) Hss) as Hp2.
    assert (Hpne : bc mod SS (v_fs v) <> (bc + 1) mod SS (v_fs v)).
    { assert (4 <= SS (v_fs v)) by (Z.div_mod_to_equations; lia).
      intros E. 
      assert (E1 : (bc + 1 - bc) mod SS (v_fs v) = 0).
      { rewrite Zminus_mod, <- E, Z.sub_diag. apply Z.mod_0_l. lia. }
      replace (bc + 1 - bc) with 1 in E1 by lia.
      rewrite Z.mod_small in E1 by lia. discriminate E1. }
    unfold put_fat. rewrite (valid_clst_put_test _ _ Hc), Ety.
    change (FS_FAT12 =? FS_FAT12) with true. cbv iota.
    fold bc. rewrite (u32_small bc) by lia.
    rewrite (u32_small (bc + 1)) by lia.
    rewrite !u32_small by lia.
    destruct (move_window_ok v (fatbase (v_fs v) + bc / SS (v_fs v))
                Hwf Hrel ltac:(lia))
      as (v1 & Hm1 & Hwf1 & Hrel1 & Heq1 & Hws1 & _).
    rewrite Hm1. cbn [is_ok FRESULT_eqb negb].
    destruct Heq1 as [Hfr1 _].
    pose proof (frame_fields _ _ Hfr1) as (F1 & _ & _ & F4 & _ & F6 & F7 & _).
    set (x1 := if nz (Z.land c 1)
               then u8 (Z.lor (Z.land (peek (win (v_fs v1)) (bc mod SS (v_fs v))) 0x0F)
                              (Z.shiftl (u8 0xFFFFFFFF) 4))
               else u8 0xFFFFFFFF).
    set (v1' := vol_set_win v1 (poke (win (v_fs v1)) (bc mod SS (v_fs v)) x1)).
    assert (Hwf1' : vol_wf v1') by (apply vol_set_win_wf; [exact Hwf1 | apply poke_length]).
    assert (Hfr1' : frame (v_fs v1') = frame (v_fs v)) by (rewrite <- Hfr1; reflexivity).
    destruct (move_window_ok v1' (fatbase (v_fs v) + (bc + 1) / SS (v_fs v))
                Hwf1' Hrel1 ltac:(lia))
      as (v2 & Hm2 & Hwf2 & Hrel2 & Heq2 & Hws2 & Hwin2).
    rewrite Hm2. cbn [is_ok FRESULT_eqb negb].
    destruct Heq2 as [Hfr2 Hview2].
    pose proof (frame_fields _ _ Hfr2) as (G1 & _ & _ & G4 & _ & G6 & G7 & _).
    assert (Hin1 : in_fat1 (v_fs v1') (fatbase (v_fs v) + bc / SS (v_fs v))).
    { apply (in_fat1_frame (v_fs v)); [symmetry; exact Hfr1' |]. unfold in_fat1. lia. }
    assert (Hin2 : in_fat1 (v_fs v1') (fatbase (v_fs v) + (bc + 1) / SS (v_fs v))).
    { apply (in_fat1_frame (v_fs v)); [symmetry; exact Hfr1' |]. unfold in_fat1. lia. }
    specialize (Hwin2 Hin2).
    assert (Hlen1 : length (win (v_fs v1)) = Z.to_nat (SS (v_fs v))).
    { rewrite (wf_win _ Hwf1). unfold SS. rewrite F4. reflexivity. }
    assert (Hlen2 : length (win (v_fs v2)) = Z.to_nat (SS (v_fs v))).
    { rewrite (wf_win _ Hwf2). unfold SS. rewrite G4. subst v1'. simpl.
      rewrite F4. reflexivity. }
    assert (Hv1' : sview v1' (fatbase (v_fs v) + bc / SS (v_fs v)) =
                   poke (win (v_fs v1)) (bc mod SS (v_fs v)) x1).
    { unfold sview. subst v1'. simpl. rewrite Hws1, Z.eqb_refl. reflexivity. }
    set (x2 := if nz (Z.land c 1)
               then u8 (Z.shiftr 0xFFFFFFFF 4)
               else u8 (Z.lor (Z.land (peek (win (v_fs v2))
                                         ((bc + 1) mod SS (v_fs v))) 0xF0)
                              (Z.land (u8 (Z.shiftr 0xFFFFFFFF 8)) 0x0F))).
    eexists. split; [reflexivity |].
    split; [apply vol_set_win_wf; [exact Hwf2 | apply poke_length] |].
    split; [exact Hrel2 |].
    split; [unfold vol_set_win; simpl; rewrite <- Hfr1', <- Hfr2; reflexivity |].
    unfold fat_cell, get_end_of_cluster, vol_set_win, SS. cbn [v_fs v_disk].
    cbn [fs_type ssize fatbase set_wflag set_win].
    rewrite G1, G4, G7. subst v1'. cbn [vol_set_win v_fs fs_type ssize fatbase
      set_wflag set_win]. rewrite F1, F4, F7, Ety.
    change (FS_FAT12 =? FS_FAT12) with true. cbv iota.
    fold bc. unfold SS in *.
    assert (Hb2 : peek (sview (mkVol (set_wflag (set_win (v_fs v2)
                     (poke (win (v_fs v2)) ((bc + 1) mod ssize (v_fs v)) x2)) 1)
                     (v_disk v2))
                   (fatbase (v_fs v) + (bc + 1) / ssize (v_fs v)))
                  ((bc + 1) mod ssize (v_fs v)) = x2).
    { unfold sview. simpl. rewrite Hws2, Z.eqb_refl.
      apply peek_poke_eq. lia. }
    assert (Hb1 : peek (sview (mkVol (set_wflag (set_win (v_fs v2)
                     (poke (win (v_fs v2)) ((bc + 1) mod ssize (v_fs v)) x2)) 1)
                     (v_disk v2))
                   (fatbase (v_fs v) + bc / ssize (v_fs v)))
                  (bc mod ssize (v_fs v)) = x1).
    { unfold sview. simpl. rewrite Hws2.
      destruct (Z.eqb_spec (fatbase (v_fs v) + bc / ssize (v_fs v))
                           (fatbase (v_fs v) + (bc + 1) / ssize (v_fs v))) as [E | E].
      - rewrite peek_poke_ne by lia.
        rewrite Hwin2, <- E, Hv1'. apply peek_poke_eq. lia.
      - assert (Hs : sview v2 (fatbase (v_fs v) + bc / ssize (v_fs v)) =
                     d_sec (v_disk v2) (fatbase (v_fs v) + bc / ssize (v_fs v))).
        { unfold sview. rewrite Hws2.
          destruct (Z.eqb_spec (fatbase (v_fs v) + bc / ssize (v_fs v))
                      (fatbase (v_fs v) + (bc + 1) / ssize (v_fs v)));
            [contradiction | reflexivity]. }
        rewrite <- Hs, (Hview2 _ Hin1), Hv1'. apply peek_poke_eq. lia. }
    rewrite Hb1, Hb2. subst x1 x2.
    destruct (nz (Z.land c 1)).
    + apply fat12_odd_eoc.
    + apply fat12_even_eoc.
  - (* FAT16 *)
    destruct (B16 Ety) as (Hi & Hlt).
    destruct (aligned_offset c (SS (v_fs v)) 2 ltac:(lia) Hss
                ltac:(Z.div_mod_to_equations; lia) ltac:(lia)) as [Hp0 Hp2].
    unfold put_fat. rewrite (valid_clst_put_test _ _ Hc), Ety.
    change (FS_FAT16 =? FS_FAT12) with false.
    change (FS_FAT16 =? FS_FAT16) with true. cbv iota.
    rewrite (u32_small (c * 2)) by lia.
    rewrite !u32_small by lia.
    destruct (move_window_ok v (fatbase (v_fs v) + c / (SS (v_fs v) / 2))
                Hwf Hrel ltac:(lia))
      as (v1 & Hm1 & Hwf1 & Hrel1 & Heq1 & Hws1 & _).
    rewrite Hm1. cbn [is_ok FRESULT_eqb negb].
    destruct Heq1 as [Hfr1 _].
    pose proof (frame_fields _ _ Hfr1) as (F1 & _ & _ & F4 & _ & F6 & F7 & _).
    eexists. split; [reflexivity |].
    split; [apply vol_set_win_wf; [exact Hwf1 |];
            unfold st_word; rewrite !poke_length; reflexivity |].
    split; [exact Hrel1 |].
    split; [rewrite <- Hfr1; reflexivity |].
    unfold fat_cell, get_end_of_cluster, vol_set_win, sview, SS in *. simpl.
    rewrite F1, F4, F7, Ety, Hws1.
    change (FS_FAT16 =? FS_FAT12) with false.
    change (FS_FAT16 =? FS_FAT16) with true. cbv iota.
    rewrite Z.eqb_refl. change (u16 4294967295) with 65535.
    apply ld_st_word; [lia | | lia].
    rewrite (wf_win _ Hwf1). unfold SS. rewrite F4. lia.
  - (* FAT32 *)
    destruct (put_fat32_ok v c 0xFFFFFFFF Hwf Hrel Ety Hc)
      as (v' & Hput & Hwf' & Hrel' & Hfr & Hraw).
    pose proof (frame_fields _ _ Hfr) as (F1 & _).
    exists v'. split; [exact Hput |]. split; [exact Hwf' |].
    split; [exact Hrel' |]. split; [exact Hfr |].
    unfold fat_cell, get_end_of_cluster. rewrite F1, Ety.
    change (FS_FAT32 =? FS_FAT12) with false.
    change (FS_FAT32 =? FS_FAT16) with false.
    change (FS_FAT32 =? FS_FAT32) with true. cbv iota.
    rewrite Hraw, fat32_merge_low. reflexivity.
Qed.

Lemma n_fatent_bound (fs : FATFS) :
  geom_ok fs = true -> 0 <= n_fatent fs < 4294967296.
Proof.
  intros Hg.
  destruct (geom_ok_facts _ Hg) as (Hty & _ & _ & _ & _ & _ & [Hn Hsb] & _).
  unfold szbfat in Hsb.
  destruct Hty as [Ety | [Ety | Ety]]; rewrite Ety in Hsb.
  - change (FS_FAT12 =? FS_FAT32) with false in Hsb.
    change (FS_FAT12 =? FS_FAT16) with false in Hsb. cbv iota in Hsb.
    rewrite land_1_mod in Hsb. Z.div_mod_to_equations. lia.
  - change (FS_FAT16 =? FS_FAT32) with false in Hsb.
    change (FS_FAT16 =? FS_FAT16) with true in Hsb. cbv iota in Hsb. lia.
  - change (FS_FAT32 =? FS_FAT32) with true in Hsb. cbv iota in Hsb. lia.
Qed.

(** One pass of the scan loop, on the numbers alone. *)
Lemma scan_step (n scl j : Z) :
  1 <= scl < n -> n < 4294967296 -> 0 <= j < n - 2 ->
  (u32 (scan_pos n scl j + 1) >=? n) && (2 >? scl) = false /\
  (if u32 (scan_pos n scl j + 1) >=? n then 2 else u32 (scan_pos n scl j + 1)) =
    scan_pos n scl (j + 1) /\
  2 <= scan_pos n scl (j + 1) < n /\
  (scan_pos n scl (j + 1) = scl <-> j + 1 = n - 2 /\ 2 <= scl).
Proof.
  intros Hscl Hn Hj. unfold scan_pos.
  destruct (Z.ltb_spec (scl + j) n) as [H1 | H1];
    destruct (Z.ltb_spec (scl + (j + 1)) n) as [H2 | H2]; try lia;
    rewrite u32_small by lia; rewrite Z.geb_leb.
  - replace (n <=? scl + j + 1) with false by (symmetry; apply Z.leb_gt; lia).
    cbn [andb]. repeat split; lia.
  - replace (n <=? scl + j + 1) with true by (symmetry; apply Z.leb_le; lia).
    cbn [andb]. replace (2 >? scl) with false
      by (rewrite Z.gtb_ltb; symmetry; apply Z.ltb_ge; lia).
    repeat split; lia.
  - replace (n <=? scl + j - n + 2 + 1) with false by (symmetry; apply Z.leb_gt; lia).
    cbn [andb]. repeat split; lia.
Qed.

Section Scan.
Variable v0 : Vol.
Variable scl : Z.
Hypothesis Hwf0 : vol_wf v0.
Hypothesis Hscl : 1 <= scl < n_fatent (v_fs v0).

(** The scan reaches the first free cell of its order and stops there. *)
Lemma create_chain_scan_found (k : Z) (fuel : nat) :
  forall j v1,
    0 <= j < k -> k <= n_fatent (v_fs v0) - 2 ->
    vol_wf v1 -> reliable (v_disk v1) -> fat_eq v0 v1 ->
    (forall i, j < i < k ->
       cell_in_use (fat_cell v0 (scan_pos (n_fatent (v_fs v0)) scl i))) ->
    fat_cell v0 (scan_pos (n_fatent (v_fs v0)) scl k) = 0 ->
    (Z.to_nat (k - j) <= fuel)%nat ->
    exists v2,
      create_chain_scan fuel v1 scl (scan_pos (n_fatent (v_fs v0)) scl j) =
        Some (v2, Found (scan_pos (n_fatent (v_fs v0)) scl k)) /\
      vol_wf v2 /\ reliable (v_disk v2) /\ fat_eq v0 v2.
Proof.
  pose proof (wf_geom _ Hwf0) as Hg.
  pose proof (n_fatent_bound _ Hg) as Hn.
  induction fuel as [| fuel IH]; intros j v1 Hj Hk Hwf1 Hrel1 Heq1 Huse Hfree Hfuel;
    [lia |].
  destruct (scan_step (n_fatent (v_fs v0)) scl j Hscl ltac:(lia) ltac:(lia))
    as (Hquit & Hnext & Hrange & Hback).
  pose proof (frame_fields _ _ (proj1 Heq1)) as (_ & _ & _ & _ & F5 & _).
  cbn [create_chain_scan]. rewrite F5, Hquit, Hnext.
  destruct (get_fat_ok v1 (scan_pos (n_fatent (v_fs v0)) scl (j + 1)) Hwf1 Hrel1
              ltac:(rewrite F5; exact Hrange))
    as (v2 & Hget & Hwf2 & Hrel2 & Heq2).
  rewrite Hget, (fat_cell_fat_eq v0 v1 _ Hg Heq1 Hrange).
  assert (Heq02 : fat_eq v0 v2) by (apply fat_eq_trans with v1; assumption).
  destruct (Z.eq_dec (j + 1) k) as [E | E].
  - rewrite E, Hfree. cbn [Z.eqb]. exists v2.
    split; [reflexivity |]. split; [exact Hwf2 |]. split; [exact Hrel2 | exact Heq02].
  - destruct (Huse (j + 1) ltac:(lia)) as (U0 & U1 & UF).
    replace (_ =? 0) with false by (symmetry; apply Z.eqb_neq; exact U0).
    replace (_ =? 1) with false by (symmetry; apply Z.eqb_neq; exact U1).
    replace (_ =? 4294967295) with false by (symmetry; apply Z.eqb_neq; exact UF).
    cbn [orb].
    replace (_ =? scl) with false by (symmetry; apply Z.eqb_neq; lia).
    apply IH; try assumption; try lia.
    intros i Hi. apply Huse. lia.
Qed.

(** With no free cell in its order the scan ends on the no-space status. *)
Lemma create_chain_scan_none (fuel : nat) :
  forall j v1,
    0 <= j <= n_fatent (v_fs v0) - 2 -> j < n_fatent (v_fs v0) - 2 \/ scl = 1 ->
    vol_wf v1 -> reliable (v_disk v1) -> fat_eq v0 v1 ->
    (forall i, j < i <= n_fatent (v_fs v0) - 2 ->
       cell_in_use (fat_cell v0 (scan_pos (n_fatent (v_fs v0)) scl i))) ->
    (Z.to_nat (n_fatent (v_fs v0) - 1 - j) <= fuel)%nat ->
    exists v2,
      create_chain_scan fuel v1 scl (scan_pos (n_fatent (v_fs v0)) scl j) =
        Some (v2, Quit 0) /\
      vol_wf v2 /\ reliable (v_disk v2) /\ fat_eq v0 v2.
Proof.
  pose proof (wf_geom _ Hwf0) as Hg.
  pose proof (n_fatent_bound _ Hg) as Hn.
  induction fuel as [| fuel IH]; intros j v1 Hj Hlast Hwf1 Hrel1 Heq1 Huse Hfuel;
    [lia |].
  pose proof (frame_fields _ _ (proj1 Heq1)) as (_ & _ & _ & _ & F5 & _).
  cbn [create_chain_scan]. rewrite F5.
  destruct (Z.eq_dec j (n_fatent (v_fs v0) - 2)) as [E | E].
  - assert (Es : scl = 1) by lia. subst scl.
    unfold scan_pos.
    replace (1 + j <? n_fatent (v_fs v0)) with true by (symmetry; apply Z.ltb_lt; lia).
    rewrite u32_small by lia. rewrite Z.geb_leb.
    replace (n_fatent (v_fs v0) <=? 1 + j + 1) with true
      by (symmetry; apply Z.leb_le; lia).
    cbn. exists v1.
    split; [reflexivity |]. split; [exact Hwf1 |]. split; [exact Hrel1 | exact Heq1].
  - destruct (scan_step (n_fatent (v_fs v0)) scl j Hscl ltac:(lia) ltac:(lia))
      as (Hquit & Hnext & Hrange & Hback).
    rewrite Hquit, Hnext.
    destruct (get_fat_ok v1 (scan_pos (n_fatent (v_fs v0)) scl (j + 1)) Hwf1 Hrel1
                ltac:(rewrite F5; exact Hrange))
      as (v2 & Hget & Hwf2 & Hrel2 & Heq2).
    rewrite Hget, (fat_cell_fat_eq v0 v1 _ Hg Heq1 Hrange).
    assert (Heq02 : fat_eq v0 v2) by (apply fat_eq_trans with v1; assumption).
    destruct (Huse (j + 1) ltac:(lia)) as (U0 & U1 & UF).
    replace (_ =? 0) with false by (symmetry; apply Z.eqb_neq; exact U0).
    replace (_ =? 1) with false by (symmetry; apply Z.eqb_neq; exact U1).
    replace (_ =? 4294967295) with false by (symmetry; apply Z.eqb_neq; exact UF).
    cbn [orb].
    destruct (Z.eqb_spec (scan_pos (n_fatent (v_fs v0)) scl (j + 1)) scl) as [Eb | Eb].
    + exists v2.
      split; [reflexivity |]. split; [exact Hwf2 |]. split; [exact Hrel2 | exact Heq02].
    + apply IH; try assumption; try lia.
      intros i Hi. apply Huse. lia.
Qed.
End Scan.

(** The tail of create_chain for a new chain: the cell of the new cluster
    then reads end-of-chain, and the allocation hint names it. *)
Lemma create_chain_commit_new (v : Vol) (ncl : Z) :
  vol_wf v -> reliable (v_disk v) -> 2 <= ncl < n_fatent (v_fs v) ->
  exists v', create_chain_commit v 0 ncl = (v', ncl) /\ vol_wf v' /\
    reliable (v_disk v') /\
    fat_cell v' ncl = get_end_of_cluster (v_fs v) /\
    last_clst (v_fs v') = ncl.
Proof.
  intros Hwf Hrel Hc.
  destruct (put_fat_eoc_ok v ncl Hwf Hrel Hc)
    as (v1 & Hput & Hwf1 & Hrel1 & Hfr1 & Hcell).
  unfold create_chain_commit. rewrite Hput.
  cbn [is_ok FRESULT_eqb nz Z.eqb negb andb].
  eexists. split; [reflexivity |].
  destruct (free_clst (set_last_clst (v_fs v1) ncl) <=?
            u32 (n_fatent (set_last_clst (v_fs v1) ncl) - 2)).
  - split.
    { constructor; simpl.
      - exact (wf_geom _ Hwf1).
      - apply (wf_win _ Hwf1).
      - apply (wf_sec _ Hwf1).
      - apply (wf_winsect _ Hwf1).
      - apply (wf_clean _ Hwf1). }
    split; [exact Hrel1 |]. split; [rewrite <- Hcell; reflexivity | reflexivity].
  - split.
    { constructor; simpl.
      - exact (wf_geom _ Hwf1).
      - apply (wf_win _ Hwf1).
      - apply (wf_sec _ Hwf1).
      - apply (wf_winsect _ Hwf1).
      - apply (wf_clean _ Hwf1). }
    split; [exact Hrel1 |]. split; [rewrite <- Hcell; reflexivity | reflexivity].
Qed.

Lemma get_end_of_cluster_frame (a b : FATFS) :
  frame a = frame b -> get_end_of_cluster a = get_end_of_cluster b.
Proof.
  intros H. apply frame_fields in H. destruct H as (F1 & _).
  unfold get_end_of_cluster. rewrite F1. reflexivity.
Qed.

(** C5, as the code has it.  (0) On every volume whose free count is 0,
    create_chain(0) returns 0 at once: the filesystem object and the drive,
    with the trace of the requests made to it, are as they were, so no cell
    of the FAT has been read.  Otherwise, on a well-formed volume whose drive
    works, the scan starts behind scan_origin (last_clst, or cluster 1 when
    last_clst is 0 or not below n_fatent) and visits scan_pos 1, scan_pos 2,
    ...: the clusters up to n_fatent - 1, then from 2 on, n_fatent - 2
    clusters in all.  (1) When the k-th cluster of that order is the first
    whose cell reads 0, the cells before it being in use, create_chain
    returns that cluster, its cell then reads the end-of-chain value and
    last_clst names it.  (2) When no cell of the order reads 0, create_chain
    returns 0 and the FAT is as it was.  In both cases the loop ends within
    n_fatent passes. *)
Theorem create_chain_new_chain_scan (fuel : nat) (v : Vol) :
  (free_clst (v_fs v) = 0 -> create_chain fuel v 0 = Some (v, 0)) /\
  (vol_wf v -> reliable (v_disk v) ->
  free_clst (v_fs v) <> 0 -> 0 <= last_clst (v_fs v) ->
  n_fatent (v_fs v) < Z.of_nat fuel ->
  (forall k, 1 <= k <= n_fatent (v_fs v) - 2 ->
     (forall i, 1 <= i < k ->
        cell_in_use (fat_cell v (scan_pos (n_fatent (v_fs v))
                                          (scan_origin (v_fs v)) i))) ->
     fat_cell v (scan_pos (n_fatent (v_fs v)) (scan_origin (v_fs v)) k) = 0 ->
     exists v',
       create_chain fuel v 0 =
         Some (v', scan_pos (n_fatent (v_fs v)) (scan_origin (v_fs v)) k) /\
       fat_cell v' (scan_pos (n_fatent (v_fs v)) (scan_origin (v_fs v)) k) =
         get_end_of_cluster (v_fs v) /\
       last_clst (v_fs v') =
         scan_pos (n_fatent (v_fs v)) (scan_origin (v_fs v)) k /\
       vol_wf v') /\
  ((forall i, 1 <= i <= n_fatent (v_fs v) - 2 ->
      cell_in_use (fat_cell v (scan_pos (n_fatent (v_fs v))
                                        (scan_origin (v_fs v)) i))) ->
   exists v', create_chain fuel v 0 = Some (v', 0) /\ fat_eq v v')).
Proof.
  split.
  { intros Hzero. unfold create_chain. cbn [Z.eqb]. rewrite Hzero. reflexivity. }
  intros Hwf Hrel Hfree Hlast Hfuel.
  pose proof (wf_geom _ Hwf) as Hg.
  pose proof (n_fatent_bound _ Hg) as Hn.
  assert (Hcc : create_chain fuel v 0 =
    match create_chain_scan fuel v (scan_origin (v_fs v)) (scan_origin (v_fs v)) with
    | None => None
    | Some (v1, Quit st) => Some (v1, st)
    | Some (v1, Found ncl) => Some (create_chain_commit v1 0 ncl)
    end).
  { unfold create_chain, scan_origin. cbn [Z.eqb].
    replace (free_clst (v_fs v) =? 0) with false
      by (symmetry; apply Z.eqb_neq; exact Hfree).
    reflexivity. }
  assert (Hs1 : 1 <= scan_origin (v_fs v)).
  { unfold scan_origin.
    destruct (Z.eqb_spec (last_clst (v_fs v)) 0); cbn [orb]; [lia |].
    destruct (last_clst (v_fs v) >=? n_fatent (v_fs v)); lia. }
  assert (Hs2 : 2 <= n_fatent (v_fs v) -> scan_origin (v_fs v) < n_fatent (v_fs v)).
  { intros H2. unfold scan_origin.
    destruct (Z.eqb_spec (last_clst (v_fs v)) 0); cbn [orb]; [lia |].
    rewrite Z.geb_leb.
    destruct (Z.leb_spec (n_fatent (v_fs v)) (last_clst (v_fs v))); lia. }
  assert (Hp0 : 2 <= n_fatent (v_fs v) ->
                scan_pos (n_fatent (v_fs v)) (scan_origin (v_fs v)) 0 =
                scan_origin (v_fs v)).
  { intros H2. unfold scan_pos. rewrite Z.add_0_r.
    replace (_ <? _) with true by (symmetry; apply Z.ltb_lt; apply Hs2; exact H2).
    reflexivity. }
  split.
  - intros k Hk Huse Hzero.
    assert (H2 : 2 <= n_fatent (v_fs v)) by lia.
    destruct (create_chain_scan_found v (scan_origin (v_fs v)) Hwf
                ltac:(split; [exact Hs1 | apply Hs2; exact H2]) k fuel 0 v
                ltac:(lia) ltac:(lia) Hwf Hrel (fat_eq_refl v)
                ltac:(intros i Hi; apply Huse; lia) Hzero ltac:(lia))
      as (v2 & Hscan & Hwf2 & Hrel2 & Heq2).
    rewrite (Hp0 H2) in Hscan. rewrite Hcc, Hscan.
    pose proof (frame_fields _ _ (proj1 Heq2)) as (_ & _ & _ & _ & F5 & _).
    destruct (scan_step (n_fatent (v_fs v)) (scan_origin (v_fs v)) (k - 1)
                ltac:(split; [exact Hs1 | apply Hs2; exact H2]) ltac:(lia) ltac:(lia))
      as (_ & _ & Hrange & _).
    replace (k - 1 + 1) with k in Hrange by lia.
    destruct (create_chain_commit_new v2 _ Hwf2 Hrel2
                ltac:(rewrite F5; exact Hrange))
      as (v3 & Hcommit & Hwf3 & Hrel3 & Hcell & Hhint).
    exists v3. rewrite Hcommit. split; [reflexivity |].
    split; [rewrite Hcell; apply get_end_of_cluster_frame; apply Heq2 |].
    split; [exact Hhint | exact Hwf3].
  - intros Huse. rewrite Hcc.
    destruct (Z_lt_le_dec (n_fatent (v_fs v)) 2) as [Hsmall | H2].
    + assert (Eo : scan_origin (v_fs v) = 1).
      { unfold scan_origin.
        destruct (Z.eqb_spec (last_clst (v_fs v)) 0); cbn [orb]; [reflexivity |].
        rewrite Z.geb_leb.
        destruct (Z.leb_spec (n_fatent (v_fs v)) (last_clst (v_fs v))); [reflexivity | lia]. }
      rewrite Eo. destruct fuel as [| fuel]; [lia |].
      cbn [create_chain_scan]. change (u32 (1 + 1)) with 2.
      rewrite Z.geb_leb.
      replace (n_fatent (v_fs v) <=? 2) with true by (symmetry; apply Z.leb_le; lia).
      cbn. exists v. split; [reflexivity | apply fat_eq_refl].
    + destruct (create_chain_scan_none v (scan_origin (v_fs v)) Hwf
                  ltac:(split; [exact Hs1 | apply Hs2; exact H2]) fuel 0 v
                  ltac:(lia) ltac:(pose proof (Hs2 H2); lia) Hwf Hrel (fat_eq_refl v)
                  ltac:(intros i Hi; apply Huse; lia) ltac:(lia))
        as (v2 & Hscan & Hwf2 & Hrel2 & Heq2).
      rewrite (Hp0 H2) in Hscan. rewrite Hscan.
      exists v2. split; [reflexivity | exact Heq2].
Qed.

Lemma create_chain_new_chain_scan_witness :
  create_chain 0 (sample_vol32_hint 99 0) 0 = Some (sample_vol32_hint 99 0, 0) /\
  scan_origin (v_fs (sample_vol32_hint 99 96)) = 99 /\
  scan_pos 100 99 1 = 2 /\ scan_pos 100 99 3 = 4 /\
  exists v',
    create_chain 101 (sample_vol32_hint 99 96) 0 = Some (v', 4) /\
    fat_cell v' 4 = 0x0FFFFFFF /\ last_clst (v_fs v') = 4 /\ vol_wf v'.
Proof.
  split; [apply (proj1 (create_chain_new_chain_scan 0 (sample_vol32_hint 99 0)));
          reflexivity |].
  split; [reflexivity |]. split; [reflexivity |]. split; [reflexivity |].
  apply (proj1 (proj2 (create_chain_new_chain_scan 101 (sample_vol32_hint 99 96))
                  ltac:(apply sample_disk_wf; reflexivity)
                  (sample_disk_reliable sample_fat32)
                  ltac:(discriminate) ltac:(vm_compute; discriminate)
                  ltac:(reflexivity)) 3 ltac:(vm_compute; split; discriminate)).
  - intros i Hi. assert (Hc : i = 1 \/ i = 2) by lia.
    destruct Hc as [-> | ->]; vm_compute; repeat split; discriminate.
  - vm_compute. reflexivity.
Defined.

(** C5, counterexample.  With a free count of 0 in the filesystem object
    (as loaded from a stale FSINFO sector) create_chain(0) returns 0 at once:
    cluster 4, the one behind last_clst = 3, reads 0 in the FAT, yet it is
    neither stamped nor returned, and the drive is not asked for a sector. *)
Lemma create_chain_trusts_free_count :
  fat_cell (sample_vol32_hint 3 0) 4 = 0 /\
  scan_pos 100 (scan_origin (v_fs (sample_vol32_hint 3 0))) 1 = 4 /\
  forall fuel, create_chain fuel (sample_vol32_hint 3 0) 0 =
               Some (sample_vol32_hint 3 0, 0).
Proof.
  split; [vm_compute; reflexivity |]. split; [reflexivity |].
  intros fuel. reflexivity.
Qed.

(** * Further properties of the code

    ** The byte codec (ld_word, ld_dword, st_word, st_dword) *)

Lemma shiftr8 (x : Z) : Z.shiftr x 8 = x / 256.
Proof. rewrite Z.shiftr_div_pow2 by lia. reflexivity. Qed.

(** X1.  st_dword then ld_dword: a 32-bit value stored at offset p of a
    buffer is loaded back unchanged; its four bytes lie in little-endian
    order at p .. p+3; no other byte of the buffer changes and the buffer
    keeps its length. *)
Theorem st_dword_ld_dword_roundtrip (b : list Z) (p x : Z) :
  0 <= p -> (Z.to_nat (p + 3) < length b)%nat -> 0 <= x < 4294967296 ->
  ld_dword (st_dword b p x) p = x /\
  (forall k, 0 <= k < 4 -> peek (st_dword b p x) (p + k) = x / 256 ^ k mod 256) /\
  (forall j, 0 <= j -> j < p \/ p + 4 <= j ->
     peek (st_dword b p x) j = peek b j) /\
  length (st_dword b p x) = length b.
Proof.
  intros Hp Hlen Hx.
  split; [apply ld_st_dword; assumption |].
  split; [| split; [intros j Hj Hout; apply st_dword_other; assumption
                   | apply st_dword_length]].
  intros k Hk. unfold st_dword. rewrite !shiftr8. unfold u8.
  assert (Hc : k = 0 \/ k = 1 \/ k = 2 \/ k = 3) by lia.
  destruct Hc as [-> | [-> | [-> | ->]]].
  - rewrite Z.add_0_r. rewrite !peek_poke_ne by lia.
    rewrite peek_poke_eq by lia. change (256 ^ 0) with 1. rewrite Z.div_1_r.
    reflexivity.
  - rewrite !peek_poke_ne by lia.
    rewrite peek_poke_eq by (rewrite !poke_length; lia). reflexivity.
  - rewrite !peek_poke_ne by lia.
    rewrite peek_poke_eq by (rewrite !poke_length; lia).
    rewrite Z.div_div by lia. reflexivity.
  - rewrite peek_poke_eq by (rewrite !poke_length; lia).
    rewrite !Z.div_div by lia. reflexivity.
Qed.

Lemma st_dword_ld_dword_roundtrip_witness :
  ld_dword (st_dword (replicate 8 0) 2 0x12345678) 2 = 0x12345678 /\
  st_dword (replicate 8 0) 2 0x12345678 = [0; 0; 0x78; 0x56; 0x34; 0x12; 0; 0].
Proof.
  split.
  - apply (st_dword_ld_dword_roundtrip (replicate 8 0) 2 0x12345678);
      [lia | simpl; lia | lia].
  - reflexivity.
Defined.

(** X2.  st_word then ld_word: a 16-bit value stored at offset p is loaded
    back unchanged, low byte first; no other byte changes and the buffer
    keeps its length. *)
Theorem st_word_ld_word_roundtrip (b : list Z) (p x : Z) :
  0 <= p -> (Z.to_nat (p + 1) < length b)%nat -> 0 <= x < 65536 ->
  ld_word (st_word b p x) p = x /\
  peek (st_word b p x) p = x mod 256 /\
  peek (st_word b p x) (p + 1) = x / 256 /\
  (forall j, 0 <= j -> j < p \/ p + 2 <= j ->
     peek (st_word b p x) j = peek b j) /\
  length (st_word b p x) = length b.
Proof.
  intros Hp Hlen Hx.
  split; [apply ld_st_word; assumption |].
  unfold st_word. rewrite shiftr8. unfold u8.
  split; [rewrite peek_poke_ne by lia; apply peek_poke_eq; lia |].
  split.
  { rewrite peek_poke_eq by (rewrite poke_length; lia).
    apply Z.mod_small. Z.div_mod_to_equations. lia. }
  split; [| rewrite !poke_length; reflexivity].
  intros j Hj Hout. rewrite !peek_poke_ne by lia. reflexivity.
Qed.

Lemma st_word_ld_word_roundtrip_witness :
  ld_word (st_word (replicate 4 0) 1 0xAA55) 1 = 0xAA55 /\
  st_word (replicate 4 0) 1 0xAA55 = [0; 0x55; 0xAA; 0].
Proof.
  split.
  - apply (st_word_ld_word_roundtrip (replicate 4 0) 1 0xAA55);
      [lia | simpl; lia | lia].
  - reflexivity.
Defined.

(** ** The open-file registry *)

Lemma first_index_le (p : FILESEM -> bool) (l : list FILESEM) :
  (first_index p l <= length l)%nat.
Proof. induction l as [| f l IH]; cbn; [lia |]. destruct (p f); cbn; lia. Qed.

Lemma first_index_found (p : FILESEM -> bool) (l : list FILESEM) :
  (first_index p l < length l)%nat ->
  exists f, l !! first_index p l = Some f /\ p f = true.
Proof.
  induction l as [| f l IH]; cbn; [lia |].
  destruct (p f) eqn:E; cbn.
  - intros _. exists f. split; [reflexivity | exact E].
  - intros H. apply IH. lia.
Qed.

Lemma first_index_before (p : FILESEM -> bool) (l : list FILESEM) (j : nat) (g : FILESEM) :
  (j < first_index p l)%nat -> l !! j = Some g -> p g = false.
Proof.
  revert j. induction l as [| f l IH]; intros j; cbn; [lia |].
  destruct (p f) eqn:E; [lia |].
  destruct j as [| j]; cbn.
  - intros _ [= <-]. exact E.
  - intros H. apply IH. lia.
Qed.

Lemma first_index_insert (p : FILESEM -> bool) (l : list FILESEM) (i : nat) (x : FILESEM) :
  (i < length l)%nat -> p x = true ->
  (forall j g, (j < i)%nat -> l !! j = Some g -> p g = false) ->
  first_index p (<[i := x]> l) = i.
Proof.
  revert i. induction l as [| f l IH]; intros i; cbn; [lia |].
  destruct i as [| i]; cbn.
  - intros _ Hx _. rewrite Hx. reflexivity.
  - intros Hi Hx Hbefore.
    rewrite (Hbefore O f ltac:(lia) eq_refl).
    f_equal. apply IH; [lia | exact Hx |].
    intros j g Hj Hg. apply (Hbefore (S j) g); [lia | exact Hg].
Qed.

Lemma sem_match_live (f : FILESEM) (dp : DIRID) :
  dj_fs dp <> 0 -> sem_match f dp = true -> sem_fs f <> 0.
Proof.
  intros Hfs H. unfold sem_match in H.
  apply andb_true_iff in H. destruct H as [H _].
  apply andb_true_iff in H. destruct H as [H _].
  apply Z.eqb_eq in H. congruence.
Qed.

(** The search loop of chk_share stops at the first entry that matches, and
    [be] tells whether it passed a blank entry. *)
Lemma chk_share_loop_spec (files : list FILESEM) (dp : DIRID) (be : Z) :
  dj_fs dp <> 0 ->
  chk_share_loop files dp be =
  (files !! first_index (fun f => sem_match f dp) files,
   if existsb (fun f => negb (nz (sem_fs f)))
              (take (first_index (fun f => sem_match f dp) files) files)
   then 1 else be).
Proof.
  intros Hfs. revert be. induction files as [| f rest IH]; intros be; [reflexivity |].
  cbn [chk_share_loop first_index].
  destruct (nz (sem_fs f)) eqn:Elive.
  - destruct (sem_match f dp) eqn:Em; [reflexivity |].
    rewrite IH. cbn. rewrite Elive. reflexivity.
  - destruct (sem_match f dp) eqn:Em.
    + exfalso. apply (sem_match_live f dp Hfs) in Em.
      unfold nz in Elive. apply negb_false_iff, Z.eqb_eq in Elive. contradiction.
    + rewrite IH. cbn. rewrite Elive. cbn.
      destruct (existsb _ _); reflexivity.
Qed.

Lemma existsb_blank_first (files : list FILESEM) :
  existsb (fun f => negb (nz (sem_fs f))) files = true ->
  (first_index (fun f => negb (nz (sem_fs f))) files < length files)%nat.
Proof.
  induction files as [| f rest IH]; cbn; [discriminate |].
  destruct (negb (nz (sem_fs f))); cbn; [lia |].
  intros H. specialize (IH H). lia.
Qed.

Lemma sem_match_self (dp : DIRID) (n : Z) :
  sem_match (mkFILESEM (dj_fs dp) (dj_sclust dp) (dj_dptr dp) n) dp = true.
Proof. unfold sem_match. cbn. rewrite !Z.eqb_refl. reflexivity. Qed.

Lemma sem_match_set_ctr (f : FILESEM) (dp : DIRID) (n : Z) :
  sem_match (set_ctr f n) dp = sem_match f dp.
Proof. reflexivity. Qed.

(** What a successful inc_share leaves behind. *)
Lemma inc_share_shape (files : list FILESEM) (dp : DIRID) (acc : Z) :
  dj_fs dp <> 0 ->
  forall files' idx, inc_share files dp acc = (files', idx) -> idx <> 0 ->
  exists (i : nat) (f0 : FILESEM),
    idx = Z.of_nat i + 1 /\ (i < length files)%nat /\
    files' = <[i := mkFILESEM (dj_fs dp) (dj_sclust dp) (dj_dptr dp)
                      (if nz acc then 0x100 else u32 (sem_ctr f0 + 1))]> files /\
    first_index (fun f => sem_match f dp) files' = i /\
    ((first_index (fun f => sem_match f dp) files = i /\
      files !! i = Some f0 /\ sem_match f0 dp = true /\
      ((acc >=? 1) && nz (sem_ctr f0) = false)) \/
     (first_index (fun f => sem_match f dp) files = length files /\
      first_index (fun f => negb (nz (sem_fs f))) files = i /\
      (exists e, files !! i = Some e /\ sem_fs e = 0) /\ sem_ctr f0 = 0)).
Proof.
  intros Hfs files' idx Hinc Hidx. unfold inc_share in Hinc.
  set (im := first_index (fun f => sem_match f dp) files) in *.
  pose proof (first_index_le (fun f => sem_match f dp) files) as Hle.
  destruct (Nat.eqb_spec im (length files)) as [Enone | Efound].
  - set (ib := first_index (fun f => negb (nz (sem_fs f))) files) in *.
    pose proof (first_index_le (fun f => negb (nz (sem_fs f))) files) as Hleb.
    destruct (Nat.eqb_spec ib (length files)) as [Efull | Eblank].
    + inversion Hinc; subst; congruence.
    + assert (Hib : (ib < length files)%nat) by (fold ib in Hleb; lia).
      destruct (first_index_found _ files Hib) as (e & He & Hblank).
      fold ib in He.
      unfold inc_share_at in Hinc.
      rewrite list_lookup_insert_eq in Hinc by exact Hib.
      cbn [default sem_ctr] in Hinc.
      change (nz 0) with false in Hinc. rewrite andb_false_r in Hinc.
      inversion Hinc; subst files' idx. clear Hinc.
      exists ib, (mkFILESEM 0 0 0 0).
      split; [reflexivity |]. split; [exact Hib |].
      split; [rewrite list_insert_insert_eq; reflexivity |].
      split.
      { rewrite list_insert_insert_eq. apply first_index_insert; [exact Hib | apply sem_match_self |].
        intros j g Hj Hg. apply (first_index_before (fun f => sem_match f dp) files j g);
          [fold im; lia | exact Hg]. }
      right. split; [exact Enone |]. split; [reflexivity |].
      split; [| reflexivity].
      exists e. split; [exact He |].
      unfold nz in Hblank. apply negb_true_iff, negb_false_iff, Z.eqb_eq in Hblank.
      exact Hblank.
  - assert (Him : (im < length files)%nat) by (fold im in Hle; lia).
    destruct (first_index_found _ files Him) as (f0 & Hf0 & Hm).
    fold im in Hf0.
    unfold inc_share_at in Hinc. rewrite Hf0 in Hinc.
    change (default blank_sem (Some f0)) with f0 in Hinc.
    revert Hinc.
    destruct ((acc >=? 1) && nz (sem_ctr f0)) eqn:Eacc; intros Hinc.
    + inversion Hinc; subst; congruence.
    + inversion Hinc; subst files' idx. clear Hinc.
      assert (Hids : set_ctr f0 (if nz acc then 256 else u32 (sem_ctr f0 + 1)) =
                     mkFILESEM (dj_fs dp) (dj_sclust dp) (dj_dptr dp)
                       (if nz acc then 256 else u32 (sem_ctr f0 + 1))).
      { unfold set_ctr. unfold sem_match in Hm.
        apply andb_true_iff in Hm. destruct Hm as [Hm H3].
        apply andb_true_iff in Hm. destruct Hm as [H1 H2].
        apply Z.eqb_eq in H1, H2, H3. rewrite H1, H2, H3. reflexivity. }
      exists im, f0.
      split; [reflexivity |]. split; [exact Him |].
      split; [rewrite Hids; reflexivity |].
      split.
      { apply first_index_insert; [exact Him | rewrite sem_match_set_ctr; exact Hm |].
        intros j g Hj Hg. apply (first_index_before (fun f => sem_match f dp) files j g);
          [fold im; lia | exact Hg]. }
      left. split; [reflexivity |]. split; [exact Hf0 |]. split; [exact Hm | exact Eacc].
Qed.

Lemma chk_share_found (files : list FILESEM) (dp : DIRID) (acc : Z) (f : FILESEM) :
  dj_fs dp <> 0 ->
  files !! first_index (fun f => sem_match f dp) files = Some f ->
  chk_share files dp acc =
  if negb (acc =? 0) || (sem_ctr f =? 0x100) then FR_LOCKED else FR_OK.
Proof.
  intros Hfs Hf. unfold chk_share. rewrite chk_share_loop_spec by exact Hfs.
  rewrite Hf. reflexivity.
Qed.

Lemma chk_share_ok_inc_share_nonzero (files : list FILESEM) (dp : DIRID) (acc : Z) :
  dj_fs dp <> 0 -> acc = 0 \/ acc = 1 -> chk_share files dp acc = FR_OK ->
  snd (inc_share files dp acc) <> 0 /\
  forall f, files !! first_index (fun f => sem_match f dp) files = Some f ->
            acc = 0 /\ sem_ctr f <> 0x100.
Proof.
  intros Hfs Hacc Hchk.
  pose proof (first_index_le (fun f => sem_match f dp) files) as Hle.
  unfold inc_share.
  destruct (Nat.eqb_spec (first_index (fun f => sem_match f dp) files) (length files))
    as [Enone | Efound].
  - split.
    2:{ intros f Hf. rewrite Enone, lookup_ge_None_2 in Hf by lia. discriminate Hf. }
    unfold chk_share in Hchk. rewrite chk_share_loop_spec in Hchk by exact Hfs.
    rewrite Enone, lookup_ge_None_2, firstn_all in Hchk by lia.
    destruct (existsb (fun f => negb (nz (sem_fs f))) files) eqn:Eb.
    + apply existsb_blank_first in Eb.
      destruct (Nat.eqb_spec (first_index (fun f => negb (nz (sem_fs f))) files)
                             (length files)) as [E | E]; [lia |].
      unfold inc_share_at. rewrite list_lookup_insert_eq by exact Eb.
      cbn [default sem_ctr]. change (nz 0) with false. rewrite andb_false_r.
      cbn [snd]. lia.
    + exfalso. cbn in Hchk. destruct Hacc as [-> | ->]; discriminate Hchk.
  - assert (Him : (first_index (fun f => sem_match f dp) files < length files)%nat) by lia.
    destruct (first_index_found _ files Him) as (f0 & Hf0 & Hm).
    rewrite (chk_share_found files dp acc f0 Hfs Hf0) in Hchk.
    destruct (Z.eqb_spec acc 0) as [-> | Hne]; [| discriminate Hchk].
    cbn [negb orb] in Hchk.
    destruct (Z.eqb_spec (sem_ctr f0) 256) as [E | E]; [discriminate Hchk |].
    split.
    + unfold inc_share_at. cbn [Z.geb Z.compare andb snd]. lia.
    + intros f Hf. rewrite Hf0 in Hf. inversion Hf; subst f. split; [reflexivity | exact E].
Qed.

(** X3.  The share check and the registration agree: when chk_share lets a
    read-mode or write-mode open through, inc_share does not fail.  It
    returns the index (from 1) of an entry that identifies the object, with
    the counter 0x100 for a write-mode open and one more reader for a
    read-mode open; the other entries are left as they were. *)
Theorem chk_share_ok_inc_share_registers (files : list FILESEM) (dp : DIRID) (acc : Z) :
  dj_fs dp <> 0 -> acc = 0 \/ acc = 1 -> chk_share files dp acc = FR_OK ->
  exists (files' : list FILESEM) (i : nat) (f' : FILESEM),
    inc_share files dp acc = (files', Z.of_nat i + 1) /\
    (i < length files)%nat /\ length files' = length files /\
    files' !! i = Some f' /\ sem_match f' dp = true /\
    (acc = 1 -> sem_ctr f' = 0x100) /\
    (acc = 0 -> forall f, files !! i = Some f ->
       sem_ctr f' = if sem_fs f =? 0 then 1 else u32 (sem_ctr f + 1)) /\
    (forall j, j <> i -> files' !! j = files !! j).
Proof.
  intros Hfs Hacc Hchk.
  destruct (chk_share_ok_inc_share_nonzero files dp acc Hfs Hacc Hchk) as [Hnz Hrd].
  destruct (inc_share files dp acc) as [files' idx] eqn:Hinc. cbn [snd] in Hnz.
  destruct (inc_share_shape files dp acc Hfs files' idx Hinc Hnz)
    as (i & f0 & -> & Hi & -> & Hfirst & Hcase).
  eexists _, i, _. split; [reflexivity |]. split; [exact Hi |].
  split; [apply length_insert |].
  split; [apply list_lookup_insert_eq; exact Hi |].
  split; [apply sem_match_self |].
  split; [intros ->; reflexivity |].
  split; [| intros j Hj; apply list_lookup_insert_ne; congruence].
  intros -> f Hf. cbn [sem_ctr nz Z.eqb negb].
  destruct Hcase as [(_ & Hf0 & Hm & _) | (_ & _ & (e & He & Hblank) & Hc0)].
  - rewrite Hf0 in Hf. inversion Hf; subst f.
    replace (sem_fs f0 =? 0) with false; [reflexivity |].
    symmetry. apply Z.eqb_neq. apply (sem_match_live f0 dp Hfs Hm).
  - rewrite He in Hf. inversion Hf; subst f. rewrite Hblank, Hc0. reflexivity.
Qed.

Lemma chk_share_ok_inc_share_registers_witness :
  chk_share sample_files (mkDIRID 1 0 64) 0 = FR_OK /\
  inc_share sample_files (mkDIRID 1 0 64) 0 =
    ([mkFILESEM 1 0 64 4; mkFILESEM 0 7 7 0], 1).
Proof.
  split; [reflexivity |].
  destruct (chk_share_ok_inc_share_registers sample_files (mkDIRID 1 0 64) 0
              ltac:(discriminate) ltac:(left; reflexivity) eq_refl)
    as (files' & i & f' & Hinc & _).
  reflexivity.
Defined.

(** X4.  Exclusion.  Once inc_share has registered an open of an object,
    chk_share answers FR_LOCKED to every write-mode open and every delete or
    rename of that object; when the open was a write-mode open, it answers
    FR_LOCKED to read-mode opens too. *)
Theorem inc_share_locks_object (files : list FILESEM) (dp : DIRID) (acc : Z)
  (files' : list FILESEM) (idx : Z) :
  dj_fs dp <> 0 -> inc_share files dp acc = (files', idx) -> idx <> 0 ->
  (forall acc', acc' <> 0 -> chk_share files' dp acc' = FR_LOCKED) /\
  (acc <> 0 -> forall acc', chk_share files' dp acc' = FR_LOCKED).
Proof.
  intros Hfs Hinc Hidx.
  destruct (inc_share_shape files dp acc Hfs files' idx Hinc Hidx)
    as (i & f0 & -> & Hi & -> & Hfirst & _).
  assert (Hchk : forall acc',
    chk_share (<[i := mkFILESEM (dj_fs dp) (dj_sclust dp) (dj_dptr dp)
                        (if nz acc then 0x100 else u32 (sem_ctr f0 + 1))]> files)
              dp acc' =
    if negb (acc' =? 0) || ((if nz acc then 0x100 else u32 (sem_ctr f0 + 1)) =? 0x100)
    then FR_LOCKED else FR_OK).
  { intros acc'.
    apply (chk_share_found _ dp acc'
             (mkFILESEM (dj_fs dp) (dj_sclust dp) (dj_dptr dp)
                (if nz acc then 0x100 else u32 (sem_ctr f0 + 1))) Hfs).
    rewrite Hfirst. apply list_lookup_insert_eq. exact Hi. }
  split.
  - intros acc' Hne. rewrite Hchk.
    replace (acc' =? 0) with false by (symmetry; apply Z.eqb_neq; exact Hne).
    reflexivity.
  - intros Hne acc'. rewrite Hchk. unfold nz.
    replace (acc =? 0) with false by (symmetry; apply Z.eqb_neq; exact Hne).
    cbn [negb]. rewrite Z.eqb_refl, orb_true_r. reflexivity.
Qed.

Lemma inc_share_locks_object_witness :
  chk_share (fst (inc_share sample_files (mkDIRID 1 0 64) 0)) (mkDIRID 1 0 64) 1
    = FR_LOCKED /\
  chk_share (fst (inc_share sample_files (mkDIRID 1 4 0) 1)) (mkDIRID 1 4 0) 0
    = FR_LOCKED.
Proof.
  split.
  - apply (proj1 (inc_share_locks_object sample_files (mkDIRID 1 0 64) 0 _ _
                    ltac:(discriminate) eq_refl ltac:(discriminate))).
    discriminate.
  - apply (proj2 (inc_share_locks_object sample_files (mkDIRID 1 4 0) 1 _ _
                    ltac:(discriminate) eq_refl ltac:(discriminate))).
    discriminate.
Defined.

Lemma chk_share_loop_equiv (l1 l2 : list FILESEM) (dp : DIRID) :
  dj_fs dp <> 0 -> Forall2 sem_equiv l1 l2 ->
  forall be, chk_share_loop l1 dp be = chk_share_loop l2 dp be.
Proof.
  intros Hfs H. induction H as [| f g l1 l2 [Hfg Hlive] _ IH]; intros be;
    [reflexivity |].
  cbn [chk_share_loop]. rewrite <- Hfg.
  destruct (nz (sem_fs f)) eqn:E.
  - assert (Hne : sem_fs f <> 0).
    { unfold nz in E. apply negb_true_iff, Z.eqb_neq in E. exact E. }
    rewrite <- (Hlive Hne). rewrite IH. reflexivity.
  - apply IH.
Qed.

Lemma sem_equiv_refl (f : FILESEM) : sem_equiv f f.
Proof. split; [reflexivity | intros _; reflexivity]. Qed.

Lemma Forall2_sem_equiv_insert (files : list FILESEM) (i : nat) (x : FILESEM) :
  (forall e, files !! i = Some e -> sem_equiv x e) ->
  Forall2 sem_equiv (<[i := x]> files) files.
Proof.
  revert i. induction files as [| f rest IH]; intros i Hx; [constructor |].
  destruct i as [| i]; cbn.
  - constructor; [apply Hx; reflexivity |].
    clear. induction rest; constructor; [apply sem_equiv_refl | assumption].
  - constructor; [apply sem_equiv_refl |]. apply IH. exact Hx.
Qed.

Lemma reg_ok_lookup (files : list FILESEM) (i : nat) (f : FILESEM) :
  reg_ok files -> files !! i = Some f -> sem_fs f <> 0 -> 1 <= sem_ctr f <= 0x100.
Proof.
  intros Hok Hf. unfold reg_ok in Hok. rewrite Forall_lookup in Hok.
  apply (Hok i f Hf).
Qed.

(** X5.  Open then close.  On a registry whose counters are in their range,
    an open registered by inc_share (read or write mode; for a read-mode
    open of an object already open, fewer than 0xFF readers before) and
    undone by dec_share with the index inc_share returned leaves a registry
    that answers every chk_share as the one before the open did: the entry
    is the same again, or blank again. *)
Theorem inc_share_dec_share_roundtrip (files : list FILESEM) (dp : DIRID) (acc : Z)
  (files' : list FILESEM) (idx : Z) :
  dj_fs dp <> 0 -> acc = 0 \/ acc = 1 ->
  Z.of_nat (length files) < 4294967296 -> reg_ok files ->
  (forall f, files !! first_index (fun f => sem_match f dp) files = Some f ->
             sem_ctr f < 0xFF) ->
  inc_share files dp acc = (files', idx) -> idx <> 0 ->
  exists files'',
    dec_share files' idx = (files'', FR_OK) /\
    Forall2 sem_equiv files'' files /\
    forall dp' acc', dj_fs dp' <> 0 ->
      chk_share files'' dp' acc' = chk_share files dp' acc'.
Proof.
  intros Hfs Hacc Hlen Hok Hroom Hinc Hidx.
  destruct (inc_share_shape files dp acc Hfs files' idx Hinc Hidx)
    as (i & f0 & -> & Hi & -> & Hfirst & Hcase).
  unfold dec_share.
  replace (Z.of_nat i + 1 - 1) with (Z.of_nat i) by lia.
  rewrite u32_small by lia. rewrite length_insert.
  replace (Z.of_nat i <? Z.of_nat (length files)) with true
    by (symmetry; apply Z.ltb_lt; lia).
  rewrite Nat2Z.id, list_lookup_insert_eq by exact Hi.
  cbn [default sem_ctr]. rewrite list_insert_insert_eq.
  eexists. split; [reflexivity |].
  assert (Heq : Forall2 sem_equiv
    (<[i := let n := if nz acc then 0x100 else u32 (sem_ctr f0 + 1) in
            let n := if n =? 0x100 then 0 else n in
            let n := if n >? 0 then n - 1 else n in
            let f := set_ctr (mkFILESEM (dj_fs dp) (dj_sclust dp) (dj_dptr dp)
                                (if nz acc then 0x100 else u32 (sem_ctr f0 + 1))) n in
            if n =? 0 then set_sem_fs f 0 else f]> files) files).
  { apply Forall2_sem_equiv_insert. intros e He.
    destruct Hcase as [(Him & Hf0 & Hm & Eacc) | (_ & _ & (e' & He' & Hblank) & Hc0)].
    - rewrite Hf0 in He. inversion He; subst e.
      pose proof (sem_match_live f0 dp Hfs Hm) as Hlive.
      pose proof (reg_ok_lookup files i f0 Hok Hf0 Hlive) as Hrange.
      rewrite <- Him in Hf0. pose proof (Hroom f0 Hf0) as Hlt.
      assert (Ea : acc = 0).
      { destruct Hacc as [-> | ->]; [reflexivity |].
        exfalso. cbn in Eacc. unfold nz in Eacc.
        apply negb_false_iff, Z.eqb_eq in Eacc. lia. }
      subst acc. cbn [nz Z.eqb negb]. cbv zeta.
      rewrite u32_small by lia.
      replace (sem_ctr f0 + 1 =? 256) with false by (symmetry; apply Z.eqb_neq; lia).
      replace (sem_ctr f0 + 1 >? 0) with true by (symmetry; apply Z.gtb_lt; lia).
      replace (sem_ctr f0 + 1 - 1) with (sem_ctr f0) by lia.
      replace (sem_ctr f0 =? 0) with false by (symmetry; apply Z.eqb_neq; lia).
      unfold set_ctr. cbn [sem_fs sem_clu sem_ofs].
      unfold sem_match in Hm.
      apply andb_true_iff in Hm. destruct Hm as [Hm H3].
      apply andb_true_iff in Hm. destruct Hm as [H1 H2].
      apply Z.eqb_eq in H1, H2, H3. rewrite <- H1, <- H2, <- H3.
      destruct f0. apply sem_equiv_refl.
    - rewrite He' in He. inversion He; subst e.
      rewrite Hc0. cbv zeta.
      assert (Hz : forall n0, n0 = 256 \/ n0 = 1 ->
        (let n := if n0 =? 256 then 0 else n0 in
         if (if n >? 0 then n - 1 else n) =? 0 then true else false) = true).
      { intros n0 [-> | ->]; reflexivity. }
      assert (Hn : (if nz acc then 256 else u32 (0 + 1)) = 256 \/
                   (if nz acc then 256 else u32 (0 + 1)) = 1).
      { destruct (nz acc); [left | right]; reflexivity. }
      specialize (Hz _ Hn). cbv zeta in Hz.
      destruct ((if (if (if nz acc then 256 else u32 (0 + 1)) =? 256 then 0
                     else if nz acc then 256 else u32 (0 + 1)) >? 0
                 then (if (if nz acc then 256 else u32 (0 + 1)) =? 256 then 0
                       else if nz acc then 256 else u32 (0 + 1)) - 1
                 else if (if nz acc then 256 else u32 (0 + 1)) =? 256 then 0
                      else if nz acc then 256 else u32 (0 + 1)) =? 0);
        [| discriminate Hz].
      split; [cbn; symmetry; exact Hblank |].
      intros Hne. cbn in Hne. exfalso. apply Hne. reflexivity. }
  split; [exact Heq |].
  intros dp' acc' Hfs'. unfold chk_share.
  rewrite (chk_share_loop_equiv _ _ dp' Hfs' Heq). reflexivity.
Qed.

Lemma sample_files_ok : reg_ok sample_files.
Proof.
  unfold reg_ok, sample_files.
  apply Forall_cons; split; [cbn; lia |].
  apply Forall_cons; split; [cbn; lia | apply Forall_nil; exact I].
Qed.

Lemma inc_share_dec_share_roundtrip_witness :
  dec_share (fst (inc_share sample_files (mkDIRID 1 0 64) 0)) 1 = (sample_files, FR_OK) /\
  exists files'',
    dec_share (fst (inc_share sample_files (mkDIRID 1 4 0) 1)) 2 = (files'', FR_OK) /\
    Forall2 sem_equiv files'' sample_files.
Proof.
  split; [reflexivity |].
  destruct (inc_share_dec_share_roundtrip sample_files (mkDIRID 1 4 0) 1 _ _
              ltac:(discriminate) ltac:(right; reflexivity) ltac:(simpl; lia)
              sample_files_ok
              ltac:(intros f Hf; discriminate Hf) eq_refl ltac:(discriminate))
    as (files'' & Hdec & Heq & _).
  exists files''. split; [exact Hdec | exact Heq].
Defined.

(** X6.  The counter range is an invariant of the registry.  If every entry
    in use has a counter in 1 .. 0x100, the same holds after an open that
    chk_share let through and inc_share registered, after dec_share with any
    index, and after clear_share; dec_share with an index outside
    1 .. FF_FS_LOCK (0 included, by wrap-around) returns FR_INT_ERR and
    changes nothing. *)
Theorem registry_counter_range_kept (files : list FILESEM) :
  reg_ok files ->
  (forall dp acc, dj_fs dp <> 0 -> acc = 0 \/ acc = 1 ->
     chk_share files dp acc = FR_OK -> reg_ok (fst (inc_share files dp acc))) /\
  (forall i, reg_ok (fst (dec_share files i))) /\
  (forall fs, reg_ok (clear_share files fs)) /\
  (forall i, Z.of_nat (length files) < 4294967296 ->
     0 <= i < 4294967296 -> i = 0 \/ Z.of_nat (length files) < i ->
     dec_share files i = (files, FR_INT_ERR)).
Proof.
  intros Hok. split; [| split; [| split]].
  - intros dp acc Hfs Hacc Hchk.
    destruct (chk_share_ok_inc_share_nonzero files dp acc Hfs Hacc Hchk) as [Hnz Hrd].
    destruct (inc_share files dp acc) as [files' idx] eqn:Hinc. cbn [fst snd] in *.
    destruct (inc_share_shape files dp acc Hfs files' idx Hinc Hnz)
      as (i & f0 & -> & Hi & -> & Hfirst & Hcase).
    unfold reg_ok. apply Forall_insert; [exact Hok |].
    intros _. cbn [sem_ctr].
    destruct Hcase as [(Him & Hf0 & Hm & Eacc) | (_ & _ & _ & Hc0)].
    + rewrite <- Him in Hf0. destruct (Hrd f0 Hf0) as [-> Hne].
      rewrite Him in Hf0.
      pose proof (reg_ok_lookup files i f0 Hok Hf0 (sem_match_live f0 dp Hfs Hm)) as Hr.
      cbn [nz Z.eqb negb]. rewrite u32_small by lia. lia.
    + rewrite Hc0. change (u32 (0 + 1)) with 1. destruct (nz acc); lia.
  - intros i. unfold dec_share.
    destruct (u32 (i - 1) <? Z.of_nat (length files)) eqn:Ein; [| exact Hok].
    cbn [fst]. apply Z.ltb_lt in Ein.
    pose proof (Z.mod_pos_bound (i - 1) 4294967296 ltac:(lia)) as Hu. fold (u32 (i - 1)) in Hu.
    destruct (files !! Z.to_nat (u32 (i - 1))) as [f |] eqn:Hf.
    2:{ apply lookup_ge_None_1 in Hf. lia. }
    change (default blank_sem (Some f)) with f. cbv zeta.
    unfold reg_ok. apply Forall_insert; [exact Hok |].
    set (n1 := if sem_ctr f =? 256 then 0 else sem_ctr f).
    set (n2 := if n1 >? 0 then n1 - 1 else n1).
    destruct (Z.eqb_spec n2 0) as [E0 | E0].
    + cbn. intros H. exfalso. apply H. reflexivity.
    + cbn [set_ctr sem_fs sem_ctr]. intros Hlive.
      pose proof (reg_ok_lookup files _ f Hok Hf Hlive) as Hr.
      subst n2 n1.
      destruct (Z.eqb_spec (sem_ctr f) 256); [cbn in E0; lia |].
      destruct (Z.gtb_spec (sem_ctr f) 0); lia.
  - intros fs. unfold reg_ok, clear_share. apply Forall_map.
    eapply Forall_impl; [exact Hok |].
    intros f Hf. cbn. destruct (sem_fs f =? fs); cbn; [intros H; exfalso; apply H; reflexivity | exact Hf].
  - intros i Hlen Hi Hout. unfold dec_share.
    replace (u32 (i - 1) <? Z.of_nat (length files)) with false; [reflexivity |].
    symmetry. apply Z.ltb_ge. unfold u32.
    destruct Hout as [-> | Hbig].
    + change ((0 - 1) mod 4294967296) with 4294967295. lia.
    + rewrite Z.mod_small by lia. lia.
Qed.

Lemma registry_counter_range_kept_witness :
  reg_ok sample_files /\
  reg_ok (fst (dec_share sample_files 1)) /\
  dec_share sample_files 0 = (sample_files, FR_INT_ERR).
Proof.
  pose proof sample_files_ok as Hok.
  destruct (registry_counter_range_kept sample_files Hok) as (_ & Hdec & _ & Hbad).
  split; [exact Hok |]. split; [apply Hdec |].
  apply Hbad; [simpl; lia | lia | left; reflexivity].
Defined.

(** ** The FAT access functions: get_fat, put_fat *)

Lemma sync_window_bytes (v : Vol) :
  vol_wf v -> reliable (v_disk v) -> bytes_ok v -> bytes_ok (fst (sync_window v)).
Proof.
  intros Hwf [Hrd Hwr] [Hwin Hsec]. unfold sync_window.
  destruct (nz (wflag (v_fs v))); [| split; assumption].
  rewrite (disk_write_one _ _ _ _ Hwr (wf_win _ Hwf)).
  assert (Hst : forall d s, (forall x, Forall is_byte (d_sec d x)) ->
            forall x, Forall is_byte (d_sec (d_store d s (win (v_fs v))) x)).
  { intros d s Hd x. cbn. destruct (x =? s); [exact Hwin | apply Hd]. }
  destruct (u32 (winsect (set_wflag (v_fs v) 0) - fatbase (set_wflag (v_fs v) 0))
            <? fsize (set_wflag (v_fs v) 0)).
  - destruct (n_fats (set_wflag (v_fs v) 0) =? 2).
    + rewrite disk_write_one.
      * split; [exact Hwin |]. cbn [fst v_disk]. apply Hst, Hst. exact Hsec.
      * intros x. apply Hwr.
      * apply (wf_win _ Hwf).
    + split; [exact Hwin |]. cbn [fst v_disk]. apply Hst. exact Hsec.
  - split; [exact Hwin |]. cbn [fst v_disk]. apply Hst. exact Hsec.
Qed.

Lemma move_window_bytes (v : Vol) (s : Z) :
  vol_wf v -> reliable (v_disk v) -> bytes_ok v -> bytes_ok (fst (move_window v s)).
Proof.
  intros Hwf Hrel Hb. unfold move_window.
  destruct (negb (s =? winsect (v_fs v))); [| exact Hb].
  destruct (sync_window_ok v Hwf Hrel) as (v1 & Hsync & Hwf1 & Hrel1 & _).
  pose proof (sync_window_bytes v Hwf Hrel Hb) as Hb1.
  rewrite Hsync in *. cbn [fst] in Hb1. cbn [is_ok FRESULT_eqb].
  rewrite (disk_read_one _ _ (proj1 Hrel1)). cbn [fst].
  destruct Hb1 as [Hwin1 Hsec1]. split; cbn; [apply Hsec1 | exact Hsec1].
Qed.

(** Moving the window onto a sector of the first FAT and changing it there:
    the sector then shows the changed bytes, every other sector of the FAT
    shows what it showed before. *)
Lemma window_edit (v : Vol) (s : Z) (f : list Z -> list Z) :
  vol_wf v -> reliable (v_disk v) -> in_fat1 (v_fs v) s ->
  (forall b, length (f b) = length b) ->
  exists v1,
    move_window v s = (v1, FR_OK) /\
    win (v_fs v1) = sview v s /\ winsect (v_fs v1) = s /\
    length (sview v s) = Z.to_nat (SS (v_fs v)) /\
    vol_wf (vol_set_win v1 (f (win (v_fs v1)))) /\
    reliable (v_disk (vol_set_win v1 (f (win (v_fs v1))))) /\
    frame (v_fs (vol_set_win v1 (f (win (v_fs v1))))) = frame (v_fs v) /\
    sview (vol_set_win v1 (f (win (v_fs v1)))) s = f (sview v s) /\
    (forall s', in_fat1 (v_fs v) s' -> s' <> s ->
       sview (vol_set_win v1 (f (win (v_fs v1)))) s' = sview v s') /\
    (bytes_ok v -> Forall is_byte (f (sview v s)) ->
       bytes_ok (vol_set_win v1 (f (win (v_fs v1))))).
Proof.
  intros Hwf Hrel Hin Hlen.
  pose proof (wf_geom _ Hwf) as Hg.
  destruct (geom_ok_facts _ Hg) as (_ & _ & _ & Hfb & Hfz & Hsum & _).
  assert (Hs : 0 <= s < 4294967296) by (unfold in_fat1 in Hin; lia).
  pose proof (move_window_bytes v s Hwf Hrel) as Hbytes.
  destruct (move_window_ok v s Hwf Hrel Hs)
    as (v1 & Hm & Hwf1 & Hrel1 & [Hfr1 Hview1] & Hws1 & Hwin1).
  rewrite Hm in Hbytes. cbn [fst] in Hbytes.
  specialize (Hwin1 Hin).
  exists v1. split; [exact Hm |]. split; [exact Hwin1 |]. split; [exact Hws1 |].
  pose proof (frame_fields _ _ Hfr1) as (_ & _ & _ & F4 & _).
  split.
  { rewrite <- Hwin1, (wf_win _ Hwf1). unfold SS. rewrite F4. reflexivity. }
  split; [apply vol_set_win_wf; [exact Hwf1 | apply Hlen] |].
  split; [exact Hrel1 |].
  split; [rewrite <- Hfr1; reflexivity |].
  split.
  { unfold sview, vol_set_win. cbn. rewrite Hws1, Z.eqb_refl, Hwin1. reflexivity. }
  split.
  { intros s' Hin' Hne. rewrite <- (Hview1 s' Hin').
    unfold sview, vol_set_win. cbn. rewrite Hws1.
    destruct (Z.eqb_spec s' s); [contradiction | reflexivity]. }
  intros Hb Hfb'. destruct (Hbytes Hb) as [_ Hsec1].
  split; [cbn; rewrite Hwin1; exact Hfb' | exact Hsec1].
Qed.

Lemma Forall_poke (b : list Z) (p x : Z) :
  Forall is_byte b -> is_byte x -> Forall is_byte (poke b p x).
Proof. intros Hb Hx. unfold poke. apply Forall_insert; assumption. Qed.

Lemma is_byte_u8 (x : Z) : is_byte (u8 x).
Proof. unfold is_byte, u8. apply Z.mod_pos_bound. lia. Qed.

Lemma Forall_st_word (b : list Z) (p x : Z) :
  Forall is_byte b -> Forall is_byte (st_word b p x).
Proof. intros Hb. unfold st_word. repeat apply Forall_poke; auto using is_byte_u8. Qed.

Lemma Forall_st_dword (b : list Z) (p x : Z) :
  Forall is_byte b -> Forall is_byte (st_dword b p x).
Proof. intros Hb. unfold st_dword. repeat apply Forall_poke; auto using is_byte_u8. Qed.

Lemma st_word_length (b : list Z) (p x : Z) : length (st_word b p x) = length b.
Proof. unfold st_word. rewrite !poke_length. reflexivity. Qed.

Lemma st_word_other (b : list Z) (p x j : Z) :
  0 <= p -> 0 <= j -> j < p \/ p + 2 <= j -> peek (st_word b p x) j = peek b j.
Proof.
  intros Hp Hj Hout. unfold st_word. rewrite !peek_poke_ne by lia. reflexivity.
Qed.

Lemma ld_dword_st_dword_other (b : list Z) (p p' x : Z) :
  0 <= p -> 0 <= p' -> p' + 4 <= p \/ p + 4 <= p' ->
  ld_dword (st_dword b p x) p' = ld_dword b p'.
Proof.
  intros Hp Hp' Hout. unfold ld_dword.
  rewrite !(st_dword_other b p x) by lia. reflexivity.
Qed.

Lemma ld_word_st_word_other (b : list Z) (p p' x : Z) :
  0 <= p -> 0 <= p' -> p' + 2 <= p \/ p + 2 <= p' ->
  ld_word (st_word b p x) p' = ld_word b p'.
Proof.
  intros Hp Hp' Hout. unfold ld_word.
  rewrite !(st_word_other b p x) by lia. reflexivity.
Qed.

(** Two cells of one sector lie at least one cell width apart. *)
Lemma cell_slot (c c' ss k : Z) :
  0 < k -> 0 < ss -> ss mod k = 0 -> 0 <= c -> 0 <= c' -> c <> c' ->
  c / (ss / k) = c' / (ss / k) ->
  c' * k mod ss + k <= c * k mod ss \/ c * k mod ss + k <= c' * k mod ss.
Proof.
  intros Hk Hss Hdiv Hc Hc' Hne Hsec.
  assert (Eq : ss = (ss / k) * k).
  { pose proof (Z.div_mod ss k ltac:(lia)). lia. }
  assert (Hq : 0 < ss / k) by nia.
  set (q := ss / k) in *.
  assert (E1 : c * k mod ss = (c mod q) * k).
  { rewrite Eq. rewrite Z.mul_mod_distr_r by lia. reflexivity. }
  assert (E2 : c' * k mod ss = (c' mod q) * k).
  { rewrite Eq. rewrite Z.mul_mod_distr_r by lia. reflexivity. }
  rewrite E1, E2.
  pose proof (Z.div_mod c q ltac:(lia)) as D1.
  pose proof (Z.div_mod c' q ltac:(lia)) as D2.
  assert (Hm : c mod q <> c' mod q) by (rewrite Hsec in D1; lia).
  destruct (Z_lt_le_dec (c mod q) (c' mod q)); [right | left]; nia.
Qed.

Lemma put_fat32_full (v : Vol) (c val : Z) :
  vol_wf v -> reliable (v_disk v) -> fs_type (v_fs v) = FS_FAT32 ->
  2 <= c < n_fatent (v_fs v) ->
  exists v', put_fat v c val = (v', FR_OK) /\ vol_wf v' /\
    reliable (v_disk v') /\ frame (v_fs v') = frame (v_fs v) /\
    fat_cell v' c = cell_mask (v_fs v) val /\
    (forall c', 2 <= c' < n_fatent (v_fs v) -> c' <> c ->
       fat_cell v' c' = fat_cell v c') /\
    (bytes_ok v -> bytes_ok v').
Proof.
  intros Hwf Hrel Ety Hc.
  pose proof (wf_geom _ Hwf) as Hg.
  destruct (geom_ok_facts _ Hg) as (Hty & Hss & Hss4 & Hfb & Hfz & Hsum & [Hn Hsb] & Hsz).
  destruct (fat_entry_bounds _ c Hg Hc) as (B32 & _ & _).
  destruct (B32 Ety) as (Hi & Hlt).
  destruct (aligned_offset c (SS (v_fs v)) 4 ltac:(lia) Hss Hss4 ltac:(lia))
    as [Hp0 Hp4].
  set (s := fatbase (v_fs v) + c / (SS (v_fs v) / 4)).
  set (p := c * 4 mod SS (v_fs v)).
  set (f := fun b : list Z =>
              st_dword b p (Z.lor (Z.land val 0x0FFFFFFF)
                                  (Z.land (ld_dword b p) 0xF0000000))).
  destruct (window_edit v s f Hwf Hrel ltac:(unfold in_fat1; subst s; lia)
              ltac:(intros b; apply st_dword_length))
    as (v1 & Hm & Hwin1 & Hws1 & Hlen & Hwf' & Hrel' & Hfr' & Hs & Hothers & Hbytes).
  unfold put_fat. rewrite (valid_clst_put_test _ _ Hc), Ety.
  change (FS_FAT32 =? FS_FAT12) with false.
  change (FS_FAT32 =? FS_FAT16) with false.
  change (FS_FAT32 =? FS_FAT32) with true. cbv iota.
  rewrite (u32_small (c * 4)) by lia. rewrite !u32_small by lia.
  fold s p. rewrite Hm. cbn [is_ok FRESULT_eqb negb].
  exists (vol_set_win v1 (f (win (v_fs v1)))).
  split; [reflexivity |]. split; [exact Hwf' |]. split; [exact Hrel' |].
  split; [exact Hfr' |].
  pose proof (frame_fields _ _ Hfr') as (F1 & _ & _ & F4 & _ & _ & F7 & _).
  assert (Hcell : forall w c0, fs_type (v_fs w) = FS_FAT32 ->
                    fat_cell w c0 = Z.land (fat32_raw w c0) 0x0FFFFFFF).
  { intros w c0 E. unfold fat_cell. rewrite E. reflexivity. }
  split; [| split].
  - rewrite Hcell by (rewrite F1; exact Ety).
    unfold cell_mask. rewrite Ety.
    change (FS_FAT32 =? FS_FAT12) with false.
    change (FS_FAT32 =? FS_FAT16) with false. cbv iota.
    unfold fat32_raw, SS. rewrite F4, F7. unfold SS in *. fold s p.
    rewrite Hs. unfold f. rewrite ld_st_dword.
    + apply fat32_merge_low.
    + lia.
    + rewrite Hlen. lia.
    + apply fat32_merge_range.
  - intros c' Hc' Hne.
    destruct (fat_entry_bounds _ c' Hg Hc') as (B32' & _ & _).
    destruct (B32' Ety) as (Hi' & Hlt').
    rewrite !Hcell by (try rewrite F1; exact Ety). f_equal.
    unfold fat32_raw, SS. rewrite F4, F7. unfold SS in *.
    destruct (Z.eq_dec (c' / (ssize (v_fs v) / 4)) (c / (ssize (v_fs v) / 4)))
      as [Esec | Esec].
    + rewrite Esec. fold s. rewrite Hs. unfold f.
      apply ld_dword_st_dword_other.
      * subst p. lia.
      * apply Z.mod_pos_bound. lia.
      * subst p. apply (cell_slot c c' (ssize (v_fs v)) 4);
          [lia | lia | exact Hss4 | lia | lia | congruence | congruence].
    + rewrite Hothers; [reflexivity | unfold in_fat1; lia | subst s; lia].
  - intros Hb. apply Hbytes; [exact Hb |].
    unfold f. apply Forall_st_dword.
    rewrite <- Hwin1.
    pose proof (move_window_bytes v s Hwf Hrel Hb) as Hb1.
    rewrite Hm in Hb1. apply Hb1.
Qed.

Lemma put_fat16_full (v : Vol) (c val : Z) :
  vol_wf v -> reliable (v_disk v) -> fs_type (v_fs v) = FS_FAT16 ->
  2 <= c < n_fatent (v_fs v) ->
  exists v', put_fat v c val = (v', FR_OK) /\ vol_wf v' /\
    reliable (v_disk v') /\ frame (v_fs v') = frame (v_fs v) /\
    fat_cell v' c = cell_mask (v_fs v) val /\
    (forall c', 2 <= c' < n_fatent (v_fs v) -> c' <> c ->
       fat_cell v' c' = fat_cell v c') /\
    (bytes_ok v -> bytes_ok v').
Proof.
  intros Hwf Hrel Ety Hc.
  pose proof (wf_geom _ Hwf) as Hg.
  destruct (geom_ok_facts _ Hg) as (Hty & Hss & Hss4 & Hfb & Hfz & Hsum & [Hn Hsb] & Hsz).
  destruct (fat_entry_bounds _ c Hg Hc) as (_ & B16 & _).
  destruct (B16 Ety) as (Hi & Hlt).
  assert (Hss2 : SS (v_fs v) mod 2 = 0) by (Z.div_mod_to_equations; lia).
  destruct (aligned_offset c (SS (v_fs v)) 2 ltac:(lia) Hss Hss2 ltac:(lia))
    as [Hp0 Hp2].
  set (s := fatbase (v_fs v) + c / (SS (v_fs v) / 2)).
  set (p := c * 2 mod SS (v_fs v)).
  set (f := fun b : list Z => st_word b p (u16 val)).
  destruct (window_edit v s f Hwf Hrel ltac:(unfold in_fat1; subst s; lia)
              ltac:(intros b; apply st_word_length))
    as (v1 & Hm & Hwin1 & Hws1 & Hlen & Hwf' & Hrel' & Hfr' & Hs & Hothers & Hbytes).
  unfold put_fat. rewrite (valid_clst_put_test _ _ Hc), Ety.
  change (FS_FAT16 =? FS_FAT12) with false.
  change (FS_FAT16 =? FS_FAT16) with true. cbv iota.
  rewrite (u32_small (c * 2)) by lia. rewrite !u32_small by lia.
  fold s p. rewrite Hm. cbn [is_ok FRESULT_eqb negb].
  exists (vol_set_win v1 (f (win (v_fs v1)))).
  split; [reflexivity |]. split; [exact Hwf' |]. split; [exact Hrel' |].
  split; [exact Hfr' |].
  pose proof (frame_fields _ _ Hfr') as (F1 & _ & _ & F4 & _ & _ & F7 & _).
  assert (Hcell : forall w c0, fs_type (v_fs w) = FS_FAT16 ->
     fat_cell w c0 = ld_word (sview w (fatbase (v_fs w) + c0 / (SS (v_fs w) / 2)))
                             (c0 * 2 mod SS (v_fs w))).
  { intros w c0 E. unfold fat_cell. rewrite E. reflexivity. }
  split; [| split].
  - rewrite Hcell by (rewrite F1; exact Ety).
    unfold cell_mask. rewrite Ety.
    change (FS_FAT16 =? FS_FAT12) with false.
    change (FS_FAT16 =? FS_FAT16) with true. cbv iota.
    unfold SS. rewrite F4, F7. unfold SS in *. fold s p.
    rewrite Hs. unfold f. apply ld_st_word.
    + lia.
    + rewrite Hlen. lia.
    + unfold u16. apply Z.mod_pos_bound. lia.
  - intros c' Hc' Hne.
    destruct (fat_entry_bounds _ c' Hg Hc') as (_ & B16' & _).
    destruct (B16' Ety) as (Hi' & Hlt').
    rewrite !Hcell by (try rewrite F1; exact Ety).
    unfold SS. rewrite F4, F7. unfold SS in *.
    destruct (Z.eq_dec (c' / (ssize (v_fs v) / 2)) (c / (ssize (v_fs v) / 2)))
      as [Esec | Esec].
    + rewrite Esec. fold s. rewrite Hs. unfold f.
      apply ld_word_st_word_other.
      * subst p. lia.
      * apply Z.mod_pos_bound. lia.
      * subst p. apply (cell_slot c c' (ssize (v_fs v)) 2);
          [lia | lia | exact Hss2 | lia | lia | congruence | congruence].
    + rewrite Hothers; [reflexivity | unfold in_fat1; lia | subst s; lia].
  - intros Hb. apply Hbytes; [exact Hb |].
    unfold f. apply Forall_st_word.
    rewrite <- Hwin1.
    pose proof (move_window_bytes v s Hwf Hrel Hb) as Hb1.
    rewrite Hm in Hb1. apply Hb1.
Qed.

(** One byte of the first FAT changed through the window. *)
Lemma fat_byte_edit (v : Vol) (k0 : Z) (X : Z -> Z) :
  vol_wf v -> reliable (v_disk v) ->
  0 <= k0 -> k0 / SS (v_fs v) < fsize (v_fs v) ->
  exists v1,
    move_window v (fatbase (v_fs v) + k0 / SS (v_fs v)) = (v1, FR_OK) /\
    vol_wf (vol_set_win v1 (poke (win (v_fs v1)) (k0 mod SS (v_fs v))
                                  (X (peek (win (v_fs v1)) (k0 mod SS (v_fs v)))))) /\
    reliable (v_disk v1) /\
    frame (v_fs v1) = frame (v_fs v) /\
    (forall k, 0 <= k -> k / SS (v_fs v) < fsize (v_fs v) ->
       fat_byte (vol_set_win v1 (poke (win (v_fs v1)) (k0 mod SS (v_fs v))
                                      (X (peek (win (v_fs v1)) (k0 mod SS (v_fs v))))))
                k =
       if k =? k0 then X (fat_byte v k0) else fat_byte v k) /\
    (bytes_ok v -> is_byte (X (fat_byte v k0)) ->
       bytes_ok (vol_set_win v1 (poke (win (v_fs v1)) (k0 mod SS (v_fs v))
                                      (X (peek (win (v_fs v1)) (k0 mod SS (v_fs v))))))).
Proof.
  intros Hwf Hrel Hk0 Hin0.
  pose proof (wf_geom _ Hwf) as Hg.
  destruct (geom_ok_facts _ Hg) as (_ & Hss & _ & Hfb & Hfz & Hsum & _).
  pose proof (Z.mod_pos_bound k0 (SS (v_fs v)) Hss) as Hp0.
  assert (Hq0 : 0 <= k0 / SS (v_fs v)) by (apply Z.div_pos; lia).
  set (s := fatbase (v_fs v) + k0 / SS (v_fs v)).
  set (p := k0 mod SS (v_fs v)) in *.
  set (f := fun b : list Z => poke b p (X (peek b p))).
  destruct (window_edit v s f Hwf Hrel ltac:(unfold in_fat1; subst s; lia)
              ltac:(intros b; apply poke_length))
    as (v1 & Hm & Hwin1 & Hws1 & Hlen & Hwf' & Hrel' & Hfr' & Hs & Hothers & Hbytes).
  exists v1. split; [exact Hm |]. split; [exact Hwf' |]. split; [exact Hrel' |].
  split; [rewrite <- Hfr'; reflexivity |].
  pose proof (frame_fields _ _ Hfr') as (_ & _ & _ & F4 & _ & _ & F7 & _).
  split.
  - intros k Hk Hin.
    assert (Hq : 0 <= k / SS (v_fs v)) by (apply Z.div_pos; lia).
    change (vol_set_win v1 (poke (win (v_fs v1)) p (X (peek (win (v_fs v1)) p))))
      with (vol_set_win v1 (f (win (v_fs v1)))).
    unfold fat_byte at 1. unfold SS. rewrite F4, F7. unfold SS in *.
    destruct (Z.eq_dec (k / ssize (v_fs v)) (k0 / ssize (v_fs v))) as [Esec | Esec].
    + rewrite Esec. fold s. rewrite Hs. unfold f.
      destruct (Z.eqb_spec k k0) as [-> | Hne].
      * fold p. rewrite peek_poke_eq by (rewrite Hlen; lia). reflexivity.
      * rewrite peek_poke_ne.
        -- unfold fat_byte, SS. rewrite Esec. reflexivity.
        -- lia.
        -- apply Z.mod_pos_bound. lia.
        -- subst p. intros E.
           pose proof (Z.div_mod k (ssize (v_fs v)) ltac:(lia)).
           pose proof (Z.div_mod k0 (ssize (v_fs v)) ltac:(lia)).
           apply Hne. rewrite Esec, <- E in *. lia.
    + destruct (Z.eqb_spec k k0) as [-> | Hne]; [contradiction Esec; reflexivity |].
      rewrite Hothers; [reflexivity | unfold in_fat1; lia | subst s; lia].
  - intros Hb Hx. apply Hbytes; [exact Hb |].
    unfold f. apply Forall_poke; [| exact Hx].
    rewrite <- Hwin1.
    pose proof (move_window_bytes v s Hwf Hrel Hb) as Hb1.
    rewrite Hm in Hb1. apply Hb1.
Qed.

(** *** The nibble arithmetic of FAT12, checked on all bytes *)

Lemma range_cases (n : nat) (P : Z -> bool) :
  forallb P (map Z.of_nat (seq 0 n)) = true ->
  forall m, 0 <= m < Z.of_nat n -> P m = true.
Proof.
  intros H m Hm. rewrite forallb_forall in H. apply H.
  apply in_map_iff. exists (Z.to_nat m). split; [lia |].
  apply in_seq. lia.
Qed.

Lemma byte2_cases (P : Z -> Z -> bool) :
  forallb (fun a => forallb (P a) (map Z.of_nat (seq 0 256)))
          (map Z.of_nat (seq 0 256)) = true ->
  forall a b, is_byte a -> is_byte b -> P a b = true.
Proof.
  intros H a b Ha Hb.
  pose proof (range_cases 256 _ H a Ha) as H1. cbv beta in H1.
  exact (range_cases 256 _ H1 b Hb).
Qed.

Lemma shiftr4_lor8 (x b : Z) :
  Z.shiftr (Z.lor x (Z.shiftl b 8)) 4 = Z.lor (Z.shiftr x 4) (Z.shiftl b 4).
Proof.
  rewrite Z.shiftr_lor. f_equal.
  rewrite Z.shiftr_shiftl_l by lia. reflexivity.
Qed.

Lemma land_fff_lor8 (b x : Z) :
  is_byte b -> is_byte x ->
  Z.land (Z.lor b (Z.shiftl x 8)) 0xFFF = Z.lor b (Z.shiftl (Z.land x 0x0F) 8).
Proof.
  intros Hb Hx. apply Z.eqb_eq.
  apply (byte2_cases (fun b x =>
    Z.land (Z.lor b (Z.shiftl x 8)) 0xFFF =? Z.lor b (Z.shiftl (Z.land x 0x0F) 8)));
    [vm_compute; reflexivity | exact Hb | exact Hx].
Qed.

(** The byte shared with the cluster below keeps its low nibble and takes
    the low nibble of the value as its high nibble. *)
Lemma fat12_odd_first_byte (old a : Z) :
  is_byte old -> is_byte a ->
  Z.land (u8 (Z.lor (Z.land old 0x0F) (Z.shiftl a 4))) 0x0F = Z.land old 0x0F /\
  Z.shiftr (u8 (Z.lor (Z.land old 0x0F) (Z.shiftl a 4))) 4 = a mod 16.
Proof.
  intros Ho Ha. split; apply Z.eqb_eq.
  - apply (byte2_cases (fun old a =>
      Z.land (u8 (Z.lor (Z.land old 0x0F) (Z.shiftl a 4))) 0x0F =? Z.land old 0x0F));
      [vm_compute; reflexivity | exact Ho | exact Ha].
  - apply (byte2_cases (fun old a =>
      Z.shiftr (u8 (Z.lor (Z.land old 0x0F) (Z.shiftl a 4))) 4 =? a mod 16));
      [vm_compute; reflexivity | exact Ho | exact Ha].
Qed.

(** The byte shared with the cluster above keeps its high nibble and takes
    the top nibble of the value as its low nibble. *)
Lemma fat12_even_second_byte (old y : Z) :
  is_byte old -> is_byte y ->
  Z.shiftr (u8 (Z.lor (Z.land old 0xF0) (Z.land y 0x0F))) 4 = Z.shiftr old 4 /\
  Z.land (u8 (Z.lor (Z.land old 0xF0) (Z.land y 0x0F))) 0x0F = y mod 16.
Proof.
  intros Ho Hy. split; apply Z.eqb_eq.
  - apply (byte2_cases (fun old y =>
      Z.shiftr (u8 (Z.lor (Z.land old 0xF0) (Z.land y 0x0F))) 4 =? Z.shiftr old 4));
      [vm_compute; reflexivity | exact Ho | exact Hy].
  - apply (byte2_cases (fun old y =>
      Z.land (u8 (Z.lor (Z.land old 0xF0) (Z.land y 0x0F))) 0x0F =? y mod 16));
      [vm_compute; reflexivity | exact Ho | exact Hy].
Qed.

Lemma fat12_join_odd (t : Z) :
  0 <= t < 4096 -> Z.lor (t mod 256 mod 16) (Z.shiftl (t / 16) 4) = t.
Proof.
  intros Ht. apply Z.eqb_eq.
  apply (range_cases 4096
           (fun t => Z.lor (t mod 256 mod 16) (Z.shiftl (t / 16) 4) =? t));
    [vm_compute; reflexivity | exact Ht].
Qed.

Lemma fat12_join_even (t : Z) :
  0 <= t < 4096 -> Z.lor (t mod 256) (Z.shiftl (Z.land (t / 256) 0x0F) 8) = t.
Proof.
  intros Ht. apply Z.eqb_eq.
  apply (range_cases 4096
           (fun t => Z.lor (t mod 256) (Z.shiftl (Z.land (t / 256) 0x0F) 8) =? t));
    [vm_compute; reflexivity | exact Ht].
Qed.

Lemma land_fff_mod (val : Z) : Z.land val 0xFFF = val mod 4096.
Proof. change 0xFFF with (Z.ones 12). rewrite Z.land_ones by lia. reflexivity. Qed.

Lemma land_0f_mod (x : Z) : Z.land x 0x0F = x mod 16.
Proof. change 0x0F with (Z.ones 4). rewrite Z.land_ones by lia. reflexivity. Qed.

(** The value of a FAT12 cell made of the two bytes put_fat writes. *)
Lemma fat12_new_cell_odd (old val : Z) :
  is_byte old ->
  Z.shiftr (Z.lor (u8 (Z.lor (Z.land old 0x0F) (Z.shiftl (u8 val) 4)))
                  (Z.shiftl (u8 (Z.shiftr val 4)) 8)) 4 = Z.land val 0xFFF.
Proof.
  intros Ho. rewrite shiftr4_lor8.
  rewrite (proj2 (fat12_odd_first_byte old (u8 val) Ho (is_byte_u8 val))).
  rewrite land_fff_mod.
  transitivity (Z.lor (val mod 4096 mod 256 mod 16) (Z.shiftl (val mod 4096 / 16) 4));
    [| apply fat12_join_odd; apply Z.mod_pos_bound; lia].
  rewrite Z.shiftr_div_pow2 by lia. change (2 ^ 4) with 16. unfold u8.
  f_equal; [| f_equal]; Z.div_mod_to_equations; lia.
Qed.

Lemma fat12_new_cell_even (old val : Z) :
  is_byte old ->
  Z.land (Z.lor (u8 val)
                (Z.shiftl (u8 (Z.lor (Z.land old 0xF0)
                                     (Z.land (u8 (Z.shiftr val 8)) 0x0F))) 8)) 0xFFF
  = Z.land val 0xFFF.
Proof.
  intros Ho.
  rewrite land_fff_lor8 by apply is_byte_u8.
  rewrite (proj2 (fat12_even_second_byte old (u8 (Z.shiftr val 8)) Ho
                    (is_byte_u8 _))).
  rewrite land_fff_mod.
  transitivity (Z.lor (val mod 4096 mod 256)
                      (Z.shiftl (Z.land (val mod 4096 / 256) 0x0F) 8));
    [| apply fat12_join_even; apply Z.mod_pos_bound; lia].
  rewrite !land_0f_mod.
  rewrite Z.shiftr_div_pow2 by lia. change (2 ^ 8) with 256. unfold u8.
  f_equal; [| f_equal]; Z.div_mod_to_equations; lia.
Qed.

Lemma is_byte_peek (b : list Z) (i : Z) : Forall is_byte b -> is_byte (peek b i).
Proof.
  intros Hb. unfold peek. destruct (b !! Z.to_nat i) as [x |] eqn:E; cbn.
  - rewrite Forall_lookup in Hb. apply (Hb _ _ E).
  - unfold is_byte. lia.
Qed.

Lemma is_byte_fat_byte (v : Vol) (k : Z) : bytes_ok v -> is_byte (fat_byte v k).
Proof.
  intros [Hwin Hsec]. unfold fat_byte, sview. apply is_byte_peek.
  destruct (_ =? _); [exact Hwin | apply Hsec].
Qed.

Lemma fat_cell_12 (w : Vol) (c : Z) :
  fs_type (v_fs w) = FS_FAT12 ->
  fat_cell w c =
  if nz (Z.land c 1)
  then Z.shiftr (Z.lor (fat_byte w (c + c / 2))
                       (Z.shiftl (fat_byte w (c + c / 2 + 1)) 8)) 4
  else Z.land (Z.lor (fat_byte w (c + c / 2))
                     (Z.shiftl (fat_byte w (c + c / 2 + 1)) 8)) 0xFFF.
Proof.
  intros E. unfold fat_cell. rewrite E.
  change (FS_FAT12 =? FS_FAT12) with true. cbv iota zeta.
  destruct (nz (Z.land c 1)); reflexivity.
Qed.

Lemma nz_land1 (c : Z) : nz (Z.land c 1) = negb (c mod 2 =? 0).
Proof. rewrite land_1_mod. reflexivity. Qed.

Lemma put_fat12_full (v : Vol) (c val : Z) :
  vol_wf v -> reliable (v_disk v) -> fs_type (v_fs v) = FS_FAT12 ->
  2 <= c < n_fatent (v_fs v) -> bytes_ok v ->
  exists v', put_fat v c val = (v', FR_OK) /\ vol_wf v' /\
    reliable (v_disk v') /\ frame (v_fs v') = frame (v_fs v) /\
    fat_cell v' c = cell_mask (v_fs v) val /\
    (forall c', 2 <= c' < n_fatent (v_fs v) -> c' <> c ->
       fat_cell v' c' = fat_cell v c') /\
    bytes_ok v'.
Proof.
  intros Hwf Hrel Ety Hc Hb.
  pose proof (wf_geom _ Hwf) as Hg.
  destruct (geom_ok_facts _ Hg) as (Hty & Hss & Hss4 & Hfb & Hfz & Hsum & [Hn Hsb] & Hsz).
  destruct (fat_entry_bounds _ c Hg Hc) as (_ & _ & B12).
  destruct (B12 Ety) as (Hi0 & Hi1 & Hlt).
  set (bc := c + c / 2) in *.
  assert (Hbc : 0 <= bc) by (subst bc; Z.div_mod_to_equations; lia).
  assert (Hi0' : bc / SS (v_fs v) < fsize (v_fs v)).
  { apply Z.le_lt_trans with ((bc + 1) / SS (v_fs v)); [| exact Hi1].
    apply Z.div_le_mono; lia. }
  assert (Hi1' : 0 <= (bc + 1) / SS (v_fs v)) by (apply Z.div_pos; lia).
  set (X1 := fun old : Z =>
               if nz (Z.land c 1)
               then u8 (Z.lor (Z.land old 0x0F) (Z.shiftl (u8 val) 4))
               else u8 val).
  set (X2 := fun old : Z =>
               if nz (Z.land c 1)
               then u8 (Z.shiftr val 4)
               else u8 (Z.lor (Z.land old 0xF0) (Z.land (u8 (Z.shiftr val 8)) 0x0F))).
  assert (HX1 : forall o, is_byte (X1 o))
    by (intros o; unfold X1; destruct (nz _); apply is_byte_u8).
  assert (HX2 : forall o, is_byte (X2 o))
    by (intros o; unfold X2; destruct (nz _); apply is_byte_u8).
  destruct (fat_byte_edit v bc X1 Hwf Hrel Hbc Hi0')
    as (v1 & Hm1 & Hwf1 & Hrel1 & Hfr1 & Hbytes1 & Hok1).
  set (v1' := vol_set_win v1 (poke (win (v_fs v1)) (bc mod SS (v_fs v))
                                   (X1 (peek (win (v_fs v1)) (bc mod SS (v_fs v)))))) in *.
  assert (Hfr1' : frame (v_fs v1') = frame (v_fs v)) by (rewrite <- Hfr1; reflexivity).
  pose proof (frame_fields _ _ Hfr1') as (F1 & _ & _ & F4 & _ & F6 & F7 & _).
  assert (ESS : SS (v_fs v1') = SS (v_fs v)) by (unfold SS; exact F4).
  destruct (fat_byte_edit v1' (bc + 1) X2 Hwf1 Hrel1 ltac:(lia)
              ltac:(rewrite ESS, F6; exact Hi1))
    as (v2 & Hm2 & Hwf2 & Hrel2 & Hfr2 & Hbytes2 & Hok2).
  rewrite ?ESS, ?F7, ?F6 in Hm2. rewrite ?ESS, ?F7, ?F6 in Hwf2.
  rewrite ?ESS, ?F7, ?F6 in Hbytes2. rewrite ?ESS, ?F7, ?F6 in Hok2.
  set (v2' := vol_set_win v2 (poke (win (v_fs v2)) ((bc + 1) mod SS (v_fs v))
                  (X2 (peek (win (v_fs v2)) ((bc + 1) mod SS (v_fs v)))))) in *.
  specialize (Hok1 Hb (HX1 _)). specialize (Hok2 Hok1 (HX2 _)).
  unfold put_fat. rewrite (valid_clst_put_test _ _ Hc), Ety.
  change (FS_FAT12 =? FS_FAT12) with true. cbv iota.
  fold bc. rewrite (u32_small bc) by lia. rewrite (u32_small (bc + 1)) by lia.
  rewrite !u32_small by lia.
  rewrite Hm1. cbn [is_ok FRESULT_eqb negb]. fold (X1 (peek (win (v_fs v1)) (bc mod SS (v_fs v)))).
  fold v1'. rewrite Hm2. cbn [is_ok FRESULT_eqb negb].
  fold (X2 (peek (win (v_fs v2)) ((bc + 1) mod SS (v_fs v)))). fold v2'.
  exists v2'. split; [reflexivity |]. split; [exact Hwf2 |]. split; [exact Hrel2 |].
  assert (Hfr2' : frame (v_fs v2') = frame (v_fs v))
    by (rewrite <- Hfr1', <- Hfr2; reflexivity).
  split; [exact Hfr2' |].
  pose proof (frame_fields _ _ Hfr2') as (G1 & _).
  (* the bytes of the FAT after the two writes *)
  assert (Hbyte : forall k, 0 <= k -> k / SS (v_fs v) < fsize (v_fs v) ->
            fat_byte v2' k =
            if k =? bc + 1 then X2 (fat_byte v (bc + 1))
            else if k =? bc then X1 (fat_byte v bc) else fat_byte v k).
  { intros k Hk Hin.
    rewrite Hbytes2 by (try rewrite F6; assumption).
    rewrite !Hbytes1 by (assumption || lia).
    replace (bc + 1 =? bc) with false by (symmetry; apply Z.eqb_neq; lia).
    reflexivity. }
  assert (Hold : forall k, is_byte (fat_byte v k))
    by (intros k; apply is_byte_fat_byte; exact Hb).
  split; [| split; [| exact Hok2]].
  - rewrite fat_cell_12 by (rewrite G1; exact Ety). fold bc.
    rewrite !Hbyte by (assumption || lia).
    rewrite Z.eqb_refl.
    replace (bc =? bc + 1) with false by (symmetry; apply Z.eqb_neq; lia).
    rewrite Z.eqb_refl.
    unfold cell_mask. rewrite Ety. change (FS_FAT12 =? FS_FAT12) with true. cbv iota.
    unfold X1, X2. destruct (nz (Z.land c 1)).
    + apply fat12_new_cell_odd. apply Hold.
    + apply fat12_new_cell_even. apply Hold.
  - intros c' Hc' Hne.
    destruct (fat_entry_bounds _ c' Hg Hc') as (_ & _ & B12').
    destruct (B12' Ety) as (Hj0 & Hj1 & Hjlt).
    set (bc' := c' + c' / 2) in *.
    assert (Hbc' : 0 <= bc') by (subst bc'; Z.div_mod_to_equations; lia).
    assert (Hj0' : bc' / SS (v_fs v) < fsize (v_fs v)).
    { apply Z.le_lt_trans with ((bc' + 1) / SS (v_fs v)); [| exact Hj1].
      apply Z.div_le_mono; lia. }
    rewrite !fat_cell_12 by (try rewrite G1; exact Ety). fold bc'.
    rewrite !Hbyte by (assumption || lia).
    assert (N1 : bc' <> bc) by (subst bc bc'; Z.div_mod_to_equations; lia).
    replace (bc' =? bc) with false by (symmetry; apply Z.eqb_neq; exact N1).
    replace (bc' + 1 =? bc + 1) with false by (symmetry; apply Z.eqb_neq; lia).
    rewrite !nz_land1.
    destruct (Z.eqb_spec bc' (bc + 1)) as [Enext | Nnext].
    + (* the cluster above, which shares the second byte *)
      assert (Hpar : c mod 2 = 0 /\ c' mod 2 = 1)
        by (subst bc bc'; Z.div_mod_to_equations; lia).
      destruct Hpar as [Pc Pc'].
      replace (bc' + 1 =? bc) with false by (symmetry; apply Z.eqb_neq; lia).
      rewrite Pc'. cbn [Z.eqb negb].
      rewrite !shiftr4_lor8. f_equal.
      unfold X2. rewrite nz_land1, Pc. cbn [Z.eqb negb].
      rewrite Enext.
      apply (proj1 (fat12_even_second_byte _ _ (Hold _) (is_byte_u8 _))).
    + destruct (Z.eqb_spec (bc' + 1) bc) as [Eprev | Nprev].
      * (* the cluster below, which shares the first byte *)
        assert (Hpar : c mod 2 = 1 /\ c' mod 2 = 0)
          by (subst bc bc'; Z.div_mod_to_equations; lia).
        destruct Hpar as [Pc Pc'].
        rewrite Pc'. cbn [Z.eqb negb].
        rewrite !land_fff_lor8 by first [apply Hold | apply HX1].
        f_equal. f_equal. unfold X1. rewrite nz_land1, Pc. cbn [Z.eqb negb].
        rewrite Eprev.
        apply (proj1 (fat12_odd_first_byte _ _ (Hold _) (is_byte_u8 _))).
      * reflexivity.
Qed.

(** put_fat on a well-formed volume, whatever the FAT type. *)
Lemma put_fat_full (v : Vol) (c val : Z) :
  vol_wf v -> reliable (v_disk v) -> bytes_ok v ->
  2 <= c < n_fatent (v_fs v) ->
  exists v', put_fat v c val = (v', FR_OK) /\ vol_wf v' /\
    reliable (v_disk v') /\ frame (v_fs v') = frame (v_fs v) /\
    fat_cell v' c = cell_mask (v_fs v) val /\
    (forall c', 2 <= c' < n_fatent (v_fs v) -> c' <> c ->
       fat_cell v' c' = fat_cell v c') /\
    bytes_ok v'.
Proof.
  intros Hwf Hrel Hb Hc.
  destruct (geom_ok_facts _ (wf_geom _ Hwf)) as ([Ety | [Ety | Ety]] & _).
  - apply put_fat12_full; assumption.
  - destruct (put_fat16_full v c val Hwf Hrel Ety Hc)
      as (v' & H1 & H2 & H3 & H4 & H5 & H6 & H7).
    exists v'. repeat (split; [assumption |]). apply H7. exact Hb.
  - destruct (put_fat32_full v c val Hwf Hrel Ety Hc)
      as (v' & H1 & H2 & H3 & H4 & H5 & H6 & H7).
    exists v'. repeat (split; [assumption |]). apply H7. exact Hb.
Qed.

Lemma get_fat_bytes (v : Vol) (c : Z) :
  vol_wf v -> reliable (v_disk v) -> bytes_ok v -> bytes_ok (fst (get_fat v c)).
Proof.
  intros Hwf Hrel Hb. unfold get_fat.
  destruct ((c <? 2) || (c >=? n_fatent (v_fs v))); [exact Hb |].
  assert (Hmv : forall w s, vol_wf w -> reliable (v_disk w) -> bytes_ok w ->
            0 <= s < 4294967296 ->
            exists w', move_window w s = (w', FR_OK) /\ vol_wf w' /\
                       reliable (v_disk w') /\ bytes_ok w').
  { intros w s Hw Hr Hbw Hs.
    destruct (move_window_ok w s Hw Hr Hs) as (w' & Hm & Hw' & Hr' & _).
    exists w'. split; [exact Hm |]. split; [exact Hw' |]. split; [exact Hr' |].
    pose proof (move_window_bytes w s Hw Hr Hbw) as H. rewrite Hm in H. exact H. }
  assert (Hu : forall x, 0 <= u32 x < 4294967296)
    by (intros x; apply Z.mod_pos_bound; lia).
  destruct (fs_type (v_fs v) =? FS_FAT12).
  - destruct (Hmv v _ Hwf Hrel Hb (Hu (fatbase (v_fs v) + u32 (c + c / 2) / SS (v_fs v))))
      as (w1 & Hm1 & Hw1 & Hr1 & Hb1).
    rewrite Hm1. cbn [is_ok FRESULT_eqb negb].
    destruct (Hmv w1 _ Hw1 Hr1 Hb1
                (Hu (fatbase (v_fs v) + u32 (u32 (c + c / 2) + 1) / SS (v_fs v))))
      as (w2 & Hm2 & Hw2 & Hr2 & Hb2).
    rewrite Hm2. cbn [is_ok FRESULT_eqb negb fst]. exact Hb2.
  - destruct (fs_type (v_fs v) =? FS_FAT16).
    + destruct (Hmv v _ Hwf Hrel Hb (Hu (fatbase (v_fs v) + c / (SS (v_fs v) / 2))))
        as (w1 & Hm1 & Hw1 & Hr1 & Hb1).
      rewrite Hm1. cbn [is_ok FRESULT_eqb negb fst]. exact Hb1.
    + destruct (fs_type (v_fs v) =? FS_FAT32); [| exact Hb].
      destruct (Hmv v _ Hwf Hrel Hb (Hu (fatbase (v_fs v) + c / (SS (v_fs v) / 4))))
        as (w1 & Hm1 & Hw1 & Hr1 & Hb1).
      rewrite Hm1. cbn [is_ok FRESULT_eqb negb fst]. exact Hb1.
Qed.

(** X7.  get_fat of a valid cluster, on a well-formed volume whose drive
    works, returns the cell of that cluster as the window and the medium
    show it (12, 16 or 28 bits, FAT12 cells that span two sectors included),
    and reading changes no cell of the FAT: a later get_fat of any cluster
    returns what it would have returned before. *)
Theorem get_fat_reads_without_change (v : Vol) (c : Z) :
  vol_wf v -> reliable (v_disk v) -> 2 <= c < n_fatent (v_fs v) ->
  exists v', get_fat v c = (v', fat_cell v c) /\ vol_wf v' /\
    frame (v_fs v') = frame (v_fs v) /\
    forall c', 2 <= c' < n_fatent (v_fs v) ->
      snd (get_fat v' c') = snd (get_fat v c').
Proof.
  intros Hwf Hrel Hc.
  destruct (get_fat_ok v c Hwf Hrel Hc) as (v' & Hget & Hwf' & Hrel' & Heq).
  exists v'. split; [exact Hget |]. split; [exact Hwf' |].
  split; [apply Heq |].
  intros c' Hc'.
  pose proof (frame_fields _ _ (proj1 Heq)) as (_ & _ & _ & _ & F5 & _).
  destruct (get_fat_ok v c' Hwf Hrel Hc') as (w & Hw & _).
  destruct (get_fat_ok v' c' Hwf' Hrel' ltac:(rewrite F5; exact Hc')) as (w' & Hw' & _).
  rewrite Hw, Hw'. cbn [snd].
  apply fat_cell_fat_eq; [apply (wf_geom _ Hwf) | exact Heq | exact Hc'].
Qed.

Lemma get_fat_reads_without_change_witness :
  snd (get_fat sample_vol32 2) = 3 /\
  snd (get_fat (fst (get_fat sample_vol32 2)) 3) = 0x0FFFFFFF.
Proof.
  destruct (get_fat_reads_without_change sample_vol32 2 sample_vol32_wf
              (sample_disk_reliable sample_fat32) ltac:(cbn; lia))
    as (v' & Hget & _ & _ & Hsame).
  split.
  - rewrite Hget. vm_compute. reflexivity.
  - rewrite Hget. cbn [fst]. rewrite Hsame by (cbn; lia).
    vm_compute. reflexivity.
Defined.

(** X8.  put_fat then get_fat.  On a well-formed volume of any FAT type whose
    drive works, put_fat of a valid cluster succeeds, and get_fat of that
    cluster then returns the value stored, cut to the width of a cell: 12
    bits on FAT12, 16 on FAT16, 28 on FAT32. *)
Theorem put_fat_get_fat_roundtrip (v : Vol) (c val : Z) :
  vol_wf v -> reliable (v_disk v) -> bytes_ok v ->
  2 <= c < n_fatent (v_fs v) ->
  exists v', put_fat v c val = (v', FR_OK) /\ vol_wf v' /\
    snd (get_fat v' c) = cell_mask (v_fs v) val.
Proof.
  intros Hwf Hrel Hb Hc.
  destruct (put_fat_full v c val Hwf Hrel Hb Hc)
    as (v' & Hput & Hwf' & Hrel' & Hfr & Hcell & _).
  exists v'. split; [exact Hput |]. split; [exact Hwf' |].
  pose proof (frame_fields _ _ Hfr) as (_ & _ & _ & _ & F5 & _).
  destruct (get_fat_ok v' c Hwf' Hrel' ltac:(rewrite F5; exact Hc)) as (w & Hw & _).
  rewrite Hw. exact Hcell.
Qed.

Lemma blank_sector_bytes : Forall is_byte blank_sector.
Proof. apply Forall_replicate. unfold is_byte. lia. Qed.

Lemma sample_disk_bytes (fs : FATFS) (fat : list Z) (rd wr : Z -> bool) :
  Forall is_byte (win fs) -> Forall is_byte fat ->
  bytes_ok (mkVol fs (sample_disk fat rd wr)).
Proof.
  intros Hw Hf. split; [exact Hw |]. intros s.
  unfold sample_disk. cbn [v_disk d_sec].
  destruct (s =? 32); [exact Hf | apply blank_sector_bytes].
Qed.

Lemma sample_fat32_bytes : Forall is_byte sample_fat32.
Proof.
  unfold sample_fat32, dword_cells.
  repeat apply Forall_st_dword. apply blank_sector_bytes.
Qed.

Lemma sample_vol32_bytes : bytes_ok sample_vol32.
Proof.
  apply sample_disk_bytes; [apply blank_sector_bytes | apply sample_fat32_bytes].
Qed.

Lemma put_fat_get_fat_roundtrip_witness :
  exists v', put_fat sample_vol32 5 0xFFFFFFFF = (v', FR_OK) /\
             snd (get_fat v' 5) = 0x0FFFFFFF.
Proof.
  destruct (put_fat_get_fat_roundtrip sample_vol32 5 0xFFFFFFFF sample_vol32_wf
              (sample_disk_reliable sample_fat32) sample_vol32_bytes
              ltac:(cbn; lia))
    as (v' & Hput & _ & Hget).
  exists v'. split; [exact Hput | exact Hget].
Defined.

(** X9.  put_fat changes one cell only.  After put_fat of a valid cluster,
    get_fat of every other valid cluster returns what it returned before;
    on FAT12, where two clusters share a byte, the neighbour's nibble is
    kept. *)
Theorem put_fat_keeps_other_cells (v : Vol) (c val : Z) :
  vol_wf v -> reliable (v_disk v) -> bytes_ok v ->
  2 <= c < n_fatent (v_fs v) ->
  forall c', 2 <= c' < n_fatent (v_fs v) -> c' <> c ->
    snd (get_fat (fst (put_fat v c val)) c') = snd (get_fat v c').
Proof.
  intros Hwf Hrel Hb Hc c' Hc' Hne.
  destruct (put_fat_full v c val Hwf Hrel Hb Hc)
    as (v' & Hput & Hwf' & Hrel' & Hfr & _ & Hothers & _).
  rewrite Hput. cbn [fst].
  pose proof (frame_fields _ _ Hfr) as (_ & _ & _ & _ & F5 & _).
  destruct (get_fat_ok v c' Hwf Hrel Hc') as (w & Hw & _).
  destruct (get_fat_ok v' c' Hwf' Hrel' ltac:(rewrite F5; exact Hc')) as (w' & Hw' & _).
  rewrite Hw, Hw'. cbn [snd]. apply Hothers; assumption.
Qed.

Lemma sample_vol12_wf : vol_wf sample_vol12.
Proof. apply sample_disk_wf; reflexivity. Qed.

Lemma sample_vol12_bytes : bytes_ok sample_vol12.
Proof.
  apply sample_disk_bytes; [apply blank_sector_bytes |].
  unfold sample_fat12. apply Forall_app. split.
  - repeat (apply Forall_cons; split; [unfold is_byte; lia |]). apply Forall_nil. exact I.
  - apply Forall_replicate. unfold is_byte. lia.
Qed.

Lemma put_fat_keeps_other_cells_witness :
  snd (get_fat sample_vol12 2) = 3 /\
  snd (get_fat (fst (put_fat sample_vol12 3 5)) 2) = 3 /\
  snd (get_fat (fst (put_fat sample_vol12 3 5)) 3) = 5.
Proof.
  split; [vm_compute; reflexivity |]. split.
  - rewrite (put_fat_keeps_other_cells sample_vol12 3 5 sample_vol12_wf
               (sample_disk_reliable sample_fat12) sample_vol12_bytes
               ltac:(cbn; lia) 2 ltac:(cbn; lia) ltac:(lia)).
    vm_compute. reflexivity.
  - vm_compute. reflexivity.
Defined.

(** X10.  A cluster number below 2 or not below n_fatent is refused by both
    FAT access functions before anything is touched: get_fat returns 1 (its
    internal-error value) and put_fat returns FR_INT_ERR, and neither the
    filesystem object nor the drive changes. *)
Theorem fat_access_refuses_invalid_cluster (v : Vol) (c val : Z) :
  c < 2 \/ n_fatent (v_fs v) <= c ->
  get_fat v c = (v, 1) /\ put_fat v c val = (v, FR_INT_ERR).
Proof.
  intros Hc. unfold get_fat, put_fat.
  assert (E1 : (c <? 2) || (c >=? n_fatent (v_fs v)) = true).
  { apply orb_true_iff. rewrite Z.geb_leb.
    destruct Hc; [left; apply Z.ltb_lt | right; apply Z.leb_le]; lia. }
  assert (E2 : (c >=? 2) && (c <? n_fatent (v_fs v)) = false).
  { apply andb_false_iff. rewrite Z.geb_leb.
    destruct Hc; [left; apply Z.leb_gt | right; apply Z.ltb_ge]; lia. }
  rewrite E1, E2. split; reflexivity.
Qed.

Lemma fat_access_refuses_invalid_cluster_witness :
  get_fat sample_vol32 1 = (sample_vol32, 1) /\
  put_fat sample_vol32 100 3 = (sample_vol32, FR_INT_ERR).
Proof.
  split.
  - apply (fat_access_refuses_invalid_cluster sample_vol32 1 0). left. lia.
  - apply (fat_access_refuses_invalid_cluster sample_vol32 100 3). right. cbn. lia.
Defined.




(** ** Cluster chains: remove_chain, create_chain *)

Lemma chain_from_valid (v : Vol) (c : Z) (rest : list Z) :
  chain_from v c rest -> 2 <= c < n_fatent (v_fs v).
Proof. destruct rest; intros [H _]; exact H. Qed.

Lemma chain_from_all_valid (v : Vol) (c : Z) (rest : list Z) :
  chain_from v c rest -> forall x, In x (c :: rest) -> 2 <= x < n_fatent (v_fs v).
Proof.
  revert c. induction rest as [| c' rest IH]; intros c H x Hx.
  - destruct Hx as [<- | []]. apply (chain_from_valid _ _ _ H).
  - destruct Hx as [<- | Hx]; [apply (chain_from_valid _ _ _ H) |].
    destruct H as (_ & _ & H). apply (IH c' H x Hx).
Qed.

(** A chain is determined by its first cluster. *)
Lemma chain_from_unique (v : Vol) (c : Z) (l1 l2 : list Z) :
  chain_from v c l1 -> chain_from v c l2 -> l1 = l2.
Proof.
  revert c l2. induction l1 as [| a l1 IH]; intros c l2 H1 H2.
  - destruct l2 as [| b l2]; [reflexivity |].
    destruct H1 as (_ & Hend & _). destruct H2 as (_ & E & H2).
    pose proof (chain_from_valid _ _ _ H2). lia.
  - destruct l2 as [| b l2].
    + destruct H2 as (_ & Hend & _). destruct H1 as (_ & E & H1).
      pose proof (chain_from_valid _ _ _ H1). lia.
    + destruct H1 as (_ & E1 & H1). destruct H2 as (_ & E2 & H2).
      rewrite E1 in E2. subst b. f_equal. apply (IH a l2 H1 H2).
Qed.

Lemma chain_from_suffix (v : Vol) (c : Z) (rest : list Z) (x : Z) :
  chain_from v c rest -> In x rest ->
  exists l, chain_from v x l /\ (length l < length rest)%nat.
Proof.
  revert c. induction rest as [| c' rest IH]; intros c H Hx; [destruct Hx |].
  destruct H as (_ & _ & H). destruct Hx as [<- | Hx].
  - exists rest. split; [exact H | cbn; lia].
  - destruct (IH c' H Hx) as (l & Hl & Hlen). exists l. split; [exact Hl | cbn; lia].
Qed.

(** A chain that ends visits no cluster twice. *)
Lemma chain_from_nodup (v : Vol) (c : Z) (rest : list Z) :
  chain_from v c rest -> ~ In c rest.
Proof.
  intros H Hin.
  destruct (chain_from_suffix v c rest c H Hin) as (l & Hl & Hlen).
  pose proof (chain_from_unique v c rest l H Hl). subst l. lia.
Qed.

Lemma chain_from_ext (v w : Vol) (c : Z) (rest : list Z) :
  n_fatent (v_fs w) = n_fatent (v_fs v) ->
  (forall x, In x (c :: rest) -> fat_cell w x = fat_cell v x) ->
  chain_from v c rest -> chain_from w c rest.
Proof.
  intros Hn. revert c. induction rest as [| c' rest IH]; intros c Hsame H.
  - destruct H as (Hc & Hend). cbn. rewrite Hn, (Hsame c (or_introl eq_refl)).
    split; assumption.
  - destruct H as (Hc & E & H). cbn. rewrite Hn, (Hsame c (or_introl eq_refl)).
    split; [exact Hc |]. split; [exact E |].
    apply IH; [| exact H]. intros x Hx. apply Hsame. right. exact Hx.
Qed.

Lemma cell_mask_0 (fs : FATFS) : cell_mask fs 0 = 0.
Proof.
  unfold cell_mask. destruct (fs_type fs =? FS_FAT12); [reflexivity |].
  destruct (fs_type fs =? FS_FAT16); reflexivity.
Qed.


Lemma note_freed_keeps (v : Vol) :
  (vol_wf v -> vol_wf (note_freed v)) /\
  v_disk (note_freed v) = v_disk v /\
  (bytes_ok v -> bytes_ok (note_freed v)) /\
  n_fatent (v_fs (note_freed v)) = n_fatent (v_fs v) /\
  last_clst (v_fs (note_freed v)) = last_clst (v_fs v) /\
  (forall x, fat_cell (note_freed v) x = fat_cell v x) /\
  free_clst (v_fs (note_freed v)) =
    (if free_clst (v_fs v) <? u32 (n_fatent (v_fs v) - 2)
     then u32 (free_clst (v_fs v) + 1) else free_clst (v_fs v)).
Proof.
  unfold note_freed.
  destruct (free_clst (v_fs v) <? u32 (n_fatent (v_fs v) - 2)).
  - split.
    { intros Hwf. constructor; cbn.
      - exact (wf_geom _ Hwf).
      - apply (wf_win _ Hwf).
      - apply (wf_sec _ Hwf).
      - apply (wf_winsect _ Hwf).
      - apply (wf_clean _ Hwf). }
    split; [reflexivity |]. split; [intros H; exact H |].
    split; [reflexivity |]. split; [reflexivity |]. split; [| reflexivity].
    intros x. reflexivity.
  - split; [intros Hw; exact Hw |]. split; [reflexivity |].
    split; [intros Hw; exact Hw |]. split; [reflexivity |].
    split; [reflexivity |]. split; [intros x; reflexivity | reflexivity].
Qed.

Lemma free_after_step (fs : FATFS) (k : Z) (f' : Z) :
  0 <= k -> 0 <= free_clst fs -> 3 <= n_fatent fs < 4294967296 ->
  f' = (if free_clst fs <? u32 (n_fatent fs - 2)
        then u32 (free_clst fs + 1) else free_clst fs) ->
  (if f' <? n_fatent fs - 2 then Z.min (f' + k) (n_fatent fs - 2) else f') =
  free_after fs (k + 1).
Proof.
  intros Hk Hf Hn ->. unfold free_after.
  rewrite (u32_small (n_fatent fs - 2)) by lia.
  destruct (Z.ltb_spec (free_clst fs) (n_fatent fs - 2)) as [H1 | H1].
  - rewrite u32_small by lia.
    destruct (Z.ltb_spec (free_clst fs + 1) (n_fatent fs - 2)); lia.
  - destruct (Z.ltb_spec (free_clst fs) (n_fatent fs - 2)); lia.
Qed.

(** The loop of remove_chain on a chain that ends. *)
Lemma remove_chain_loop_frees (rest : list Z) :
  forall (c : Z) (v : Vol) (fuel : nat),
    vol_wf v -> reliable (v_disk v) -> bytes_ok v -> 0 <= free_clst (v_fs v) ->
    chain_from v c rest -> (length rest < fuel)%nat ->
    exists v',
      remove_chain_loop fuel v c = Some (v', FR_OK) /\
      vol_wf v' /\ reliable (v_disk v') /\ bytes_ok v' /\
      n_fatent (v_fs v') = n_fatent (v_fs v) /\
      last_clst (v_fs v') = last_clst (v_fs v) /\
      (forall x, In x (c :: rest) -> fat_cell v' x = 0) /\
      (forall x, 2 <= x < n_fatent (v_fs v) -> ~ In x (c :: rest) ->
         fat_cell v' x = fat_cell v x) /\
      free_clst (v_fs v') = free_after (v_fs v) (Z.of_nat (length (c :: rest))).
Proof.
  induction rest as [| c' rest IH]; intros c v fuel Hwf Hrel Hb Hfree Hch Hfuel;
    (destruct fuel as [| fuel]; [cbn in Hfuel; lia |]).
  - (* the last cluster of the chain *)
    destruct Hch as (Hc & Hend & HnF).
    pose proof (n_fatent_bound _ (wf_geom _ Hwf)) as Hn.
    destruct (get_fat_ok v c Hwf Hrel Hc) as (v1 & Hget & Hwf1 & Hrel1 & Heq1).
    pose proof (get_fat_bytes v c Hwf Hrel Hb) as Hb1. rewrite Hget in Hb1. cbn [fst] in Hb1.
    pose proof (frame_fields _ _ (proj1 Heq1))
      as (_ & _ & _ & _ & F5 & _ & _ & _ & F9 & F10 & _).
    destruct (put_fat_full v1 c 0 Hwf1 Hrel1 Hb1 ltac:(rewrite F5; exact Hc))
      as (v2 & Hput & Hwf2 & Hrel2 & Hfr2 & Hcell2 & Hoth2 & Hb2).
    pose proof (frame_fields _ _ Hfr2)
      as (_ & _ & _ & _ & G5 & _ & _ & _ & G9 & G10 & _).
    destruct (note_freed_keeps v2) as (Nwf & Nd & Nb & Nn & Nl & Ncell & Nfree).
    cbn [remove_chain_loop]. rewrite Hget.
    replace (fat_cell v c =? 0) with false by (symmetry; apply Z.eqb_neq; lia).
    replace (fat_cell v c =? 1) with false by (symmetry; apply Z.eqb_neq; lia).
    replace (fat_cell v c =? 4294967295) with false by (symmetry; apply Z.eqb_neq; exact HnF).
    rewrite Hput. cbn [is_ok FRESULT_eqb negb].
    rewrite Nn, G5, F5.
    replace (fat_cell v c <? n_fatent (v_fs v)) with false by (symmetry; apply Z.ltb_ge; lia).
    exists (note_freed v2).
    split; [reflexivity |]. split; [apply Nwf; exact Hwf2 |].
    split; [rewrite Nd; exact Hrel2 |]. split; [apply Nb; exact Hb2 |].
    split; [rewrite Nn, G5, F5; reflexivity |].
    split; [rewrite Nl, G9, F9; reflexivity |].
    split; [| split].
    + intros x [<- | []]. rewrite Ncell, Hcell2. apply cell_mask_0.
    + intros x Hx Hnot. rewrite Ncell, Hoth2.
      * apply fat_cell_fat_eq; [apply (wf_geom _ Hwf) | exact Heq1 | exact Hx].
      * rewrite F5. exact Hx.
      * intros ->. apply Hnot. left. reflexivity.
    + rewrite Nfree, G5, G10, F5, F10. unfold free_after.
      rewrite (u32_small (n_fatent (v_fs v) - 2)) by lia.
      destruct (Z.ltb_spec (free_clst (v_fs v)) (n_fatent (v_fs v) - 2)).
      * rewrite u32_small by lia. cbn [length Z.of_nat]. lia.
      * reflexivity.
  - (* a cluster that has a follower *)
    pose proof (chain_from_nodup v c (c' :: rest) Hch) as Hnd.
    pose proof (chain_from_all_valid v c (c' :: rest) Hch) as Hvalid.
    destruct Hch as (Hc & Hnext & Hch').
    pose proof (chain_from_valid _ _ _ Hch') as Hc'.
    pose proof (n_fatent_bound _ (wf_geom _ Hwf)) as Hn.
    destruct (get_fat_ok v c Hwf Hrel Hc) as (v1 & Hget & Hwf1 & Hrel1 & Heq1).
    pose proof (get_fat_bytes v c Hwf Hrel Hb) as Hb1. rewrite Hget in Hb1. cbn [fst] in Hb1.
    pose proof (frame_fields _ _ (proj1 Heq1))
      as (_ & _ & _ & _ & F5 & _ & _ & _ & F9 & F10 & _).
    destruct (put_fat_full v1 c 0 Hwf1 Hrel1 Hb1 ltac:(rewrite F5; exact Hc))
      as (v2 & Hput & Hwf2 & Hrel2 & Hfr2 & Hcell2 & Hoth2 & Hb2).
    pose proof (frame_fields _ _ Hfr2)
      as (_ & _ & _ & _ & G5 & _ & _ & _ & G9 & G10 & _).
    destruct (note_freed_keeps v2) as (Nwf & Nd & Nb & Nn & Nl & Ncell & Nfree).
    assert (Hsame : forall x, 2 <= x < n_fatent (v_fs v) -> x <> c ->
                      fat_cell (note_freed v2) x = fat_cell v x).
    { intros x Hx Hne. rewrite Ncell, Hoth2.
      - apply fat_cell_fat_eq; [apply (wf_geom _ Hwf) | exact Heq1 | exact Hx].
      - rewrite F5. exact Hx.
      - exact Hne. }
    assert (Hch3 : chain_from (note_freed v2) c' rest).
    { apply (chain_from_ext v); [rewrite Nn, G5, F5; reflexivity | | exact Hch'].
      intros x Hx. apply Hsame.
      - apply Hvalid. right. exact Hx.
      - intros ->. apply Hnd. exact Hx. }
    assert (Hfree3 : 0 <= free_clst (v_fs (note_freed v2))).
    { rewrite Nfree, G5, G10, F5, F10.
      destruct (free_clst (v_fs v) <? u32 (n_fatent (v_fs v) - 2));
        [unfold u32; apply Z.mod_pos_bound; lia | exact Hfree]. }
    destruct (IH c' (note_freed v2) fuel (Nwf Hwf2) ltac:(rewrite Nd; exact Hrel2)
                (Nb Hb2) Hfree3 Hch3 ltac:(cbn in Hfuel; lia))
      as (v' & Hloop & Hwf' & Hrel' & Hb' & Hn' & Hl' & Hzero & Hoth & Hcount).
    cbn [remove_chain_loop]. rewrite Hget, Hnext.
    replace (c' =? 0) with false by (symmetry; apply Z.eqb_neq; lia).
    replace (c' =? 1) with false by (symmetry; apply Z.eqb_neq; lia).
    replace (c' =? 4294967295) with false by (symmetry; apply Z.eqb_neq; lia).
    rewrite Hput. cbn [is_ok FRESULT_eqb negb].
    rewrite Nn, G5, F5.
    replace (c' <? n_fatent (v_fs v)) with true by (symmetry; apply Z.ltb_lt; lia).
    exists v'. split; [exact Hloop |]. split; [exact Hwf' |].
    split; [exact Hrel' |]. split; [exact Hb' |].
    split; [rewrite Hn', Nn, G5, F5; reflexivity |].
    split; [rewrite Hl', Nl, G9, F9; reflexivity |].
    split; [| split].
    + intros x [<- | Hx]; [| apply Hzero; exact Hx].
      rewrite Hoth.
      * rewrite Ncell, Hcell2. apply cell_mask_0.
      * rewrite Nn, G5, F5. exact Hc.
      * exact Hnd.
    + intros x Hx Hnot. rewrite Hoth.
      * apply Hsame; [exact Hx |]. intros ->. apply Hnot. left. reflexivity.
      * rewrite Nn, G5, F5. exact Hx.
      * intros Hin. apply Hnot. right. exact Hin.
    + rewrite Hcount. unfold free_after at 1. rewrite Nn, G5, F5.
      replace (Z.of_nat (length (c :: c' :: rest)))
        with (Z.of_nat (length (c' :: rest)) + 1) by (cbn [length]; lia).
      apply free_after_step; [lia | exact Hfree | lia |].
      rewrite Nfree, G5, G10, F5, F10. reflexivity.
Qed.

Lemma cell_mask_small (fs : FATFS) (x : Z) :
  0 <= x < cell_limit fs -> cell_mask fs x = x.
Proof.
  unfold cell_limit, cell_mask.
  destruct (fs_type fs =? FS_FAT12); [| destruct (fs_type fs =? FS_FAT16)]; intros H.
  - change 4095 with (Z.ones 12). rewrite Z.land_ones by lia.
    apply Z.mod_small. change (2 ^ 12) with 4096. lia.
  - unfold u16. apply Z.mod_small. lia.
  - change 268435455 with (Z.ones 28). rewrite Z.land_ones by lia.
    apply Z.mod_small. change (2 ^ 28) with 268435456. lia.
Qed.

Lemma get_fat_cell (v : Vol) (c : Z) :
  vol_wf v -> reliable (v_disk v) -> 2 <= c < n_fatent (v_fs v) ->
  snd (get_fat v c) = fat_cell v c.
Proof.
  intros Hwf Hrel Hc.
  destruct (get_fat_ok v c Hwf Hrel Hc) as (v1 & Hget & _). rewrite Hget. reflexivity.
Qed.

(** remove_chain on a chain that ends, with or without a previous cluster. *)
Lemma remove_chain_core (fuel : nat) (v : Vol) (c pclst : Z) (rest : list Z) :
  vol_wf v -> reliable (v_disk v) -> bytes_ok v -> 0 <= free_clst (v_fs v) ->
  pclst = 0 \/ (2 <= pclst < n_fatent (v_fs v) /\ ~ In pclst (c :: rest)) ->
  chain_from v c rest -> (length rest < fuel)%nat ->
  exists v',
    remove_chain fuel v c pclst = Some (v', FR_OK) /\ vol_wf v' /\
    reliable (v_disk v') /\ bytes_ok v' /\
    n_fatent (v_fs v') = n_fatent (v_fs v) /\
    last_clst (v_fs v') = last_clst (v_fs v) /\
    (pclst <> 0 -> fat_cell v' pclst = cell_mask (v_fs v) 0xFFFFFFFF) /\
    (forall x, In x (c :: rest) -> fat_cell v' x = 0) /\
    (forall x, 2 <= x < n_fatent (v_fs v) -> x <> pclst -> ~ In x (c :: rest) ->
       fat_cell v' x = fat_cell v x) /\
    free_clst (v_fs v') = free_after (v_fs v) (Z.of_nat (length (c :: rest))).
Proof.
  intros Hwf Hrel Hb Hfree Hp Hch Hfuel.
  pose proof (chain_from_all_valid v c rest Hch) as Hvalid.
  pose proof (Hvalid c (or_introl eq_refl)) as Hc.
  assert (Hhead : remove_chain fuel v c pclst =
            if nz pclst then
              let '(v, res) := put_fat v pclst 0xFFFFFFFF in
              if negb (is_ok res) then Some (v, res) else remove_chain_loop fuel v c
            else remove_chain_loop fuel v c).
  { unfold remove_chain.
    replace (c <? 2) with false by (symmetry; apply Z.ltb_ge; lia).
    rewrite Z.geb_leb.
    replace (n_fatent (v_fs v) <=? c) with false by (symmetry; apply Z.leb_gt; lia).
    reflexivity. }
  destruct Hp as [-> | (Hp & Hnot)].
  - destruct (remove_chain_loop_frees rest c v fuel Hwf Hrel Hb Hfree Hch Hfuel)
      as (v' & Hloop & Hwf' & Hrel' & Hb' & Hn' & Hl' & Hzero & Hoth & Hcount).
    exists v'. split; [rewrite Hhead; exact Hloop |].
    split; [exact Hwf' |]. split; [exact Hrel' |]. split; [exact Hb' |].
    split; [exact Hn' |]. split; [exact Hl' |].
    split; [intros H; exfalso; apply H; reflexivity |].
    split; [exact Hzero |]. split; [| exact Hcount].
    intros x Hx _ Hnin. apply Hoth; assumption.
  - destruct (put_fat_full v pclst 0xFFFFFFFF Hwf Hrel Hb Hp)
      as (v1 & Hput & Hwf1 & Hrel1 & Hfr1 & Hcell1 & Hoth1 & Hb1).
    pose proof (frame_fields _ _ Hfr1)
      as (_ & _ & _ & _ & F5 & _ & _ & _ & F9 & F10 & _).
    assert (Hch1 : chain_from v1 c rest).
    { apply (chain_from_ext v); [exact F5 | | exact Hch].
      intros x Hx. apply Hoth1; [apply Hvalid; exact Hx |].
      intros ->. apply Hnot. exact Hx. }
    destruct (remove_chain_loop_frees rest c v1 fuel Hwf1 Hrel1 Hb1
                ltac:(rewrite F10; exact Hfree) Hch1 Hfuel)
      as (v' & Hloop & Hwf' & Hrel' & Hb' & Hn' & Hl' & Hzero & Hoth & Hcount).
    exists v'. split.
    { rewrite Hhead. unfold nz.
      replace (pclst =? 0) with false by (symmetry; apply Z.eqb_neq; lia).
      cbn [negb]. rewrite Hput. cbn [is_ok FRESULT_eqb negb]. exact Hloop. }
    split; [exact Hwf' |]. split; [exact Hrel' |]. split; [exact Hb' |].
    split; [rewrite Hn'; exact F5 |]. split; [rewrite Hl'; exact F9 |].
    split.
    { intros _. rewrite Hoth; [exact Hcell1 | rewrite F5; exact Hp | exact Hnot]. }
    split; [exact Hzero |]. split.
    + intros x Hx Hne Hnin.
      rewrite Hoth; [| rewrite F5; exact Hx | exact Hnin].
      apply Hoth1; assumption.
    + rewrite Hcount. unfold free_after. rewrite F5, F10. reflexivity.
Qed.

(** X12.  remove_chain(clst, 0) on a chain that runs from clst through the
    clusters of [rest] to a cell holding an end mark (a value not below
    n_fatent), on a well-formed volume whose drive works: within one pass per
    cluster it returns FR_OK, every cluster of the chain then reads 0 (free)
    through get_fat, every other cluster reads what it read before, and the
    free count has grown by the length of the chain, but not beyond
    n_fatent - 2 (a count that was not below n_fatent - 2 is left alone). *)
Theorem remove_chain_frees_whole_chain (fuel : nat) (v : Vol) (c : Z) (rest : list Z) :
  vol_wf v -> reliable (v_disk v) -> bytes_ok v -> 0 <= free_clst (v_fs v) ->
  chain_from v c rest -> (length rest < fuel)%nat ->
  exists v',
    remove_chain fuel v c 0 = Some (v', FR_OK) /\ vol_wf v' /\
    n_fatent (v_fs v') = n_fatent (v_fs v) /\
    (forall x, In x (c :: rest) -> snd (get_fat v' x) = 0) /\
    (forall x, 2 <= x < n_fatent (v_fs v) -> ~ In x (c :: rest) ->
       snd (get_fat v' x) = snd (get_fat v x)) /\
    free_clst (v_fs v') = free_after (v_fs v) (Z.of_nat (length (c :: rest))).
Proof.
  intros Hwf Hrel Hb Hfree Hch Hfuel.
  pose proof (chain_from_all_valid v c rest Hch) as Hvalid.
  destruct (remove_chain_core fuel v c 0 rest Hwf Hrel Hb Hfree (or_introl eq_refl)
              Hch Hfuel)
    as (v' & Hrm & Hwf' & Hrel' & Hb' & Hn' & Hl' & _ & Hzero & Hoth & Hcount).
  exists v'. split; [exact Hrm |].
  split; [exact Hwf' |]. split; [exact Hn' |]. split; [| split; [| exact Hcount]].
  - intros x Hx. rewrite get_fat_cell; [apply Hzero; exact Hx | exact Hwf' | exact Hrel' |].
    rewrite Hn'. apply Hvalid. exact Hx.
  - intros x Hx Hnot.
    rewrite get_fat_cell; [| exact Hwf' | exact Hrel' | rewrite Hn'; exact Hx].
    rewrite get_fat_cell; [| exact Hwf | exact Hrel | exact Hx].
    apply Hoth; [exact Hx | lia | exact Hnot].
Qed.

Lemma sample_vol32_chain : chain_from sample_vol32 2 [3].
Proof.
  split; [cbn; lia |]. split; [vm_compute; reflexivity |].
  split; [cbn; lia |]. split; vm_compute; discriminate.
Qed.

Lemma remove_chain_frees_whole_chain_witness :
  exists v',
    remove_chain 2 sample_vol32 2 0 = Some (v', FR_OK) /\ vol_wf v' /\
    n_fatent (v_fs v') = 100 /\
    (forall x, In x [2; 3] -> snd (get_fat v' x) = 0) /\
    (forall x, 2 <= x < 100 -> ~ In x [2; 3] ->
       snd (get_fat v' x) = snd (get_fat sample_vol32 x)) /\
    free_clst (v_fs v') = 98.
Proof.
  exact (remove_chain_frees_whole_chain 2 sample_vol32 2 [3] sample_vol32_wf
           (sample_disk_reliable sample_fat32) sample_vol32_bytes
           ltac:(cbn; lia) sample_vol32_chain ltac:(cbn; lia)).
Defined.

(** X13.  remove_chain(clst, pclst) with a previous cluster pclst that is
    not part of the chain being removed (the use f_truncate makes of it):
    pclst then reads the end-of-chain mark of the FAT type, the clusters of
    the chain read 0, and every other cluster reads what it read before. *)
Theorem remove_chain_cuts_behind_previous
  (fuel : nat) (v : Vol) (c pclst : Z) (rest : list Z) :
  vol_wf v -> reliable (v_disk v) -> bytes_ok v -> 0 <= free_clst (v_fs v) ->
  2 <= pclst < n_fatent (v_fs v) -> ~ In pclst (c :: rest) ->
  chain_from v c rest -> (length rest < fuel)%nat ->
  exists v',
    remove_chain fuel v c pclst = Some (v', FR_OK) /\ vol_wf v' /\
    snd (get_fat v' pclst) = cell_mask (v_fs v) 0xFFFFFFFF /\
    (forall x, In x (c :: rest) -> snd (get_fat v' x) = 0) /\
    (forall x, 2 <= x < n_fatent (v_fs v) -> x <> pclst -> ~ In x (c :: rest) ->
       snd (get_fat v' x) = snd (get_fat v x)) /\
    free_clst (v_fs v') = free_after (v_fs v) (Z.of_nat (length (c :: rest))).
Proof.
  intros Hwf Hrel Hb Hfree Hp Hnot Hch Hfuel.
  pose proof (chain_from_all_valid v c rest Hch) as Hvalid.
  destruct (remove_chain_core fuel v c pclst rest Hwf Hrel Hb Hfree
              (or_intror (conj Hp Hnot)) Hch Hfuel)
    as (v' & Hrm & Hwf' & Hrel' & Hb' & Hn' & Hl' & Hprev & Hzero & Hoth & Hcount).
  exists v'. split; [exact Hrm |]. split; [exact Hwf' |].
  split; [| split; [| split; [| exact Hcount]]].
  - rewrite get_fat_cell; [| exact Hwf' | exact Hrel' | rewrite Hn'; exact Hp].
    apply Hprev. lia.
  - intros x Hx. rewrite get_fat_cell; [apply Hzero; exact Hx | exact Hwf' | exact Hrel' |].
    rewrite Hn'. apply Hvalid. exact Hx.
  - intros x Hx Hne Hnin.
    rewrite get_fat_cell; [| exact Hwf' | exact Hrel' | rewrite Hn'; exact Hx].
    rewrite get_fat_cell; [| exact Hwf | exact Hrel | exact Hx].
    apply Hoth; assumption.
Qed.

Lemma remove_chain_cuts_behind_previous_witness :
  exists v',
    remove_chain 1 sample_vol32 3 2 = Some (v', FR_OK) /\ vol_wf v' /\
    snd (get_fat v' 2) = 0x0FFFFFFF /\
    (forall x, In x [3] -> snd (get_fat v' x) = 0) /\
    (forall x, 2 <= x < 100 -> x <> 2 -> ~ In x [3] ->
       snd (get_fat v' x) = snd (get_fat sample_vol32 x)) /\
    free_clst (v_fs v') = 97.
Proof.
  exact (remove_chain_cuts_behind_previous 1 sample_vol32 3 2 [] sample_vol32_wf
           (sample_disk_reliable sample_fat32) sample_vol32_bytes
           ltac:(cbn; lia) ltac:(cbn; lia)
           ltac:(intros [H | []]; discriminate H)
           ltac:(split; [cbn; lia | split; vm_compute; discriminate])
           ltac:(cbn; lia)).
Defined.

Lemma cell_limit_frame (a b : FATFS) :
  frame a = frame b -> cell_limit a = cell_limit b /\
  (forall x, cell_mask a x = cell_mask b x).
Proof.
  intros H. apply frame_fields in H. destruct H as (F1 & _).
  unfold cell_limit, cell_mask. rewrite F1. split; [reflexivity | intros; reflexivity].
Qed.

(** The tail of create_chain when a chain is stretched: the new cluster is
    marked, the previous one linked to it. *)
Lemma create_chain_commit_link (v : Vol) (clst ncl : Z) :
  vol_wf v -> reliable (v_disk v) -> bytes_ok v ->
  n_fatent (v_fs v) <= cell_limit (v_fs v) ->
  2 <= clst < n_fatent (v_fs v) -> 2 <= ncl < n_fatent (v_fs v) -> clst <> ncl ->
  exists v', create_chain_commit v clst ncl = (v', ncl) /\ vol_wf v' /\
    reliable (v_disk v') /\ bytes_ok v' /\
    n_fatent (v_fs v') = n_fatent (v_fs v) /\
    fs_type (v_fs v') = fs_type (v_fs v) /\
    fat_cell v' ncl = cell_mask (v_fs v) 0xFFFFFFFF /\
    fat_cell v' clst = ncl /\
    (forall x, 2 <= x < n_fatent (v_fs v) -> x <> clst -> x <> ncl ->
       fat_cell v' x = fat_cell v x) /\
    last_clst (v_fs v') = ncl /\
    free_clst (v_fs v') =
      (if free_clst (v_fs v) <=? u32 (n_fatent (v_fs v) - 2)
       then u32 (free_clst (v_fs v) - 1) else free_clst (v_fs v)).
Proof.
  intros Hwf Hrel Hb Hlim Hc Hn Hne.
  destruct (put_fat_full v ncl 0xFFFFFFFF Hwf Hrel Hb Hn)
    as (v1 & Hput1 & Hwf1 & Hrel1 & Hfr1 & Hcell1 & Hoth1 & Hb1).
  pose proof (frame_fields _ _ Hfr1)
    as (F1 & _ & _ & _ & F5 & _ & _ & _ & F9 & F10 & _).
  destruct (cell_limit_frame _ _ Hfr1) as (L1 & M1).
  destruct (put_fat_full v1 clst ncl Hwf1 Hrel1 Hb1 ltac:(rewrite F5; exact Hc))
    as (v2 & Hput2 & Hwf2 & Hrel2 & Hfr2 & Hcell2 & Hoth2 & Hb2).
  pose proof (frame_fields _ _ Hfr2)
    as (G1 & _ & _ & _ & G5 & _ & _ & _ & G9 & G10 & _).
  rewrite cell_mask_small in Hcell2 by (rewrite L1; lia).
  unfold create_chain_commit. rewrite Hput1. cbn [is_ok FRESULT_eqb andb].
  unfold nz. replace (clst =? 0) with false by (symmetry; apply Z.eqb_neq; lia).
  cbn [negb]. rewrite Hput2. cbn [is_ok FRESULT_eqb].
  assert (Hcells : forall x, 2 <= x < n_fatent (v_fs v) ->
            (x = ncl -> fat_cell v2 x = cell_mask (v_fs v) 4294967295) /\
            (x <> clst -> x <> ncl -> fat_cell v2 x = fat_cell v x)).
  { intros x Hx. split.
    - intros ->. rewrite Hoth2; [exact Hcell1 | rewrite F5; exact Hn |].
      intros E. apply Hne. symmetry. exact E.
    - intros H1 H2. rewrite Hoth2; [| rewrite F5; exact Hx | exact H1].
      apply Hoth1; assumption. }
  eexists. split; [reflexivity |].
  change (free_clst (set_last_clst (v_fs v2) ncl)) with (free_clst (v_fs v2)).
  change (n_fatent (set_last_clst (v_fs v2) ncl)) with (n_fatent (v_fs v2)).
  rewrite G5, G10, F5, F10.
  destruct (free_clst (v_fs v) <=? u32 (n_fatent (v_fs v) - 2)).
  - split.
    { constructor; simpl.
      - exact (wf_geom _ Hwf2).
      - apply (wf_win _ Hwf2).
      - apply (wf_sec _ Hwf2).
      - apply (wf_winsect _ Hwf2).
      - apply (wf_clean _ Hwf2). }
    split; [exact Hrel2 |]. split; [exact Hb2 |].
    split; [cbn; rewrite G5, F5; reflexivity |].
    split; [cbn; rewrite G1, F1; reflexivity |].
    split; [exact (proj1 (Hcells ncl Hn) eq_refl) |].
    split; [exact Hcell2 |].
    split; [intros x Hx H1 H2; exact (proj2 (Hcells x Hx) H1 H2) |].
    split; reflexivity.
  - split.
    { constructor; simpl.
      - exact (wf_geom _ Hwf2).
      - apply (wf_win _ Hwf2).
      - apply (wf_sec _ Hwf2).
      - apply (wf_winsect _ Hwf2).
      - apply (wf_clean _ Hwf2). }
    split; [exact Hrel2 |]. split; [exact Hb2 |].
    split; [cbn; rewrite G5, F5; reflexivity |].
    split; [cbn; rewrite G1, F1; reflexivity |].
    split; [exact (proj1 (Hcells ncl Hn) eq_refl) |].
    split; [exact Hcell2 |].
    split; [intros x Hx H1 H2; exact (proj2 (Hcells x Hx) H1 H2) |].
    split; [reflexivity |]. cbn. rewrite G10, F10. reflexivity.
Qed.

Lemma cell_mask_eoc (fs : FATFS) :
  cell_mask fs 0xFFFFFFFF = cell_limit fs - 1.
Proof.
  unfold cell_mask, cell_limit.
  destruct (fs_type fs =? FS_FAT12); [reflexivity |].
  destruct (fs_type fs =? FS_FAT16); reflexivity.
Qed.

Lemma cell_limit_bound (fs : FATFS) : cell_limit fs <= 0x10000000.
Proof.
  unfold cell_limit.
  destruct (fs_type fs =? FS_FAT12); [lia |].
  destruct (fs_type fs =? FS_FAT16); lia.
Qed.

(** What the tail of create_chain leaves behind, in terms of chains. *)
Lemma commit_link_chain (v v' : Vol) (clst ncl : Z) :
  n_fatent (v_fs v) < cell_limit (v_fs v) ->
  2 <= clst < n_fatent (v_fs v) -> 2 <= ncl < n_fatent (v_fs v) ->
  n_fatent (v_fs v') = n_fatent (v_fs v) ->
  fat_cell v' ncl = cell_mask (v_fs v) 0xFFFFFFFF ->
  fat_cell v' clst = ncl ->
  chain_from v' clst [ncl].
Proof.
  intros Hlim Hc Hn En Hcell Hlink.
  pose proof (cell_limit_bound (v_fs v)) as Hb.
  rewrite cell_mask_eoc in Hcell.
  split; [rewrite En; exact Hc |]. split; [exact Hlink |].
  split; [rewrite En; exact Hn |]. rewrite Hcell, En. split; lia.
Qed.

(** create_chain on the last cluster of a chain whose neighbour is free. *)
Lemma create_chain_contiguous_core (fuel : nat) (v : Vol) (c : Z) :
  vol_wf v -> reliable (v_disk v) -> bytes_ok v ->
  n_fatent (v_fs v) < cell_limit (v_fs v) ->
  2 <= c < n_fatent (v_fs v) ->
  n_fatent (v_fs v) <= fat_cell v c -> fat_cell v c <> 0xFFFFFFFF ->
  free_clst (v_fs v) <> 0 ->
  fat_cell v (scan_pos (n_fatent (v_fs v)) c 1) = 0 ->
  exists v',
    create_chain fuel v c = Some (v', scan_pos (n_fatent (v_fs v)) c 1) /\
    vol_wf v' /\ reliable (v_disk v') /\ bytes_ok v' /\
    n_fatent (v_fs v') = n_fatent (v_fs v) /\
    fs_type (v_fs v') = fs_type (v_fs v) /\
    chain_from v' c [scan_pos (n_fatent (v_fs v)) c 1] /\
    (forall x, 2 <= x < n_fatent (v_fs v) -> x <> c ->
       x <> scan_pos (n_fatent (v_fs v)) c 1 ->
       fat_cell v' x = fat_cell v x) /\
    last_clst (v_fs v') = scan_pos (n_fatent (v_fs v)) c 1 /\
    free_clst (v_fs v') =
      (if free_clst (v_fs v) <=? n_fatent (v_fs v) - 2
       then u32 (free_clst (v_fs v) - 1) else free_clst (v_fs v)).
Proof.
  intros Hwf Hrel Hb Hlim Hc Hend HnF Hfree Hzero.
  pose proof (wf_geom _ Hwf) as Hg.
  pose proof (n_fatent_bound _ Hg) as Hn.
  set (nxt := scan_pos (n_fatent (v_fs v)) c 1) in *.
  assert (Hnxt : 2 <= nxt < n_fatent (v_fs v) /\
                 nxt = (if u32 (c + 1) >=? n_fatent (v_fs v) then 2 else u32 (c + 1))).
  { unfold nxt, scan_pos. rewrite u32_small by lia. rewrite Z.geb_leb.
    destruct (Z.ltb_spec (c + 1) (n_fatent (v_fs v)));
      destruct (Z.leb_spec (n_fatent (v_fs v)) (c + 1)); lia. }
  destruct Hnxt as (Hnx & Enxt).
  assert (Hne : c <> nxt) by (intros E; rewrite <- E in Hzero; lia).
  destruct (get_fat_ok v c Hwf Hrel Hc) as (v1 & Hget1 & Hwf1 & Hrel1 & Heq1).
  pose proof (get_fat_bytes v c Hwf Hrel Hb) as Hb1. rewrite Hget1 in Hb1. cbn [fst] in Hb1.
  pose proof (frame_fields _ _ (proj1 Heq1))
    as (_ & _ & _ & _ & F5 & _ & _ & _ & F9 & F10 & _).
  destruct (get_fat_ok v1 nxt Hwf1 Hrel1 ltac:(rewrite F5; exact Hnx))
    as (v2 & Hget2 & Hwf2 & Hrel2 & Heq2).
  pose proof (get_fat_bytes v1 nxt Hwf1 Hrel1 Hb1) as Hb2.
  rewrite Hget2 in Hb2. cbn [fst] in Hb2.
  pose proof (frame_fields _ _ (proj1 Heq2))
    as (_ & _ & _ & _ & G5 & _ & _ & _ & G9 & G10 & _).
  pose proof (fat_eq_trans _ _ _ Heq1 Heq2) as Heq.
  pose proof (frame_fields _ _ (proj1 Heq)) as (T1 & _).
  assert (Hcell1 : fat_cell v1 nxt = 0).
  { rewrite (fat_cell_fat_eq v v1 nxt Hg Heq1 Hnx). exact Hzero. }
  destruct (cell_limit_frame _ _ (proj1 Heq)) as (L2 & M2).
  destruct (create_chain_commit_link v2 c nxt Hwf2 Hrel2 Hb2
              ltac:(rewrite L2, G5, F5; lia) ltac:(rewrite G5, F5; exact Hc)
              ltac:(rewrite G5, F5; exact Hnx) Hne)
    as (v' & Hcommit & Hwf' & Hrel' & Hb' & Hn' & Hty' & Hcn & Hcc & Hoth & Hlast & Hfr).
  exists v'. split.
  { unfold create_chain.
    replace (c =? 0) with false by (symmetry; apply Z.eqb_neq; lia).
    rewrite Hget1.
    replace (fat_cell v c <? 2) with false by (symmetry; apply Z.ltb_ge; lia).
    replace (fat_cell v c =? 4294967295) with false
      by (symmetry; apply Z.eqb_neq; exact HnF).
    replace (fat_cell v c <? n_fatent (v_fs v)) with false
      by (symmetry; apply Z.ltb_ge; lia).
    rewrite F10.
    replace (free_clst (v_fs v) =? 0) with false
      by (symmetry; apply Z.eqb_neq; exact Hfree).
    cbv zeta. rewrite <- Enxt, Hget2, Hcell1.
    cbn [Z.eqb orb negb]. rewrite Hcommit. reflexivity. }
  split; [exact Hwf' |]. split; [exact Hrel' |]. split; [exact Hb' |].
  split; [rewrite Hn', G5, F5; reflexivity |].
  split; [rewrite Hty'; exact T1 |].
  split.
  { apply (commit_link_chain v); try assumption.
    - rewrite Hn', G5, F5. reflexivity.
    - rewrite Hcn, M2. reflexivity. }
  split; [| split].
  - intros x Hx H1 H2.
    rewrite Hoth; [| rewrite G5, F5; exact Hx | exact H1 | exact H2].
    apply fat_cell_fat_eq; assumption.
  - exact Hlast.
  - rewrite Hfr, G5, G10, F5, F10.
    rewrite (u32_small (n_fatent (v_fs v) - 2)) by lia. reflexivity.
Qed.

(** X14.  create_chain(clst) on the last cluster of a chain (its cell holds
    an end mark), with a free count that is not 0, when the cluster behind
    clst (cluster 2 behind the last one of the volume) reads 0: that cluster
    is returned, whatever the fuel; afterwards the chain runs from clst to
    it and ends there, every other cluster reads what it read before,
    last_clst names the new cluster, and a free count that was at most
    n_fatent - 2 is one less. *)
Theorem create_chain_stretches_contiguously (fuel : nat) (v : Vol) (c : Z) :
  vol_wf v -> reliable (v_disk v) -> bytes_ok v ->
  n_fatent (v_fs v) < cell_limit (v_fs v) ->
  2 <= c < n_fatent (v_fs v) ->
  n_fatent (v_fs v) <= fat_cell v c -> fat_cell v c <> 0xFFFFFFFF ->
  free_clst (v_fs v) <> 0 ->
  fat_cell v (scan_pos (n_fatent (v_fs v)) c 1) = 0 ->
  exists v',
    create_chain fuel v c = Some (v', scan_pos (n_fatent (v_fs v)) c 1) /\
    vol_wf v' /\
    chain_from v' c [scan_pos (n_fatent (v_fs v)) c 1] /\
    (forall x, 2 <= x < n_fatent (v_fs v) -> x <> c ->
       x <> scan_pos (n_fatent (v_fs v)) c 1 ->
       snd (get_fat v' x) = snd (get_fat v x)) /\
    last_clst (v_fs v') = scan_pos (n_fatent (v_fs v)) c 1 /\
    free_clst (v_fs v') =
      (if free_clst (v_fs v) <=? n_fatent (v_fs v) - 2
       then u32 (free_clst (v_fs v) - 1) else free_clst (v_fs v)).
Proof.
  intros Hwf Hrel Hb Hlim Hc Hend HnF Hfree Hzero.
  destruct (create_chain_contiguous_core fuel v c Hwf Hrel Hb Hlim Hc Hend HnF Hfree Hzero)
    as (v' & Hcc & Hwf' & Hrel' & Hb' & Hn' & Hty' & Hch & Hoth & Hlast & Hfr).
  exists v'. split; [exact Hcc |]. split; [exact Hwf' |]. split; [exact Hch |].
  split; [| split; [exact Hlast | exact Hfr]].
  intros x Hx H1 H2.
  rewrite get_fat_cell; [| exact Hwf' | exact Hrel' | rewrite Hn'; exact Hx].
  rewrite get_fat_cell; [| exact Hwf | exact Hrel | exact Hx].
  apply Hoth; assumption.
Qed.

Lemma get_fat_keeps (v : Vol) (c : Z) :
  vol_wf v -> reliable (v_disk v) -> bytes_ok v ->
  vol_wf (fst (get_fat v c)) /\ reliable (v_disk (fst (get_fat v c))) /\
  bytes_ok (fst (get_fat v c)) /\ fat_eq v (fst (get_fat v c)).
Proof.
  intros Hwf Hrel Hb.
  destruct (Z_lt_le_dec c 2) as [H1 | H1];
    [| destruct (Z_lt_le_dec c (n_fatent (v_fs v))) as [H2 | H2]].
  - unfold get_fat.
    replace (c <? 2) with true by (symmetry; apply Z.ltb_lt; lia).
    cbn [orb fst]. split; [exact Hwf |]. split; [exact Hrel |].
    split; [exact Hb | apply fat_eq_refl].
  - destruct (get_fat_ok v c Hwf Hrel ltac:(lia)) as (v1 & Hget & Hwf1 & Hrel1 & Heq1).
    pose proof (get_fat_bytes v c Hwf Hrel Hb) as Hb1.
    rewrite Hget in *. cbn [fst] in *.
    split; [exact Hwf1 |]. split; [exact Hrel1 |]. split; [exact Hb1 | exact Heq1].
  - unfold get_fat. rewrite Z.geb_leb.
    replace (n_fatent (v_fs v) <=? c) with true by (symmetry; apply Z.leb_le; lia).
    rewrite orb_true_r. cbn [fst]. split; [exact Hwf |]. split; [exact Hrel |].
    split; [exact Hb | apply fat_eq_refl].
Qed.

(** The scan of create_chain only reads. *)
Lemma create_chain_scan_bytes (fuel : nat) :
  forall v scl ncl v2 r,
    vol_wf v -> reliable (v_disk v) -> bytes_ok v ->
    create_chain_scan fuel v scl ncl = Some (v2, r) -> bytes_ok v2.
Proof.
  induction fuel as [| fuel IH]; intros v scl ncl v2 r Hwf Hrel Hb Hscan;
    [discriminate Hscan |].
  cbn [create_chain_scan] in Hscan.
  destruct ((u32 (ncl + 1) >=? n_fatent (v_fs v)) && (2 >? scl)).
  { injection Hscan as <- _. exact Hb. }
  set (n1 := if u32 (ncl + 1) >=? n_fatent (v_fs v) then 2 else u32 (ncl + 1)) in Hscan.
  destruct (get_fat_keeps v n1 Hwf Hrel Hb) as (Hwf1 & Hrel1 & Hb1 & _).
  destruct (get_fat v n1) as [v1 cs]. cbn [fst] in *.
  destruct (cs =? 0); [injection Hscan as <- _; exact Hb1 |].
  destruct ((cs =? 1) || (cs =? 4294967295)); [injection Hscan as <- _; exact Hb1 |].
  destruct (n1 =? scl); [injection Hscan as <- _; exact Hb1 |].
  apply (IH v1 scl n1 v2 r Hwf1 Hrel1 Hb1 Hscan).
Qed.

(** X15.  create_chain(clst) on the last cluster of a chain, with a free
    count that is not 0, when the cluster behind clst is in use.  The scan
    starts behind stretch_origin (last_clst when that is a cluster number,
    else clst) and visits scan_pos 1, scan_pos 2, ... (1) When the k-th
    cluster of that order is the first whose cell reads 0, create_chain
    returns it; afterwards the chain runs from clst to that cluster and ends
    there, every other cluster reads what it read before and last_clst names
    the new cluster.  (2) When no cell of the order reads 0, create_chain
    returns 0 and the FAT is as it was.  The loop ends within n_fatent
    passes. *)
Theorem create_chain_stretch_scan (fuel : nat) (v : Vol) (c : Z) :
  vol_wf v -> reliable (v_disk v) -> bytes_ok v ->
  n_fatent (v_fs v) < cell_limit (v_fs v) ->
  2 <= c < n_fatent (v_fs v) ->
  n_fatent (v_fs v) <= fat_cell v c -> fat_cell v c <> 0xFFFFFFFF ->
  free_clst (v_fs v) <> 0 ->
  cell_in_use (fat_cell v (scan_pos (n_fatent (v_fs v)) c 1)) ->
  n_fatent (v_fs v) < Z.of_nat fuel ->
  (forall k, 1 <= k <= n_fatent (v_fs v) - 2 ->
     (forall i, 1 <= i < k ->
        cell_in_use (fat_cell v (scan_pos (n_fatent (v_fs v))
                                          (stretch_origin (v_fs v) c) i))) ->
     fat_cell v (scan_pos (n_fatent (v_fs v)) (stretch_origin (v_fs v) c) k) = 0 ->
     exists v',
       create_chain fuel v c =
         Some (v', scan_pos (n_fatent (v_fs v)) (stretch_origin (v_fs v) c) k) /\
       vol_wf v' /\
       chain_from v' c [scan_pos (n_fatent (v_fs v)) (stretch_origin (v_fs v) c) k] /\
       (forall x, 2 <= x < n_fatent (v_fs v) -> x <> c ->
          x <> scan_pos (n_fatent (v_fs v)) (stretch_origin (v_fs v) c) k ->
          snd (get_fat v' x) = snd (get_fat v x)) /\
       last_clst (v_fs v') =
         scan_pos (n_fatent (v_fs v)) (stretch_origin (v_fs v) c) k) /\
  ((forall i, 1 <= i <= n_fatent (v_fs v) - 2 ->
      cell_in_use (fat_cell v (scan_pos (n_fatent (v_fs v))
                                        (stretch_origin (v_fs v) c) i))) ->
   exists v', create_chain fuel v c = Some (v', 0) /\ fat_eq v v').
Proof.
  intros Hwf Hrel Hb Hlim Hc Hend HnF Hfree Hnext Hfuel.
  pose proof (wf_geom _ Hwf) as Hg.
  pose proof (n_fatent_bound _ Hg) as Hn.
  set (n := n_fatent (v_fs v)) in *.
  set (o := stretch_origin (v_fs v) c) in *.
  set (nxt := scan_pos n c 1) in *.
  assert (Hnxt : 2 <= nxt < n /\
                 nxt = (if u32 (c + 1) >=? n then 2 else u32 (c + 1))).
  { unfold nxt, scan_pos. rewrite u32_small by lia. rewrite Z.geb_leb.
    destruct (Z.ltb_spec (c + 1) n); destruct (Z.leb_spec n (c + 1)); lia. }
  destruct Hnxt as (Hnx & Enxt).
  assert (Ho : 2 <= o < n).
  { unfold o, stretch_origin. fold n. rewrite Z.geb_leb.
    destruct (Z.leb_spec 2 (last_clst (v_fs v)));
      destruct (Z.ltb_spec (last_clst (v_fs v)) n); cbn [andb]; lia. }
  destruct (get_fat_ok v c Hwf Hrel Hc) as (v1 & Hget1 & Hwf1 & Hrel1 & Heq1).
  pose proof (get_fat_bytes v c Hwf Hrel Hb) as Hb1. rewrite Hget1 in Hb1. cbn [fst] in Hb1.
  pose proof (frame_fields _ _ (proj1 Heq1))
    as (_ & _ & _ & _ & F5 & _ & _ & _ & F9 & F10 & _).
  fold n in F5.
  destruct (get_fat_ok v1 nxt Hwf1 Hrel1 ltac:(rewrite F5; exact Hnx))
    as (v2 & Hget2 & Hwf2 & Hrel2 & Heq2).
  pose proof (get_fat_bytes v1 nxt Hwf1 Hrel1 Hb1) as Hb2.
  rewrite Hget2 in Hb2. cbn [fst] in Hb2.
  pose proof (frame_fields _ _ (proj1 Heq2))
    as (_ & _ & _ & _ & G5 & _ & _ & _ & G9 & G10 & _).
  pose proof (fat_eq_trans _ _ _ Heq1 Heq2) as Heq.
  assert (Hcell1 : fat_cell v1 nxt = fat_cell v nxt)
    by (apply (fat_cell_fat_eq v v1 nxt Hg Heq1 Hnx)).
  destruct Hnext as (U0 & U1 & UF).
  assert (Hcc : create_chain fuel v c =
    match create_chain_scan fuel v2 o o with
    | None => None
    | Some (w, Quit st) => Some (w, st)
    | Some (w, Found ncl) => Some (create_chain_commit w c ncl)
    end).
  { unfold create_chain. fold n.
    replace (c =? 0) with false by (symmetry; apply Z.eqb_neq; lia).
    rewrite Hget1.
    replace (fat_cell v c <? 2) with false by (symmetry; apply Z.ltb_ge; lia).
    replace (fat_cell v c =? 4294967295) with false
      by (symmetry; apply Z.eqb_neq; exact HnF).
    replace (fat_cell v c <? n) with false by (symmetry; apply Z.ltb_ge; lia).
    rewrite F10.
    replace (free_clst (v_fs v) =? 0) with false
      by (symmetry; apply Z.eqb_neq; exact Hfree).
    cbv zeta. rewrite <- Enxt, Hget2, Hcell1.
    replace (fat_cell v nxt =? 1) with false by (symmetry; apply Z.eqb_neq; exact U1).
    replace (fat_cell v nxt =? 4294967295) with false
      by (symmetry; apply Z.eqb_neq; exact UF).
    replace (fat_cell v nxt =? 0) with false by (symmetry; apply Z.eqb_neq; exact U0).
    cbn [orb negb]. rewrite G9, F9.
    unfold o, stretch_origin. fold n. reflexivity. }
  assert (Hp0 : scan_pos n o 0 = o).
  { unfold scan_pos. rewrite Z.add_0_r.
    replace (o <? n) with true by (symmetry; apply Z.ltb_lt; lia). reflexivity. }
  split.
  - intros k Hk Huse Hzero.
    destruct (create_chain_scan_found v o Hwf ltac:(fold n; lia) k fuel 0 v2
                ltac:(lia) ltac:(fold n; lia) Hwf2 Hrel2 Heq
                ltac:(intros i Hi; apply Huse; lia) Hzero ltac:(lia))
      as (v3 & Hscan & Hwf3 & Hrel3 & Heq3).
    fold n in Hscan. rewrite Hp0 in Hscan.
    pose proof (create_chain_scan_bytes fuel v2 o o v3 _ Hwf2 Hrel2 Hb2 Hscan) as Hb3.
    pose proof (frame_fields _ _ (proj1 Heq3))
      as (_ & _ & _ & _ & K5 & _ & _ & _ & K9 & K10 & _).
    fold n in K5.
    destruct (scan_step n o (k - 1) ltac:(lia) ltac:(lia) ltac:(lia))
      as (_ & _ & Hrange & _).
    replace (k - 1 + 1) with k in Hrange by lia.
    set (new := scan_pos n o k) in *.
    assert (Hne : c <> new) by (intros E; rewrite <- E in Hzero; lia).
    destruct (cell_limit_frame _ _ (proj1 Heq3)) as (L3 & M3).
    destruct (create_chain_commit_link v3 c new Hwf3 Hrel3 Hb3
                ltac:(rewrite L3, K5; lia) ltac:(rewrite K5; exact Hc)
                ltac:(rewrite K5; exact Hrange) Hne)
      as (v' & Hcommit & Hwf' & Hrel' & Hb' & Hn' & Hty' & Hcn & Hcl & Hoth & Hlast & Hfr).
    exists v'. rewrite Hcc, Hscan, Hcommit. split; [reflexivity |].
    split; [exact Hwf' |].
    split.
    { apply (commit_link_chain v); try assumption.
      - rewrite Hn', K5. reflexivity.
      - rewrite Hcn, M3. reflexivity. }
    split; [| exact Hlast].
    intros x Hx H1 H2.
    rewrite get_fat_cell; [| exact Hwf' | exact Hrel' | rewrite Hn', K5; exact Hx].
    rewrite get_fat_cell; [| exact Hwf | exact Hrel | exact Hx].
    rewrite Hoth; [| rewrite K5; exact Hx | exact H1 | exact H2].
    apply fat_cell_fat_eq; assumption.
  - intros Huse.
    destruct (create_chain_scan_none v o Hwf ltac:(fold n; lia) fuel 0 v2
                ltac:(fold n; lia) ltac:(fold n; lia) Hwf2 Hrel2 Heq
                ltac:(intros i Hi; apply Huse; fold n in Hi; lia) ltac:(fold n; lia))
      as (v3 & Hscan & Hwf3 & Hrel3 & Heq3).
    fold n in Hscan. rewrite Hp0 in Hscan.
    exists v3. rewrite Hcc, Hscan. split; [reflexivity | exact Heq3].
Qed.

Lemma create_chain_stretches_contiguously_witness :
  exists v',
    create_chain 0 sample_vol32 3 = Some (v', 4) /\ vol_wf v' /\
    chain_from v' 3 [4] /\
    (forall x, 2 <= x < 100 -> x <> 3 -> x <> 4 ->
       snd (get_fat v' x) = snd (get_fat sample_vol32 x)) /\
    last_clst (v_fs v') = 4 /\ free_clst (v_fs v') = 95.
Proof.
  exact (create_chain_stretches_contiguously 0 sample_vol32 3 sample_vol32_wf
           (sample_disk_reliable sample_fat32) sample_vol32_bytes
           ltac:(cbn; lia) ltac:(cbn; lia)
           ltac:(vm_compute; discriminate) ltac:(vm_compute; discriminate)
           ltac:(cbn; lia) ltac:(vm_compute; reflexivity)).
Defined.

Lemma sample_vol32_two_wf : vol_wf sample_vol32_two.
Proof. apply sample_disk_wf; reflexivity. Qed.

Lemma sample_vol32_two_bytes : bytes_ok sample_vol32_two.
Proof.
  apply sample_disk_bytes; [apply blank_sector_bytes |].
  unfold sample_fat32_two, dword_cells.
  repeat apply Forall_st_dword. apply blank_sector_bytes.
Qed.

Lemma create_chain_stretch_scan_witness :
  exists v',
    create_chain 101 sample_vol32_two 2 = Some (v', 4) /\ vol_wf v' /\
    chain_from v' 2 [4] /\
    (forall x, 2 <= x < 100 -> x <> 2 -> x <> 4 ->
       snd (get_fat v' x) = snd (get_fat sample_vol32_two x)) /\
    last_clst (v_fs v') = 4.
Proof.
  apply (proj1 (create_chain_stretch_scan 101 sample_vol32_two 2 sample_vol32_two_wf
                  (sample_disk_reliable sample_fat32_two) sample_vol32_two_bytes
                  ltac:(cbn; lia) ltac:(cbn; lia)
                  ltac:(vm_compute; discriminate) ltac:(vm_compute; discriminate)
                  ltac:(cbn; lia)
                  ltac:(vm_compute; repeat split; discriminate)
                  ltac:(cbn; lia)) 1 ltac:(cbn; lia)).
  - intros i Hi. lia.
  - vm_compute. reflexivity.
Defined.

(** X16.  create_chain(clst) calls that allocate nothing, on a well-formed
    volume whose drive works: when the cell of clst names a follower, the
    follower is returned; when it reads 0 or 1, the result is 1; when it
    holds an end mark and the free count is 0, the result is 0; and a
    cluster number clst that is 1 or not below n_fatent gives 1.  In each
    case the FAT and the free count are as they were. *)
Theorem create_chain_stretch_without_allocation (fuel : nat) (v : Vol) (c : Z) :
  vol_wf v -> reliable (v_disk v) ->
  (2 <= c < n_fatent (v_fs v) -> 2 <= fat_cell v c < n_fatent (v_fs v) ->
   exists v', create_chain fuel v c = Some (v', fat_cell v c) /\ fat_eq v v') /\
  (2 <= c < n_fatent (v_fs v) -> fat_cell v c < 2 ->
   exists v', create_chain fuel v c = Some (v', 1) /\ fat_eq v v') /\
  (2 <= c < n_fatent (v_fs v) -> n_fatent (v_fs v) <= fat_cell v c ->
   fat_cell v c <> 0xFFFFFFFF -> free_clst (v_fs v) = 0 ->
   exists v', create_chain fuel v c = Some (v', 0) /\ fat_eq v v') /\
  (c = 1 \/ n_fatent (v_fs v) <= c -> 0 < c -> create_chain fuel v c = Some (v, 1)).
Proof.
  intros Hwf Hrel.
  assert (Hstart : 2 <= c < n_fatent (v_fs v) ->
            exists v1, get_fat v c = (v1, fat_cell v c) /\ fat_eq v v1 /\
                       free_clst (v_fs v1) = free_clst (v_fs v)).
  { intros Hc.
    destruct (get_fat_ok v c Hwf Hrel Hc) as (v1 & Hget1 & Hwf1 & Hrel1 & Heq1).
    pose proof (frame_fields _ _ (proj1 Heq1))
      as (_ & _ & _ & _ & F5 & _ & _ & _ & F9 & F10 & _).
    exists v1. split; [exact Hget1 |]. split; [exact Heq1 | exact F10]. }
  split; [| split; [| split]].
  - intros Hc Hcell. destruct (Hstart Hc) as (v1 & Hget & Heq & _).
    exists v1. split; [| exact Heq]. unfold create_chain.
    replace (c =? 0) with false by (symmetry; apply Z.eqb_neq; lia).
    rewrite Hget.
    replace (fat_cell v c <? 2) with false by (symmetry; apply Z.ltb_ge; lia).
    pose proof (n_fatent_bound _ (wf_geom _ Hwf)) as Hn.
    replace (fat_cell v c =? 4294967295) with false by (symmetry; apply Z.eqb_neq; lia).
    replace (fat_cell v c <? n_fatent (v_fs v)) with true
      by (symmetry; apply Z.ltb_lt; lia).
    reflexivity.
  - intros Hc Hcell. destruct (Hstart Hc) as (v1 & Hget & Heq & _).
    exists v1. split; [| exact Heq]. unfold create_chain.
    replace (c =? 0) with false by (symmetry; apply Z.eqb_neq; lia).
    rewrite Hget.
    replace (fat_cell v c <? 2) with true by (symmetry; apply Z.ltb_lt; lia).
    reflexivity.
  - intros Hc Hcell HnF Hfree. destruct (Hstart Hc) as (v1 & Hget & Heq & F10).
    exists v1. split; [| exact Heq]. unfold create_chain.
    replace (c =? 0) with false by (symmetry; apply Z.eqb_neq; lia).
    rewrite Hget.
    replace (fat_cell v c <? 2) with false by (symmetry; apply Z.ltb_ge; lia).
    replace (fat_cell v c =? 4294967295) with false
      by (symmetry; apply Z.eqb_neq; exact HnF).
    replace (fat_cell v c <? n_fatent (v_fs v)) with false
      by (symmetry; apply Z.ltb_ge; lia).
    rewrite F10, Hfree. reflexivity.
  - intros Hbad Hpos. unfold create_chain.
    replace (c =? 0) with false by (symmetry; apply Z.eqb_neq; lia).
    unfold get_fat. rewrite Z.geb_leb.
    replace ((c <? 2) || (n_fatent (v_fs v) <=? c)) with true.
    + reflexivity.
    + symmetry. apply orb_true_iff. destruct Hbad as [-> | H].
      * left. reflexivity.
      * right. apply Z.leb_le. exact H.
Qed.

Lemma create_chain_stretch_without_allocation_witness :
  (exists v', create_chain 0 sample_vol32 2 = Some (v', 3) /\ fat_eq sample_vol32 v') /\
  create_chain 0 sample_vol32 100 = Some (sample_vol32, 1).
Proof.
  pose proof (create_chain_stretch_without_allocation 0 sample_vol32 2 sample_vol32_wf
                (sample_disk_reliable sample_fat32)) as (H & _).
  pose proof (create_chain_stretch_without_allocation 0 sample_vol32 100 sample_vol32_wf
                (sample_disk_reliable sample_fat32)) as (_ & _ & _ & H').
  split.
  - exact (H ltac:(cbn; lia) ltac:(vm_compute; split; [discriminate | reflexivity])).
  - exact (H' ltac:(right; cbn; lia) ltac:(lia)).
Defined.

(** X17.  Stretching a chain by the free neighbour of its last cluster and
    then removing the new cluster again with remove_chain(new, clst): both
    calls succeed, every cluster other than clst reads what it read at the
    start, clst reads the end-of-chain mark of the FAT type, and the free
    count is what it was. *)
Theorem create_chain_remove_chain_roundtrip (fuel : nat) (v : Vol) (c : Z) :
  vol_wf v -> reliable (v_disk v) -> bytes_ok v ->
  n_fatent (v_fs v) < cell_limit (v_fs v) ->
  2 <= c < n_fatent (v_fs v) ->
  n_fatent (v_fs v) <= fat_cell v c -> fat_cell v c <> 0xFFFFFFFF ->
  0 < free_clst (v_fs v) ->
  fat_cell v (scan_pos (n_fatent (v_fs v)) c 1) = 0 ->
  exists v' v'',
    create_chain fuel v c = Some (v', scan_pos (n_fatent (v_fs v)) c 1) /\
    remove_chain (S fuel) v' (scan_pos (n_fatent (v_fs v)) c 1) c = Some (v'', FR_OK) /\
    (forall x, 2 <= x < n_fatent (v_fs v) -> x <> c ->
       snd (get_fat v'' x) = snd (get_fat v x)) /\
    snd (get_fat v'' c) = cell_mask (v_fs v) 0xFFFFFFFF /\
    free_clst (v_fs v'') = free_clst (v_fs v).
Proof.
  intros Hwf Hrel Hb Hlim Hc Hend HnF Hfree Hzero.
  pose proof (n_fatent_bound _ (wf_geom _ Hwf)) as Hn.
  destruct (create_chain_contiguous_core fuel v c Hwf Hrel Hb Hlim Hc Hend HnF
              ltac:(lia) Hzero)
    as (v' & Hcc & Hwf' & Hrel' & Hb' & Hn' & Hty' & Hch & Hoth & Hlast & Hfr).
  set (new := scan_pos (n_fatent (v_fs v)) c 1) in *.
  pose proof (chain_from_nodup v' c [new] Hch) as Hnd.
  assert (Hne : c <> new) by (intros E; apply Hnd; left; symmetry; exact E).
  destruct Hch as (Hc' & Hlink & Hch').
  assert (Hnew : 2 <= new < n_fatent (v_fs v)) by (rewrite <- Hn'; apply Hch').
  assert (Hfree' : 0 <= free_clst (v_fs v')).
  { rewrite Hfr.
    destruct (free_clst (v_fs v) <=? n_fatent (v_fs v) - 2);
      [unfold u32; apply Z.mod_pos_bound |]; lia. }
  destruct (remove_chain_core (S fuel) v' new c [] Hwf' Hrel' Hb' Hfree'
              ltac:(right; split; [rewrite Hn'; exact Hc |];
                    intros [E | []]; apply Hne; symmetry; exact E)
              Hch' ltac:(cbn; lia))
    as (v'' & Hrm & Hwf'' & Hrel'' & Hb'' & Hn'' & Hl'' & Hprev & Hz & Hoth' & Hcount).
  exists v', v''. split; [exact Hcc |]. split; [exact Hrm |].
  split; [| split].
  - intros x Hx Hxc.
    rewrite get_fat_cell; [| exact Hwf'' | exact Hrel'' | rewrite Hn'', Hn'; exact Hx].
    rewrite get_fat_cell; [| exact Hwf | exact Hrel | exact Hx].
    destruct (Z.eq_dec x new) as [-> | Hxn].
    + rewrite Hz by (left; reflexivity). symmetry. exact Hzero.
    + rewrite Hoth'; [apply Hoth; assumption | rewrite Hn'; exact Hx | exact Hxc |].
      intros [E | []]. apply Hxn. symmetry. exact E.
  - rewrite get_fat_cell; [| exact Hwf'' | exact Hrel'' | rewrite Hn'', Hn'; exact Hc].
    rewrite Hprev by lia. unfold cell_mask. rewrite Hty'. reflexivity.
  - rewrite Hcount. unfold free_after. rewrite Hn', Hfr. cbn [length Z.of_nat].
    destruct (Z.leb_spec (free_clst (v_fs v)) (n_fatent (v_fs v) - 2)).
    + rewrite u32_small by lia.
      destruct (Z.ltb_spec (free_clst (v_fs v) - 1) (n_fatent (v_fs v) - 2)); lia.
    + destruct (Z.ltb_spec (free_clst (v_fs v)) (n_fatent (v_fs v) - 2)); lia.
Qed.

Lemma create_chain_remove_chain_roundtrip_witness :
  exists v' v'',
    create_chain 0 sample_vol32 3 = Some (v', 4) /\
    remove_chain 1 v' 4 3 = Some (v'', FR_OK) /\
    (forall x, 2 <= x < 100 -> x <> 3 ->
       snd (get_fat v'' x) = snd (get_fat sample_vol32 x)) /\
    snd (get_fat v'' 3) = 0x0FFFFFFF /\
    free_clst (v_fs v'') = 96.
Proof.
  exact (create_chain_remove_chain_roundtrip 0 sample_vol32 3 sample_vol32_wf
           (sample_disk_reliable sample_fat32) sample_vol32_bytes
           ltac:(cbn; lia) ltac:(cbn; lia)
           ltac:(vm_compute; discriminate) ltac:(vm_compute; discriminate)
           ltac:(cbn; lia) ltac:(vm_compute; reflexivity)).
Defined.


(** ** The sector window: sync_window, move_window *)

Lemma disk_write_fail (d : Disk) (ss : Z) (b : list Z) (s : Z) :
  d_wr_bad d s = true ->
  disk_write d ss b s 1 = (d_note d (IoWrite s 1), false).
Proof.
  intros Hbad. unfold disk_write. change (Z.to_nat 1) with 1%nat.
  cbn [any_bad]. rewrite Hbad. reflexivity.
Qed.

Lemma disk_write_good (d : Disk) (ss : Z) (b : list Z) (s : Z) :
  d_wr_bad d s = false -> length b = Z.to_nat ss ->
  disk_write d ss b s 1 = (d_store (d_note d (IoWrite s 1)) s b, true).
Proof.
  intros Hok Hlen. unfold disk_write. change (Z.to_nat 1) with 1%nat.
  cbn [any_bad scatter]. rewrite Hok. cbn [orb].
  rewrite (take_all _ _ Hlen). reflexivity.
Qed.

Lemma in_fat1_test (fs : FATFS) (s : Z) :
  geom_ok fs = true -> 0 <= s < 4294967296 ->
  (u32 (s - fatbase fs) <? fsize fs) = true <-> in_fat1 fs s.
Proof.
  intros Hg Hs.
  destruct (geom_ok_facts _ Hg) as (_ & _ & _ & Hfb & Hfz & Hsum & _).
  unfold in_fat1, u32. rewrite Z.ltb_lt.
  destruct (Z_lt_le_dec s (fatbase fs)) as [H | H].
  - replace ((s - fatbase fs) mod 4294967296) with (s - fatbase fs + 4294967296).
    + lia.
    + apply Z.mod_unique with (q := -1); lia.
  - rewrite Z.mod_small by lia. lia.
Qed.

(** sync_window on a changed window whose sector the drive can write. *)
Lemma sync_window_dirty_core (v : Vol) :
  vol_wf v -> wflag (v_fs v) <> 0 ->
  d_wr_bad (v_disk v) (winsect (v_fs v)) = false ->
  exists v',
    sync_window v = (v', FR_OK) /\ wflag (v_fs v') = 0 /\
    win (v_fs v') = win (v_fs v) /\ winsect (v_fs v') = winsect (v_fs v) /\
    d_sec (v_disk v') (winsect (v_fs v)) = win (v_fs v) /\
    (in_fat1 (v_fs v) (winsect (v_fs v)) -> n_fats (v_fs v) = 2 ->
     d_wr_bad (v_disk v) (winsect (v_fs v) + fsize (v_fs v)) = false ->
     d_sec (v_disk v') (winsect (v_fs v) + fsize (v_fs v)) = win (v_fs v)) /\
    (forall s, s <> winsect (v_fs v) ->
       s <> winsect (v_fs v) + fsize (v_fs v) \/
       ~ in_fat1 (v_fs v) (winsect (v_fs v)) \/
       n_fats (v_fs v) <> 2 \/
       d_wr_bad (v_disk v) (winsect (v_fs v) + fsize (v_fs v)) = true ->
       d_sec (v_disk v') s = d_sec (v_disk v) s).
Proof.
  intros Hwf Hdirty Hok.
  pose proof (wf_geom _ Hwf) as Hg.
  destruct (geom_ok_facts _ Hg) as (_ & _ & _ & Hfb & Hfz & Hsum & _).
  pose proof (wf_winsect _ Hwf) as Hws.
  unfold sync_window. unfold nz.
  replace (wflag (v_fs v) =? 0) with false by (symmetry; apply Z.eqb_neq; exact Hdirty).
  cbn [negb]. rewrite (disk_write_good _ _ _ _ Hok (wf_win _ Hwf)).
  change (winsect (set_wflag (v_fs v) 0)) with (winsect (v_fs v)).
  change (fatbase (set_wflag (v_fs v) 0)) with (fatbase (v_fs v)).
  change (fsize (set_wflag (v_fs v) 0)) with (fsize (v_fs v)).
  change (n_fats (set_wflag (v_fs v) 0)) with (n_fats (v_fs v)).
  change (win (set_wflag (v_fs v) 0)) with (win (v_fs v)).
  change (SS (set_wflag (v_fs v) 0)) with (SS (v_fs v)).
  set (ws := winsect (v_fs v)) in *. set (d1 := d_store _ ws _).
  assert (Hd1 : forall s, d_sec d1 s = if s =? ws then win (v_fs v) else d_sec (v_disk v) s)
    by (intros s; reflexivity).
  assert (Hbad1 : d_wr_bad d1 = d_wr_bad (v_disk v)) by reflexivity.
  destruct (u32 (ws - fatbase (v_fs v)) <? fsize (v_fs v)) eqn:Ein.
  - apply (in_fat1_test (v_fs v) ws Hg Hws) in Ein.
    assert (Hmir : u32 (ws + fsize (v_fs v)) = ws + fsize (v_fs v))
      by (apply u32_small; unfold in_fat1 in Ein; lia).
    destruct (n_fats (v_fs v) =? 2) eqn:E2.
    + rewrite Hmir.
      destruct (d_wr_bad (v_disk v) (ws + fsize (v_fs v))) eqn:Ebad.
      * rewrite (disk_write_fail d1 _ _ _ Ebad).
        eexists. split; [reflexivity |]. cbn.
        split; [reflexivity |]. split; [reflexivity |]. split; [reflexivity |].
        split; [rewrite Z.eqb_refl; reflexivity |].
        split; [intros _ _ H; discriminate H |].
        intros s H1 H2.
        replace (s =? ws) with false by (symmetry; apply Z.eqb_neq; exact H1).
        reflexivity.
      * rewrite (disk_write_good d1 _ _ _ Ebad (wf_win _ Hwf)).
        eexists. split; [reflexivity |]. cbn.
        assert (Hne : (ws =? ws + fsize (v_fs v)) = false)
          by (apply Z.eqb_neq; unfold in_fat1 in Ein; lia).
        split; [reflexivity |]. split; [reflexivity |]. split; [reflexivity |].
        split; [rewrite Hne, Z.eqb_refl; reflexivity |].
        split; [intros _ _ _; rewrite Z.eqb_refl; reflexivity |].
        intros s H1 [H2 | [H2 | [H2 | H2]]];
          [| contradiction | apply Z.eqb_eq in E2; contradiction | discriminate H2].
        replace (s =? ws + fsize (v_fs v)) with false
          by (symmetry; apply Z.eqb_neq; exact H2).
        replace (s =? ws) with false by (symmetry; apply Z.eqb_neq; exact H1).
        reflexivity.
    + eexists. split; [reflexivity |]. cbn.
      split; [reflexivity |]. split; [reflexivity |]. split; [reflexivity |].
      split; [rewrite Z.eqb_refl; reflexivity |].
      split; [intros _ H; apply Z.eqb_neq in E2; contradiction |].
      intros s H1 H2.
      replace (s =? ws) with false by (symmetry; apply Z.eqb_neq; exact H1).
      reflexivity.
  - eexists. split; [reflexivity |]. cbn.
    split; [reflexivity |]. split; [reflexivity |]. split; [reflexivity |].
    split; [rewrite Z.eqb_refl; reflexivity |].
    split.
    { intros Hin. apply (in_fat1_test (v_fs v) ws Hg Hws) in Hin.
      rewrite Hin in Ein. discriminate Ein. }
    intros s H1 H2.
    replace (s =? ws) with false by (symmetry; apply Z.eqb_neq; exact H1).
    reflexivity.
Qed.

(** X18.  sync_window on a changed window (wflag set), when the drive takes
    the write of the window's sector: the result is FR_OK, wflag is cleared,
    that sector of the medium holds the window, and when it is a sector of
    the first FAT of a volume with two FATs and the drive takes the second
    write too, the sector fsize further on holds the window as well.  No
    other sector changes: the sector fsize further on is written only in
    that case (window in the first FAT, exactly two FATs, second write
    taken).  The window itself is as it was. *)
Theorem sync_window_writes_back_and_mirrors (v : Vol) :
  vol_wf v -> wflag (v_fs v) <> 0 ->
  d_wr_bad (v_disk v) (winsect (v_fs v)) = false ->
  exists v',
    sync_window v = (v', FR_OK) /\ wflag (v_fs v') = 0 /\
    win (v_fs v') = win (v_fs v) /\ winsect (v_fs v') = winsect (v_fs v) /\
    d_sec (v_disk v') (winsect (v_fs v)) = win (v_fs v) /\
    (in_fat1 (v_fs v) (winsect (v_fs v)) -> n_fats (v_fs v) = 2 ->
     d_wr_bad (v_disk v) (winsect (v_fs v) + fsize (v_fs v)) = false ->
     d_sec (v_disk v') (winsect (v_fs v) + fsize (v_fs v)) = win (v_fs v)) /\
    (forall s, s <> winsect (v_fs v) ->
       s <> winsect (v_fs v) + fsize (v_fs v) \/
       ~ in_fat1 (v_fs v) (winsect (v_fs v)) \/
       n_fats (v_fs v) <> 2 \/
       d_wr_bad (v_disk v) (winsect (v_fs v) + fsize (v_fs v)) = true ->
       d_sec (v_disk v') s = d_sec (v_disk v) s).
Proof. exact (sync_window_dirty_core v). Qed.

Lemma sample_vol32_dirty_wf (wr_bad : Z -> bool) : vol_wf (sample_vol32_dirty wr_bad).
Proof.
  constructor.
  - reflexivity.
  - reflexivity.
  - intros s. unfold sample_vol32_dirty, sample_disk. cbn [v_disk d_sec].
    destruct (s =? 32); reflexivity.
  - vm_compute. split; [discriminate | reflexivity].
  - intros H. discriminate H.
Qed.

Lemma sync_window_writes_back_and_mirrors_witness :
  exists v',
    sync_window (sample_vol32_dirty no_bad) = (v', FR_OK) /\ wflag (v_fs v') = 0 /\
    d_sec (v_disk v') 32 = st_dword sample_fat32 16 0x0FFFFFFF /\
    d_sec (v_disk v') 33 = st_dword sample_fat32 16 0x0FFFFFFF.
Proof.
  destruct (sync_window_writes_back_and_mirrors (sample_vol32_dirty no_bad)
              (sample_vol32_dirty_wf no_bad) ltac:(discriminate) ltac:(reflexivity))
    as (v' & H1 & H2 & _ & _ & H5 & H6 & _).
  exists v'. split; [exact H1 |]. split; [exact H2 |]. split; [exact H5 |].
  apply H6; [vm_compute; split; [discriminate | reflexivity] | reflexivity | reflexivity].
Defined.

(** X19.  When the drive refuses the write of a changed window, sync_window
    returns FR_DISK_ERR, and so does move_window to any other sector, without
    reading that sector; the window keeps its content, its sector number and
    its wflag, and no sector of the medium changes. *)
Theorem window_write_failure_keeps_window (v : Vol) (sect : Z) :
  wflag (v_fs v) <> 0 -> d_wr_bad (v_disk v) (winsect (v_fs v)) = true ->
  sect <> winsect (v_fs v) ->
  sync_window v = move_window v sect /\
  snd (move_window v sect) = FR_DISK_ERR /\
  v_fs (fst (move_window v sect)) = v_fs v /\
  d_sec (v_disk (fst (move_window v sect))) = d_sec (v_disk v) /\
  d_log (v_disk (fst (move_window v sect))) =
    IoWrite (winsect (v_fs v)) 1 :: d_log (v_disk v).
Proof.
  intros Hdirty Hbad Hne.
  assert (Hs : sync_window v =
               (mkVol (v_fs v) (d_note (v_disk v) (IoWrite (winsect (v_fs v)) 1)),
                FR_DISK_ERR)).
  { unfold sync_window, nz.
    replace (wflag (v_fs v) =? 0) with false by (symmetry; apply Z.eqb_neq; exact Hdirty).
    cbn [negb]. rewrite (disk_write_fail _ _ _ _ Hbad). reflexivity. }
  assert (Hm : move_window v sect = sync_window v).
  { unfold move_window.
    replace (sect =? winsect (v_fs v)) with false by (symmetry; apply Z.eqb_neq; exact Hne).
    cbn [negb]. rewrite Hs. reflexivity. }
  rewrite Hm, Hs. cbn. repeat split; reflexivity.
Qed.

Lemma window_write_failure_keeps_window_witness :
  snd (move_window (sample_vol32_dirty (fun s => s =? 32)) 40) = FR_DISK_ERR /\
  v_fs (fst (move_window (sample_vol32_dirty (fun s => s =? 32)) 40)) =
    v_fs (sample_vol32_dirty (fun s => s =? 32)).
Proof.
  destruct (window_write_failure_keeps_window (sample_vol32_dirty (fun s => s =? 32)) 40
              ltac:(discriminate) ltac:(reflexivity) ltac:(discriminate))
    as (_ & H1 & H2 & _).
  split; [exact H1 | exact H2].
Defined.

(** X20.  The second write of sync_window is not checked: when the window
    holds a changed sector of the first FAT of a volume with two FATs and the
    drive takes the write to the first FAT but refuses the one to the second,
    sync_window still returns FR_OK and clears wflag, and the sector of the
    second FAT keeps its old content. *)
Theorem sync_window_ignores_mirror_failure (v : Vol) :
  vol_wf v -> wflag (v_fs v) <> 0 ->
  in_fat1 (v_fs v) (winsect (v_fs v)) -> n_fats (v_fs v) = 2 ->
  d_wr_bad (v_disk v) (winsect (v_fs v)) = false ->
  d_wr_bad (v_disk v) (winsect (v_fs v) + fsize (v_fs v)) = true ->
  snd (sync_window v) = FR_OK /\
  wflag (v_fs (fst (sync_window v))) = 0 /\
  d_sec (v_disk (fst (sync_window v))) (winsect (v_fs v)) = win (v_fs v) /\
  d_sec (v_disk (fst (sync_window v))) (winsect (v_fs v) + fsize (v_fs v)) =
    d_sec (v_disk v) (winsect (v_fs v) + fsize (v_fs v)).
Proof.
  intros Hwf Hdirty Hin H2 Hok Hbad.
  pose proof (wf_geom _ Hwf) as Hg.
  pose proof (wf_winsect _ Hwf) as Hws.
  unfold sync_window, nz.
  replace (wflag (v_fs v) =? 0) with false by (symmetry; apply Z.eqb_neq; exact Hdirty).
  cbn [negb]. rewrite (disk_write_good _ _ _ _ Hok (wf_win _ Hwf)).
  change (winsect (set_wflag (v_fs v) 0)) with (winsect (v_fs v)).
  change (fatbase (set_wflag (v_fs v) 0)) with (fatbase (v_fs v)).
  change (fsize (set_wflag (v_fs v) 0)) with (fsize (v_fs v)).
  change (n_fats (set_wflag (v_fs v) 0)) with (n_fats (v_fs v)).
  change (win (set_wflag (v_fs v) 0)) with (win (v_fs v)).
  change (SS (set_wflag (v_fs v) 0)) with (SS (v_fs v)).
  rewrite (proj2 (in_fat1_test _ _ Hg Hws) Hin), H2. cbn [Z.eqb Pos.eqb].
  destruct (geom_ok_facts _ Hg) as (_ & _ & _ & Hfb & Hfz & Hsum & _).
  rewrite (u32_small (winsect (v_fs v) + fsize (v_fs v)))
    by (unfold in_fat1 in Hin; lia).
  set (d1 := d_store _ _ _).
  rewrite (disk_write_fail d1 _ _ _ Hbad). cbn.
  rewrite Z.eqb_refl.
  replace (winsect (v_fs v) + fsize (v_fs v) =? winsect (v_fs v)) with false
    by (symmetry; apply Z.eqb_neq; unfold in_fat1 in Hin; lia).
  repeat split; reflexivity.
Qed.

Lemma sync_window_ignores_mirror_failure_witness :
  snd (sync_window (sample_vol32_dirty (fun s => s =? 33))) = FR_OK /\
  d_sec (v_disk (fst (sync_window (sample_vol32_dirty (fun s => s =? 33))))) 33 =
    blank_sector.
Proof.
  destruct (sync_window_ignores_mirror_failure (sample_vol32_dirty (fun s => s =? 33))
              (sample_vol32_dirty_wf _) ltac:(discriminate)
              ltac:(vm_compute; split; [discriminate | reflexivity])
              ltac:(reflexivity) ltac:(reflexivity) ltac:(reflexivity))
    as (H1 & _ & _ & H4).
  split; [exact H1 | exact H4].
Defined.

(** *** The second FAT *)

Lemma fat_copies_equal_mirrored (v : Vol) :
  wflag (v_fs v) = 0 -> fat_copies_equal v -> fat_mirrored v.
Proof.
  intros Hclean Heq. split.
  - intros H. contradiction.
  - intros s Hs _. apply Heq. exact Hs.
Qed.

Lemma sync_window_mirror (v : Vol) :
  vol_wf v -> reliable (v_disk v) -> n_fats (v_fs v) = 2 -> fat_mirrored v ->
  wflag (v_fs (fst (sync_window v))) = 0 /\ fat_copies_equal (fst (sync_window v)).
Proof.
  intros Hwf Hrel H2 [Hnot Hmir].
  pose proof (wf_geom _ Hwf) as Hg.
  destruct (geom_ok_facts _ Hg) as (_ & _ & _ & Hfb & Hfz & Hsum & _).
  destruct (Z.eq_dec (wflag (v_fs v)) 0) as [Hclean | Hdirty].
  - unfold sync_window, nz. rewrite Hclean. cbn [Z.eqb negb fst].
    split; [exact Hclean |]. intros s Hs. apply Hmir; [exact Hs |]. intros _. exact Hclean.
  - destruct (sync_window_dirty_core v Hwf Hdirty (proj2 Hrel _))
      as (v' & Hsync & Hflag & Hwin & Hws & Hsec & Hsec2 & Hoth).
    rewrite Hsync. cbn [fst]. split; [exact Hflag |].
    assert (Hfr : fsize (v_fs v') = fsize (v_fs v) /\ fatbase (v_fs v') = fatbase (v_fs v)).
    { destruct (sync_window_ok v Hwf Hrel) as (w & Hw & _ & _ & Heq & _).
      rewrite Hsync in Hw. injection Hw as <-.
      pose proof (frame_fields _ _ (proj1 Heq)) as (_ & _ & _ & _ & _ & F6 & F7 & _).
      split; assumption. }
    destruct Hfr as (F6 & F7).
    intros s Hs. unfold in_fat1 in Hs. rewrite F6, F7 in *.
    specialize (Hnot Hdirty). unfold in_fat2 in Hnot.
    destruct (Z.eq_dec s (winsect (v_fs v))) as [-> | Hne].
    + rewrite Hsec. apply Hsec2; [exact Hs | exact H2 | apply (proj2 Hrel)].
    + rewrite (Hoth s Hne) by (unfold in_fat1; lia).
      rewrite Hoth.
      * apply Hmir; [exact Hs | intros E; contradiction].
      * lia.
      * left. lia.
Qed.

Lemma move_window_mirror (v : Vol) (s : Z) :
  vol_wf v -> reliable (v_disk v) -> n_fats (v_fs v) = 2 -> fat_mirrored v ->
  fat_mirrored (fst (move_window v s)).
Proof.
  intros Hwf Hrel H2 Hmir. unfold move_window.
  destruct (s =? winsect (v_fs v)); cbn [negb]; [exact Hmir |].
  destruct (sync_window_mirror v Hwf Hrel H2 Hmir) as (Hflag & Heq).
  destruct (sync_window_ok v Hwf Hrel) as (v1 & Hsync & Hwf1 & Hrel1 & _).
  rewrite Hsync in *. cbn [fst] in *. cbn [is_ok FRESULT_eqb].
  rewrite (disk_read_one _ _ (proj1 Hrel1)). cbn [fst].
  apply fat_copies_equal_mirrored; [exact Hflag |].
  intros x Hx. apply (Heq x Hx).
Qed.

Lemma vol_set_win_mirror (v : Vol) (b : list Z) :
  fat_mirrored v -> ~ in_fat2 (v_fs v) (winsect (v_fs v)) ->
  fat_mirrored (vol_set_win v b).
Proof.
  intros [Hnot Hmir] Hout. split.
  - intros _. exact Hout.
  - intros s Hs Hc. cbn in Hc.
    apply Hmir; [exact Hs |]. intros E. specialize (Hc E). discriminate Hc.
Qed.

(** One step of put_fat: the window is moved onto a sector of the first FAT
    and changed there. *)
Lemma edit_step_mirror (v : Vol) (s : Z) (b : list Z) :
  vol_wf v -> reliable (v_disk v) -> n_fats (v_fs v) = 2 -> fat_mirrored v ->
  in_fat1 (v_fs v) s ->
  fat_mirrored (vol_set_win (fst (move_window v s)) b).
Proof.
  intros Hwf Hrel H2 Hmir Hs.
  pose proof (wf_geom _ Hwf) as Hg.
  destruct (geom_ok_facts _ Hg) as (_ & _ & _ & Hfb & Hfz & Hsum & _).
  pose proof (move_window_mirror v s Hwf Hrel H2 Hmir) as Hm.
  destruct (move_window_ok v s Hwf Hrel ltac:(unfold in_fat1 in Hs; lia))
    as (v1 & Hmv & Hwf1 & Hrel1 & Heq1 & Hws1 & _).
  rewrite Hmv in *. cbn [fst] in *.
  apply vol_set_win_mirror; [exact Hm |].
  pose proof (frame_fields _ _ (proj1 Heq1)) as (_ & _ & _ & _ & _ & F6 & F7 & _).
  unfold in_fat2. rewrite Hws1, F6, F7. unfold in_fat1 in Hs. lia.
Qed.

Lemma put_fat_mirror (v : Vol) (c val : Z) :
  vol_wf v -> reliable (v_disk v) -> n_fats (v_fs v) = 2 -> fat_mirrored v ->
  2 <= c < n_fatent (v_fs v) ->
  fat_mirrored (fst (put_fat v c val)).
Proof.
  intros Hwf Hrel H2 Hmir Hc.
  pose proof (wf_geom _ Hwf) as Hg.
  destruct (geom_ok_facts _ Hg) as (Hty & Hss & Hss4 & Hfb & Hfz & Hsum & [Hn Hsb] & Hsz).
  destruct (fat_entry_bounds _ c Hg Hc) as (B32 & B16 & B12).
  unfold put_fat. rewrite (valid_clst_put_test _ _ Hc).
  destruct Hty as [Ety | [Ety | Ety]]; rewrite Ety.
  - (* FAT12: two bytes, possibly in two sectors *)
    change (FS_FAT12 =? FS_FAT12) with true. cbv iota.
    destruct (B12 Ety) as (Hi0 & Hi1 & Hlt).
    set (bc := c + c / 2) in *.
    assert (Hbc : 0 <= bc) by (subst bc; Z.div_mod_to_equations; lia).
    assert (Hi0' : bc / SS (v_fs v) < fsize (v_fs v)).
    { apply Z.le_lt_trans with ((bc + 1) / SS (v_fs v)); [| exact Hi1].
      apply Z.div_le_mono; lia. }
    assert (Hi1' : 0 <= (bc + 1) / SS (v_fs v)) by (apply Z.div_pos; lia).
    rewrite (u32_small bc) by lia. rewrite (u32_small (bc + 1)) by lia.
    rewrite !u32_small by lia.
    set (s1 := fatbase (v_fs v) + bc / SS (v_fs v)).
    set (s2 := fatbase (v_fs v) + (bc + 1) / SS (v_fs v)).
    assert (Hin1 : in_fat1 (v_fs v) s1) by (unfold in_fat1; subst s1; lia).
    pose proof (fun b => edit_step_mirror v s1 b Hwf Hrel H2 Hmir Hin1) as Hstep1.
    destruct (move_window_ok v s1 Hwf Hrel ltac:(unfold in_fat1 in Hin1; lia))
      as (v1 & Hmv1 & Hwf1 & Hrel1 & Heq1 & Hws1 & _).
    rewrite Hmv1 in *. cbn [fst] in Hstep1. cbn [is_ok FRESULT_eqb negb].
    set (b1 := poke (win (v_fs v1)) _ _).
    assert (Hwf1' : vol_wf (vol_set_win v1 b1)).
    { apply vol_set_win_wf; [exact Hwf1 |]. subst b1. unfold poke. apply length_insert. }
    pose proof (frame_fields _ _ (proj1 Heq1)) as (_ & F2 & _ & _ & _ & F6 & F7 & _).
    assert (Hin2 : in_fat1 (v_fs (vol_set_win v1 b1)) s2).
    { unfold in_fat1. cbn. rewrite F6, F7. subst s2. lia. }
    pose proof (fun b => edit_step_mirror (vol_set_win v1 b1) s2 b Hwf1' Hrel1
                           ltac:(cbn; rewrite F2; exact H2) (Hstep1 b1) Hin2) as Hstep2.
    destruct (move_window_ok (vol_set_win v1 b1) s2 Hwf1' Hrel1
                ltac:(subst s2; lia))
      as (v2 & Hmv2 & _).
    rewrite Hmv2 in *. cbn [fst] in Hstep2. cbn [is_ok FRESULT_eqb negb fst].
    apply Hstep2.
  - change (FS_FAT16 =? FS_FAT12) with false.
    change (FS_FAT16 =? FS_FAT16) with true. cbv iota.
    destruct (B16 Ety) as (Hi & Hlt).
    rewrite !u32_small by lia.
    set (s := fatbase (v_fs v) + c / (SS (v_fs v) / 2)).
    assert (Hin : in_fat1 (v_fs v) s) by (unfold in_fat1; subst s; lia).
    pose proof (fun b => edit_step_mirror v s b Hwf Hrel H2 Hmir Hin) as Hstep.
    destruct (move_window_ok v s Hwf Hrel ltac:(unfold in_fat1 in Hin; lia))
      as (v1 & Hmv & _).
    rewrite Hmv in *. cbn [fst] in Hstep. cbn [is_ok FRESULT_eqb negb fst].
    apply Hstep.
  - change (FS_FAT32 =? FS_FAT12) with false.
    change (FS_FAT32 =? FS_FAT16) with false.
    change (FS_FAT32 =? FS_FAT32) with true. cbv iota.
    destruct (B32 Ety) as (Hi & Hlt).
    rewrite !u32_small by lia.
    set (s := fatbase (v_fs v) + c / (SS (v_fs v) / 4)).
    assert (Hin : in_fat1 (v_fs v) s) by (unfold in_fat1; subst s; lia).
    pose proof (fun b => edit_step_mirror v s b Hwf Hrel H2 Hmir Hin) as Hstep.
    destruct (move_window_ok v s Hwf Hrel ltac:(unfold in_fat1 in Hin; lia))
      as (v1 & Hmv & _).
    rewrite Hmv in *. cbn [fst] in Hstep. cbn [is_ok FRESULT_eqb negb fst].
    apply Hstep.
Qed.

Lemma move_window_inv (v : Vol) (s : Z) :
  fat_inv v -> 0 <= s < 4294967296 ->
  fat_inv (fst (move_window v s)) /\ snd (move_window v s) = FR_OK /\
  fat_eq v (fst (move_window v s)).
Proof.
  intros (Hwf & Hrel & Hb & H2 & Hmir) Hs.
  pose proof (move_window_mirror v s Hwf Hrel H2 Hmir) as Hm.
  pose proof (move_window_bytes v s Hwf Hrel Hb) as Hb'.
  destruct (move_window_ok v s Hwf Hrel Hs) as (v1 & Hmv & Hwf1 & Hrel1 & Heq1 & _).
  rewrite Hmv in *. cbn [fst snd] in *.
  pose proof (frame_fields _ _ (proj1 Heq1)) as (_ & F2 & _).
  split; [| split; [reflexivity | exact Heq1]].
  split; [exact Hwf1 |]. split; [exact Hrel1 |]. split; [exact Hb' |].
  split; [rewrite F2; exact H2 | exact Hm].
Qed.

Lemma u32_range (x : Z) : 0 <= u32 x < 4294967296.
Proof. unfold u32. apply Z.mod_pos_bound. lia. Qed.

Lemma get_fat_inv (v : Vol) (c : Z) : fat_inv v -> fat_inv (fst (get_fat v c)).
Proof.
  intros Hinv. unfold get_fat.
  destruct ((c <? 2) || (c >=? n_fatent (v_fs v))); [exact Hinv |].
  destruct (fs_type (v_fs v) =? FS_FAT12).
  { destruct (move_window_inv v (u32 (fatbase (v_fs v) + u32 (c + c / 2) / SS (v_fs v)))
                Hinv (u32_range _)) as (H1 & R1 & _).
    destruct (move_window v _) as [v1 r1]. cbn [fst snd] in *. subst r1.
    cbn [is_ok FRESULT_eqb negb].
    destruct (move_window_inv v1
                (u32 (fatbase (v_fs v) + u32 (u32 (c + c / 2) + 1) / SS (v_fs v)))
                H1 (u32_range _)) as (H2 & R2 & _).
    destruct (move_window v1 _) as [v2 r2]. cbn [fst snd] in *. subst r2.
    cbn [is_ok FRESULT_eqb negb fst]. exact H2. }
  destruct (fs_type (v_fs v) =? FS_FAT16).
  { destruct (move_window_inv v (u32 (fatbase (v_fs v) + c / (SS (v_fs v) / 2)))
                Hinv (u32_range _)) as (H1 & R1 & _).
    destruct (move_window v _) as [v1 r1]. cbn [fst snd] in *. subst r1.
    cbn [is_ok FRESULT_eqb negb fst]. exact H1. }
  destruct (fs_type (v_fs v) =? FS_FAT32); [| exact Hinv].
  destruct (move_window_inv v (u32 (fatbase (v_fs v) + c / (SS (v_fs v) / 4)))
              Hinv (u32_range _)) as (H1 & R1 & _).
  destruct (move_window v _) as [v1 r1]. cbn [fst snd] in *. subst r1.
  cbn [is_ok FRESULT_eqb negb fst]. exact H1.
Qed.

Lemma put_fat_inv (v : Vol) (c val : Z) : fat_inv v -> fat_inv (fst (put_fat v c val)).
Proof.
  intros Hinv.
  destruct (Z_lt_le_dec c 2) as [H1 | H1];
    [| destruct (Z_lt_le_dec c (n_fatent (v_fs v))) as [H2 | H2]].
  - unfold put_fat. rewrite Z.geb_leb.
    replace (2 <=? c) with false by (symmetry; apply Z.leb_gt; lia).
    cbn [andb fst]. exact Hinv.
  - destruct Hinv as (Hwf & Hrel & Hb & Hn2 & Hmir).
    pose proof (put_fat_mirror v c val Hwf Hrel Hn2 Hmir ltac:(lia)) as Hm.
    destruct (put_fat_full v c val Hwf Hrel Hb ltac:(lia))
      as (v' & Hput & Hwf' & Hrel' & Hfr' & _ & _ & Hb').
    rewrite Hput in *. cbn [fst] in *.
    pose proof (frame_fields _ _ Hfr') as (_ & F2 & _).
    split; [exact Hwf' |]. split; [exact Hrel' |]. split; [exact Hb' |].
    split; [rewrite F2; exact Hn2 | exact Hm].
  - unfold put_fat.
    replace (c <? n_fatent (v_fs v)) with false by (symmetry; apply Z.ltb_ge; lia).
    rewrite andb_false_r. cbn [fst]. exact Hinv.
Qed.

Lemma fields_inv (v : Vol) (fs' : FATFS) :
  fat_inv v -> frame (set_free_clst (set_last_clst (set_fsi_flag fs' 0) 0) 0) =
               frame (set_free_clst (set_last_clst (set_fsi_flag (v_fs v) 0) 0) 0) ->
  win fs' = win (v_fs v) -> winsect fs' = winsect (v_fs v) ->
  wflag fs' = wflag (v_fs v) ->
  fat_inv (mkVol fs' (v_disk v)).
Proof.
  intros (Hwf & Hrel & Hb & H2 & Hmir) Hfr Hwin Hws Hflag.
  assert (F : fs_type fs' = fs_type (v_fs v) /\ n_fats fs' = n_fats (v_fs v) /\
              ssize fs' = ssize (v_fs v) /\ n_fatent fs' = n_fatent (v_fs v) /\
              fsize fs' = fsize (v_fs v) /\ fatbase fs' = fatbase (v_fs v)).
  { apply frame_fields in Hfr.
    destruct Hfr as (F1 & F2 & _ & F4 & F5 & F6 & F7 & _). cbn in *.
    repeat split; assumption. }
  destruct F as (F1 & F2 & F4 & F5 & F6 & F7).
  assert (Hgeom : geom_ok fs' = geom_ok (v_fs v)).
  { unfold geom_ok, szbfat, SS. rewrite F1, F4, F5, F6, F7. reflexivity. }
  split.
  { constructor; cbn.
    - rewrite Hgeom. apply (wf_geom _ Hwf).
    - rewrite Hwin. unfold SS. rewrite F4. apply (wf_win _ Hwf).
    - unfold SS. rewrite F4. apply (wf_sec _ Hwf).
    - rewrite Hws. apply (wf_winsect _ Hwf).
    - rewrite Hflag, Hws, Hwin. unfold in_fat1. rewrite F6, F7. apply (wf_clean _ Hwf). }
  split; [exact Hrel |].
  split; [split; [cbn; rewrite Hwin; apply Hb | apply Hb] |].
  split; [cbn; rewrite F2; exact H2 |].
  destruct Hmir as [Hnot Hm]. split; cbn.
  - rewrite Hflag, Hws. unfold in_fat2. rewrite F6, F7. exact Hnot.
  - unfold in_fat1. rewrite Hflag, Hws, F6, F7. exact Hm.
Qed.

Lemma note_freed_inv (v : Vol) : fat_inv v -> fat_inv (note_freed v).
Proof.
  intros Hinv. unfold note_freed.
  destruct (free_clst (v_fs v) <? u32 (n_fatent (v_fs v) - 2)); [| exact Hinv].
  apply (fields_inv v); [exact Hinv | | | |]; destruct (v_fs v); reflexivity.
Qed.

Lemma remove_chain_loop_inv (fuel : nat) :
  forall v c v' r,
    fat_inv v -> remove_chain_loop fuel v c = Some (v', r) -> fat_inv v'.
Proof.
  induction fuel as [| fuel IH]; intros v c v' r Hinv Hrun; [discriminate Hrun |].
  cbn [remove_chain_loop] in Hrun.
  pose proof (get_fat_inv v c Hinv) as H1.
  destruct (get_fat v c) as [v1 nxt]. cbn [fst] in H1.
  destruct (nxt =? 0); [injection Hrun as <- _; exact H1 |].
  destruct (nxt =? 1); [injection Hrun as <- _; exact H1 |].
  destruct (nxt =? 4294967295); [injection Hrun as <- _; exact H1 |].
  pose proof (put_fat_inv v1 c 0 H1) as H2.
  destruct (put_fat v1 c 0) as [v2 res]. cbn [fst] in H2.
  destruct (negb (is_ok res)); [injection Hrun as <- _; exact H2 |].
  pose proof (note_freed_inv v2 H2) as H3.
  destruct (nxt <? n_fatent (v_fs (note_freed v2))).
  - apply (IH _ _ _ _ H3 Hrun).
  - injection Hrun as <- _. exact H3.
Qed.

Lemma remove_chain_inv (fuel : nat) (v : Vol) (c pclst : Z) (v' : Vol) (r : FRESULT) :
  fat_inv v -> remove_chain fuel v c pclst = Some (v', r) -> fat_inv v'.
Proof.
  intros Hinv Hrun. unfold remove_chain in Hrun.
  destruct ((c <? 2) || (c >=? n_fatent (v_fs v))); [injection Hrun as <- _; exact Hinv |].
  destruct (nz pclst).
  - pose proof (put_fat_inv v pclst 0xFFFFFFFF Hinv) as H1.
    destruct (put_fat v pclst 4294967295) as [v1 res]. cbn [fst] in H1.
    destruct (negb (is_ok res)); [injection Hrun as <- _; exact H1 |].
    apply (remove_chain_loop_inv fuel _ _ _ _ H1 Hrun).
  - apply (remove_chain_loop_inv fuel _ _ _ _ Hinv Hrun).
Qed.

Lemma create_chain_scan_inv (fuel : nat) :
  forall v scl ncl v' r,
    fat_inv v -> create_chain_scan fuel v scl ncl = Some (v', r) -> fat_inv v'.
Proof.
  induction fuel as [| fuel IH]; intros v scl ncl v' r Hinv Hrun; [discriminate Hrun |].
  cbn [create_chain_scan] in Hrun.
  destruct ((u32 (ncl + 1) >=? n_fatent (v_fs v)) && (2 >? scl));
    [injection Hrun as <- _; exact Hinv |].
  set (n1 := if u32 (ncl + 1) >=? n_fatent (v_fs v) then 2 else u32 (ncl + 1)) in Hrun.
  pose proof (get_fat_inv v n1 Hinv) as H1.
  destruct (get_fat v n1) as [v1 cs]. cbn [fst] in H1.
  destruct (cs =? 0); [injection Hrun as <- _; exact H1 |].
  destruct ((cs =? 1) || (cs =? 4294967295)); [injection Hrun as <- _; exact H1 |].
  destruct (n1 =? scl); [injection Hrun as <- _; exact H1 |].
  apply (IH _ _ _ _ _ H1 Hrun).
Qed.

Lemma create_chain_commit_inv (v : Vol) (clst ncl : Z) :
  fat_inv v -> fat_inv (fst (create_chain_commit v clst ncl)).
Proof.
  intros Hinv. unfold create_chain_commit.
  pose proof (put_fat_inv v ncl 0xFFFFFFFF Hinv) as H1.
  destruct (put_fat v ncl 4294967295) as [v1 r1]. cbn [fst] in H1.
  assert (H2 : fat_inv (fst (if is_ok r1 && nz clst then put_fat v1 clst ncl else (v1, r1)))).
  { destruct (is_ok r1 && nz clst); [apply put_fat_inv; exact H1 | exact H1]. }
  destruct (if is_ok r1 && nz clst then put_fat v1 clst ncl else (v1, r1)) as [v2 r2].
  cbn [fst] in H2.
  destruct (is_ok r2); [| exact H2]. cbn [fst].
  apply (fields_inv v2); [exact H2 | | | |].
  - destruct (v_fs v2). cbn.
    destruct (_ <=? _); reflexivity.
  - destruct (v_fs v2). cbn. destruct (_ <=? _); reflexivity.
  - destruct (v_fs v2). cbn. destruct (_ <=? _); reflexivity.
  - destruct (v_fs v2). cbn. destruct (_ <=? _); reflexivity.
Qed.

Lemma create_chain_inv (fuel : nat) (v : Vol) (c : Z) (v' : Vol) (r : Z) :
  fat_inv v -> create_chain fuel v c = Some (v', r) -> fat_inv v'.
Proof.
  intros Hinv Hrun. unfold create_chain in Hrun.
  assert (Hscan : forall w scl clst,
            fat_inv w ->
            match create_chain_scan fuel w scl scl with
            | None => None
            | Some (w1, Quit st) => Some (w1, st)
            | Some (w1, Found ncl) => Some (create_chain_commit w1 clst ncl)
            end = Some (v', r) -> fat_inv v').
  { intros w scl clst Hw Hm.
    destruct (create_chain_scan fuel w scl scl) as [[w1 [ncl | st]] |] eqn:Es;
      [| | discriminate Hm].
    - pose proof (create_chain_scan_inv fuel _ _ _ _ _ Hw Es) as H1.
      pose proof (create_chain_commit_inv w1 clst ncl H1) as H2.
      destruct (create_chain_commit w1 clst ncl) as [w2 x]. cbn [fst] in H2.
      injection Hm as <- _. exact H2.
    - pose proof (create_chain_scan_inv fuel _ _ _ _ _ Hw Es) as H1.
      injection Hm as <- _. exact H1. }
  destruct (c =? 0).
  - destruct (free_clst (v_fs v) =? 0); [injection Hrun as <- _; exact Hinv |].
    apply (Hscan _ _ _ Hinv Hrun).
  - pose proof (get_fat_inv v c Hinv) as H1.
    destruct (get_fat v c) as [v1 cs]. cbn [fst] in H1.
    destruct (cs <? 2); [injection Hrun as <- _; exact H1 |].
    destruct (cs =? 4294967295); [injection Hrun as <- _; exact H1 |].
    destruct (cs <? n_fatent (v_fs v)); [injection Hrun as <- _; exact H1 |].
    destruct (free_clst (v_fs v1) =? 0); [injection Hrun as <- _; exact H1 |].
    cbv zeta in Hrun.
    set (n1 := if u32 (c + 1) >=? n_fatent (v_fs v) then 2 else u32 (c + 1)) in Hrun.
    pose proof (get_fat_inv v1 n1 H1) as H2.
    destruct (get_fat v1 n1) as [v2 cs2]. cbn [fst] in H2.
    destruct ((cs2 =? 1) || (cs2 =? 4294967295)); [injection Hrun as <- _; exact H2 |].
    destruct (negb (cs2 =? 0)).
    + apply (Hscan _ _ _ H2 Hrun).
    + pose proof (create_chain_commit_inv v2 c n1 H2) as H3.
      destruct (create_chain_commit v2 c n1) as [w2 x]. cbn [fst] in H3.
      injection Hrun as <- _. exact H3.
Qed.

Lemma sync_window_after_inv (v : Vol) :
  fat_inv v ->
  exists v', sync_window v = (v', FR_OK) /\ vol_wf v' /\ reliable (v_disk v') /\
    wflag (v_fs v') = 0 /\ fat_copies_equal v' /\ fat_eq v v'.
Proof.
  intros (Hwf & Hrel & Hb & H2 & Hmir).
  destruct (sync_window_mirror v Hwf Hrel H2 Hmir) as (Hflag & Heq).
  destruct (sync_window_ok v Hwf Hrel) as (v1 & Hsync & Hwf1 & Hrel1 & Heq1 & _).
  rewrite Hsync in *. cbn [fst] in *.
  exists v1. split; [reflexivity |]. split; [exact Hwf1 |]. split; [exact Hrel1 |].
  split; [exact Hflag |]. split; [exact Heq | exact Heq1].
Qed.

(** X21.  On a volume with two FATs whose second FAT repeats the first
    (apart from a changed sector still in the window) and whose drive works,
    put_fat followed by sync_window leaves the window clean and the two FATs
    the same on the medium, sector for sector, and the cell then reads the
    value stored, cut to the width of the FAT type. *)
Theorem put_fat_sync_window_updates_both_fats (v : Vol) (c val : Z) :
  vol_wf v -> reliable (v_disk v) -> bytes_ok v -> n_fats (v_fs v) = 2 ->
  fat_mirrored v -> 2 <= c < n_fatent (v_fs v) ->
  exists v1 v2,
    put_fat v c val = (v1, FR_OK) /\ sync_window v1 = (v2, FR_OK) /\
    wflag (v_fs v2) = 0 /\ fat_copies_equal v2 /\
    snd (get_fat v2 c) = cell_mask (v_fs v) val.
Proof.
  intros Hwf Hrel Hb H2 Hmir Hc.
  pose proof (put_fat_inv v c val (conj Hwf (conj Hrel (conj Hb (conj H2 Hmir))))) as Hinv.
  destruct (put_fat_full v c val Hwf Hrel Hb Hc)
    as (v1 & Hput & Hwf1 & Hrel1 & Hfr1 & Hcell & _ & Hb1).
  rewrite Hput in Hinv. cbn [fst] in Hinv.
  destruct (sync_window_after_inv v1 Hinv)
    as (v2 & Hsync & Hwf2 & Hrel2 & Hflag & Hcopies & Heq).
  pose proof (frame_fields _ _ Hfr1) as (_ & _ & _ & _ & F5 & _).
  pose proof (frame_fields _ _ (proj1 Heq)) as (_ & _ & _ & _ & G5 & _).
  exists v1, v2. split; [exact Hput |]. split; [exact Hsync |].
  split; [exact Hflag |]. split; [exact Hcopies |].
  rewrite get_fat_cell; [| exact Hwf2 | exact Hrel2 | rewrite G5, F5; exact Hc].
  rewrite (fat_cell_fat_eq v1 v2 c (wf_geom _ Hwf1) Heq) by (rewrite F5; exact Hc).
  exact Hcell.
Qed.

Lemma sample_vol32_two_fats_inv : fat_inv sample_vol32_two_fats.
Proof.
  split.
  { constructor.
    - reflexivity.
    - reflexivity.
    - intros s. cbn [sample_vol32_two_fats v_disk d_sec].
      destruct ((s =? 32) || (s =? 33)); reflexivity.
    - vm_compute. split; [discriminate | reflexivity].
    - intros _ H. vm_compute in H. destruct H as [_ H]. discriminate H. }
  split; [split; intros s; reflexivity |].
  split.
  { split; [apply blank_sector_bytes |]. intros s.
    cbn [sample_vol32_two_fats v_disk d_sec].
    destruct ((s =? 32) || (s =? 33)); [apply sample_fat32_bytes | apply blank_sector_bytes]. }
  split; [reflexivity |].
  split.
  - intros H. exfalso. apply H. reflexivity.
  - intros s Hs _. unfold in_fat1 in Hs. cbn in Hs.
    assert (s = 32) as -> by lia. reflexivity.
Qed.

Lemma put_fat_sync_window_updates_both_fats_witness :
  exists v1 v2,
    put_fat sample_vol32_two_fats 5 0xFFFFFFFF = (v1, FR_OK) /\
    sync_window v1 = (v2, FR_OK) /\ wflag (v_fs v2) = 0 /\ fat_copies_equal v2 /\
    snd (get_fat v2 5) = 0x0FFFFFFF.
Proof.
  destruct sample_vol32_two_fats_inv as (Hwf & Hrel & Hb & H2 & Hmir).
  exact (put_fat_sync_window_updates_both_fats sample_vol32_two_fats 5 0xFFFFFFFF
           Hwf Hrel Hb H2 Hmir ltac:(cbn; lia)).
Defined.

(** ** Cluster number to sector number *)

(** X23.  clst2sect on a volume whose data area fits the 32-bit sector
    range.  A cluster number from 2 to n_fatent - 1 is mapped to sector
    database + csize * (clst - 2); so the clusters lie in the data area in the
    order of their numbers and the csize sectors of one cluster never overlap
    those of another.  A number outside that range (0 and 1 included) gives
    0. *)
Theorem clst2sect_clusters_do_not_overlap (fs : FATFS) (c1 c2 : Z) :
  0 < csize fs -> 0 <= database fs -> 2 <= n_fatent fs < 4294967296 ->
  database fs + csize fs * (n_fatent fs - 2) <= 4294967296 ->
  2 <= c1 -> c1 < c2 -> c2 < n_fatent fs ->
  clst2sect fs c1 = database fs + csize fs * (c1 - 2) /\
  clst2sect fs c2 = database fs + csize fs * (c2 - 2) /\
  clst2sect fs c1 + csize fs <= clst2sect fs c2 /\
  clst2sect fs c2 + csize fs <= database fs + csize fs * (n_fatent fs - 2) /\
  (forall c, 0 <= c < 4294967296 -> c < 2 \/ n_fatent fs <= c -> clst2sect fs c = 0).
Proof.
  intros Hcs Hdb Hn Hfit H1 H12 H2.
  assert (Hn32 : n_fatent fs - 2 < 4294967296) by lia.
  assert (Hmap : forall c, 2 <= c < n_fatent fs ->
            clst2sect fs c = database fs + csize fs * (c - 2)).
  { intros c Hc. unfold clst2sect.
    rewrite (u32_small (c - 2)) by lia.
    rewrite (u32_small (n_fatent fs - 2)) by lia.
    rewrite Z.geb_leb.
    replace (n_fatent fs - 2 <=? c - 2) with false by (symmetry; apply Z.leb_gt; lia).
    rewrite (u32_small (csize fs * (c - 2))) by nia.
    apply u32_small. nia. }
  rewrite !Hmap by lia.
  split; [reflexivity |]. split; [reflexivity |].
  split; [nia |]. split; [nia |].
  intros c Hc Hout. unfold clst2sect.
  rewrite (u32_small (n_fatent fs - 2)) by lia. rewrite Z.geb_leb.
  replace (n_fatent fs - 2 <=? u32 (c - 2)) with true; [reflexivity |].
  symmetry. apply Z.leb_le. unfold u32.
  destruct Hout as [Hlow | Hhigh].
  - replace ((c - 2) mod 4294967296) with (c - 2 + 4294967296);
      [lia | apply Z.mod_unique with (q := -1); lia].
  - rewrite Z.mod_small by lia. lia.
Qed.

Lemma clst2sect_clusters_do_not_overlap_witness :
  clst2sect (sample_fs32 3 96) 2 = 34 /\ clst2sect (sample_fs32 3 96) 99 = 131 /\
  clst2sect (sample_fs32 3 96) 1 = 0 /\ clst2sect (sample_fs32 3 96) 100 = 0.
Proof.
  destruct (clst2sect_clusters_do_not_overlap (sample_fs32 3 96) 2 99
              ltac:(cbn; lia) ltac:(cbn; lia) ltac:(cbn; lia) ltac:(cbn; lia)
              ltac:(lia) ltac:(lia) ltac:(cbn; lia))
    as (H1 & H2 & _ & _ & H5).
  split; [exact H1 |]. split; [exact H2 |].
  split; [apply H5; [lia | left; lia] | apply H5; [lia | right; cbn; lia]].
Defined.


(** ** f_read *)

Lemma sync_window_sizes (v : Vol) :
  ssize (v_fs (fst (sync_window v))) = ssize (v_fs v) /\
  csize (v_fs (fst (sync_window v))) = csize (v_fs v).
Proof.
  unfold sync_window.
  destruct (nz (wflag (v_fs v))); [| split; reflexivity].
  destruct (disk_write _ _ _ _ _) as [d ok].
  destruct ok; [| split; reflexivity].
  destruct (_ <? _); [| split; reflexivity].
  destruct (_ =? _); [| split; reflexivity].
  destruct (disk_write _ _ _ _ _) as [d' ok']. split; reflexivity.
Qed.

Lemma move_window_sizes (v : Vol) (s : Z) :
  ssize (v_fs (fst (move_window v s))) = ssize (v_fs v) /\
  csize (v_fs (fst (move_window v s))) = csize (v_fs v).
Proof.
  unfold move_window.
  destruct (negb (s =? winsect (v_fs v))); [| split; reflexivity].
  pose proof (sync_window_sizes v) as H.
  destruct (sync_window v) as [v1 r]. cbn [fst] in H.
  destruct (is_ok r); [| exact H].
  destruct (disk_read _ _ _) as [d [b |]]; exact H.
Qed.

Lemma get_fat_sizes (v : Vol) (c : Z) :
  ssize (v_fs (fst (get_fat v c))) = ssize (v_fs v) /\
  csize (v_fs (fst (get_fat v c))) = csize (v_fs v).
Proof.
  unfold get_fat.
  destruct ((c <? 2) || (c >=? n_fatent (v_fs v))); [split; reflexivity |].
  destruct (fs_type (v_fs v) =? FS_FAT12).
  { pose proof (move_window_sizes v
                  (u32 (fatbase (v_fs v) + u32 (c + c / 2) / SS (v_fs v)))) as H1.
    destruct (move_window v _) as [v1 r1]. cbn [fst] in H1.
    destruct (negb (is_ok r1)); [exact H1 |].
    pose proof (move_window_sizes v1
                  (u32 (fatbase (v_fs v) + u32 (u32 (c + c / 2) + 1) / SS (v_fs v)))) as H2.
    destruct (move_window v1 _) as [v2 r2]. cbn [fst] in H2.
    destruct H1 as [A1 B1]. destruct H2 as [A2 B2].
    destruct (negb (is_ok r2)); cbn [fst]; split; congruence. }
  destruct (fs_type (v_fs v) =? FS_FAT16).
  { pose proof (move_window_sizes v (u32 (fatbase (v_fs v) + c / (SS (v_fs v) / 2)))) as H1.
    destruct (move_window v _) as [v1 r1]. cbn [fst] in H1.
    destruct (negb (is_ok r1)); exact H1. }
  destruct (fs_type (v_fs v) =? FS_FAT32); [| split; reflexivity].
  pose proof (move_window_sizes v (u32 (fatbase (v_fs v) + c / (SS (v_fs v) / 4)))) as H1.
  destruct (move_window v _) as [v1 r1]. cbn [fst] in H1.
  destruct (negb (is_ok r1)); exact H1.
Qed.

Lemma land_le_r (a b : Z) : 0 <= b -> 0 <= Z.land a b <= b.
Proof.
  intros Hb. split; [apply Z.land_nonneg; right; exact Hb |].
  assert (H : Z.ldiff (Z.land a b) b = 0).
  { apply Z.bits_inj'. intros n Hn.
    rewrite Z.ldiff_spec, Z.land_spec, Z.bits_0.
    destruct (Z.testbit a n), (Z.testbit b n); reflexivity. }
  apply Z.sub_nocarry_ldiff in H.
  assert (0 <= Z.ldiff b (Z.land a b)) by (apply Z.ldiff_nonneg; left; exact Hb).
  lia.
Qed.

Lemma partial_count (ss f btr : Z) :
  0 < ss < 4294967296 -> 0 < btr ->
  0 < (if u32 (ss - f mod ss) >? btr then btr else u32 (ss - f mod ss)) <= btr.
Proof.
  intros Hss Hb.
  assert (0 <= f mod ss < ss) by (apply Z.mod_pos_bound; lia).
  rewrite u32_small by lia. rewrite Z.gtb_ltb.
  destruct (Z.ltb_spec btr (ss - f mod ss)); lia.
Qed.

Lemma multi_count (ss cs f btr : Z) :
  0 < ss -> 0 < cs < 4294967296 -> 0 <= f -> 0 < btr < 4294967296 ->
  (btr / ss >? 0) = true ->
  0 < u32 (ss * (if u32 (Z.land (f / ss) (cs - 1)) + btr / ss >? cs
                 then u32 (cs - u32 (Z.land (f / ss) (cs - 1)))
                 else btr / ss)) <= btr.
Proof.
  intros Hss Hcs Hf Hb Hcc.
  rewrite Z.gtb_ltb in Hcc. apply Z.ltb_lt in Hcc.
  pose proof (land_le_r (f / ss) (cs - 1) ltac:(lia)) as Hl.
  rewrite (u32_small (Z.land _ _)) by lia.
  set (csect := Z.land (f / ss) (cs - 1)) in *.
  assert (Hmul : ss * (btr / ss) <= btr) by (apply Z.mul_div_le; lia).
  rewrite Z.gtb_ltb.
  destruct (Z.ltb_spec cs (csect + btr / ss)).
  - rewrite (u32_small (cs - csect)) by lia.
    assert (ss * (cs - csect) <= ss * (btr / ss)) by nia.
    rewrite u32_small by nia. nia.
  - rewrite u32_small by nia. nia.
Qed.

Section ReadLoop.
Variable env : Env.
Variables B f0 size ss cs : Z.
Hypothesis Hss : 0 < ss < 4294967296.
Hypothesis Hcs : 0 < cs < 4294967296.
Hypothesis Hf0 : 0 <= f0.
Hypothesis Hfit : f0 + B <= size < 4294967296.

Lemma read_abort (x : Xfer) (btr : Z) (v' : Vol) (fp' : FIL) (r : FRESULT) :
  read_inv B f0 size ss cs x btr -> r <> FR_OK ->
  fptr fp' = fptr (x_fp x) -> obj_objsize fp' = size ->
  exists x' res, xfer_abort x v' fp' r = Some (x', res) /\ read_done B f0 size x' res.
Proof.
  intros (Hb0 & Hc0 & Hsum & Hfp & Hsz & HSS & HCS) Hr Hf Ho.
  eexists _, _. split; [reflexivity |]. unfold read_done. cbn.
  split; [lia |]. split; [rewrite Hf; exact Hfp |]. split; [exact Ho |].
  intros E. contradiction.
Qed.

Lemma read_advance (x : Xfer) (btr : Z) (v' : Vol) (fp' : FIL) (usr' : list Z)
  (rcnt : Z) :
  read_inv B f0 size ss cs x btr -> 0 < rcnt <= btr ->
  fptr fp' = fptr (x_fp x) -> obj_objsize fp' = size ->
  SS (v_fs v') = ss -> csize (v_fs v') = cs ->
  read_inv B f0 size ss cs
    (mkXfer v' (set_fptr fp' (u32 (fptr fp' + rcnt))) usr' (u32 (x_cnt x + rcnt)))
    (u32 (btr - rcnt)) /\
  (Z.to_nat (u32 (btr - rcnt)) < Z.to_nat btr)%nat.
Proof.
  intros (Hb0 & Hc0 & Hsum & Hfp & Hsz & HSS & HCS) Hr Hf Ho Hs Hc.
  rewrite (u32_small (btr - rcnt)) by lia.
  rewrite (u32_small (x_cnt x + rcnt)) by lia.
  rewrite Hf, Hfp. rewrite (u32_small (f0 + x_cnt x + rcnt)) by lia.
  split; [| lia]. unfold read_inv. cbn.
  split; [lia |]. split; [lia |]. split; [lia |]. split; [lia |].
  split; [exact Ho |]. split; assumption.
Qed.

Lemma f_read_loop_total (fuel : nat) :
  forall (x : Xfer) (btr : Z),
    read_inv B f0 size ss cs x btr -> (Z.to_nat btr < fuel)%nat ->
    exists x' res,
      f_read_loop fuel env x btr = Some (x', res) /\ read_done B f0 size x' res.
Proof.
  induction fuel as [| k IH]; intros x btr Hinv Hfuel; [lia |].
  cbn [f_read_loop].
  destruct (btr >? 0) eqn:Hpos; cbn [negb].
  2:{ exists x, FR_OK. split; [reflexivity |].
      destruct Hinv as (Hb0 & Hc0 & Hsum & Hfp & Hsz & HSS & HCS).
      rewrite Z.gtb_ltb in Hpos. apply Z.ltb_ge in Hpos.
      unfold read_done. split; [lia |]. split; [exact Hfp |]. split; [exact Hsz |].
      intros _. lia. }
  rewrite Z.gtb_ltb in Hpos. apply Z.ltb_lt in Hpos.
  assert (Hbtr : btr < 4294967296) by (destruct Hinv as (? & ? & ? & ? & ? & ? & ?); lia).
  assert (Hfnn : 0 <= fptr (x_fp x)) by (destruct Hinv as (? & ? & ? & ? & ? & ? & ?); lia).
  pose proof (proj1 (proj2 (proj2 (proj2 (proj2 (proj2 Hinv)))))) as HSS.
  pose proof (proj2 (proj2 (proj2 (proj2 (proj2 (proj2 Hinv)))))) as HCS.
  pose proof (proj1 (proj2 (proj2 (proj2 (proj2 Hinv))))) as Hsz.
  assert (Hnext : forall v' fp' usr' rcnt,
            0 < rcnt <= btr -> fptr fp' = fptr (x_fp x) -> obj_objsize fp' = size ->
            SS (v_fs v') = ss -> csize (v_fs v') = cs ->
            exists x' res,
              f_read_loop k env
                (mkXfer v' (set_fptr fp' (u32 (fptr fp' + rcnt))) usr'
                        (u32 (x_cnt x + rcnt)))
                (u32 (btr - rcnt)) = Some (x', res) /\ read_done B f0 size x' res).
  { intros v' fp' usr' rcnt Hr Hf Ho Hs Hc.
    destruct (read_advance x btr v' fp' usr' rcnt Hinv Hr Hf Ho Hs Hc) as (Hi & Hlt).
    apply IH; [exact Hi | lia]. }
  assert (Habort : forall v' fp' r,
            r <> FR_OK -> fptr fp' = fptr (x_fp x) -> obj_objsize fp' = size ->
            exists x' res, xfer_abort x v' fp' r = Some (x', res) /\
                           read_done B f0 size x' res).
  { intros v' fp' r. apply (read_abort x btr v' fp' r Hinv). }
  cbv zeta. rewrite !HSS, !HCS.
  assert (Hpartial : forall v' fp',
            fptr fp' = fptr (x_fp x) -> obj_objsize fp' = size ->
            SS (v_fs v') = ss -> csize (v_fs v') = cs ->
            exists x' res,
              (if negb (e_copy_ok env (x_cnt x)
                          (if u32 (ss - fptr fp' mod ss) >? btr then btr
                           else u32 (ss - fptr fp' mod ss)))
               then xfer_abort x v' fp' FR_INVALID_PARAMETER
               else f_read_loop k env
                      (mkXfer v'
                         (set_fptr fp'
                            (u32 (fptr fp' +
                                  (if u32 (ss - fptr fp' mod ss) >? btr then btr
                                   else u32 (ss - fptr fp' mod ss)))))
                         (splice (x_usr x) (x_cnt x)
                            (take (Z.to_nat
                                     (if u32 (ss - fptr fp' mod ss) >? btr then btr
                                      else u32 (ss - fptr fp' mod ss)))
                               (drop (Z.to_nat (fptr fp' mod ss)) (buf fp'))))
                         (u32 (x_cnt x +
                               (if u32 (ss - fptr fp' mod ss) >? btr then btr
                                else u32 (ss - fptr fp' mod ss)))))
                      (u32 (btr -
                            (if u32 (ss - fptr fp' mod ss) >? btr then btr
                             else u32 (ss - fptr fp' mod ss))))) = Some (x', res) /\
              read_done B f0 size x' res).
  { intros v' fp' Hf Ho Hs Hc.
    destruct (e_copy_ok env _ _); cbn [negb].
    - apply Hnext; try assumption. apply partial_count; assumption.
    - apply Habort; [discriminate | assumption | assumption]. }
  destruct (fptr (x_fp x) mod ss =? 0); [| apply Hpartial; auto].
  (* on a sector boundary: the cluster is located first *)
  match goal with
  | |- context [if u32 (Z.land (fptr (x_fp x) / ss) (cs - 1)) =? 0 then ?a else ?b] =>
      remember (if u32 (Z.land (fptr (x_fp x) / ss) (cs - 1)) =? 0 then a else b)
        as loc eqn:Eloc
  end.
  assert (Hloc : fptr (snd (fst loc)) = fptr (x_fp x) /\
                 obj_objsize (snd (fst loc)) = size /\
                 SS (v_fs (fst (fst loc))) = ss /\ csize (v_fs (fst (fst loc))) = cs /\
                 (forall r, snd loc = Some r -> r <> FR_OK)).
  { subst loc.
    destruct (u32 (Z.land (fptr (x_fp x) / ss) (cs - 1)) =? 0);
      [| cbn; repeat split; try assumption; intros r E; discriminate E].
    match goal with
    | |- context [let '(_, _) := ?p in _] => remember p as pr eqn:Epr
    end.
    assert (Hpr : SS (v_fs (fst pr)) = ss /\ csize (v_fs (fst pr)) = cs).
    { subst pr. destruct (fptr (x_fp x) =? 0); [split; assumption |].
      destruct (cltbl (x_fp x)); [split; assumption |].
      destruct (get_fat_sizes (x_vol x) (clust (x_fp x))) as [A1 A2].
      unfold SS in *. split; congruence. }
    destruct pr as [v' clst]. cbn [fst] in Hpr. destruct Hpr as [P1 P2].
    destruct (clst <? 2);
      [cbn; repeat split; try assumption; intros r E; injection E as <-; discriminate |].
    destruct (clst =? 4294967295);
      [cbn; repeat split; try assumption; intros r E; injection E as <-; discriminate |].
    cbn. repeat split; try assumption. intros r E. discriminate E. }
  clear Eloc. destruct loc as [[v1 fp1] stop]. cbn [fst snd] in Hloc.
  destruct Hloc as (L1 & L2 & L3 & L4 & L5).
  destruct stop as [r |]; [apply Habort; [apply L5; reflexivity | exact L1 | exact L2] |].
  destruct (clst2sect (v_fs (x_vol x)) (clust fp1) =? 0);
    [apply Habort; [discriminate | exact L1 | exact L2] |].
  destruct (btr / ss >? 0) eqn:Hcc.
  - (* whole sectors go to the caller's buffer *)
    pose proof (multi_count ss cs (fptr (x_fp x)) btr ltac:(lia) Hcs Hfnn ltac:(lia) Hcc)
      as Hmc.
    destruct (disk_read _ _ _) as [d [data |]];
      [| apply Habort; [discriminate | exact L1 | exact L2]].
    destruct (has (flag fp1) FA_DIRTY && _).
    + destruct (e_copy_ok env _ _); cbn [negb].
      * apply Hnext; [exact Hmc | exact L1 | exact L2 | exact L3 | exact L4].
      * eexists _, _. split; [reflexivity |].
        destruct Hinv as (Hb0 & Hc0 & Hsum & Hfp & _).
        unfold read_done. cbn.
        split; [lia |]. split; [rewrite L1; exact Hfp |]. split; [exact L2 |].
        intros E. discriminate E.
    + apply Hnext; [exact Hmc | exact L1 | exact L2 | exact L3 | exact L4].
  - (* one sector through the private buffer *)
    destruct (negb (sect fp1 =? _)).
    + destruct (has (flag fp1) FA_DIRTY).
      * destruct (disk_write _ _ _ _ _) as [d ok].
        destruct ok; cbn [negb];
          [| apply Habort; [discriminate | exact L1 | exact L2]].
        destruct (disk_read _ _ _) as [d' [data |]];
          [| apply Habort; [discriminate | exact L1 | exact L2]].
        apply Hpartial; [exact L1 | exact L2 | exact L3 | exact L4].
      * cbn [negb].
        destruct (disk_read _ _ _) as [d' [data |]];
          [| apply Habort; [discriminate | exact L1 | exact L2]].
        apply Hpartial; [exact L1 | exact L2 | exact L3 | exact L4].
    + apply Hpartial; [exact L1 | exact L2 | exact L3 | exact L4].
Qed.

End ReadLoop.

(** X24.  f_read returns, and never hands out more than was asked for or
    than the file holds.  For a file object whose pointer is not behind the
    end of the file, on a volume with a sector size and a cluster size that
    are not 0, one pass per byte suffices for f_read to return; the byte
    counter is then at most the request cut at the end of the file
    (read_span), the file pointer has advanced by the counter, the size of
    the file is unchanged, and when the result is FR_OK the counter is
    exactly the request cut at the end of the file. *)
Theorem f_read_moves_requested_bytes (fuel : nat) (env : Env) (v : Vol) (fp : FIL)
  (usr : list Z) (btr : Z) :
  0 < SS (v_fs v) < 4294967296 -> 0 < csize (v_fs v) < 4294967296 ->
  0 <= fptr fp <= obj_objsize fp -> obj_objsize fp < 4294967296 ->
  0 <= btr -> (Z.to_nat (read_span fp btr) < fuel)%nat ->
  exists x res,
    f_read fuel env v fp usr btr = Some (x, res) /\
    0 <= x_cnt x <= read_span fp btr /\
    fptr (x_fp x) = fptr fp + x_cnt x /\
    obj_objsize (x_fp x) = obj_objsize fp /\
    (res = FR_OK -> x_cnt x = read_span fp btr).
Proof.
  intros Hss Hcs Hfp Hsz Hbtr Hfuel.
  assert (Hspan : 0 <= read_span fp btr) by (unfold read_span; lia).
  assert (Hfail : forall r, r <> FR_OK ->
            exists x res,
              Some (mkXfer v fp usr 0, r) = Some (x, res) /\
              0 <= x_cnt x <= read_span fp btr /\
              fptr (x_fp x) = fptr fp + x_cnt x /\
              obj_objsize (x_fp x) = obj_objsize fp /\
              (res = FR_OK -> x_cnt x = read_span fp btr)).
  { intros r Hr. eexists _, _. split; [reflexivity |]. cbn.
    split; [lia |]. split; [lia |]. split; [reflexivity |].
    intros E. contradiction. }
  unfold f_read.
  destruct (is_ok (validate (v_fs v) fp)) eqn:Hval; cbn [negb];
    [| apply Hfail; intros E; rewrite E in Hval; discriminate Hval].
  destruct (is_ok (err fp)) eqn:Herr; cbn [negb];
    [| apply Hfail; intros E; rewrite E in Herr; discriminate Herr].
  destruct (has (flag fp) FA_READ); cbn [negb]; [| apply Hfail; discriminate].
  rewrite (u32_small (obj_objsize fp - fptr fp)) by lia.
  replace (if btr >? obj_objsize fp - fptr fp then obj_objsize fp - fptr fp else btr)
    with (read_span fp btr)
    by (unfold read_span; rewrite Z.gtb_ltb;
        destruct (Z.ltb_spec (obj_objsize fp - fptr fp) btr); lia).
  destruct (f_read_loop_total env (read_span fp btr) (fptr fp) (obj_objsize fp)
              (SS (v_fs v)) (csize (v_fs v)) Hss Hcs ltac:(lia)
              ltac:(unfold read_span; lia) fuel (mkXfer v fp usr 0) (read_span fp btr))
    as (x' & res & Hrun & Hdone).
  - unfold read_inv. cbn. repeat split; try reflexivity; lia.
  - exact Hfuel.
  - exists x', res. split; [exact Hrun |]. exact Hdone.
Qed.

Lemma f_read_moves_requested_bytes_witness :
  exists x res,
    f_read 2000 sample_env sample_vol32 (sample_fil FA_READ) [] 2000 = Some (x, res) /\
    0 <= x_cnt x <= 1024 /\ fptr (x_fp x) = 0 + x_cnt x /\
    obj_objsize (x_fp x) = 1024 /\ (res = FR_OK -> x_cnt x = 1024).
Proof.
  exact (f_read_moves_requested_bytes 2000 sample_env sample_vol32 (sample_fil FA_READ)
           [] 2000
           ltac:(vm_compute; split; reflexivity) ltac:(vm_compute; split; reflexivity)
           ltac:(vm_compute; split; discriminate) ltac:(vm_compute; reflexivity)
           ltac:(lia) ltac:(apply Nat.ltb_lt; vm_compute; reflexivity)).
Defined.


(** ** create_chain returns *)

Section ScanTotal.
Variable v0 : Vol.
Variable scl : Z.
Hypothesis Hwf0 : vol_wf v0.
Hypothesis Hscl : 1 <= scl < n_fatent (v_fs v0).

(** Whatever the FAT holds, the scan ends within n_fatent - 1 passes. *)
Lemma create_chain_scan_total (fuel : nat) :
  forall j v1,
    0 <= j <= n_fatent (v_fs v0) - 2 -> j < n_fatent (v_fs v0) - 2 \/ scl = 1 ->
    vol_wf v1 -> reliable (v_disk v1) -> fat_eq v0 v1 ->
    (Z.to_nat (n_fatent (v_fs v0) - 1 - j) <= fuel)%nat ->
    exists v2 r,
      create_chain_scan fuel v1 scl (scan_pos (n_fatent (v_fs v0)) scl j) =
        Some (v2, r) /\
      vol_wf v2 /\ reliable (v_disk v2) /\ fat_eq v0 v2 /\
      (forall ncl, r = Found ncl ->
         2 <= ncl < n_fatent (v_fs v0) /\ fat_cell v0 ncl = 0).
Proof.
  pose proof (wf_geom _ Hwf0) as Hg.
  pose proof (n_fatent_bound _ Hg) as Hn.
  induction fuel as [| fuel IH]; intros j v1 Hj Hlast Hwf1 Hrel1 Heq1 Hfuel; [lia |].
  pose proof (frame_fields _ _ (proj1 Heq1)) as (_ & _ & _ & _ & F5 & _).
  cbn [create_chain_scan]. rewrite F5.
  destruct (Z.eq_dec j (n_fatent (v_fs v0) - 2)) as [E | E].
  - assert (Es : scl = 1) by lia. subst scl.
    unfold scan_pos.
    replace (1 + j <? n_fatent (v_fs v0)) with true by (symmetry; apply Z.ltb_lt; lia).
    rewrite u32_small by lia. rewrite Z.geb_leb.
    replace (n_fatent (v_fs v0) <=? 1 + j + 1) with true
      by (symmetry; apply Z.leb_le; lia).
    cbn. exists v1, (Quit 0).
    split; [reflexivity |]. split; [exact Hwf1 |]. split; [exact Hrel1 |].
    split; [exact Heq1 |]. intros ncl H. discriminate H.
  - destruct (scan_step (n_fatent (v_fs v0)) scl j Hscl ltac:(lia) ltac:(lia))
      as (Hquit & Hnext & Hrange & Hback).
    rewrite Hquit, Hnext.
    destruct (get_fat_ok v1 (scan_pos (n_fatent (v_fs v0)) scl (j + 1)) Hwf1 Hrel1
                ltac:(rewrite F5; exact Hrange))
      as (v2 & Hget & Hwf2 & Hrel2 & Heq2).
    rewrite Hget, (fat_cell_fat_eq v0 v1 _ Hg Heq1 Hrange).
    assert (Heq02 : fat_eq v0 v2) by (apply fat_eq_trans with v1; assumption).
    destruct (Z.eqb_spec (fat_cell v0 (scan_pos (n_fatent (v_fs v0)) scl (j + 1))) 0)
      as [Ez | Ez].
    { exists v2, (Found (scan_pos (n_fatent (v_fs v0)) scl (j + 1))).
      split; [reflexivity |]. split; [exact Hwf2 |]. split; [exact Hrel2 |].
      split; [exact Heq02 |]. intros ncl H. injection H as <-.
      split; [exact Hrange | exact Ez]. }
    destruct ((fat_cell v0 (scan_pos (n_fatent (v_fs v0)) scl (j + 1)) =? 1) ||
              (fat_cell v0 (scan_pos (n_fatent (v_fs v0)) scl (j + 1)) =? 4294967295)).
    { eexists v2, (Quit _).
      split; [reflexivity |]. split; [exact Hwf2 |]. split; [exact Hrel2 |].
      split; [exact Heq02 |]. intros ncl H. discriminate H. }
    destruct (Z.eqb_spec (scan_pos (n_fatent (v_fs v0)) scl (j + 1)) scl) as [Eb | Eb].
    + exists v2, (Quit 0).
      split; [reflexivity |]. split; [exact Hwf2 |]. split; [exact Hrel2 |].
      split; [exact Heq02 |]. intros ncl H. discriminate H.
    + apply IH; try assumption; try lia.
Qed.
End ScanTotal.

Lemma create_chain_total (fuel : nat) (v : Vol) (c : Z) :
  vol_wf v -> reliable (v_disk v) -> 0 <= last_clst (v_fs v) ->
  n_fatent (v_fs v) < Z.of_nat fuel ->
  exists v' r, create_chain fuel v c = Some (v', r).
Proof.
  intros Hwf Hrel Hlast Hfuel.
  pose proof (wf_geom _ Hwf) as Hg.
  pose proof (n_fatent_bound _ Hg) as Hn.
  assert (Hscan : forall w scl clst,
            vol_wf w -> reliable (v_disk w) -> fat_eq v w ->
            1 <= scl -> (2 <= n_fatent (v_fs v) -> scl < n_fatent (v_fs v)) ->
            (n_fatent (v_fs v) < 2 -> scl = 1) ->
            exists v' r,
              match create_chain_scan fuel w scl scl with
              | None => None
              | Some (w1, Quit st) => Some (w1, st)
              | Some (w1, Found ncl) => Some (create_chain_commit w1 clst ncl)
              end = Some (v', r)).
  { intros w scl clst Hw Hr He Hs1 Hs2 Hs3.
    pose proof (frame_fields _ _ (proj1 He)) as (_ & _ & _ & _ & F5 & _).
    destruct (Z_lt_le_dec (n_fatent (v_fs v)) 2) as [Hsmall | H2].
    - rewrite (Hs3 Hsmall). destruct fuel as [| k]; [lia |].
      cbn [create_chain_scan]. rewrite F5. change (u32 (1 + 1)) with 2.
      rewrite Z.geb_leb.
      replace (n_fatent (v_fs v) <=? 2) with true by (symmetry; apply Z.leb_le; lia).
      cbn. eexists _, _; reflexivity.
    - destruct (create_chain_scan_total v scl Hwf ltac:(lia) fuel 0 w ltac:(lia)
                  ltac:(specialize (Hs2 H2); lia) Hw Hr He ltac:(lia))
        as (v2 & r & Hrun & _).
      unfold scan_pos in Hrun. rewrite Z.add_0_r in Hrun.
      replace (scl <? n_fatent (v_fs v)) with true in Hrun
        by (symmetry; apply Z.ltb_lt; apply Hs2; exact H2).
      rewrite Hrun. destruct r as [ncl | st].
      + destruct (create_chain_commit v2 clst ncl) as [w2 x]. eexists _, _; reflexivity.
      + eexists _, _; reflexivity. }
  unfold create_chain.
  destruct (Z.eqb_spec c 0) as [Ec | Ec].
  - destruct (free_clst (v_fs v) =? 0); [eexists _, _; reflexivity |].
    apply Hscan; [exact Hwf | exact Hrel | apply fat_eq_refl | | |].
    + destruct (Z.eqb_spec (last_clst (v_fs v)) 0); cbn [orb]; [lia |].
      destruct (last_clst (v_fs v) >=? n_fatent (v_fs v)); lia.
    + intros H2. destruct (Z.eqb_spec (last_clst (v_fs v)) 0); cbn [orb]; [lia |].
      rewrite Z.geb_leb.
      destruct (Z.leb_spec (n_fatent (v_fs v)) (last_clst (v_fs v))); lia.
    + intros H2. destruct (Z.eqb_spec (last_clst (v_fs v)) 0); cbn [orb]; [lia |].
      rewrite Z.geb_leb.
      destruct (Z.leb_spec (n_fatent (v_fs v)) (last_clst (v_fs v))); lia.
  - destruct (Z_lt_le_dec c 2) as [Hc1 | Hc1];
      [| destruct (Z_lt_le_dec c (n_fatent (v_fs v))) as [Hc2 | Hc2]].
    + unfold get_fat.
      replace (c <? 2) with true by (symmetry; apply Z.ltb_lt; lia).
      cbn. eexists _, _; reflexivity.
    + destruct (get_fat_ok v c Hwf Hrel ltac:(lia)) as (v1 & Hget1 & Hwf1 & Hrel1 & Heq1).
      rewrite Hget1.
      destruct (fat_cell v c <? 2); [eexists _, _; reflexivity |].
      destruct (fat_cell v c =? 4294967295); [eexists _, _; reflexivity |].
      destruct (fat_cell v c <? n_fatent (v_fs v)); [eexists _, _; reflexivity |].
      destruct (free_clst (v_fs v1) =? 0); [eexists _, _; reflexivity |].
      cbv zeta.
      set (n1 := if u32 (c + 1) >=? n_fatent (v_fs v) then 2 else u32 (c + 1)).
      assert (Hn1 : 2 <= n1 < n_fatent (v_fs v)).
      { subst n1. rewrite u32_small by lia. rewrite Z.geb_leb.
        destruct (Z.leb_spec (n_fatent (v_fs v)) (c + 1)); lia. }
      pose proof (frame_fields _ _ (proj1 Heq1))
        as (_ & _ & _ & _ & F5 & _ & _ & _ & F9 & _).
      destruct (get_fat_ok v1 n1 Hwf1 Hrel1 ltac:(rewrite F5; exact Hn1))
        as (v2 & Hget2 & Hwf2 & Hrel2 & Heq2).
      rewrite Hget2.
      destruct ((fat_cell v1 n1 =? 1) || (fat_cell v1 n1 =? 4294967295));
        [eexists _, _; reflexivity |].
      pose proof (frame_fields _ _ (proj1 Heq2))
        as (_ & _ & _ & _ & G5 & _ & _ & _ & G9 & _).
      destruct (negb (fat_cell v1 n1 =? 0)).
      * apply Hscan; [exact Hwf2 | exact Hrel2 |
                      apply fat_eq_trans with v1; assumption | | | intros; lia].
        -- destruct ((last_clst (v_fs v2) >=? 2) && _) eqn:Ev; [| lia].
           apply andb_true_iff in Ev. destruct Ev as [Ev _].
           rewrite Z.geb_leb in Ev. apply Z.leb_le in Ev. lia.
        -- intros _. destruct ((last_clst (v_fs v2) >=? 2) && _) eqn:Ev; [| lia].
           apply andb_true_iff in Ev. destruct Ev as [_ Ev].
           apply Z.ltb_lt in Ev. exact Ev.
      * destruct (create_chain_commit v2 c n1) as [w2 x]. eexists _, _; reflexivity.
    + unfold get_fat. rewrite Z.geb_leb.
      replace (n_fatent (v_fs v) <=? c) with true by (symmetry; apply Z.leb_le; lia).
      rewrite orb_true_r. cbn. eexists _, _; reflexivity.
Qed.

(** X22.  create_chain and remove_chain keep the second FAT in step.  On a
    volume with two FATs whose second FAT repeats the first (apart from a
    changed sector still in the window) and whose drive works: (1)
    create_chain returns within n_fatent passes of its scan, whatever its
    argument and result; (2) remove_chain on a chain that ends returns FR_OK
    within one pass per cluster.  In both cases the second FAT still repeats
    the first in the volume left behind, and a sync_window then makes the two
    FATs the same on the medium, sector for sector. *)
Theorem chain_functions_keep_second_fat
  (fuel : nat) (v : Vol) (c pclst : Z) (rest : list Z) :
  vol_wf v -> reliable (v_disk v) -> bytes_ok v -> n_fats (v_fs v) = 2 ->
  fat_mirrored v -> 0 <= last_clst (v_fs v) -> 0 <= free_clst (v_fs v) ->
  (n_fatent (v_fs v) < Z.of_nat fuel ->
   exists v' r,
     create_chain fuel v c = Some (v', r) /\
     fat_mirrored v' /\ fat_copies_equal (fst (sync_window v'))) /\
  (chain_from v c rest -> (length rest < fuel)%nat ->
   pclst = 0 \/ (2 <= pclst < n_fatent (v_fs v) /\ ~ In pclst (c :: rest)) ->
   exists v',
     remove_chain fuel v c pclst = Some (v', FR_OK) /\
     fat_mirrored v' /\ fat_copies_equal (fst (sync_window v'))).
Proof.
  intros Hwf Hrel Hb H2 Hmir Hlast Hfree.
  pose proof (conj Hwf (conj Hrel (conj Hb (conj H2 Hmir)))) as Hinv.
  assert (Hend : forall v', fat_inv v' ->
            fat_mirrored v' /\ fat_copies_equal (fst (sync_window v'))).
  { intros v' Hinv'. split; [apply Hinv' |].
    destruct (sync_window_after_inv v' Hinv') as (v2 & Hsync & _ & _ & _ & Hcopies & _).
    rewrite Hsync. exact Hcopies. }
  split.
  - intros Hfuel.
    destruct (create_chain_total fuel v c Hwf Hrel Hlast Hfuel) as (v' & r & Hrun).
    exists v', r. split; [exact Hrun |].
    apply Hend. apply (create_chain_inv fuel v c v' r Hinv Hrun).
  - intros Hch Hfuel Hp.
    destruct (remove_chain_core fuel v c pclst rest Hwf Hrel Hb Hfree Hp Hch Hfuel)
      as (v' & Hrun & _).
    exists v'. split; [exact Hrun |].
    apply Hend. apply (remove_chain_inv fuel v c pclst v' FR_OK Hinv Hrun).
Qed.

Lemma chain_functions_keep_second_fat_witness :
  (exists v' r,
     create_chain 101 sample_vol32_two_fats 0 = Some (v', r) /\
     fat_mirrored v' /\ fat_copies_equal (fst (sync_window v'))) /\
  (exists v',
     remove_chain 101 sample_vol32_two_fats 2 0 = Some (v', FR_OK) /\
     fat_mirrored v' /\ fat_copies_equal (fst (sync_window v'))).
Proof.
  destruct sample_vol32_two_fats_inv as (Hwf & Hrel & Hb & H2 & Hmir).
  pose proof (chain_functions_keep_second_fat 101 sample_vol32_two_fats 0 0 []
                Hwf Hrel Hb H2 Hmir ltac:(cbn; lia) ltac:(cbn; lia)) as (H & _).
  pose proof (chain_functions_keep_second_fat 101 sample_vol32_two_fats 2 0 [3]
                Hwf Hrel Hb H2 Hmir ltac:(cbn; lia) ltac:(cbn; lia)) as (_ & H').
  split.
  - apply H. cbn. lia.
  - apply H'.
    + split; [cbn; lia |]. split; [vm_compute; reflexivity |].
      split; [cbn; lia |]. split; vm_compute; discriminate.
    + cbn. lia.
    + left. reflexivity.
Defined.


(** ** The start cluster in a directory entry: ld_clust, st_clust *)

Lemma lor_shiftl16 (a b : Z) :
  0 <= a -> 0 <= b < 65536 -> Z.lor b (Z.shiftl a 16) = a * 65536 + b.
Proof.
  intros Ha Hb.
  assert (Hland : Z.land (Z.shiftl a 16) b = 0).
  { apply Z.bits_inj'. intros n Hn.
    rewrite Z.land_spec, Z.bits_0.
    destruct (Z.ltb_spec n 16) as [Hlt | Hge].
    - rewrite Z.shiftl_spec_low by lia. reflexivity.
    - replace (Z.testbit b n) with false; [apply andb_false_r |].
      symmetry. destruct (Z.eq_dec b 0) as [-> | Hne]; [apply Z.bits_0 |].
      apply Z.bits_above_log2; [lia |].
      apply Z.log2_lt_pow2; [lia |].
      apply Z.lt_le_trans with (2 ^ 16); [simpl; lia |].
      apply Z.pow_le_mono_r; lia. }
  rewrite Z.lor_comm.
  rewrite <- Z.lxor_lor by exact Hland.
  rewrite <- Z.add_nocarry_lxor by exact Hland.
  rewrite Z.shiftl_mul_pow2 by lia. reflexivity.
Qed.

Lemma ld_word_range (b : list Z) (p : Z) : 0 <= ld_word b p < 65536.
Proof. unfold ld_word, u16. apply Z.mod_pos_bound. lia. Qed.

Lemma st_clust_length (fs : FATFS) (b : list Z) (dir cl : Z) :
  length (st_clust fs b dir cl) = length b.
Proof.
  unfold st_clust. destruct (fs_type fs =? FS_FAT32); rewrite !st_word_length; reflexivity.
Qed.

Lemma st_clust_other (fs : FATFS) (b : list Z) (dir cl j : Z) :
  0 <= dir -> 0 <= j -> j < dir + 20 \/ dir + 22 <= j < dir + 26 \/ dir + 28 <= j ->
  peek (st_clust fs b dir cl) j = peek b j.
Proof.
  intros Hd Hj Hout. unfold st_clust, DIR_FstClusLO, DIR_FstClusHI.
  destruct (fs_type fs =? FS_FAT32); rewrite !st_word_other by lia; reflexivity.
Qed.

Lemma ld_clust_ext (fs : FATFS) (b b' : list Z) (dir : Z) :
  (forall j, dir + 20 <= j < dir + 22 \/ dir + 26 <= j < dir + 28 -> peek b' j = peek b j) ->
  ld_clust fs b' dir = ld_clust fs b dir.
Proof.
  intros H. unfold ld_clust, ld_word, DIR_FstClusLO, DIR_FstClusHI.
  rewrite !H by lia. reflexivity.
Qed.

Lemma st_clust_ld_clust (fs : FATFS) (b : list Z) (dir cl : Z) :
  0 <= dir -> (Z.to_nat (dir + 27) < length b)%nat -> 0 <= cl < 4294967296 ->
  ld_clust fs (st_clust fs b dir cl) dir =
    (if fs_type fs =? FS_FAT32 then cl else cl mod 65536).
Proof.
  intros Hd Hlen Hcl. unfold ld_clust, st_clust, DIR_FstClusLO, DIR_FstClusHI.
  assert (Hlo : 0 <= u16 cl < 65536) by (unfold u16; apply Z.mod_pos_bound; lia).
  destruct (fs_type fs =? FS_FAT32).
  - rewrite ld_word_st_word_other by lia.
    rewrite ld_st_word by (try rewrite st_word_length; lia).
    rewrite ld_st_word;
      [| lia | rewrite st_word_length; lia | unfold u16; apply Z.mod_pos_bound; lia].
    rewrite Z.shiftr_div_pow2 by lia. change (2 ^ 16) with 65536.
    assert (Hhi : 0 <= cl / 65536 < 65536)
      by (split; [apply Z.div_pos; lia | apply Z.div_lt_upper_bound; lia]).
    unfold u16 at 2. rewrite (Z.mod_small (cl / 65536)) by lia.
    rewrite Z.shiftl_mul_pow2 by lia. change (2 ^ 16) with 65536.
    rewrite u32_small by lia.
    rewrite <- (Z.shiftl_mul_pow2 _ 16) by lia.
    rewrite lor_shiftl16 by lia. unfold u16.
    pose proof (Z.div_mod cl 65536 ltac:(lia)). lia.
  - rewrite ld_st_word by lia. reflexivity.
Qed.

(** X25.  st_clust followed by ld_clust on a directory entry that lies
    inside the buffer: on a FAT32 volume the 32-bit cluster number is read
    back whole; on a FAT12 or FAT16 volume only its low 16 bits are stored
    and read back.  The buffer keeps its length and the bytes of the entry
    other than the two halves of the cluster number are untouched. *)
Theorem st_clust_ld_clust_roundtrip (fs : FATFS) (b : list Z) (dir cl : Z) :
  0 <= dir -> (Z.to_nat (dir + 27) < length b)%nat -> 0 <= cl < 4294967296 ->
  ld_clust fs (st_clust fs b dir cl) dir =
    (if fs_type fs =? FS_FAT32 then cl else cl mod 65536) /\
  length (st_clust fs b dir cl) = length b /\
  (forall j, 0 <= j ->
     j < dir + 20 \/ dir + 22 <= j < dir + 26 \/ dir + 28 <= j ->
     peek (st_clust fs b dir cl) j = peek b j).
Proof.
  intros Hd Hlen Hcl.
  split; [apply st_clust_ld_clust; assumption |].
  split; [apply st_clust_length |].
  intros j Hj Hout. apply st_clust_other; assumption.
Qed.

Lemma st_clust_ld_clust_roundtrip_witness :
  ld_clust (sample_fs32 3 96) (st_clust (sample_fs32 3 96) blank_sector 64 0x12345) 64
    = 0x12345 /\
  ld_clust (v_fs sample_vol12) (st_clust (v_fs sample_vol12) blank_sector 64 0x12345) 64
    = 0x2345.
Proof.
  split.
  - exact (proj1 (st_clust_ld_clust_roundtrip (sample_fs32 3 96) blank_sector 64 0x12345
                    ltac:(lia) ltac:(vm_compute; lia) ltac:(lia))).
  - exact (proj1 (st_clust_ld_clust_roundtrip (v_fs sample_vol12) blank_sector 64 0x12345
                    ltac:(lia) ltac:(vm_compute; lia) ltac:(lia))).
Defined.

(** ** f_sync *)

Lemma has_clear_same (x bit : Z) :
  Z.land (u8 (Z.lnot bit)) bit = 0 -> has (clear_bit x bit) bit = false.
Proof.
  intros H. unfold has, clear_bit. rewrite <- Z.land_assoc, H, Z.land_0_r. reflexivity.
Qed.

Lemma has_clear_other (x bit bit' : Z) :
  Z.land (u8 (Z.lnot bit)) bit' = bit' -> has (clear_bit x bit) bit' = has x bit'.
Proof. intros H. unfold clear_bit. apply has_masked. exact H. Qed.

Lemma has_set_arc (old : Z) : has (u8 (Z.lor old AM_ARC)) AM_ARC = true.
Proof.
  unfold has, u8, AM_ARC. change 256 with (2 ^ 8).
  rewrite <- Z.land_ones by lia. rewrite <- Z.land_assoc.
  change (Z.land (Z.ones 8) 32) with 32.
  rewrite Z.land_lor_distr_l. change (Z.land 32 32) with 32.
  assert (H : Z.lor (Z.land old 32) 32 = 32).
  { apply Z.bits_inj'. intros n Hn.
    rewrite Z.lor_spec, Z.land_spec.
    destruct (Z.testbit old n), (Z.testbit 32 n); reflexivity. }
  rewrite H. reflexivity.
Qed.

Lemma ld_dword_st_word_other (b : list Z) (p p' x : Z) :
  0 <= p -> 0 <= p' -> p' + 4 <= p \/ p + 2 <= p' ->
  ld_dword (st_word b p x) p' = ld_dword b p'.
Proof.
  intros Hp Hp' Hout. unfold ld_dword.
  rewrite !(st_word_other b p x) by lia. reflexivity.
Qed.

(** The directory entry as f_sync leaves it in the window. *)
Lemma f_sync_entry (fs : FATFS) (env : Env) (fp : FIL) (w : list Z) :
  0 <= dir_ptr fp -> (Z.to_nat (dir_ptr fp + 31) < length w)%nat ->
  0 <= obj_sclust fp < 4294967296 ->
  let dir := dir_ptr fp in
  let b := poke w (dir + DIR_Attr) (u8 (Z.lor (peek w (dir + DIR_Attr)) AM_ARC)) in
  let b := st_clust fs b dir (obj_sclust fp) in
  let b := st_dword b (dir + DIR_FileSize) (u32 (obj_objsize fp)) in
  let b := match time_status env with
           | SYSTEM_TIME_ENABLE => st_dword b (dir + DIR_ModTime) (e_fattime env)
           | SYSTEM_TIME_DISABLE => st_dword b (dir + DIR_ModTime) 0
           | SYSTEM_TIME_OTHER => b
           end in
  let b := st_word b (dir + DIR_LstAccDate) 0 in
  length b = length w /\
  ld_dword b (dir + DIR_FileSize) = u32 (obj_objsize fp) /\
  ld_clust fs b dir =
    (if fs_type fs =? FS_FAT32 then obj_sclust fp else obj_sclust fp mod 65536) /\
  has (peek b (dir + DIR_Attr)) AM_ARC = true.
Proof.
  intros Hd Hlen Hcl. cbv zeta.
  unfold DIR_Attr, DIR_FileSize, DIR_ModTime, DIR_LstAccDate.
  set (dir := dir_ptr fp) in *.
  set (b1 := poke w (dir + 11) _).
  set (b2 := st_clust fs b1 dir (obj_sclust fp)).
  set (b3 := st_dword b2 (dir + 28) (u32 (obj_objsize fp))).
  set (b4 := match time_status env with
             | SYSTEM_TIME_ENABLE => st_dword b3 (dir + 22) (e_fattime env)
             | SYSTEM_TIME_DISABLE => st_dword b3 (dir + 22) 0
             | SYSTEM_TIME_OTHER => b3
             end).
  assert (L1 : length b1 = length w) by apply poke_length.
  assert (L2 : length b2 = length w) by (unfold b2; rewrite st_clust_length; exact L1).
  assert (L3 : length b3 = length w) by (unfold b3; rewrite st_dword_length; exact L2).
  assert (L4 : length b4 = length w)
    by (unfold b4; destruct (time_status env); rewrite ?st_dword_length; exact L3).
  assert (P4 : forall j, 0 <= j -> j < dir + 22 \/ dir + 26 <= j -> peek b4 j = peek b3 j).
  { intros j Hj Hout. unfold b4.
    destruct (time_status env); rewrite ?st_dword_other by lia; reflexivity. }
  split; [rewrite st_word_length; exact L4 |].
  split; [| split].
  - rewrite ld_dword_st_word_other by lia.
    transitivity (ld_dword b3 (dir + 28)).
    + unfold ld_dword. rewrite !P4 by lia. reflexivity.
    + unfold b3. apply ld_st_dword; [lia | rewrite L2; lia | apply u32_range].
  - transitivity (ld_clust fs b2 dir).
    + apply ld_clust_ext. intros j Hj.
      rewrite st_word_other by lia. rewrite P4 by lia.
      unfold b3. apply st_dword_other; lia.
    + unfold b2. apply st_clust_ld_clust; [lia | rewrite L1; lia | exact Hcl].
  - rewrite st_word_other by lia. rewrite P4 by lia.
    unfold b3. rewrite st_dword_other by lia.
    unfold b2. rewrite st_clust_other by lia.
    unfold b1. rewrite peek_poke_eq by lia. apply has_set_arc.
Qed.

Lemma disk_write_keeps (d : Disk) (ss : Z) (b : list Z) (s : Z) :
  d_sync_bad (fst (disk_write d ss b s 1)) = d_sync_bad d /\
  d_rd_bad (fst (disk_write d ss b s 1)) = d_rd_bad d /\
  d_wr_bad (fst (disk_write d ss b s 1)) = d_wr_bad d /\
  forall x, x <> s -> d_sec (fst (disk_write d ss b s 1)) x = d_sec d x.
Proof.
  unfold disk_write. change (Z.to_nat 1) with 1%nat. cbn [any_bad scatter].
  destruct (d_wr_bad d s || false); cbn.
  - repeat split; reflexivity.
  - split; [reflexivity |]. split; [reflexivity |]. split; [reflexivity |].
    intros x Hx. replace (x =? s) with false by (symmetry; apply Z.eqb_neq; exact Hx).
    reflexivity.
Qed.

Lemma sync_window_syncbad (v : Vol) :
  d_sync_bad (v_disk (fst (sync_window v))) = d_sync_bad (v_disk v).
Proof.
  unfold sync_window.
  destruct (nz (wflag (v_fs v))); [| reflexivity].
  pose proof (disk_write_keeps (v_disk v) (SS (v_fs v)) (win (v_fs v))
                (winsect (v_fs v))) as (K1 & _).
  destruct (disk_write _ _ _ _ _) as [d ok]. cbn [fst] in K1.
  destruct ok; [| exact K1].
  destruct (_ <? _); [| exact K1].
  destruct (_ =? _); [| exact K1].
  match goal with
  | |- context [disk_write d ?ss ?b ?s 1] =>
      pose proof (disk_write_keeps d ss b s) as (K2 & _);
      destruct (disk_write d ss b s 1) as [d' ok']
  end.
  cbn [fst] in *. cbn. congruence.
Qed.

Lemma move_window_syncbad (v : Vol) (s : Z) :
  d_sync_bad (v_disk (fst (move_window v s))) = d_sync_bad (v_disk v).
Proof.
  unfold move_window.
  destruct (negb (s =? winsect (v_fs v))); [| reflexivity].
  pose proof (sync_window_syncbad v) as H.
  destruct (sync_window v) as [v1 r]. cbn [fst] in H.
  destruct (is_ok r); [| exact H].
  unfold disk_read. destruct (any_bad _ _ _); cbn; exact H.
Qed.

(** f_sync from the update of the directory entry on. *)
Lemma f_sync_tail (env : Env) (v : Vol) (fp : FIL) :
  vol_wf v -> reliable (v_disk v) ->
  0 <= dir_sect fp < 4294967296 -> dir_sect fp <> u32 (volbase (v_fs v) + 1) ->
  0 <= dir_ptr fp -> dir_ptr fp + 32 <= SS (v_fs v) ->
  0 <= obj_sclust fp < 4294967296 ->
  exists v',
    (let tm := e_fattime env in
     let '(v, res) := move_window v (dir_sect fp) in
     if is_ok res then
       let fs := v_fs v in
       let dir := dir_ptr fp in
       let b := win fs in
       let b := poke b (dir + DIR_Attr) (u8 (Z.lor (peek b (dir + DIR_Attr)) AM_ARC)) in
       let b := st_clust fs b dir (obj_sclust fp) in
       let b := st_dword b (dir + DIR_FileSize) (u32 (obj_objsize fp)) in
       let b := match time_status env with
                | SYSTEM_TIME_ENABLE => st_dword b (dir + DIR_ModTime) tm
                | SYSTEM_TIME_DISABLE => st_dword b (dir + DIR_ModTime) 0
                | SYSTEM_TIME_OTHER => b
                end in
       let b := st_word b (dir + DIR_LstAccDate) 0 in
       let v := vol_set_win v b in
       let '(v, res) := sync_fs v in
       (v, set_flag fp (clear_bit (flag fp) FA_MODIFIED), res)
     else (v, fp, res)) =
    (v', set_flag fp (clear_bit (flag fp) FA_MODIFIED),
     if d_sync_bad (v_disk v) then FR_DISK_ERR else FR_OK) /\
    ld_dword (d_sec (v_disk v') (dir_sect fp)) (dir_ptr fp + DIR_FileSize) =
      u32 (obj_objsize fp) /\
    ld_clust (v_fs v) (d_sec (v_disk v') (dir_sect fp)) (dir_ptr fp) =
      (if fs_type (v_fs v) =? FS_FAT32 then obj_sclust fp
       else obj_sclust fp mod 65536) /\
    has (peek (d_sec (v_disk v') (dir_sect fp)) (dir_ptr fp + DIR_Attr)) AM_ARC = true.
Proof.
  intros Hwf Hrel Hds Hfsi Hdp Hfit Hcl. cbv zeta.
  destruct (move_window_ok v (dir_sect fp) Hwf Hrel Hds)
    as (v2 & Hmv & Hwf2 & Hrel2 & Heq2 & Hws2 & _).
  pose proof (move_window_syncbad v (dir_sect fp)) as Hsb2.
  rewrite Hmv in Hsb2 |- *. cbn [fst] in Hsb2. cbn [is_ok FRESULT_eqb].
  pose proof (frame_fields _ _ (proj1 Heq2))
    as (F1 & _ & _ & F4 & _ & _ & _ & _ & _ & _ & _ & _ & F13 & _).
  assert (ESS : SS (v_fs v2) = SS (v_fs v)) by (unfold SS; exact F4).
  pose proof (f_sync_entry (v_fs v2) env fp (win (v_fs v2)) Hdp
                ltac:(rewrite (wf_win _ Hwf2), ESS; lia) Hcl) as Hentry.
  cbv zeta in Hentry.
  set (b := st_word _ (dir_ptr fp + DIR_LstAccDate) 0) in *.
  destruct Hentry as (Lb & E1 & E2 & E3).
  assert (Hwf3 : vol_wf (vol_set_win v2 b)) by (apply vol_set_win_wf; assumption).
  unfold sync_fs.
  destruct (sync_window_dirty_core (vol_set_win v2 b) Hwf3 ltac:(discriminate)
              (proj2 Hrel2 _))
    as (v4 & Hsync & Hflag4 & Hwin4 & Hws4 & Hsec4 & _ & _).
  pose proof (sync_window_syncbad (vol_set_win v2 b)) as Hsb4.
  pose proof (sync_window_sizes (vol_set_win v2 b)) as (Hsz4 & _).
  destruct (sync_window_ok (vol_set_win v2 b) Hwf3 Hrel2) as (w4 & Hw4 & _ & _ & Heq4 & _).
  rewrite Hsync in Hsb4, Hsz4, Hw4 |- *. injection Hw4 as <-.
  cbn [fst] in Hsb4, Hsz4. cbn [is_ok FRESULT_eqb].
  pose proof (frame_fields _ _ (proj1 Heq4))
    as (_ & _ & _ & _ & _ & _ & _ & _ & _ & _ & _ & _ & G13 & _).
  cbn [vol_set_win v_fs v_disk set_wflag set_win winsect volbase] in Hws4, Hsec4, Hsb4, G13.
  rewrite Hws2 in Hsec4.
  destruct ((fs_type (v_fs v4) =? FS_FAT32) && (fsi_flag (v_fs v4) =? 1)).
  - match goal with
    | |- context [disk_write ?d ?ss ?bb ?s 1] =>
        pose proof (disk_write_keeps d ss bb s) as (K1 & _ & _ & K4);
        destruct (disk_write d ss bb s 1) as [d5 ok5]
    end.
    cbn [fst] in K1, K4. cbn [v_fs v_disk winsect set_winsect set_win set_fsi_flag] in K4.
    unfold disk_sync. cbn [v_disk d_sync_bad d_note].
    eexists. split.
    { rewrite K1, Hsb4, Hsb2. destruct (d_sync_bad (v_disk v)); reflexivity. }
    cbn [v_disk d_note d_sec].
    rewrite K4 by (rewrite G13, F13; exact Hfsi).
    rewrite Hsec4. split; [exact E1 |]. split; [| exact E3].
    unfold ld_clust in E2 |- *. rewrite <- F1. exact E2.
  - unfold disk_sync. cbn [v_disk d_sync_bad d_note].
    eexists. split.
    { rewrite Hsb4, Hsb2. destruct (d_sync_bad (v_disk v)); reflexivity. }
    cbn [v_disk d_note d_sec].
    rewrite Hsec4. split; [exact E1 |]. split; [| exact E3].
    unfold ld_clust in E2 |- *. rewrite <- F1. exact E2.
Qed.

(** X26.  f_sync makes the size and the start cluster of a changed file
    durable.  For a valid file object with FA_MODIFIED set, on a well-formed
    volume whose drive works, with the directory entry inside its sector and
    that sector not the FSINFO sector: f_sync returns FR_OK (FR_DISK_ERR when
    only the final CTRL_SYNC fails), FA_MODIFIED and FA_DIRTY are then clear,
    and the sector of the directory entry on the medium holds the file size
    at DIR_FileSize, the start cluster (its low 16 bits on FAT12/16) as
    ld_clust reads it, and the archive attribute. *)
Theorem f_sync_stores_size_and_start_cluster (env : Env) (v : Vol) (fp : FIL) :
  vol_wf v -> reliable (v_disk v) ->
  validate (v_fs v) fp = FR_OK -> has (flag fp) FA_MODIFIED = true ->
  (has (flag fp) FA_DIRTY = true ->
   length (buf fp) = Z.to_nat (SS (v_fs v)) /\ ~ in_fat1 (v_fs v) (sect fp)) ->
  0 <= dir_sect fp < 4294967296 -> dir_sect fp <> u32 (volbase (v_fs v) + 1) ->
  0 <= dir_ptr fp -> dir_ptr fp + 32 <= SS (v_fs v) ->
  0 <= obj_sclust fp < 4294967296 ->
  exists v' fp',
    f_sync env v fp =
      (v', fp', if d_sync_bad (v_disk v) then FR_DISK_ERR else FR_OK) /\
    has (flag fp') FA_MODIFIED = false /\ has (flag fp') FA_DIRTY = false /\
    ld_dword (d_sec (v_disk v') (dir_sect fp)) (dir_ptr fp + DIR_FileSize) =
      u32 (obj_objsize fp) /\
    ld_clust (v_fs v) (d_sec (v_disk v') (dir_sect fp)) (dir_ptr fp) =
      (if fs_type (v_fs v) =? FS_FAT32 then obj_sclust fp
       else obj_sclust fp mod 65536) /\
    has (peek (d_sec (v_disk v') (dir_sect fp)) (dir_ptr fp + DIR_Attr)) AM_ARC = true.
Proof.
  intros Hwf Hrel Hval Hmod Hdirty Hds Hfsi Hdp Hfit Hcl.
  unfold f_sync. rewrite Hval, Hmod. cbn [is_ok FRESULT_eqb andb].
  destruct (has (flag fp) FA_DIRTY) eqn:Hd.
  - destruct (Hdirty eq_refl) as (Hlen & Hout).
    rewrite (disk_write_one _ _ _ _ (proj2 Hrel) Hlen). cbn [negb].
    set (v1 := mkVol (v_fs v) _).
    set (fp1 := set_flag fp (clear_bit (flag fp) FA_DIRTY)).
    assert (Hwf1 : vol_wf v1).
    { constructor; cbn.
      - apply (wf_geom _ Hwf).
      - apply (wf_win _ Hwf).
      - intros s. destruct (s =? sect fp); [exact Hlen | apply (wf_sec _ Hwf)].
      - apply (wf_winsect _ Hwf).
      - intros Hflag Hin.
        replace (winsect (v_fs v) =? sect fp) with false.
        + apply (wf_clean _ Hwf); assumption.
        + symmetry. apply Z.eqb_neq. intros E. apply Hout. rewrite <- E. exact Hin. }
    assert (Hrel1 : reliable (v_disk v1)) by (split; intros s; apply Hrel).
    destruct (f_sync_tail env v1 fp1 Hwf1 Hrel1 Hds Hfsi Hdp Hfit Hcl)
      as (v' & Hrun & E1 & E2 & E3).
    exists v', (set_flag fp1 (clear_bit (flag fp1) FA_MODIFIED)).
    split; [exact Hrun |].
    split; [apply has_clear_same; reflexivity |].
    split; [| split; [exact E1 | split; [exact E2 | exact E3]]].
    cbn. rewrite has_clear_other by reflexivity. apply has_clear_same. reflexivity.
  - cbn [negb].
    destruct (f_sync_tail env v fp Hwf Hrel Hds Hfsi Hdp Hfit Hcl)
      as (v' & Hrun & E1 & E2 & E3).
    exists v', (set_flag fp (clear_bit (flag fp) FA_MODIFIED)).
    split; [exact Hrun |].
    split; [apply has_clear_same; reflexivity |].
    split; [| split; [exact E1 | split; [exact E2 | exact E3]]].
    cbn. rewrite has_clear_other by reflexivity. exact Hd.
Qed.

Lemma f_sync_stores_size_and_start_cluster_witness :
  exists v' fp',
    f_sync sample_env sample_vol32 sample_fil_modified = (v', fp', FR_OK) /\
    has (flag fp') FA_MODIFIED = false /\ has (flag fp') FA_DIRTY = false /\
    ld_dword (d_sec (v_disk v') 40) (64 + DIR_FileSize) = 1500 /\
    ld_clust (v_fs sample_vol32) (d_sec (v_disk v') 40) 64 = 2 /\
    has (peek (d_sec (v_disk v') 40) (64 + DIR_Attr)) AM_ARC = true.
Proof.
  exact (f_sync_stores_size_and_start_cluster sample_env sample_vol32 sample_fil_modified
           sample_vol32_wf (sample_disk_reliable sample_fat32)
           ltac:(reflexivity) ltac:(reflexivity)
           ltac:(intros H; discriminate H)
           ltac:(cbn; lia) ltac:(vm_compute; discriminate)
           ltac:(cbn; lia) ltac:(vm_compute; discriminate)
           ltac:(cbn; lia)).
Defined.

(** ** f_close *)

Lemma f_sync_keeps_identity (env : Env) (v : Vol) (fp : FIL) :
  obj_fs (snd (fst (f_sync env v fp))) = obj_fs fp /\
  obj_id (snd (fst (f_sync env v fp))) = obj_id fp /\
  obj_lockid (snd (fst (f_sync env v fp))) = obj_lockid fp.
Proof.
  unfold f_sync.
  destruct (is_ok (validate (v_fs v) fp) && has (flag fp) FA_MODIFIED);
    [| repeat split; reflexivity].
  destruct (has (flag fp) FA_DIRTY).
  - destruct (disk_write _ _ _ _ _) as [d ok]. destruct ok; cbn [negb];
      [| repeat split; reflexivity].
    cbv zeta. destruct (move_window _ _) as [v2 r2].
    destruct (is_ok r2); [| repeat split; reflexivity].
    destruct (sync_fs _) as [v3 r3]. repeat split; reflexivity.
  - cbn [negb]. cbv zeta. destruct (move_window _ _) as [v2 r2].
    destruct (is_ok r2); [| repeat split; reflexivity].
    destruct (sync_fs _) as [v3 r3]. repeat split; reflexivity.
Qed.

(** X27.  A file object is dead after a successful f_close.  When f_close
    returns FR_OK, the object's volume pointer is null, its entry in the
    open-file registry has been given back through dec_share, and every
    later f_read, f_write, f_sync or f_close on the object returns
    FR_INVALID_OBJECT without touching the volume, the registry or the
    caller's buffer. *)
Theorem f_close_invalidates_object (env : Env) (v : Vol) (files : list FILESEM)
  (fp : FIL) (v' : Vol) (files' : list FILESEM) (fp' : FIL) :
  f_close env v files fp = (v', files', fp', FR_OK) ->
  obj_fs fp' = 0 /\
  dec_share files (obj_lockid fp) = (files', FR_OK) /\
  (forall fuel env' w usr n,
     f_read fuel env' w fp' usr n = Some (mkXfer w fp' usr 0, FR_INVALID_OBJECT) /\
     f_write fuel env' w fp' usr n = Some (mkXfer w fp' usr 0, FR_INVALID_OBJECT)) /\
  (forall env' w, f_sync env' w fp' = (w, fp', FR_INVALID_OBJECT)) /\
  (forall env' w fl, f_close env' w fl fp' = (w, fl, fp', FR_INVALID_OBJECT)).
Proof.
  intros Hrun. unfold f_close in Hrun.
  pose proof (f_sync_keeps_identity env v fp) as (_ & _ & Klock).
  destruct (f_sync env v fp) as [[v1 fp1] r1]. cbn [fst snd] in Klock.
  destruct (is_ok r1 || FRESULT_eqb r1 FR_DISK_ERR) eqn:Hgo.
  2:{ injection Hrun as _ _ _ E. subst r1. discriminate Hgo. }
  destruct (is_ok (validate (v_fs v1) fp1)) eqn:Hval.
  2:{ injection Hrun as _ _ _ E. rewrite E in Hval. discriminate Hval. }
  rewrite Klock in Hrun.
  destruct (dec_share files (obj_lockid fp)) as [files1 r2] eqn:Hdec.
  injection Hrun as <- <- Efp Er. subst r2. cbn [is_ok FRESULT_eqb] in Efp. subst fp'.
  assert (Hinv : forall fs, validate fs (set_obj_fs fp1 0) = FR_INVALID_OBJECT)
    by (intros fs; reflexivity).
  split; [reflexivity |]. split; [reflexivity |].
  split; [| split].
  - intros fuel env' w usr n. unfold f_read, f_write. rewrite Hinv. split; reflexivity.
  - intros env' w. unfold f_sync. rewrite Hinv. reflexivity.
  - intros env' w fl. unfold f_close, f_sync. rewrite Hinv. reflexivity.
Qed.

Lemma f_close_invalidates_object_witness :
  exists v' files' fp',
    f_close sample_env sample_vol32 sample_files (sample_fil FA_READ) =
      (v', files', fp', FR_OK) /\
    obj_fs fp' = 0 /\
    f_sync sample_env v' fp' = (v', fp', FR_INVALID_OBJECT).
Proof.
  eexists _, _, _. split; [vm_compute; reflexivity |].
  destruct (f_close_invalidates_object sample_env sample_vol32 sample_files
              (sample_fil FA_READ) _ _ _ ltac:(vm_compute; reflexivity))
    as (H1 & _ & _ & H4 & _).
  split; [exact H1 | apply H4].
Defined.


(** ** The geometry set up by init_fatobj *)

Lemma sync_window_frame (v : Vol) : frame (v_fs (fst (sync_window v))) = frame (v_fs v).
Proof.
  unfold sync_window.
  destruct (nz (wflag (v_fs v))); [| reflexivity].
  destruct (disk_write _ _ _ _ _) as [d ok].
  destruct ok; [| reflexivity].
  destruct (_ <? _); [| reflexivity].
  destruct (_ =? _); [| reflexivity].
  destruct (disk_write _ _ _ _ _) as [d' ok']. reflexivity.
Qed.

Lemma move_window_frame (v : Vol) (s : Z) :
  frame (v_fs (fst (move_window v s))) = frame (v_fs v).
Proof.
  unfold move_window.
  destruct (negb (s =? winsect (v_fs v))); [| reflexivity].
  pose proof (sync_window_frame v) as H.
  destruct (sync_window v) as [v1 r]. cbn [fst] in H.
  destruct (is_ok r); [| exact H].
  destruct (disk_read _ _ _) as [d [b |]]; cbn [fst v_fs]; rewrite <- H; reflexivity.
Qed.

Lemma ceil_div_le (a b s : Z) : 0 < s -> 0 <= a -> (a + (s - 1)) / s <= b -> a <= b * s.
Proof.
  intros Hs Ha H.
  assert (a <= (a + (s - 1)) / s * s).
  { pose proof (Z.div_mod (a + (s - 1)) s ltac:(lia)).
    pose proof (Z.mod_pos_bound (a + (s - 1)) s Hs). nia. }
  nia.
Qed.

Lemma power_of_two_test_pos (x : Z) : x <> 0 -> Z.land x (x - 1) = 0 -> 0 < x.
Proof.
  intros Hx Hl. destruct (Z_lt_le_dec x 0) as [Hneg | Hpos]; [| lia].
  assert (H : Z.land x (x - 1) < 0) by (apply Z.land_neg; lia). lia.
Qed.

Lemma geo_frame (a b : FATFS) :
  frame a = frame b ->
  frame (set_free_clst (set_last_clst (set_fsi_flag a 0) 0) 0) =
  frame (set_free_clst (set_last_clst (set_fsi_flag b 0) 0) 0).
Proof.
  destruct a, b. unfold frame, set_wflag, set_winsect, set_win. cbn.
  intros H. injection H. intros. subst. reflexivity.
Qed.

Lemma bpb_ranges (w : list Z) :
  0 <= bpb_fatsz w < 4294967296 /\ 0 <= bpb_totsec w < 4294967296.
Proof.
  unfold bpb_fatsz, bpb_totsec.
  pose proof (ld_word_range w BPB_FATSz16). pose proof (ld_dword_range w BPB_FATSz32).
  pose proof (ld_word_range w BPB_TotSec16). pose proof (ld_dword_range w BPB_TotSec32).
  destruct (_ =? 0); destruct (_ =? 0); lia.
Qed.

(** X28.  The geometry a successful init_fatobj leaves in the filesystem
    object, for a boot sector whose system area (reserved sectors, FATs, root
    directory) and whose volume fit the 32-bit sector range: the FAT type is
    FAT12, FAT16 or FAT32; n_fatent is at least 3 and below the number of
    values a cell of that type can hold; the cluster size is a power of two;
    there are one or two FATs; the volume starts at start_sector, the FATs
    lie behind it and end before the data area, the clusters of the data area
    end inside the volume, and one FAT is large enough to hold n_fatent
    cells.  With two FATs and a sector size that is a multiple of 4 this is
    the geometry that the properties of the FAT functions assume
    (geom_ok). *)
Theorem init_fatobj_geometry (lim : Limits) (v : Vol) (s : Z) (v' : Vol) :
  MAX_FAT12 lim = 4084 -> MAX_FAT16 lim = 65524 -> MAX_FAT32 lim <= 0x0FFFFFF5 ->
  32 <= SS (v_fs v) -> 0 <= s ->
  bpb_sysect (SS (v_fs v)) (win (v_fs v)) < 4294967296 ->
  s + bpb_totsec (win (v_fs v)) <= 4294967296 ->
  init_fatobj lim v s = (v', FR_OK) ->
  (fs_type (v_fs v') = FS_FAT12 \/ fs_type (v_fs v') = FS_FAT16 \/
   fs_type (v_fs v') = FS_FAT32) /\
  3 <= n_fatent (v_fs v') < cell_limit (v_fs v') /\
  0 < csize (v_fs v') /\ Z.land (csize (v_fs v')) (csize (v_fs v') - 1) = 0 /\
  (n_fats (v_fs v') = 1 \/ n_fats (v_fs v') = 2) /\
  SS (v_fs v') = SS (v_fs v) /\
  volbase (v_fs v') = s /\ volbase (v_fs v') < fatbase (v_fs v') /\
  fatbase (v_fs v') + n_fats (v_fs v') * fsize (v_fs v') <= database (v_fs v') /\
  database (v_fs v') + csize (v_fs v') * (n_fatent (v_fs v') - 2) <=
    s + bpb_totsec (win (v_fs v)) /\
  szbfat (v_fs v') <= fsize (v_fs v') * SS (v_fs v') /\
  (n_fats (v_fs v') = 2 -> SS (v_fs v) mod 4 = 0 -> geom_ok (v_fs v') = true).
Proof.
  intros H12 H16 H32 Hss Hs Hnowrap Hvol Hrun.
  unfold init_fatobj in Hrun. cbv zeta in Hrun.
  set (w := win (v_fs v)) in *.
  change (if ld_word w BPB_FATSz16 =? 0 then ld_dword w BPB_FATSz32
          else ld_word w BPB_FATSz16) with (bpb_fatsz w) in Hrun.
  change (if ld_word w BPB_TotSec16 =? 0 then ld_dword w BPB_TotSec32
          else ld_word w BPB_TotSec16) with (bpb_totsec w) in Hrun.
  cbn [n_fats csize n_rootdir set_fsize set_n_fats set_csize set_n_rootdir
       SS ssize fsize] in Hrun.
  unfold bpb_sysect, SS in *. fold w in Hnowrap.
  pose proof (bpb_ranges w) as (Rfz & Rts).
  pose proof (ld_word_range w BPB_RootEntCnt) as Rrde.
  pose proof (ld_word_range w BPB_RsvdSecCnt) as Rrsv.
  pose proof (ld_word_range w BPB_BytsPerSec) as Rbps.
  set (nf := peek w BPB_NumFATs) in *.
  set (spc := peek w BPB_SecPerClus) in *.
  set (rde := ld_word w BPB_RootEntCnt) in *.
  set (nrsv := ld_word w BPB_RsvdSecCnt) in *.
  set (fz := bpb_fatsz w) in *.
  set (ts := bpb_totsec w) in *.
  set (ss := ssize (v_fs v)) in *.
  assert (Hdiv : 0 < ss / SZDIRE).
  { unfold SZDIRE. apply Z.div_str_pos. lia. }
  set (rs := rde / (ss / SZDIRE)) in *.
  assert (Hrs : 0 <= rs) by (apply Z.div_pos; lia).
  destruct (negb (ld_word w BPB_BytsPerSec =? ss)) eqn:Ebps;
    [injection Hrun as _ E; discriminate E |].
  apply negb_false_iff, Z.eqb_eq in Ebps.
  destruct (negb (nf =? 1) && negb (nf =? 2)) eqn:Enf;
    [injection Hrun as _ E; discriminate E |].
  assert (Hnf : nf = 1 \/ nf = 2).
  { destruct (Z.eqb_spec nf 1); [left; assumption |].
    destruct (Z.eqb_spec nf 2); [right; assumption | discriminate Enf]. }
  destruct ((spc =? 0) || nz (Z.land spc (spc - 1))) eqn:Espc;
    [injection Hrun as _ E; discriminate E |].
  apply orb_false_iff in Espc. destruct Espc as (Espc0 & Espc1).
  apply Z.eqb_neq in Espc0. unfold nz in Espc1.
  apply negb_false_iff, Z.eqb_eq in Espc1.
  pose proof (power_of_two_test_pos spc Espc0 Espc1) as Hspc.
  destruct (nz (rde mod (ss / SZDIRE))); [injection Hrun as _ E; discriminate E |].
  destruct (Z.eqb_spec nrsv 0) as [| Hnrsv]; [injection Hrun as _ E; discriminate E |].
  assert (Hfa : u32 (fz * nf) = fz * nf) by (apply u32_small; nia).
  rewrite Hfa in Hrun.
  set (sys := nrsv + fz * nf + rs) in *.
  rewrite (u32_small sys) in Hrun by (unfold sys; nia).
  destruct (Z.ltb_spec ts sys) as [| Hts]; [injection Hrun as _ E; discriminate E |].
  rewrite (u32_small (ts - sys)) in Hrun by lia.
  set (nclst := (ts - sys) / spc) in *.
  assert (Hn0 : 0 <= nclst) by (apply Z.div_pos; lia).
  assert (Hnm : spc * nclst <= ts - sys) by (apply Z.mul_div_le; lia).
  destruct (Z.eqb_spec nclst 0) as [| Hn1]; [injection Hrun as _ E; discriminate E |].
  pose proof (fat_subtype_cases lim nclst) as Hfmt. rewrite H12, H16 in Hfmt.
  set (fmt := fat_subtype lim nclst) in *.
  destruct (Z.eqb_spec fmt 0) as [| Hf0]; [injection Hrun as _ E; discriminate E |].
  assert (Hty : (fmt = FS_FAT12 /\ nclst <= 4084) \/
                (fmt = FS_FAT16 /\ nclst <= 65524) \/
                (fmt = FS_FAT32 /\ nclst <= MAX_FAT32 lim)).
  { destruct (Z.leb_spec nclst 4084); [left; split; assumption |].
    destruct (Z.leb_spec nclst 65524); [right; left; split; assumption |].
    destruct (Z.leb_spec nclst (MAX_FAT32 lim)); [right; right; split; assumption |].
    contradiction. }
  clear Hfmt.
  assert (Hnc : nclst <= 268435445) by (destruct Hty as [[_ H] | [[_ H] | [_ H]]]; lia).
  rewrite (u32_small (nclst + 2)) in Hrun by lia.
  rewrite (u32_small s) in Hrun by lia.
  rewrite (u32_small (s + nrsv)) in Hrun by lia.
  rewrite (u32_small (s + sys)) in Hrun by nia.
  cbn [n_fatent n_rootdir fatbase set_database set_fatbase set_volbase set_n_fatent
       set_n_rootdir set_csize set_n_fats set_fsize] in Hrun.
  set (fsb := set_database _ (s + sys)) in Hrun.
  assert (Hszb : u32 ((nclst + 2) * 4) = (nclst + 2) * 4 /\
                 u32 ((nclst + 2) * 2) = (nclst + 2) * 2 /\
                 u32 (u32 ((nclst + 2) * 3) / 2 + Z.land (nclst + 2) 1) =
                   (nclst + 2) * 3 / 2 + Z.land (nclst + 2) 1).
  { pose proof (land_le_r (nclst + 2) 1 ltac:(lia)) as Hl.
    rewrite (u32_small ((nclst + 2) * 3)) by lia.
    assert (0 <= (nclst + 2) * 3 / 2 <= (nclst + 2) * 3)
      by (split; [apply Z.div_pos; lia | apply Z.div_le_upper_bound; lia]).
    repeat split; apply u32_small; lia. }
  destruct Hszb as (S32 & S16 & S12). rewrite S32, S16, S12 in Hrun.
  match type of Hrun with
  | (let (fs, o) := ?C in _) = _ => remember C as chk eqn:Echk
  end.
  assert (Hchk : snd chk = None \/
                 exists d, chk = (set_dirbase fsb d,
                                  Some (if fmt =? FS_FAT32 then (nclst + 2) * 4
                                        else if fmt =? FS_FAT16 then (nclst + 2) * 2
                                        else (nclst + 2) * 3 / 2 + Z.land (nclst + 2) 1))).
  { subst chk. destruct (fmt =? FS_FAT32).
    - destruct (negb (ld_word w BPB_FSVer32 =? 0)); [left; reflexivity |].
      destruct (negb (rde =? 0)); [left; reflexivity |].
      right. eexists. reflexivity.
    - destruct (rde =? 0); [left; reflexivity |].
      right. eexists. reflexivity. }
  clear Echk. destruct Hchk as [Hnone | (d & ->)].
  { destruct chk as [fs0 o]. cbn [snd] in Hnone. subst o.
    injection Hrun as _ E. discriminate E. }
  cbv iota beta in Hrun.
  set (szb := if fmt =? FS_FAT32 then (nclst + 2) * 4
              else if fmt =? FS_FAT16 then (nclst + 2) * 2
              else (nclst + 2) * 3 / 2 + Z.land (nclst + 2) 1) in *.
  assert (Hszb : 0 <= szb <= (nclst + 2) * 4).
  { pose proof (land_le_r (nclst + 2) 1 ltac:(lia)) as Hl.
    assert ((nclst + 2) * 3 / 2 <= (nclst + 2) * 3 / 1)
      by (apply Z.div_le_compat_l; lia).
    assert (0 <= (nclst + 2) * 3 / 2) by (apply Z.div_pos; lia).
    rewrite Z.div_1_r in *.
    unfold szb. destruct (fmt =? FS_FAT32); [lia |]. destruct (fmt =? FS_FAT16); lia. }
  change (fsize (set_dirbase fsb d)) with fz in Hrun.
  change (ssize (set_dirbase fsb d)) with ss in Hrun.
  assert (Hbps : ss < 65536) by lia.
  rewrite (u32_small (szb + (ss - 1))) in Hrun by lia.
  destruct (Z.ltb_spec fz ((szb + (ss - 1)) / ss)) as [| Hfit];
    [injection Hrun as _ E; discriminate E |].
  apply ceil_div_le in Hfit; [| lia | lia].
  match type of Hrun with
  | (mkVol (set_id (set_fs_type (v_fs ?X) _) 0) _, _) = _ =>
      remember X as vx eqn:Evx
  end.
  set (fs0 := set_fsi_flag (set_free_clst (set_last_clst (set_dirbase fsb d) 4294967295)
                              4294967295) 128) in *.
  assert (Hgeo : frame (set_free_clst (set_last_clst (set_fsi_flag (v_fs vx) 0) 0) 0) =
                 frame (set_free_clst (set_last_clst (set_fsi_flag fs0 0) 0) 0)).
  { subst vx. destruct ((fmt =? FS_FAT32) && (ld_word w BPB_FSInfo32 =? 1));
      [| reflexivity].
    pose proof (move_window_frame (mkVol fs0 (v_disk v)) (u32 (s + 1))) as Hf.
    destruct (move_window _ _) as [v2 r2]. cbn [fst] in Hf.
    destruct (is_ok r2); [| apply geo_frame; exact Hf].
    transitivity (frame (set_free_clst (set_last_clst (set_fsi_flag (v_fs v2) 0) 0) 0));
      [| exact (geo_frame _ _ Hf)].
    match goal with
    | |- context [if ?c then _ else _] => destruct c
    end; cbn [v_fs]; destruct (v_fs v2); reflexivity. }
  clear Evx. injection Hrun as <-.
  apply frame_fields in Hgeo.
  destruct Hgeo as (_ & F2 & F3 & F4 & F5 & F6 & F7 & F8 & _ & _ & _ & _ & F13 & _).
  cbn in F2, F3, F4, F5, F6, F7, F8, F13.
  cbn [v_fs fs_type n_fats csize ssize n_fatent fsize volbase fatbase database SS
       set_id set_fs_type].
  unfold geom_ok, szbfat, cell_limit, SS.
  cbn [v_fs fs_type n_fats csize ssize n_fatent fsize volbase fatbase database
       set_id set_fs_type].
  rewrite F2, F3, F4, F5, F6, F7, F8, F13.
  fold ss. unfold szb in Hfit. clear F2 F3 F4 F5 F6 F7 F8 F13.
  assert (Hcommon : 0 < spc /\ Z.land spc (spc - 1) = 0 /\ (nf = 1 \/ nf = 2) /\
                    ss = ss /\ s = s /\ s < s + nrsv /\
                    s + nrsv + nf * fz <= s + sys /\
                    s + sys + spc * (nclst + 2 - 2) <= s + ts).
  { split; [exact Hspc |]. split; [exact Espc1 |]. split; [exact Hnf |].
    split; [reflexivity |]. split; [reflexivity |]. split; [lia |].
    split; [unfold sys; nia |].
    replace (nclst + 2 - 2) with nclst by lia. lia. }
  destruct Hcommon as (C1 & C2 & C3 & C4 & C5 & C6 & C7 & C8).
  assert (Hgeom : forall t, fmt = t -> t = FS_FAT12 \/ t = FS_FAT16 \/ t = FS_FAT32 ->
            nf = 2 -> ss mod 4 = 0 ->
            (if t =? FS_FAT32 then (nclst + 2) * 4
             else if t =? FS_FAT16 then (nclst + 2) * 2
             else (nclst + 2) * 3 / 2 + Z.land (nclst + 2) 1) <= fz * ss ->
            ((t =? FS_FAT12) || (t =? FS_FAT16) || (t =? FS_FAT32)) && (0 <? ss) &&
            (ss mod 4 =? 0) && (0 <=? s + nrsv) && (0 <=? fz) &&
            (s + nrsv + 2 * fz <=? 4294967296) && (0 <=? nclst + 2) &&
            ((if t =? FS_FAT32 then (nclst + 2) * 4
              else if t =? FS_FAT16 then (nclst + 2) * 2
              else (nclst + 2) * 3 / 2 + Z.land (nclst + 2) 1) <=? 4294967296) &&
            ((if t =? FS_FAT32 then (nclst + 2) * 4
              else if t =? FS_FAT16 then (nclst + 2) * 2
              else (nclst + 2) * 3 / 2 + Z.land (nclst + 2) 1) <=? fz * ss) = true).
  { intros t Et Ht Hn2 Hm4 Hsz.
    repeat (apply andb_true_iff; split).
    - destruct Ht as [-> | [-> | ->]]; reflexivity.
    - apply Z.ltb_lt. lia.
    - apply Z.eqb_eq. exact Hm4.
    - apply Z.leb_le. lia.
    - apply Z.leb_le. lia.
    - apply Z.leb_le. subst nf. unfold sys in *. nia.
    - apply Z.leb_le. lia.
    - apply Z.leb_le. pose proof Hszb as Hs'. unfold szb in Hs'. rewrite <- Et. lia.
    - apply Z.leb_le. exact Hsz. }
  destruct Hty as [(E & Hb) | [(E & Hb) | (E & Hb)]].
  - split; [left; exact E |]. rewrite E in Hfit |- *.
    change (FS_FAT12 =? FS_FAT12) with true. cbv iota.
    split; [lia |]. split; [exact C1 |]. split; [exact C2 |]. split; [exact C3 |].
    split; [exact C4 |]. split; [exact C5 |]. split; [exact C6 |]. split; [exact C7 |].
    split; [exact C8 |]. split; [exact Hfit |].
    intros Hn2 Hm4. apply (Hgeom FS_FAT12 E); auto.
  - split; [right; left; exact E |]. rewrite E in Hfit |- *.
    change (FS_FAT16 =? FS_FAT12) with false.
    change (FS_FAT16 =? FS_FAT16) with true. cbv iota.
    split; [lia |]. split; [exact C1 |]. split; [exact C2 |]. split; [exact C3 |].
    split; [exact C4 |]. split; [exact C5 |]. split; [exact C6 |]. split; [exact C7 |].
    split; [exact C8 |]. split; [exact Hfit |].
    intros Hn2 Hm4. apply (Hgeom FS_FAT16 E); auto.
  - split; [right; right; exact E |]. rewrite E in Hfit |- *.
    change (FS_FAT32 =? FS_FAT12) with false.
    change (FS_FAT32 =? FS_FAT16) with false.
    change (FS_FAT32 =? FS_FAT32) with true. cbv iota.
    split; [lia |]. split; [exact C1 |]. split; [exact C2 |]. split; [exact C3 |].
    split; [exact C4 |]. split; [exact C5 |]. split; [exact C6 |]. split; [exact C7 |].
    split; [exact C8 |]. split; [exact Hfit |].
    intros Hn2 Hm4. apply (Hgeom FS_FAT32 E); auto.
Qed.

Lemma init_fatobj_geometry_witness :
  exists v',
    init_fatobj (spec_limits 0x0FFFFFF5) (unmounted (sample_bpb 1 1 2 16 4200 32)) 0
      = (v', FR_OK) /\
    3 <= n_fatent (v_fs v') < cell_limit (v_fs v') /\
    fatbase (v_fs v') + n_fats (v_fs v') * fsize (v_fs v') <= database (v_fs v') /\
    geom_ok (v_fs v') = true.
Proof.
  eexists. split; [vm_compute; reflexivity |].
  destruct (init_fatobj_geometry (spec_limits 0x0FFFFFF5)
              (unmounted (sample_bpb 1 1 2 16 4200 32)) 0 _
              eq_refl eq_refl ltac:(cbn; lia) ltac:(cbn; lia) ltac:(lia)
              ltac:(vm_compute; reflexivity) ltac:(vm_compute; discriminate)
              ltac:(vm_compute; reflexivity))
    as (_ & H2 & _ & _ & _ & _ & _ & _ & H9 & _ & _ & H12).
  split; [exact H2 |]. split; [exact H9 |].
  apply H12; reflexivity.
Defined.


(** ** f_write *)

(** *** The cluster functions keep the layout and return *)

Lemma layout_frame (a b : FATFS) : frame a = frame b -> layout a = layout b.
Proof. unfold layout. apply geo_frame. Qed.

Lemma layout_fields (a b : FATFS) :
  layout a = layout b ->
  fs_type a = fs_type b /\ ssize a = ssize b /\ csize a = csize b /\
  n_fatent a = n_fatent b.
Proof.
  unfold layout. intros H. apply frame_fields in H.
  destruct H as (F1 & _ & F3 & F4 & F5 & _). cbn in *. repeat split; assumption.
Qed.

Lemma get_fat_frame (v : Vol) (c : Z) :
  frame (v_fs (fst (get_fat v c))) = frame (v_fs v).
Proof.
  unfold get_fat.
  destruct ((c <? 2) || (c >=? n_fatent (v_fs v))); [reflexivity |].
  destruct (fs_type (v_fs v) =? FS_FAT12).
  { pose proof (move_window_frame v
                  (u32 (fatbase (v_fs v) + u32 (c + c / 2) / SS (v_fs v)))) as H1.
    destruct (move_window v _) as [v1 r1]. cbn [fst] in H1.
    destruct (negb (is_ok r1)); [exact H1 |].
    pose proof (move_window_frame v1
                  (u32 (fatbase (v_fs v) + u32 (u32 (c + c / 2) + 1) / SS (v_fs v)))) as H2.
    destruct (move_window v1 _) as [v2 r2]. cbn [fst] in H2.
    destruct (negb (is_ok r2)); cbn [fst]; congruence. }
  destruct (fs_type (v_fs v) =? FS_FAT16).
  { pose proof (move_window_frame v (u32 (fatbase (v_fs v) + c / (SS (v_fs v) / 2)))) as H1.
    destruct (move_window v _) as [v1 r1]. cbn [fst] in H1.
    destruct (negb (is_ok r1)); exact H1. }
  destruct (fs_type (v_fs v) =? FS_FAT32); [| reflexivity].
  pose proof (move_window_frame v (u32 (fatbase (v_fs v) + c / (SS (v_fs v) / 4)))) as H1.
  destruct (move_window v _) as [v1 r1]. cbn [fst] in H1.
  destruct (negb (is_ok r1)); exact H1.
Qed.

Lemma put_fat_frame (v : Vol) (c val : Z) :
  frame (v_fs (fst (put_fat v c val))) = frame (v_fs v).
Proof.
  unfold put_fat.
  destruct ((c >=? 2) && (c <? n_fatent (v_fs v))); [| reflexivity].
  destruct (fs_type (v_fs v) =? FS_FAT12).
  { pose proof (move_window_frame v
                  (u32 (fatbase (v_fs v) + u32 (c + c / 2) / SS (v_fs v)))) as H1.
    destruct (move_window v _) as [v1 r1]. cbn [fst] in H1.
    destruct (negb (is_ok r1)); [exact H1 |].
    match goal with
    | |- context [move_window ?V ?S] =>
        pose proof (move_window_frame V S) as H2; destruct (move_window V S) as [v2 r2]
    end.
    cbn [fst] in H2.
    destruct (negb (is_ok r2)); cbn [fst].
    - rewrite H2. rewrite <- H1. reflexivity.
    - transitivity (frame (v_fs v2)); [reflexivity |].
      rewrite H2. rewrite <- H1. reflexivity. }
  destruct (fs_type (v_fs v) =? FS_FAT16).
  { pose proof (move_window_frame v (u32 (fatbase (v_fs v) + c / (SS (v_fs v) / 2)))) as H1.
    destruct (move_window v _) as [v1 r1]. cbn [fst] in H1.
    destruct (negb (is_ok r1)); [exact H1 |].
    cbn [fst]. rewrite <- H1. reflexivity. }
  destruct (fs_type (v_fs v) =? FS_FAT32); [| reflexivity].
  pose proof (move_window_frame v (u32 (fatbase (v_fs v) + c / (SS (v_fs v) / 4)))) as H1.
  destruct (move_window v _) as [v1 r1]. cbn [fst] in H1.
  destruct (negb (is_ok r1)); [exact H1 |].
  cbn [fst]. rewrite <- H1. reflexivity.
Qed.

Section ScanAny.
Variables n scl : Z.
Hypothesis Hn : n < 4294967296.
Hypothesis Hscl : 1 <= scl < n.

(** The scan ends within n - 1 passes whatever the drive and the FAT do. *)
Lemma create_chain_scan_any (fuel : nat) :
  forall j v1,
    n_fatent (v_fs v1) = n ->
    0 <= j <= n - 2 -> j < n - 2 \/ scl = 1 ->
    (Z.to_nat (n - 1 - j) <= fuel)%nat ->
    exists v2 r,
      create_chain_scan fuel v1 scl (scan_pos n scl j) = Some (v2, r) /\
      frame (v_fs v2) = frame (v_fs v1) /\
      (forall ncl, r = Found ncl -> 2 <= ncl < n).
Proof.
  induction fuel as [| fuel IH]; intros j v1 En Hj Hlast Hfuel; [lia |].
  cbn [create_chain_scan]. rewrite En.
  destruct (Z.eq_dec j (n - 2)) as [E | E].
  - assert (Es : scl = 1) by lia.
    unfold scan_pos. rewrite Es.
    replace (1 + j <? n) with true by (symmetry; apply Z.ltb_lt; lia).
    rewrite u32_small by lia. rewrite Z.geb_leb.
    replace (n <=? 1 + j + 1) with true by (symmetry; apply Z.leb_le; lia).
    cbn. exists v1, (Quit 0).
    split; [reflexivity |]. split; [reflexivity |]. intros ncl H. discriminate H.
  - destruct (scan_step n scl j Hscl Hn ltac:(lia)) as (Hquit & Hnext & Hrange & Hback).
    rewrite Hquit, Hnext.
    pose proof (get_fat_frame v1 (scan_pos n scl (j + 1))) as Hfr.
    destruct (get_fat v1 (scan_pos n scl (j + 1))) as [v2 cs]. cbn [fst] in Hfr.
    destruct (cs =? 0).
    { exists v2, (Found (scan_pos n scl (j + 1))).
      split; [reflexivity |]. split; [exact Hfr |].
      intros ncl H. injection H as <-. exact Hrange. }
    destruct ((cs =? 1) || (cs =? 4294967295)).
    { eexists v2, (Quit _). split; [reflexivity |]. split; [exact Hfr |].
      intros ncl H. discriminate H. }
    destruct (Z.eqb_spec (scan_pos n scl (j + 1)) scl) as [Eb | Eb].
    + exists v2, (Quit 0). split; [reflexivity |]. split; [exact Hfr |].
      intros ncl H. discriminate H.
    + pose proof (frame_fields _ _ Hfr) as (_ & _ & _ & _ & F5 & _).
      destruct (IH (j + 1) v2 ltac:(rewrite F5; exact En) ltac:(lia) ltac:(lia) ltac:(lia))
        as (v3 & r & Hrun & Hfr3 & Hfound).
      exists v3, r. split; [exact Hrun |]. split; [congruence | exact Hfound].
Qed.
End ScanAny.

Lemma create_chain_commit_layout (v : Vol) (clst ncl : Z) :
  0 <= ncl -> 0 <= last_clst (v_fs v) ->
  layout (v_fs (fst (create_chain_commit v clst ncl))) = layout (v_fs v) /\
  0 <= last_clst (v_fs (fst (create_chain_commit v clst ncl))).
Proof.
  intros Hncl Hlast. unfold create_chain_commit.
  pose proof (put_fat_frame v ncl 0xFFFFFFFF) as H1.
  destruct (put_fat v ncl 4294967295) as [v1 r1]. cbn [fst] in H1.
  assert (H2 : frame (v_fs (fst (if is_ok r1 && nz clst then put_fat v1 clst ncl
                                 else (v1, r1)))) = frame (v_fs v)).
  { destruct (is_ok r1 && nz clst); [rewrite put_fat_frame; exact H1 | exact H1]. }
  destruct (if is_ok r1 && nz clst then put_fat v1 clst ncl else (v1, r1)) as [v2 r2].
  cbn [fst] in H2.
  pose proof (frame_fields _ _ H2) as (_ & _ & _ & _ & _ & _ & _ & _ & F9 & _).
  destruct (is_ok r2); cbn [fst].
  - split.
    + rewrite <- (layout_frame _ _ H2). destruct (v_fs v2). unfold layout. cbn.
      destruct (_ <=? _); reflexivity.
    + destruct (v_fs v2). cbn. destruct (_ <=? _); cbn; exact Hncl.
  - split; [apply layout_frame; exact H2 | rewrite F9; exact Hlast].
Qed.

(** create_chain returns within n_fatent passes of its scan, whatever the
    drive and the FAT do, and keeps the layout of the volume. *)
Lemma create_chain_any (fuel : nat) (v : Vol) (c : Z) :
  0 <= n_fatent (v_fs v) < 4294967296 -> 0 <= last_clst (v_fs v) ->
  n_fatent (v_fs v) < Z.of_nat fuel ->
  exists v' r, create_chain fuel v c = Some (v', r) /\
    layout (v_fs v') = layout (v_fs v) /\ 0 <= last_clst (v_fs v').
Proof.
  intros Hn Hlast Hfuel.
  assert (Hscan : forall w scl clst,
            frame (v_fs w) = frame (v_fs v) ->
            1 <= scl -> (2 <= n_fatent (v_fs v) -> scl < n_fatent (v_fs v)) ->
            (n_fatent (v_fs v) < 2 -> scl = 1) ->
            exists v' r,
              match create_chain_scan fuel w scl scl with
              | None => None
              | Some (w1, Quit st) => Some (w1, st)
              | Some (w1, Found ncl) => Some (create_chain_commit w1 clst ncl)
              end = Some (v', r) /\
              layout (v_fs v') = layout (v_fs v) /\ 0 <= last_clst (v_fs v')).
  { intros w scl clst Hfw Hs1 Hs2 Hs3.
    pose proof (frame_fields _ _ Hfw) as (_ & _ & _ & _ & F5 & _ & _ & _ & F9 & _).
    destruct (Z_lt_le_dec (n_fatent (v_fs v)) 2) as [Hsmall | H2].
    - rewrite (Hs3 Hsmall). destruct fuel as [| k]; [lia |].
      cbn [create_chain_scan]. rewrite F5. change (u32 (1 + 1)) with 2.
      rewrite Z.geb_leb.
      replace (n_fatent (v_fs v) <=? 2) with true by (symmetry; apply Z.leb_le; lia).
      cbn. eexists _, _. split; [reflexivity |].
      split; [apply layout_frame; exact Hfw | rewrite F9; exact Hlast].
    - destruct (create_chain_scan_any (n_fatent (v_fs v)) scl ltac:(lia)
                  ltac:(specialize (Hs2 H2); lia) fuel 0 w F5 ltac:(lia)
                  ltac:(specialize (Hs2 H2); lia) ltac:(lia))
        as (v2 & r & Hrun & Hfr2 & Hfound).
      unfold scan_pos in Hrun. rewrite Z.add_0_r in Hrun.
      replace (scl <? n_fatent (v_fs v)) with true in Hrun
        by (symmetry; apply Z.ltb_lt; apply Hs2; exact H2).
      rewrite Hrun.
      assert (Hfr2' : frame (v_fs v2) = frame (v_fs v)) by congruence.
      pose proof (frame_fields _ _ Hfr2') as (_ & _ & _ & _ & _ & _ & _ & _ & G9 & _).
      destruct r as [ncl | st].
      + destruct (create_chain_commit_layout v2 clst ncl
                    ltac:(specialize (Hfound ncl eq_refl); lia)
                    ltac:(rewrite G9; exact Hlast)) as (L1 & L2).
        destruct (create_chain_commit v2 clst ncl) as [w2 x]. cbn [fst] in L1, L2.
        eexists _, _. split; [reflexivity |].
        split; [rewrite L1; apply layout_frame; exact Hfr2' | exact L2].
      + eexists _, _. split; [reflexivity |].
        split; [apply layout_frame; exact Hfr2' | rewrite G9; exact Hlast]. }
  assert (Hsame : forall (w : Vol) (r : Z), frame (v_fs w) = frame (v_fs v) ->
            exists v' r', Some (w, r) = Some (v', r') /\
              layout (v_fs v') = layout (v_fs v) /\ 0 <= last_clst (v_fs v')).
  { intros w r Hfw.
    pose proof (frame_fields _ _ Hfw) as (_ & _ & _ & _ & _ & _ & _ & _ & F9 & _).
    eexists _, _. split; [reflexivity |].
    split; [apply layout_frame; exact Hfw | rewrite F9; exact Hlast]. }
  unfold create_chain.
  destruct (Z.eqb_spec c 0) as [Ec | Ec].
  - destruct (free_clst (v_fs v) =? 0); [apply Hsame; reflexivity |].
    apply Hscan; [reflexivity | | |].
    + destruct (Z.eqb_spec (last_clst (v_fs v)) 0); cbn [orb]; [lia |].
      destruct (last_clst (v_fs v) >=? n_fatent (v_fs v)); lia.
    + intros H2. destruct (Z.eqb_spec (last_clst (v_fs v)) 0); cbn [orb]; [lia |].
      rewrite Z.geb_leb.
      destruct (Z.leb_spec (n_fatent (v_fs v)) (last_clst (v_fs v))); lia.
    + intros H2. destruct (Z.eqb_spec (last_clst (v_fs v)) 0); cbn [orb]; [reflexivity |].
      rewrite Z.geb_leb.
      destruct (Z.leb_spec (n_fatent (v_fs v)) (last_clst (v_fs v))); [reflexivity | lia].
  - destruct (Z_lt_le_dec c 2) as [Hc1 | Hc1];
      [| destruct (Z_lt_le_dec c (n_fatent (v_fs v))) as [Hc2 | Hc2]].
    + unfold get_fat.
      replace (c <? 2) with true by (symmetry; apply Z.ltb_lt; lia).
      cbn [orb]. change (1 <? 2) with true. cbv iota. apply Hsame. reflexivity.
    + pose proof (get_fat_frame v c) as Hf1.
      destruct (get_fat v c) as [v1 cs]. cbn [fst] in Hf1.
      destruct (cs <? 2); [apply Hsame; exact Hf1 |].
      destruct (cs =? 4294967295); [apply Hsame; exact Hf1 |].
      destruct (cs <? n_fatent (v_fs v)); [apply Hsame; exact Hf1 |].
      destruct (free_clst (v_fs v1) =? 0); [apply Hsame; exact Hf1 |].
      cbv zeta.
      set (n1 := if u32 (c + 1) >=? n_fatent (v_fs v) then 2 else u32 (c + 1)).
      assert (Hn1 : 2 <= n1 < n_fatent (v_fs v)).
      { subst n1. rewrite u32_small by lia. rewrite Z.geb_leb.
        destruct (Z.leb_spec (n_fatent (v_fs v)) (c + 1)); lia. }
      pose proof (get_fat_frame v1 n1) as Hf2.
      destruct (get_fat v1 n1) as [v2 cs2]. cbn [fst] in Hf2.
      assert (Hf2' : frame (v_fs v2) = frame (v_fs v)) by congruence.
      destruct ((cs2 =? 1) || (cs2 =? 4294967295)); [apply Hsame; exact Hf2' |].
      pose proof (frame_fields _ _ Hf2') as (_ & _ & _ & _ & _ & _ & _ & _ & G9 & _).
      destruct (negb (cs2 =? 0)).
      * apply Hscan; [exact Hf2' | | | intros; lia].
        -- destruct ((last_clst (v_fs v2) >=? 2) && _) eqn:Ev; [| lia].
           apply andb_true_iff in Ev. destruct Ev as [Ev _].
           rewrite Z.geb_leb in Ev. apply Z.leb_le in Ev. lia.
        -- intros _. destruct ((last_clst (v_fs v2) >=? 2) && _) eqn:Ev; [| lia].
           apply andb_true_iff in Ev. destruct Ev as [_ Ev].
           apply Z.ltb_lt in Ev. exact Ev.
      * destruct (create_chain_commit_layout v2 c n1 ltac:(lia)
                    ltac:(rewrite G9; exact Hlast)) as (L1 & L2).
        destruct (create_chain_commit v2 c n1) as [w2 x]. cbn [fst] in L1, L2.
        eexists _, _. split; [reflexivity |].
        split; [rewrite L1; apply layout_frame; exact Hf2' | exact L2].
    + unfold get_fat. rewrite Z.geb_leb.
      replace (n_fatent (v_fs v) <=? c) with true by (symmetry; apply Z.leb_le; lia).
      rewrite orb_true_r. change (1 <? 2) with true. cbv iota. apply Hsame. reflexivity.
Qed.

Lemma has_set_modified (old : Z) : has (Z.lor old FA_MODIFIED) FA_MODIFIED = true.
Proof.
  unfold has, FA_MODIFIED.
  assert (H : Z.land (Z.lor old 64) 64 = 64).
  { apply Z.bits_inj'. intros n Hn.
    rewrite Z.land_spec, Z.lor_spec.
    destruct (Z.testbit old n), (Z.testbit 64 n); reflexivity. }
  rewrite H. reflexivity.
Qed.

(** The count of whole sectors f_write hands to the drive in one call. *)
Lemma write_multi_count (ss cs f btw : Z) :
  0 < ss -> 0 < cs < 4294967296 -> 0 <= f < 4294967296 -> 0 < btw < 4294967296 ->
  (btw / ss >? 0) = true ->
  0 < u32 (ss * (if Z.land (u32 (f / ss)) (cs - 1) + btw / ss >? cs
                 then u32 (cs - Z.land (u32 (f / ss)) (cs - 1))
                 else btw / ss)) <= btw.
Proof.
  intros Hss Hcs Hf Hb Hcc.
  rewrite Z.gtb_ltb in Hcc. apply Z.ltb_lt in Hcc.
  pose proof (land_le_r (u32 (f / ss)) (cs - 1) ltac:(lia)) as Hl.
  set (csect := Z.land (u32 (f / ss)) (cs - 1)) in *.
  assert (Hmul : ss * (btw / ss) <= btw) by (apply Z.mul_div_le; lia).
  rewrite Z.gtb_ltb.
  destruct (Z.ltb_spec cs (csect + btw / ss)).
  - rewrite (u32_small (cs - csect)) by lia.
    assert (ss * (cs - csect) <= ss * (btw / ss)) by nia.
    rewrite u32_small by nia. nia.
  - rewrite u32_small by nia. nia.
Qed.

Section WriteLoop.
Variable env : Env.
Variables B f0 size0 ss cs n : Z.
Hypothesis Hss : 0 < ss < 4294967296.
Hypothesis Hcs : 0 < cs < 4294967296.
Hypothesis Hn : 0 <= n < 4294967296.
Hypothesis Hf0 : 0 <= f0.
Hypothesis Hfit : f0 + B <= 4294967295.

Lemma write_abort (x : Xfer) (btw : Z) (v' : Vol) (fp' : FIL) (r : FRESULT) :
  write_inv B f0 size0 ss cs n x btw -> r <> FR_OK -> r <> FR_NO_SPACE_LEFT ->
  fptr fp' = fptr (x_fp x) -> obj_objsize fp' = obj_objsize (x_fp x) ->
  exists x' res, xfer_abort x v' fp' r = Some (x', res) /\ write_done B f0 size0 x' res.
Proof.
  intros (Hb0 & Hc0 & Hsum & Hfp & Hsz & _) Hr Hr' Hf Ho.
  eexists _, _. split; [reflexivity |]. unfold write_done. cbn.
  split; [lia |]. split; [rewrite Hf; exact Hfp |].
  split; [rewrite Ho, Hf; exact Hsz |].
  split; [intros E; contradiction | intros [E | E]; contradiction].
Qed.

Lemma write_leave (x : Xfer) (btw : Z) (v' : Vol) (fp' : FIL) (r : FRESULT) :
  write_inv B f0 size0 ss cs n x btw -> (r = FR_OK -> btw = 0) ->
  fptr fp' = fptr (x_fp x) -> obj_objsize fp' = obj_objsize (x_fp x) ->
  write_done B f0 size0
    (mkXfer v' (set_flag fp' (Z.lor (flag fp') FA_MODIFIED)) (x_usr x) (x_cnt x)) r.
Proof.
  intros (Hb0 & Hc0 & Hsum & Hfp & Hsz & _) Hr Hf Ho.
  unfold write_done. cbn.
  split; [lia |]. split; [rewrite Hf; exact Hfp |].
  split; [rewrite Ho, Hf; exact Hsz |].
  split; [intros E; specialize (Hr E); lia | intros _; apply has_set_modified].
Qed.

Lemma write_advance (x : Xfer) (btw : Z) (v' : Vol) (fp' : FIL) (wcnt : Z) :
  write_inv B f0 size0 ss cs n x btw -> 0 < wcnt <= btw ->
  fptr fp' = fptr (x_fp x) -> obj_objsize fp' = obj_objsize (x_fp x) ->
  SS (v_fs v') = ss -> csize (v_fs v') = cs -> n_fatent (v_fs v') = n ->
  0 <= last_clst (v_fs v') ->
  write_inv B f0 size0 ss cs n
    (mkXfer v'
       (set_obj_objsize (set_fptr fp' (u32 (fptr fp' + wcnt)))
          (if fptr (set_fptr fp' (u32 (fptr fp' + wcnt))) >?
              obj_objsize (set_fptr fp' (u32 (fptr fp' + wcnt)))
           then fptr (set_fptr fp' (u32 (fptr fp' + wcnt)))
           else obj_objsize (set_fptr fp' (u32 (fptr fp' + wcnt)))))
       (x_usr x) (u32 (x_cnt x + wcnt)))
    (u32 (btw - wcnt)) /\
  (Z.to_nat (u32 (btw - wcnt)) < Z.to_nat btw)%nat.
Proof.
  intros (Hb0 & Hc0 & Hsum & Hfp & Hsz & _) Hw Hf Ho Hs Hc Hnf Hl.
  rewrite (u32_small (btw - wcnt)) by lia.
  rewrite (u32_small (x_cnt x + wcnt)) by lia.
  rewrite Hf, Hfp. rewrite (u32_small (f0 + x_cnt x + wcnt)) by lia.
  split; [| lia]. unfold write_inv.
  destruct fp'. cbn in *. subst.
  split; [lia |]. split; [lia |]. split; [lia |]. split; [lia |].
  split; [| repeat split; try reflexivity; assumption].
  rewrite Hsz, Hfp. rewrite Z.gtb_ltb.
  destruct (Z.ltb_spec (Z.max size0 (f0 + x_cnt x)) (f0 + x_cnt x + wcnt)); lia.
Qed.

Lemma f_write_loop_total (fuel : nat) :
  forall (x : Xfer) (btw : Z),
    write_inv B f0 size0 ss cs n x btw ->
    (Z.to_nat btw + Z.to_nat n < fuel)%nat ->
    exists x' res,
      f_write_loop fuel env x btw = Some (x', res) /\ write_done B f0 size0 x' res.
Proof.
  induction fuel as [| k IH]; intros x btw Hinv Hfuel; [lia |].
  cbn [f_write_loop]. cbv beta zeta.
  pose proof Hinv as (Hb0 & Hc0 & Hsum & Hfp & Hsz & HSS & HCS & HN & HL).
  destruct (btw >? 0) eqn:Hpos; cbn [negb].
  2:{ eexists _, _. split; [reflexivity |].
      rewrite Z.gtb_ltb in Hpos. apply Z.ltb_ge in Hpos.
      apply (write_leave x btw (x_vol x) (x_fp x) FR_OK Hinv);
        [intros _; lia | reflexivity | reflexivity]. }
  rewrite Z.gtb_ltb in Hpos. apply Z.ltb_lt in Hpos.
  assert (Hnext : forall v' fp' wcnt,
            0 < wcnt <= btw ->
            fptr fp' = fptr (x_fp x) -> obj_objsize fp' = obj_objsize (x_fp x) ->
            SS (v_fs v') = ss -> csize (v_fs v') = cs -> n_fatent (v_fs v') = n ->
            0 <= last_clst (v_fs v') ->
            exists x' res,
              f_write_loop k env
                (mkXfer v'
                   (set_obj_objsize (set_fptr fp' (u32 (fptr fp' + wcnt)))
                      (if fptr (set_fptr fp' (u32 (fptr fp' + wcnt))) >?
                          obj_objsize (set_fptr fp' (u32 (fptr fp' + wcnt)))
                       then fptr (set_fptr fp' (u32 (fptr fp' + wcnt)))
                       else obj_objsize (set_fptr fp' (u32 (fptr fp' + wcnt)))))
                   (x_usr x) (u32 (x_cnt x + wcnt)))
                (u32 (btw - wcnt)) = Some (x', res) /\ write_done B f0 size0 x' res).
  { intros v' fp' wcnt Hw Hf Ho Hs Hc Hnf Hl.
    destruct (write_advance x btw v' fp' wcnt Hinv Hw Hf Ho Hs Hc Hnf Hl) as (Hi & Hlt).
    apply IH; [exact Hi | lia]. }
  assert (Habort : forall v' fp' r,
            r <> FR_OK -> r <> FR_NO_SPACE_LEFT ->
            fptr fp' = fptr (x_fp x) -> obj_objsize fp' = obj_objsize (x_fp x) ->
            exists x' res, xfer_abort x v' fp' r = Some (x', res) /\
                           write_done B f0 size0 x' res).
  { intros v' fp' r. apply (write_abort x btw v' fp' r Hinv). }
  rewrite !HSS, !HCS.
  assert (Hpartial : forall v' fp',
            fptr fp' = fptr (x_fp x) -> obj_objsize fp' = obj_objsize (x_fp x) ->
            SS (v_fs v') = ss -> csize (v_fs v') = cs -> n_fatent (v_fs v') = n ->
            0 <= last_clst (v_fs v') ->
            forall W, W = (if u32 (ss - fptr fp' mod ss) >? btw then btw
                           else u32 (ss - fptr fp' mod ss)) ->
            forall fq, fq = set_flag
                         (set_buf fp'
                            (splice (buf fp') (fptr fp' mod ss)
                               (take (Z.to_nat W) (drop (Z.to_nat (x_cnt x)) (x_usr x)))))
                         (Z.lor
                            (flag
                               (set_buf fp'
                                  (splice (buf fp') (fptr fp' mod ss)
                                     (take (Z.to_nat W)
                                        (drop (Z.to_nat (x_cnt x)) (x_usr x))))))
                            FA_DIRTY) ->
            exists x' res,
              (if negb (e_copy_ok env (x_cnt x) W)
               then xfer_abort x v' fp' FR_INVALID_PARAMETER
               else f_write_loop k env
                      (mkXfer v'
                         (set_obj_objsize (set_fptr fq (u32 (fptr fq + W)))
                            (if fptr (set_fptr fq (u32 (fptr fq + W))) >?
                                obj_objsize (set_fptr fq (u32 (fptr fq + W)))
                             then fptr (set_fptr fq (u32 (fptr fq + W)))
                             else obj_objsize (set_fptr fq (u32 (fptr fq + W)))))
                         (x_usr x) (u32 (x_cnt x + W)))
                      (u32 (btw - W))) = Some (x', res) /\
              write_done B f0 size0 x' res).
  { intros v' fp' Hf Ho Hs Hc Hnf Hl W EW fq Efq.
    destruct (e_copy_ok env _ _); cbn [negb].
    - apply Hnext; try assumption.
      + rewrite EW. apply partial_count; [exact Hss | exact Hpos].
      + rewrite Efq. exact Hf.
      + rewrite Efq. exact Ho.
    - apply Habort; [discriminate | discriminate | exact Hf | exact Ho]. }
  destruct (fptr (x_fp x) mod ss =? 0);
    [| eapply Hpartial; try reflexivity; assumption].
  (* on a sector boundary: the cluster is located or allocated first *)
  match goal with
  | |- context [if Z.land (u32 (fptr (x_fp x) / ss)) (cs - 1) =? 0 then ?a else ?b] =>
      remember (if Z.land (u32 (fptr (x_fp x) / ss)) (cs - 1) =? 0 then a else b)
        as loc eqn:Eloc
  end.
  assert (Hloc : exists v1 fp1 st,
            loc = Some (v1, fp1, st) /\
            fptr fp1 = fptr (x_fp x) /\ obj_objsize fp1 = obj_objsize (x_fp x) /\
            SS (v_fs v1) = ss /\ csize (v_fs v1) = cs /\ n_fatent (v_fs v1) = n /\
            0 <= last_clst (v_fs v1)).
  { subst loc.
    destruct (Z.land (u32 (fptr (x_fp x) / ss)) (cs - 1) =? 0);
      [| exists (x_vol x), (x_fp x), None; repeat split; assumption].
    assert (Hcc : forall c, exists v1 clst,
              create_chain (S k) (x_vol x) c = Some (v1, clst) /\
              SS (v_fs v1) = ss /\ csize (v_fs v1) = cs /\ n_fatent (v_fs v1) = n /\
              0 <= last_clst (v_fs v1)).
    { intros c.
      destruct (create_chain_any (S k) (x_vol x) c ltac:(rewrite HN; exact Hn) HL
                  ltac:(rewrite HN; lia)) as (v1 & r & Hrun & Hlay & Hl1).
      pose proof (layout_fields _ _ Hlay) as (_ & A2 & A3 & A4).
      exists v1, r. split; [exact Hrun |].
      unfold SS in *. repeat split; [congruence | congruence | congruence | exact Hl1]. }
    match goal with
    | |- context [mbind _ ?m] => remember m as pr eqn:Epr
    end.
    assert (Hpr : exists v1 clst,
              pr = Some (v1, clst) /\
              SS (v_fs v1) = ss /\ csize (v_fs v1) = cs /\ n_fatent (v_fs v1) = n /\
              0 <= last_clst (v_fs v1)).
    { subst pr. destruct (fptr (x_fp x) =? 0).
      - destruct (obj_sclust (x_fp x) =? 0); [apply Hcc |].
        eexists _, _. split; [reflexivity |]. repeat split; assumption.
      - destruct (cltbl (x_fp x)); [| apply Hcc].
        eexists _, _. split; [reflexivity |]. repeat split; assumption. }
    clear Epr. destruct Hpr as (v1 & clst & -> & P1 & P2 & P3 & P4).
    cbn [mbind option_bind].
    destruct ((clst =? 0) || (clst =? 1) || (clst =? 4294967295)).
    - eexists _, _, _. split; [reflexivity |]. repeat split; assumption.
    - destruct (obj_sclust (set_clust (x_fp x) clst) =? 0);
        (eexists _, _, _; split; [reflexivity |]; repeat split; assumption). }
  clear Eloc. destruct Hloc as (v1 & fp1 & st & -> & L1 & L2 & L3 & L4 & L5 & L6).
  destruct st as [clst |]; cbv beta iota.
  { destruct (clst =? 0).
    - eexists _, _. split; [reflexivity |].
      apply (write_leave x btw v1 fp1 FR_NO_SPACE_LEFT Hinv);
        [intros E; discriminate E | exact L1 | exact L2].
    - destruct (clst =? 1);
        (apply Habort; [discriminate | discriminate | exact L1 | exact L2]). }
  (* the dirty private buffer goes back to the medium *)
  match goal with
  | |- context [if has (flag fp1) FA_DIRTY then ?a else ?b] =>
      remember (if has (flag fp1) FA_DIRTY then a else b) as fl eqn:Efl
  end.
  assert (Hfl : exists v2 fp2 ok,
            fl = (v2, fp2, ok) /\
            fptr fp2 = fptr (x_fp x) /\ obj_objsize fp2 = obj_objsize (x_fp x) /\
            SS (v_fs v2) = ss /\ csize (v_fs v2) = cs /\ n_fatent (v_fs v2) = n /\
            0 <= last_clst (v_fs v2)).
  { subst fl. destruct (has (flag fp1) FA_DIRTY).
    - destruct (disk_write _ _ _ _ _) as [d ok].
      eexists _, _, _. split; [reflexivity |].
      destruct ok; repeat split; assumption.
    - eexists _, _, _. split; [reflexivity |]. repeat split; assumption. }
  clear Efl. destruct Hfl as (v2 & fp2 & ok & -> & M1 & M2 & M3 & M4 & M5 & M6).
  cbv beta iota.
  destruct ok; cbn [negb];
    [| apply Habort; [discriminate | discriminate | exact M1 | exact M2]].
  destruct (clst2sect (v_fs (x_vol x)) (clust fp2) =? 0);
    [apply Habort; [discriminate | discriminate | exact M1 | exact M2] |].
  assert (Hfr : 0 <= fptr (x_fp x) < 4294967296) by lia.
  destruct (btw / ss >? 0) eqn:Hmany.
  - (* whole sectors go to the medium from the caller's buffer *)
    pose proof (write_multi_count ss cs (fptr (x_fp x)) btw ltac:(lia) Hcs Hfr
                  ltac:(lia) Hmany) as Hmc.
    destruct (disk_write _ _ _ _ _) as [d ok2]. cbv beta iota.
    destruct ok2; cbn [negb];
      [| apply Habort; [discriminate | discriminate | exact M1 | exact M2]].
    destruct (u32 (sect fp2 - _) <? _).
    + destruct (e_copy_ok env _ _); cbn [negb];
        [| apply Habort; [discriminate | discriminate | exact M1 | exact M2]].
      apply Hnext; [exact Hmc | exact M1 | exact M2 | exact M3 | exact M4 | exact M5
                   | exact M6].
    + apply Hnext; [exact Hmc | exact M1 | exact M2 | exact M3 | exact M4 | exact M5
                   | exact M6].
  - (* one sector through the private buffer *)
    destruct (negb (sect fp2 =? _) && _).
    + destruct (disk_read _ _ _) as [d [data |]]; cbv beta iota;
        [| apply Habort; [discriminate | discriminate | exact M1 | exact M2]].
      eapply Hpartial; try reflexivity;
        [exact M1 | exact M2 | exact M3 | exact M4 | exact M5 | exact M6].
    + eapply Hpartial; try reflexivity;
        [exact M1 | exact M2 | exact M3 | exact M4 | exact M5 | exact M6].
Qed.
End WriteLoop.

(** X29: f_write returns once its fuel exceeds the bytes to move plus the
    size of the FAT, whatever the drive, the FAT and the copy routine do.
    It never counts more bytes than requested (the request cut so that the
    file pointer stays within 32 bits), moves the file pointer forward by
    exactly the count, and leaves the file size at the larger of the old
    size and the new pointer.  FR_OK means that every byte was taken and the
    file is flagged as modified. *)
Theorem f_write_counts_bytes_and_grows_file (fuel : nat) (env : Env) (v : Vol)
  (fp : FIL) (usr : list Z) (btw : Z) :
  0 < SS (v_fs v) < 4294967296 -> 0 < csize (v_fs v) < 4294967296 ->
  0 <= n_fatent (v_fs v) < 4294967296 -> 0 <= last_clst (v_fs v) ->
  0 <= fptr fp <= obj_objsize fp -> fptr fp < 4294967296 ->
  0 <= btw < 4294967296 ->
  (Z.to_nat (write_span fp btw) + Z.to_nat (n_fatent (v_fs v)) < fuel)%nat ->
  exists x res,
    f_write fuel env v fp usr btw = Some (x, res) /\
    0 <= x_cnt x <= write_span fp btw /\
    fptr (x_fp x) = fptr fp + x_cnt x /\
    obj_objsize (x_fp x) = Z.max (obj_objsize fp) (fptr (x_fp x)) /\
    (res = FR_OK ->
     x_cnt x = write_span fp btw /\ has (flag (x_fp x)) FA_MODIFIED = true).
Proof.
  intros Hss Hcs Hn Hl Hfp Hf32 Hbtw Hfuel.
  assert (Hspan : 0 <= write_span fp btw) by (unfold write_span; lia).
  assert (Hearly : forall r, is_ok r = false ->
            exists x res,
              Some (mkXfer v fp usr 0, r) = Some (x, res) /\
              0 <= x_cnt x <= write_span fp btw /\
              fptr (x_fp x) = fptr fp + x_cnt x /\
              obj_objsize (x_fp x) = Z.max (obj_objsize fp) (fptr (x_fp x)) /\
              (res = FR_OK ->
               x_cnt x = write_span fp btw /\ has (flag (x_fp x)) FA_MODIFIED = true)).
  { intros r Hr. eexists _, _. split; [reflexivity |]. cbn.
    split; [lia |]. split; [lia |]. split; [lia |].
    intros ->. discriminate Hr. }
  unfold f_write.
  destruct (is_ok (validate (v_fs v) fp)) eqn:Hv; cbn [negb]; [| apply Hearly; exact Hv].
  destruct (is_ok (err fp)) eqn:He; cbn [negb]; [| apply Hearly; exact He].
  destruct (has (flag fp) FA_WRITE); cbn [negb]; [| apply Hearly; reflexivity].
  replace (if u32 (fptr fp + btw) <? fptr fp then u32 (4294967295 - fptr fp) else btw)
    with (write_span fp btw).
  2:{ unfold write_span.
      destruct (Z_lt_le_dec (fptr fp + btw) 4294967296) as [Hs | Hs].
      - rewrite (u32_small (fptr fp + btw)) by lia.
        destruct (Z.ltb_spec (fptr fp + btw) (fptr fp)); lia.
      - replace (u32 (fptr fp + btw)) with (fptr fp + btw - 4294967296)
          by (unfold u32; apply Z.mod_unique with 1; lia).
        rewrite u32_small by lia.
        destruct (Z.ltb_spec (fptr fp + btw - 4294967296) (fptr fp)); lia. }
  destruct (f_write_loop_total env (write_span fp btw) (fptr fp) (obj_objsize fp)
              (SS (v_fs v)) (csize (v_fs v)) (n_fatent (v_fs v)) Hss Hcs Hn
              ltac:(lia) ltac:(unfold write_span; lia) fuel (mkXfer v fp usr 0)
              (write_span fp btw))
    as (x' & res & Hrun & D1 & D2 & D3 & D4 & D5).
  - unfold write_inv. cbn. repeat split; try reflexivity; lia.
  - exact Hfuel.
  - exists x', res. split; [exact Hrun |]. split; [exact D1 |]. split; [exact D2 |].
    split; [exact D3 |]. intros E. split; [apply D4; exact E | apply D5; left; exact E].
Qed.

Lemma f_write_counts_bytes_and_grows_file_witness :
  exists x res,
    f_write 3000 sample_env sample_vol32 (sample_fil FA_WRITE)
      (repeat 7 2000) 2000 = Some (x, res) /\
    0 <= x_cnt x <= 2000 /\ fptr (x_fp x) = 0 + x_cnt x /\
    obj_objsize (x_fp x) = Z.max 1024 (fptr (x_fp x)) /\
    (res = FR_OK -> x_cnt x = 2000 /\ has (flag (x_fp x)) FA_MODIFIED = true).
Proof.
  exact (f_write_counts_bytes_and_grows_file 3000 sample_env sample_vol32
           (sample_fil FA_WRITE) (repeat 7 2000) 2000
           ltac:(vm_compute; split; reflexivity) ltac:(vm_compute; split; reflexivity)
           ltac:(vm_compute; split; [discriminate | reflexivity])
           ltac:(vm_compute; discriminate)
           ltac:(vm_compute; split; discriminate) ltac:(vm_compute; reflexivity)
           ltac:(lia) ltac:(apply Nat.ltb_lt; vm_compute; reflexivity)).
Defined.


(** ** sync_fs *)

Lemma sync_window_wrbad (v : Vol) :
  d_wr_bad (v_disk (fst (sync_window v))) = d_wr_bad (v_disk v).
Proof.
  unfold sync_window.
  destruct (nz (wflag (v_fs v))); [| reflexivity].
  pose proof (disk_write_keeps (v_disk v) (SS (v_fs v)) (win (v_fs v))
                (winsect (v_fs v))) as (_ & _ & K1 & _).
  destruct (disk_write _ _ _ _ _) as [d ok]. cbn [fst] in K1.
  destruct ok; [| exact K1].
  destruct (_ <? _); [| exact K1].
  destruct (_ =? _); [| exact K1].
  match goal with
  | |- context [disk_write d ?ss ?b ?s 1] =>
      pose proof (disk_write_keeps d ss b s) as (_ & _ & K2 & _);
      destruct (disk_write d ss b s 1) as [d' ok']
  end.
  cbn [fst] in *. cbn. congruence.
Qed.

Lemma ld_dword_take (b : list Z) (n : nat) (p : Z) :
  0 <= p -> p + 3 < Z.of_nat n -> ld_dword (take n b) p = ld_dword b p.
Proof. intros Hp Hn. unfold ld_dword. rewrite !peek_take by lia. reflexivity. Qed.

Lemma ld_word_take (b : list Z) (n : nat) (p : Z) :
  0 <= p -> p + 1 < Z.of_nat n -> ld_word (take n b) p = ld_word b p.
Proof. intros Hp Hn. unfold ld_word. rewrite !peek_take by lia. reflexivity. Qed.

Lemma mem_set_length (b : list Z) (val cnt : Z) :
  (Z.to_nat cnt <= length (mem_set b val cnt))%nat.
Proof. unfold mem_set. rewrite length_app, length_replicate. lia. Qed.

Lemma peek_mem_set (b : list Z) (val cnt i : Z) :
  0 <= i < cnt -> peek (mem_set b val cnt) i = u8 val.
Proof.
  intros Hi. unfold peek, mem_set.
  rewrite lookup_app_l by (rewrite length_replicate; lia).
  rewrite lookup_replicate_2 by lia. reflexivity.
Qed.

(** The FSINFO sector sync_fs composes in the window. *)
Lemma fsinfo_compose (w : list Z) (ss free last : Z) :
  512 <= ss -> 0 <= free < 4294967296 -> 0 <= last < 4294967296 ->
  fsinfo_image ss free last
    (take (Z.to_nat ss)
       (st_dword
          (st_dword
             (st_dword
                (st_dword (st_word (mem_set w 0 ss) BS_55AA 0xAA55) FSI_LeadSig 0x41615252)
                FSI_StrucSig 0x61417272)
             FSI_Free_Count free)
          FSI_Nxt_Free last)).
Proof.
  intros Hss Hfree Hlast.
  pose proof (mem_set_length w 0 ss) as Hlen.
  unfold fsinfo_image.
  unfold BS_55AA, FSI_LeadSig, FSI_StrucSig, FSI_Free_Count, FSI_Nxt_Free.
  split.
  { rewrite length_take, !st_dword_length, st_word_length. apply Nat.min_l. exact Hlen. }
  split.
  { rewrite ld_dword_take by lia.
    rewrite !ld_dword_st_dword_other by lia.
    apply ld_st_dword; [lia | rewrite st_word_length; lia | lia]. }
  split.
  { rewrite ld_dword_take by lia.
    rewrite !ld_dword_st_dword_other by lia.
    apply ld_st_dword; [lia | rewrite st_dword_length, st_word_length; lia | lia]. }
  split.
  { rewrite ld_dword_take by lia.
    rewrite ld_dword_st_dword_other by lia.
    apply ld_st_dword; [lia | rewrite !st_dword_length, st_word_length; lia | exact Hfree]. }
  split.
  { rewrite ld_dword_take by lia.
    apply ld_st_dword; [lia | rewrite !st_dword_length, st_word_length; lia | exact Hlast]. }
  split.
  { rewrite ld_word_take by lia.
    unfold ld_word. rewrite !st_dword_other by lia. fold (ld_word (st_word (mem_set w 0 ss) 510 43605) 510).
    apply ld_st_word; [lia | lia | lia]. }
  intros i Hi.
  rewrite peek_take by lia.
  rewrite !st_dword_other by lia. rewrite st_word_other by lia.
  rewrite peek_mem_set by lia. reflexivity.
Qed.

(** X30: on a FAT32 volume whose FSINFO data is out of date, once the window
    has gone back to the medium, sync_fs composes an FSINFO sector in the
    window (both signatures, the boot signature, the free cluster count and
    the allocation hint, zeroes elsewhere), sends it to the sector after the
    volume boot record and clears the FSINFO flag.  The result tells only
    whether the drive completed CTRL_SYNC: a failed write of the FSINFO
    sector is not reported. *)
Theorem sync_fs_composes_fsinfo (v : Vol) :
  snd (sync_window v) = FR_OK ->
  fs_type (v_fs v) = FS_FAT32 -> fsi_flag (v_fs v) = 1 ->
  512 <= SS (v_fs v) ->
  0 <= free_clst (v_fs v) < 4294967296 -> 0 <= last_clst (v_fs v) < 4294967296 ->
  let fsi := u32 (volbase (v_fs v) + 1) in
  let v' := fst (sync_fs v) in
  let sec := take (Z.to_nat (SS (v_fs v))) (win (v_fs v')) in
  fsinfo_image (SS (v_fs v)) (free_clst (v_fs v)) (last_clst (v_fs v)) sec /\
  winsect (v_fs v') = fsi /\ fsi_flag (v_fs v') = 0 /\
  free_clst (v_fs v') = free_clst (v_fs v) /\ last_clst (v_fs v') = last_clst (v_fs v) /\
  (d_wr_bad (v_disk v) fsi = false -> d_sec (v_disk v') fsi = sec) /\
  (d_wr_bad (v_disk v) fsi = true ->
   d_sec (v_disk v') fsi = d_sec (v_disk (fst (sync_window v))) fsi) /\
  snd (sync_fs v) = (if d_sync_bad (v_disk v) then FR_DISK_ERR else FR_OK).
Proof.
  intros Hres Ht Hflag Hss Hfree Hlast fsi v' sec.
  pose proof (sync_window_frame v) as Hfr.
  pose proof (sync_window_wrbad v) as Hwb.
  pose proof (sync_window_syncbad v) as Hsb.
  subst v' sec fsi. unfold sync_fs.
  destruct (sync_window v) as [v1 r1]. cbn [fst snd] in *. subst r1.
  pose proof (frame_fields _ _ Hfr)
    as (F1 & _ & _ & F4 & _ & _ & _ & _ & F9 & F10 & F11 & _ & F13 & _).
  change (is_ok FR_OK) with true. cbv iota.
  rewrite F1, F11, Ht, Hflag. change ((FS_FAT32 =? FS_FAT32) && (1 =? 1)) with true.
  cbv iota zeta.
  unfold SS in *. cbn [ssize set_winsect set_win win winsect volbase].
  rewrite F4, F9, F10, F13.
  pose proof (fsinfo_compose (win (v_fs v1)) (ssize (v_fs v)) (free_clst (v_fs v))
                (last_clst (v_fs v)) Hss Hfree Hlast) as Himg.
  unfold disk_write. change (Z.to_nat 1) with 1%nat. cbn [any_bad scatter].
  rewrite Hwb, orb_false_r.
  destruct (d_wr_bad (v_disk v) (u32 (volbase (v_fs v) + 1))) eqn:Ebad;
    unfold disk_sync; cbn; rewrite ?Z.eqb_refl; rewrite ?Hsb;
    (split; [exact Himg |]); repeat split;
    try reflexivity; try (intros E; discriminate E);
    try (destruct (d_sync_bad (v_disk v)); reflexivity); try (rewrite <- F9; reflexivity);
    try (rewrite <- F10; reflexivity).
Qed.

Lemma sync_fs_composes_fsinfo_witness :
  let v' := fst (sync_fs (sample_vol32_fsinfo (fun s => s =? 1))) in
  fsinfo_image 512 96 3 (take 512 (win (v_fs v'))) /\
  winsect (v_fs v') = 1 /\ fsi_flag (v_fs v') = 0 /\
  d_sec (v_disk v') 1 = blank_sector /\
  snd (sync_fs (sample_vol32_fsinfo (fun s => s =? 1))) = FR_OK.
Proof.
  destruct (sync_fs_composes_fsinfo (sample_vol32_fsinfo (fun s => s =? 1))
              ltac:(reflexivity) ltac:(reflexivity) ltac:(reflexivity)
              ltac:(vm_compute; discriminate)
              ltac:(vm_compute; split; [discriminate | reflexivity])
              ltac:(vm_compute; split; [discriminate | reflexivity]))
    as (W1 & W2 & W3 & _ & _ & _ & W7 & W8).
  cbv zeta. split; [exact W1 |]. split; [exact W2 |]. split; [exact W3 |].
  split; [exact (W7 eq_refl) | exact W8].
Defined.

